(** * h5animate: a shallow embedding of the binary animation codec

    The development follows the layout of [packages/libs/h5animate/lib]:
    [errors.ts], [binary.ts], [types.ts], [encoder.ts], [decoder.ts],
    [webp.ts], [converter.ts] and [validation.ts].  The first part holds
    the embedding (definitions only), the second and third parts the
    lemmas and theorems.

    Modelling conventions.
    - The numbers of the metadata and of a legacy file ([ratio], the
      fields of an object and of a sound, [frame_max], the values of a
      layer) are JavaScript numbers, [Number.t]: [NaN], the infinities,
      [-0] and the finite doubles, with the comparisons, the printing
      and the parsing of the language.  What the format stores in 32-bit
      words or counts with (sprite counts, widths and heights, sizes,
      offsets, indices) is an integer of [Z].
    - A [Buffer] is a [list byte].  A JavaScript string is the [string] of
      its UTF-8 bytes; bytes that are not well-formed UTF-8 are kept
      where Node would decode them to U+FFFD, and a surrogate half on its
      own is held as U+FFFD.
    - An object is the list of its properties in the order in which it
      lists them and [JSON.stringify] prints them: the keys that are
      array indices first and ascending, the other keys in the order of
      their creation.
    - A function that can throw returns a [result]; the exception is either
      the library's own [H5AnimateError] or an error raised by the runtime
      ([TypeError], [RangeError]) or by the external image capability.
    - A stateful class ([BinaryParser], [BinaryWriter]) is a record of its
      fields, threaded through its methods. *)

From Stdlib Require Import ZArith List Lia String Ascii.
From Stdlib.Strings Require Import Byte.
From Stdlib Require Import DecimalString DecimalN DecimalZ.
From stdpp Require Import base list strings gmap sorting.

Open Scope Z_scope.

(* ================================================================== *)
(** * Part I: the embedding                                             *)
(* ================================================================== *)

(** ** Bytes and buffers *)

Definition Buffer := list byte.

Definition Z_of_byte (b : byte) : Z := Z.of_N (Byte.to_N b).

(** Storing a number in one byte keeps its low eight bits
    ([buf[offset] = value] on a [Uint8Array]). *)
Definition byte_of_Z (z : Z) : byte :=
  match Byte.of_N (Z.to_N (z mod 256)) with
  | Some b => b
  | None => x00
  end.

Definition blength (b : Buffer) : Z := Z.of_nat (length b).

(** [TypedArray.prototype.subarray(begin, end)]: a negative index counts
    from the end, both indices are clamped to the buffer, and an end
    before the begin gives the empty view. *)
Definition clamp_index (len i : Z) : Z :=
  if i <? 0 then Z.max (len + i) 0 else Z.min i len.

Definition subarray (b : Buffer) (from to : Z) : Buffer :=
  let lo := clamp_index (blength b) from in
  let hi := clamp_index (blength b) to in
  take (Z.to_nat (hi - lo)) (drop (Z.to_nat lo) b).

(** [buffer.toString("ascii")]: Node clears the highest bit of every byte
    before decoding. *)
Definition ascii_decode (b : Buffer) : string :=
  string_of_list_byte (map (fun c => byte_of_Z (Z.land (Z_of_byte c) 127)) b).

(** Little-endian 32-bit words, byte by byte as [writeUInt32LE] stores
    them and [DataView.getUint32(offset, true)] reads them. *)
Definition u32le_bytes (v : Z) : Buffer :=
  [byte_of_Z v; byte_of_Z (Z.shiftr v 8); byte_of_Z (Z.shiftr v 16);
   byte_of_Z (Z.shiftr v 24)].

Definition u32le_value (bs : Buffer) : Z :=
  match bs with
  | b0 :: b1 :: b2 :: b3 :: _ =>
      Z_of_byte b0 + Z.shiftl (Z_of_byte b1) 8 + Z.shiftl (Z_of_byte b2) 16
      + Z.shiftl (Z_of_byte b3) 24
  | _ => 0
  end.

(** Decimal rendering of an array index, an offset or a length, as
    [Number::toString] prints an integer below [10^21]: the digits,
    after a minus sign when the number is negative. *)
Fixpoint bytes_of_uint (d : Decimal.uint) : list byte :=
  match d with
  | Decimal.Nil => []
  | Decimal.D0 d => x30 :: bytes_of_uint d
  | Decimal.D1 d => x31 :: bytes_of_uint d
  | Decimal.D2 d => x32 :: bytes_of_uint d
  | Decimal.D3 d => x33 :: bytes_of_uint d
  | Decimal.D4 d => x34 :: bytes_of_uint d
  | Decimal.D5 d => x35 :: bytes_of_uint d
  | Decimal.D6 d => x36 :: bytes_of_uint d
  | Decimal.D7 d => x37 :: bytes_of_uint d
  | Decimal.D8 d => x38 :: bytes_of_uint d
  | Decimal.D9 d => x39 :: bytes_of_uint d
  end.

Definition number_text (z : Z) : list byte :=
  if z <? 0 then x2d :: bytes_of_uint (N.to_uint (Z.abs_N z))
  else bytes_of_uint (N.to_uint (Z.abs_N z)).

Definition string_of_Z (z : Z) : string := string_of_list_byte (number_text z).

(** ** JavaScript numbers

    The metadata numbers are only copied, compared with constants,
    printed by [JSON.stringify] and read by [JSON.parse].  A finite
    number other than the two zeros is held as the decimal that
    [Number::toString] prints for it, the shortest one that rounds to
    it: an integer, or [digits / 10^places] with a last digit other than
    0.  Comparing two such decimals compares the doubles they name. *)

Module Number.

Inductive t : Set :=
| NaN
| Infinity (negative : bool)
| NegZero
| Int (z : Z)
| Frac (negative : bool) (digits : positive) (places : positive).

Definition signed (negative : bool) (z : Z) : Z :=
  if negative then - z else z.

(** [m * 10^e] with the factors of ten that a negative [e] allows taken
    out of [m]. *)
Fixpoint reduce (fuel : nat) (m : N) (e : Z) : N * Z :=
  match fuel with
  | O => (m, e)
  | S fuel' =>
      if (e <? 0) && (m mod 10 =? 0)%N then reduce fuel' (m / 10)%N (e + 1)
      else (m, e)
  end.

(** The number [m * 10^e] (negated when [negative]), [-0] for a negated
    zero. *)
Definition of_decimal (negative : bool) (m : N) (e : Z) : t :=
  match m with
  | N0 => if negative then NegZero else Int 0
  | Npos _ =>
      if 0 <=? e then Int (signed negative (Z.of_N m * 10 ^ e))
      else
        match reduce (N.to_nat (N.size m)) m e with
        | (Npos m', e') =>
            if e' =? 0 then Int (signed negative (Zpos m'))
            else Frac negative m' (Z.to_pos (- e'))
        | (N0, _) => Int 0
        end
  end.

(** *** Rounding to a double *)

(** [num / den] rounded to an integer, a tie going to the even one. *)
Definition round_half_even (num den : Z) : Z :=
  let q := num / den in
  let r := num mod den in
  if 2 * r <? den then q
  else if den <? 2 * r then q + 1
  else if Z.even q then q else q + 1.

(** [2^j <= num / den] *)
Definition pow2_leb (j num den : Z) : bool :=
  if 0 <=? j then den * 2 ^ j <=? num else den <=? num * 2 ^ (- j).

(** The double nearest to the positive fraction [num / den], as
    [mantissa * 2^exponent] with a mantissa below [2^53] and an exponent
    from [-1074] to [971]; [None] when the fraction rounds to
    infinity.  A mantissa of 0 is the fraction rounded to zero. *)
Definition binary64 (num den : Z) : option (Z * Z) :=
  let e0 := Z.log2 num - Z.log2 den in
  let e := if pow2_leb e0 num den then e0 else e0 - 1 in
  let u := Z.max (e - 52) (-1074) in
  let m :=
    if u <? 0 then round_half_even (num * 2 ^ (- u)) den
    else round_half_even num (den * 2 ^ u) in
  let '(m, u) := if m =? 2 ^ 53 then (2 ^ 52, u + 1) else (m, u) in
  if 971 <? u then None else Some (m, u).

(** *** The shortest decimal of a double *)

(** The fraction [m * 2^u]. *)
Definition dyadic (m u : Z) : Z * Z :=
  if 0 <=? u then (m * 2 ^ u, 1) else (m, 2 ^ (- u)).

(** [10^j <= num / den] *)
Definition pow10_leb (j num den : Z) : bool :=
  if 0 <=? j then den * 10 ^ j <=? num else den <=? num * 10 ^ (- j).

(** The largest [j] with [10^j <= num / den], searched upwards from a
    lower estimate. *)
Fixpoint log10_from (fuel : nat) (j num den : Z) : Z :=
  match fuel with
  | O => j
  | S fuel' =>
      if pow10_leb (j + 1) num den then log10_from fuel' (j + 1) num den else j
  end.

Definition floor_log10 (num den : Z) : Z :=
  let est := ((Z.log2 num - Z.log2 den - 1) * 30102) / 100000 - 1 in
  log10_from 8 est num den.

(** [floor (num / den / 10^e)] *)
Definition scaled_floor (num den e : Z) : Z :=
  if 0 <=? e then num / (den * 10 ^ e) else (num * 10 ^ (- e)) / den.

(** Whether [s * 10^e] rounds to the double [m * 2^u]. *)
Definition rounds_to (s e m u : Z) : bool :=
  if s <=? 0 then false
  else
    match (if 0 <=? e then binary64 (s * 10 ^ e) 1
           else binary64 s (10 ^ (- e))) with
    | Some (m', u') => (m' =? m) && (u' =? u)
    | None => false
    end.

(** The distance from [s * 10^e] to [num / den], scaled by the same
    factor for every [s]. *)
Definition distance (s e num den : Z) : Z :=
  if 0 <=? e then Z.abs (s * 10 ^ e * den - num)
  else Z.abs (s * den - num * 10 ^ (- e)).

(** [Number::toString], step 5: integers [n], [k], [s] with [k] as small
    as possible such that [s * 10^(n-k)] is the double; of two values of
    [s] the one closer to it, the even one when they are as close.
    [k] counts the digits tried, from one upwards; seventeen are enough
    for every double. *)
Fixpoint shortest_from (fuel : nat) (k n m u : Z) : Z * Z :=
  let '(num, den) := dyadic m u in
  let e := n - k in
  let lo := scaled_floor num den e in
  let hi := lo + 1 in
  match fuel with
  | O => (lo, e)
  | S fuel' =>
      match rounds_to lo e m u, rounds_to hi e m u with
      | true, false => (lo, e)
      | false, true => (hi, e)
      | true, true =>
          let dlo := distance lo e num den in
          let dhi := distance hi e num den in
          if dlo <? dhi then (lo, e)
          else if dhi <? dlo then (hi, e)
          else if Z.even lo then (lo, e) else (hi, e)
      | false, false => shortest_from fuel' (k + 1) n m u
      end
  end.

Definition shortest (m u : Z) : Z * Z :=
  let '(num, den) := dyadic m u in
  shortest_from 17 1 (floor_log10 num den + 1) m u.

(** The number a positive fraction is once rounded to a double. *)
Definition round_fraction (negative : bool) (num den : Z) : t :=
  match binary64 num den with
  | None => Infinity negative
  | Some (m, u) =>
      if m =? 0 then (if negative then NegZero else Int 0)
      else let '(s, e) := shortest m u in of_decimal negative (Z.to_N s) e
  end.

(** The JavaScript number nearest to a decimal: what a numeral denotes
    ([StringToNumber], [JSON.parse]). *)
Definition nearest (x : t) : t :=
  match x with
  | NaN | Infinity _ | NegZero => x
  | Int z => if z =? 0 then x else round_fraction (z <? 0) (Z.abs z) 1
  | Frac negative d p => round_fraction negative (Zpos d) (10 ^ Zpos p)
  end.

Definition eqb (x y : t) : bool :=
  match x, y with
  | NaN, NaN | NegZero, NegZero => true
  | Infinity a, Infinity b => Bool.eqb a b
  | Int a, Int b => a =? b
  | Frac a d p, Frac b d' p' => Bool.eqb a b && Pos.eqb d d' && Pos.eqb p p'
  | _, _ => false
  end.

(** The values of this type that are JavaScript numbers: a decimal is
    one when it is written without a zero at its end and is the decimal
    of the double it rounds to. *)
Definition canonical (x : t) : bool :=
  match x with
  | Frac _ d _ => negb (Zpos d mod 10 =? 0)
  | _ => true
  end.

Definition is_double (x : t) : bool := canonical x && eqb (nearest x) x.

(** *** Comparisons *)

(** The exact value of a finite number, as a fraction. *)
Definition fraction (x : t) : option (Z * Z) :=
  match x with
  | NegZero => Some (0, 1)
  | Int z => Some (z, 1)
  | Frac negative d p => Some (signed negative (Zpos d), 10 ^ Zpos p)
  | NaN | Infinity _ => None
  end.

(** [x < y]: false as soon as one side is [NaN]. *)
Definition ltb (x y : t) : bool :=
  match x, y with
  | NaN, _ | _, NaN => false
  | Infinity a, Infinity b => a && negb b
  | Infinity a, _ => a
  | _, Infinity b => negb b
  | _, _ =>
      match fraction x, fraction y with
      | Some (a, b), Some (c, d) => a * d <? c * b
      | _, _ => false
      end
  end.

(** [x <= y] *)
Definition leb (x y : t) : bool :=
  match x, y with
  | NaN, _ | _, NaN => false
  | Infinity a, Infinity b => a || negb b
  | Infinity a, _ => a
  | _, Infinity b => negb b
  | _, _ =>
      match fraction x, fraction y with
      | Some (a, b), Some (c, d) => a * d <=? c * b
      | _, _ => false
      end
  end.

(** [x > y] *)
Definition gtb (x y : t) : bool := ltb y x.

(** [!x] on a number: the two zeros and [NaN]. *)
Definition falsy (x : t) : bool :=
  match x with
  | NaN | NegZero => true
  | Int z => z =? 0
  | _ => false
  end.

Definition finite (x : t) : bool :=
  match x with
  | NaN | Infinity _ => false
  | _ => true
  end.

(** *** Printing *)

Definition digits_of (n : N) : list byte := bytes_of_uint (N.to_uint n).

(** The digits without the zeros at their end. *)
Fixpoint strip_zeros (digits : list byte) : list byte :=
  match digits with
  | [] => []
  | c :: rest =>
      match strip_zeros rest with
      | [] => if Byte.eqb c x30 then [] else [c]
      | rest' => c :: rest'
      end
  end.

(** [Number::toString], steps 6 to 10, on the [k] digits of [s] and on
    [n]: the digits followed by zeros up to the units; the digits with a
    point after the first [n]; [0.] and zeros before the digits; and
    otherwise the exponent form. *)
Definition format (digits : list byte) (n : Z) : list byte :=
  let k := Z.of_nat (length digits) in
  if (k <=? n) && (n <=? 21) then digits ++ repeat x30 (Z.to_nat (n - k))
  else if (0 <? n) && (n <=? 21) then
    take (Z.to_nat n) digits ++ x2e :: drop (Z.to_nat n) digits
  else if (-6 <? n) && (n <=? 0) then
    x30 :: x2e :: repeat x30 (Z.to_nat (- n)) ++ digits
  else
    let exponent :=
      x65 :: (if n - 1 <? 0 then x2d else x2b) :: digits_of (Z.abs_N (n - 1)) in
    match digits with
    | [] => []
    | [d] => d :: exponent
    | d :: rest => d :: x2e :: rest ++ exponent
    end.

Definition minus (negative : bool) : list byte :=
  if negative then [x2d] else [].

(** [Number::toString(x)] *)
Definition to_text (x : t) : list byte :=
  match x with
  | NaN => list_byte_of_string "NaN"
  | Infinity negative => minus negative ++ list_byte_of_string "Infinity"
  | NegZero => [x30]
  | Int z =>
      if z =? 0 then [x30]
      else
        let digits := digits_of (Z.abs_N z) in
        minus (z <? 0) ++ format (strip_zeros digits) (Z.of_nat (length digits))
  | Frac negative d p =>
      let digits := digits_of (Npos d) in
      minus negative ++ format digits (Z.of_nat (length digits) - Zpos p)
  end.

Definition to_string (x : t) : string := string_of_list_byte (to_text x).

End Number.

(** ** errors.ts *)

Module Errors.

Inductive H5AnimateErrorCode :=
| INVALID_SIGNATURE
| INVALID_VERSION
| CORRUPTED_HEADER
| INVALID_IMAGE_DATA
| INVALID_METADATA
| FILE_TRUNCATED
| SIZE_MISMATCH
| VALIDATION_ERROR
| TYPE_MISMATCH
| MISSING_REQUIRED_FIELD
| VALUE_OUT_OF_RANGE
| INVALID_ARRAY_LENGTH
| CONVERSION_FAILED
| JSON_PARSE_ERROR
| BASE64_DECODE_ERROR
| WEBP_PROCESSING_ERROR
| IMAGE_MERGE_ERROR
| FRAME_EXTRACTION_ERROR
| VALIDATION_ERROR_LEGACY.

(** The string value of each enum member. *)
Definition code_value (c : H5AnimateErrorCode) : string :=
  match c with
  | INVALID_SIGNATURE => "H5A001"
  | INVALID_VERSION => "H5A002"
  | CORRUPTED_HEADER => "H5A003"
  | INVALID_IMAGE_DATA => "H5A004"
  | INVALID_METADATA => "H5A005"
  | FILE_TRUNCATED => "H5A006"
  | SIZE_MISMATCH => "H5A007"
  | VALIDATION_ERROR => "H5A100"
  | TYPE_MISMATCH => "H5A101"
  | MISSING_REQUIRED_FIELD => "H5A102"
  | VALUE_OUT_OF_RANGE => "H5A103"
  | INVALID_ARRAY_LENGTH => "H5A104"
  | CONVERSION_FAILED => "H5A200"
  | JSON_PARSE_ERROR => "H5A201"
  | BASE64_DECODE_ERROR => "H5A202"
  | WEBP_PROCESSING_ERROR => "H5A300"
  | IMAGE_MERGE_ERROR => "H5A301"
  | FRAME_EXTRACTION_ERROR => "H5A302"
  | VALIDATION_ERROR_LEGACY => "H5A008"
  end.

(** The [options] argument of the constructor. *)
Record ErrorOptions := {
  opt_position : option Z;
  opt_expectedType : option string;
  opt_actualType : option string;
  opt_missingFields : option (list string);
  opt_fieldPath : option string
}.

Definition no_options : ErrorOptions :=
  {| opt_position := None; opt_expectedType := None; opt_actualType := None;
     opt_missingFields := None; opt_fieldPath := None |}.

Record H5AnimateError := {
  code : H5AnimateErrorCode;
  message : string;
  position : option Z;
  expectedType : option string;
  actualType : option string;
  missingFields : option (list string);
  fieldPath : option string
}.

(** [new H5AnimateError(code, message, options)] *)
Definition new_H5AnimateError (c : H5AnimateErrorCode) (msg : string)
    (o : ErrorOptions) : H5AnimateError :=
  {| code := c; message := msg;
     position := opt_position o;
     expectedType := opt_expectedType o;
     actualType := opt_actualType o;
     missingFields := opt_missingFields o;
     fieldPath := opt_fieldPath o |}.

(** The double-quote character of the message templates. *)
Definition dquote : string := String (ascii_of_nat 34) EmptyString.

Definition createInvalidSignatureError (actual : string) : H5AnimateError :=
  new_H5AnimateError INVALID_SIGNATURE
    ("无效的文件签名: 期望 " ++ dquote ++ "ANIM" ++ dquote ++ ", 实际为 "
       ++ dquote ++ actual ++ dquote)%string
    {| opt_position := Some 0; opt_expectedType := Some "ANIM"%string;
       opt_actualType := None; opt_missingFields := None;
       opt_fieldPath := None |}.

Definition createInvalidMetadataError (reason : string)
    (missing : option (list string)) : H5AnimateError :=
  new_H5AnimateError INVALID_METADATA ("无效的元数据: " ++ reason)%string
    {| opt_position := None; opt_expectedType := None;
       opt_actualType := None; opt_missingFields := missing;
       opt_fieldPath := None |}.

Definition createConversionFailedError (reason : string) : H5AnimateError :=
  new_H5AnimateError CONVERSION_FAILED ("格式转换失败: " ++ reason)%string
    no_options.

Definition createWebPProcessingError (reason : string) : H5AnimateError :=
  new_H5AnimateError WEBP_PROCESSING_ERROR ("WebP 处理错误: " ++ reason)%string
    no_options.

Definition createValidationError (reason : string)
    (missing : option (list string)) : H5AnimateError :=
  new_H5AnimateError VALIDATION_ERROR ("验证错误: " ++ reason)%string
    {| opt_position := None; opt_expectedType := None;
       opt_actualType := None; opt_missingFields := missing;
       opt_fieldPath := None |}.

Definition createFrameExtractionError (reason : string)
    (frameIndex : option Z) : H5AnimateError :=
  let indexInfo :=
    match frameIndex with
    | Some i => (" (帧索引: " ++ string_of_Z i ++ ")")%string
    | None => EmptyString
    end in
  new_H5AnimateError FRAME_EXTRACTION_ERROR
    ("帧提取错误: " ++ reason ++ indexInfo)%string no_options.

Definition createTypeMismatchError (fieldPath expectedType actualType : string)
    : H5AnimateError :=
  new_H5AnimateError TYPE_MISMATCH
    ("类型不匹配: 字段 " ++ dquote ++ fieldPath ++ dquote ++ " 期望 "
       ++ expectedType ++ "，实际为 " ++ actualType)%string
    {| opt_position := None; opt_expectedType := Some expectedType;
       opt_actualType := Some actualType; opt_missingFields := None;
       opt_fieldPath := Some fieldPath |}.

(** [missingFields.join(", ")] *)
Definition join_fields (fields : list string) : string :=
  String.concat ", " fields.

Definition createMissingFieldError (missing : list string)
    (fieldPath : option string) : H5AnimateError :=
  let pathPrefix :=
    match fieldPath with
    | Some p =>
        if String.eqb p EmptyString then EmptyString
        else ("在 " ++ dquote ++ p ++ dquote ++ " 中")%string
    | None => EmptyString
    end in
  new_H5AnimateError MISSING_REQUIRED_FIELD
    (pathPrefix ++ "缺少必需字段: " ++ join_fields missing)%string
    {| opt_position := None; opt_expectedType := None;
       opt_actualType := None; opt_missingFields := Some missing;
       opt_fieldPath := fieldPath |}.

Definition createValueOutOfRangeError (fieldPath : string) (value : Number.t)
    (min max : option Z) : H5AnimateError :=
  let rangeDesc :=
    match min, max with
    | Some lo, Some hi =>
        ("[" ++ string_of_Z lo ++ ", " ++ string_of_Z hi ++ "]")%string
    | Some lo, None => (">= " ++ string_of_Z lo)%string
    | None, Some hi => ("<= " ++ string_of_Z hi)%string
    | None, None => EmptyString
    end in
  new_H5AnimateError VALUE_OUT_OF_RANGE
    ("值超出范围: 字段 " ++ dquote ++ fieldPath ++ dquote ++ " 的值 "
       ++ Number.to_string value ++ " 不在有效范围 " ++ rangeDesc ++ " 内")%string
    {| opt_position := None; opt_expectedType := None;
       opt_actualType := None; opt_missingFields := None;
       opt_fieldPath := Some fieldPath |}.

(** The table of [getErrorCodeDescription]. *)
Definition descriptions (c : H5AnimateErrorCode) : string :=
  match c with
  | INVALID_SIGNATURE => "文件签名无效，不是有效的 h5animate 文件"
  | INVALID_VERSION => "文件版本不受支持"
  | CORRUPTED_HEADER => "文件头数据损坏"
  | INVALID_IMAGE_DATA => "图像数据无效或损坏"
  | INVALID_METADATA => "元数据格式无效"
  | FILE_TRUNCATED => "文件不完整，数据被截断"
  | SIZE_MISMATCH => "声明的数据大小与实际不符"
  | VALIDATION_ERROR => "数据验证失败"
  | TYPE_MISMATCH => "数据类型不匹配"
  | MISSING_REQUIRED_FIELD => "缺少必需的字段"
  | VALUE_OUT_OF_RANGE => "数值超出有效范围"
  | INVALID_ARRAY_LENGTH => "数组长度不符合要求"
  | CONVERSION_FAILED => "格式转换失败"
  | JSON_PARSE_ERROR => "JSON 解析失败"
  | BASE64_DECODE_ERROR => "Base64 解码失败"
  | WEBP_PROCESSING_ERROR => "WebP 图像处理失败"
  | IMAGE_MERGE_ERROR => "图像合并失败"
  | FRAME_EXTRACTION_ERROR => "帧提取失败"
  | VALIDATION_ERROR_LEGACY => "数据验证失败（旧版）"
  end.

(** [descriptions[code] || "未知错误"] *)
Definition getErrorCodeDescription (c : H5AnimateErrorCode) : string :=
  if String.eqb (descriptions c) EmptyString then "未知错误"
  else descriptions c.

(** [getFullDescription()]: the optional parts are appended when they are
    set (and, for the strings and the list, not empty). *)
Definition getFullDescription (e : H5AnimateError) : string :=
  let description := ("[" ++ code_value (code e) ++ "] " ++ message e)%string in
  let description :=
    match position e with
    | Some p => (description ++ " (位置: " ++ string_of_Z p ++ " 字节)")%string
    | None => description
    end in
  let description :=
    match expectedType e with
    | Some t =>
        if String.eqb t EmptyString then description
        else (description ++ " (期望类型: " ++ t ++ ")")%string
    | None => description
    end in
  let description :=
    match actualType e with
    | Some t =>
        if String.eqb t EmptyString then description
        else (description ++ " (实际类型: " ++ t ++ ")")%string
    | None => description
    end in
  let description :=
    match missingFields e with
    | Some (f :: fs) =>
        (description ++ " (缺失字段: " ++ join_fields (f :: fs) ++ ")")%string
    | _ => description
    end in
  match fieldPath e with
  | Some p =>
      if String.eqb p EmptyString then description
      else (description ++ " (字段路径: " ++ p ++ ")")%string
  | None => description
  end.

End Errors.

(** ** Exceptions and results *)

(** What a call can throw: the library's typed error, an error of the
    JavaScript runtime, or an [Error] coming out of the external image
    capability (only its [message] is ever inspected). *)
Inductive exn :=
| H5 (e : Errors.H5AnimateError)
| JsTypeError
| JsRangeError
| ExternalError (message : string).

Inductive result (A : Type) :=
| Ok (a : A)
| Throw (e : exn).
Arguments Ok {A} a.
Arguments Throw {A} e.

Definition rbind {A B} (r : result A) (k : A -> result B) : result B :=
  match r with
  | Ok a => k a
  | Throw e => Throw e
  end.

Notation "x <- r ;; k" := (rbind r (fun x => k))
  (at level 60, r at next level, right associativity).

(** [error instanceof Error && error.name === "H5AnimateError"] *)
Definition is_H5AnimateError (e : exn) : bool :=
  match e with
  | H5 _ => true
  | _ => false
  end.

(** ** binary.ts *)

Module BinaryParser.

Record t := {
  buffer : Buffer;
  offset : Z
}.

(** [new BinaryParser(buffer)] *)
Definition new (b : Buffer) : t := {| buffer := b; offset := 0 |}.

Definition checkBounds (bytesToRead : Z) (p : t) : result unit :=
  if offset p + bytesToRead >? blength (buffer p) then
    Throw (H5 (Errors.new_H5AnimateError Errors.CORRUPTED_HEADER
      ("读取越界: 尝试在位置 " ++ string_of_Z (offset p) ++ " 读取 "
         ++ string_of_Z bytesToRead ++ " 字节，但缓冲区只有 "
         ++ string_of_Z (blength (buffer p)) ++ " 字节")%string
      {| Errors.opt_position := Some (offset p);
         Errors.opt_expectedType := None; Errors.opt_actualType := None;
         Errors.opt_missingFields := None; Errors.opt_fieldPath := None |}))
  else Ok tt.

(** [DataView.getUint32(byteOffset, true)] raises a [RangeError] when the
    four bytes are not all inside the view. *)
Definition getUint32 (b : Buffer) (off : Z) : result Z :=
  if (0 <=? off) && (off + 4 <=? blength b) then
    Ok (u32le_value (drop (Z.to_nat off) b))
  else Throw JsRangeError.

Definition readUInt32LE (p : t) : result (Z * t) :=
  _ <- checkBounds 4 p ;;
  value <- getUint32 (buffer p) (offset p) ;;
  Ok (value, {| buffer := buffer p; offset := offset p + 4 |}).

Definition readString (length : Z) (p : t) : result (string * t) :=
  _ <- checkBounds length p ;;
  let bytes := subarray (buffer p) (offset p) (offset p + length) in
  Ok (ascii_decode bytes, {| buffer := buffer p; offset := offset p + length |}).

Definition readBytes (length : Z) (p : t) : result (Buffer * t) :=
  _ <- checkBounds length p ;;
  let bytes := subarray (buffer p) (offset p) (offset p + length) in
  Ok (bytes, {| buffer := buffer p; offset := offset p + length |}).

Definition hasMore (p : t) : bool := offset p <? blength (buffer p).

Definition getCurrentOffset (p : t) : Z := offset p.

Definition getRemainingBytes (p : t) : Z := blength (buffer p) - offset p.

End BinaryParser.

Module BinaryWriter.

Record t := {
  buffer : Buffer;
  offset : Z
}.

Section Alloc.
(** [Buffer.allocUnsafe] hands out memory that is not cleared: the
    byte found at each index is arbitrary. *)
Variable uninit : nat -> byte.

Definition allocUnsafe (size : Z) : result Buffer :=
  if size <? 0 then Throw JsRangeError
  else Ok (map uninit (seq 0 (Z.to_nat size))).

(** [new BinaryWriter(totalSize)] *)
Definition new (totalSize : Z) : result t :=
  b <- allocUnsafe totalSize ;;
  Ok {| buffer := b; offset := 0 |}.
End Alloc.

(** Overwrite [target] from index [off] with as many bytes of [src] as
    fit; used with [0 <= off <= length target]. *)
Definition write_at (target : Buffer) (off : Z) (src : Buffer) : Buffer :=
  let n := Z.to_nat (Z.min (blength src) (blength target - off)) in
  take (Z.to_nat off) target ++ take n src ++ drop (Z.to_nat off + n) target.

(** [this.buffer.write(value, this.offset, "ascii")] writes what fits
    and returns the number of bytes written; an offset outside the
    buffer is a [RangeError]. *)
Definition writeString (value : string) (w : t) : result t :=
  if (offset w <? 0) || (offset w >? blength (buffer w)) then
    Throw JsRangeError
  else
    let bytes := list_byte_of_string value in
    let bytesWritten := Z.min (blength bytes) (blength (buffer w) - offset w) in
    Ok {| buffer := write_at (buffer w) (offset w) bytes;
          offset := offset w + bytesWritten |}.

(** [this.buffer.writeUInt32LE(value, this.offset)]: Node raises a
    [RangeError] when the value is not in [0, 2^32 - 1] or the four bytes
    do not fit at the offset. *)
Definition writeUInt32LE (value : Z) (w : t) : result t :=
  if (value <? 0) || (value >? 4294967295) then Throw JsRangeError
  else if (offset w <? 0) || (offset w + 4 >? blength (buffer w)) then
    Throw JsRangeError
  else
    Ok {| buffer := write_at (buffer w) (offset w) (u32le_bytes value);
          offset := offset w + 4 |}.

(** [source.copy(this.buffer, this.offset)] copies what fits, nothing at
    all when the offset is at or past the end; the cursor advances by
    the full source length either way. *)
Definition writeBuffer (source : Buffer) (w : t) : result t :=
  if offset w <? 0 then Throw JsRangeError
  else
    let b :=
      if offset w >=? blength (buffer w) then buffer w
      else write_at (buffer w) (offset w) source in
    Ok {| buffer := b; offset := offset w + blength source |}.

Definition getBuffer (w : t) : Buffer := buffer w.

Definition getCurrentOffset (w : t) : Z := offset w.

End BinaryWriter.

(** ** types.ts *)

Module SoundMeta.
Record t := {
  name : string;
  volume : option Number.t;
  pitch : option Number.t
}.
End SoundMeta.

Module H5AnimateObject.
Record t := {
  index : Number.t;
  x : Number.t;
  y : Number.t;
  scale : Number.t;
  opacity : Number.t;
  mirror : option Number.t;
  rotate : option Number.t
}.
End H5AnimateObject.

(** A frame is an object with two optional properties.  An object keeps
    its properties in the order of their creation and [JSON.stringify]
    prints them in that order, so the record also says which of the two
    was created first: [convertMetadata] assigns [objects] before
    [sound], an object literal with [sound] first gives the other
    order. *)
Module H5AnimateFrame.
Record t := {
  sound : option (list SoundMeta.t);
  objects : option (list H5AnimateObject.t);
  objects_first : bool
}.
End H5AnimateFrame.

Module H5AnimateMeta.
Record t := {
  ratio : Number.t;
  frame : list H5AnimateFrame.t
}.
End H5AnimateMeta.

Module SpriteDimension.
Record t := {
  width : Z;
  height : Z
}.
End SpriteDimension.

Module SpriteInfo.
Record t := {
  count : Z;
  dimensions : list SpriteDimension.t
}.
End SpriteInfo.

(** [FrameLayer]: the tuple [[index, x, y, scale, opacity, mirror?, rotate?]];
    the fields are named after their positions. *)
Module FrameLayer.
Record t := {
  at0 : Number.t;
  at1 : Number.t;
  at2 : Number.t;
  at3 : Number.t;
  at4 : Number.t;
  at5 : option Number.t;
  at6 : option Number.t
}.
End FrameLayer.

(** [se?: string | Record<number, string>] *)
Inductive LegacySe :=
| SeString (s : string)
| SeMap (m : gmap Z string).

Module LegacyAnimateFile.
Record t := {
  ratio : Number.t;
  se : option LegacySe;
  pitch : option (gmap Z Number.t);
  bitmaps : list string;
  frame_max : Number.t;
  frames : list (list FrameLayer.t)
}.
End LegacyAnimateFile.

Module FileHeader.
Record t := {
  signature : string;
  version : Z;
  imageDataSize : Z;
  metaDataSize : Z
}.
End FileHeader.

Module ImageConversionResult.
Record t := {
  webpData : Buffer;
  spriteInfo : SpriteInfo.t
}.
End ImageConversionResult.

(** ** JavaScript values and JSON

    The decoder hands back whatever [JSON.parse] produced, and the encoder
    serialises through a replacer that inspects values at run time, so
    both work on untyped values.  An object is the list of its own
    properties in the order in which it lists them. *)

#[local] Set Warnings "-register-all".

Inductive value :=
| VUndefined
| VNull
| VBool (b : bool)
| VNum (n : Number.t)
| VStr (s : string)
| VArr (items : list value)
| VObj (props : list (string * value)).

Module JS.

(** The value of own property [k], [undefined] when there is none. *)
Fixpoint get_own (props : list (string * value)) (k : string) : value :=
  match props with
  | [] => VUndefined
  | (k', v) :: rest => if String.eqb k' k then v else get_own rest k
  end.

(** The number written by a run of decimal digits. *)
Fixpoint decimal_value (acc : Z) (digits : list byte) : option Z :=
  match digits with
  | [] => Some acc
  | c :: rest =>
      let d := Z_of_byte c - 48 in
      if (0 <=? d) && (d <=? 9) then decimal_value (acc * 10 + d) rest
      else None
  end.

(** A key that is an array index: the decimal digits of an integer from
    0 to [2^32 - 2], as [Number::toString] prints it.  An object lists
    such keys first and in ascending order, and its other keys after
    them in the order of their creation. *)
Definition array_index (k : string) : option Z :=
  match list_byte_of_string k with
  | [] => None
  | digits =>
      match decimal_value 0 digits with
      | Some n =>
          if (n <? 4294967295) && String.eqb (string_of_Z n) k then Some n
          else None
      | None => None
      end
  end.

(** A property with key [k] may stand before one with key [k']. *)
Definition key_before (k k' : string) : bool :=
  match array_index k' with
  | Some n' =>
      match array_index k with
      | Some n => n <? n'
      | None => false
      end
  | None => true
  end.

(** The keys stand as an object lists them. *)
Fixpoint ordered (keys : list string) : bool :=
  match keys with
  | [] => true
  | k :: rest => forallb (key_before k) rest && ordered rest
  end.

(** [props[k] = v] on an object: an existing property keeps its place, a
    new one goes where its key belongs. *)
Fixpoint replace_own (props : list (string * value)) (k : string) (v : value)
    : option (list (string * value)) :=
  match props with
  | [] => None
  | (k', v') :: rest =>
      if String.eqb k' k then Some ((k', v) :: rest)
      else
        match replace_own rest k v with
        | Some rest' => Some ((k', v') :: rest')
        | None => None
        end
  end.

Fixpoint insert_own (props : list (string * value)) (k : string) (v : value)
    : list (string * value) :=
  match props with
  | [] => [(k, v)]
  | (k', v') :: rest =>
      if key_before k' k then (k', v') :: insert_own rest k v
      else (k, v) :: props
  end.

Definition set_own (props : list (string * value)) (k : string) (v : value)
    : list (string * value) :=
  match replace_own props k v with
  | Some props' => props'
  | None => insert_own props k v
  end.

(** [v.k] for a property name that is not an array index: reading a
    property of [undefined] or [null] is a [TypeError]; primitives and
    arrays have no such own property. *)
Definition getProp (v : value) (k : string) : result value :=
  match v with
  | VUndefined | VNull => Throw JsTypeError
  | VObj props => Ok (get_own props k)
  | _ => Ok VUndefined
  end.

(** [v[i]] for a constant index [i]; a string is indexed by character
    (a byte here, which is the same for ASCII text). *)
Definition getIndex (v : value) (i : nat) : result value :=
  match v with
  | VUndefined | VNull => Throw JsTypeError
  | VArr items => Ok (nth i items VUndefined)
  | VObj props => Ok (get_own props (string_of_Z (Z.of_nat i)))
  | VStr s =>
      Ok (match String.get i s with
          | Some c => VStr (String c EmptyString)
          | None => VUndefined
          end)
  | _ => Ok VUndefined
  end.

(** [!v] is true on the falsy values. *)
Definition falsy (v : value) : bool :=
  match v with
  | VUndefined | VNull => true
  | VBool b => negb b
  | VNum n => Number.falsy n
  | VStr s => String.eqb s EmptyString
  | _ => false
  end.

(** [a ?? b] *)
Definition nullish_or (a b : value) : value :=
  match a with
  | VUndefined | VNull => b
  | _ => a
  end.

Fixpoint mapM {A B} (f : A -> result B) (l : list A) : result (list B) :=
  match l with
  | [] => Ok []
  | a :: rest =>
      b <- f a ;;
      bs <- mapM f rest ;;
      Ok (b :: bs)
  end.

(** [v.map(f)]: only arrays have a [map] method in this universe, calling
    it on anything else is a [TypeError]. *)
Definition map_method (v : value) (f : value -> result value) : result value :=
  match v with
  | VArr items => items' <- mapM f items ;; Ok (VArr items')
  | _ => Throw JsTypeError
  end.

(** [v?.map(f)] *)
Definition optional_map (v : value) (f : value -> result value) : result value :=
  match v with
  | VUndefined | VNull => Ok VUndefined
  | _ => map_method v f
  end.

(** What [toEqual] compares: properties holding [undefined] count as
    absent, at every depth. *)
Fixpoint strip (v : value) : value :=
  match v with
  | VArr items => VArr (map strip items)
  | VObj props =>
      VObj ((fix go (ps : list (string * value)) :=
               match ps with
               | [] => []
               | (k, c) :: rest =>
                   match c with
                   | VUndefined => go rest
                   | _ => (k, strip c) :: go rest
                   end
               end) props)
  | _ => v
  end.

Fixpoint depth (v : value) : nat :=
  match v with
  | VArr items => S (fold_right (fun c d => Nat.max (depth c) d) O items)
  | VObj props =>
      S ((fix go (ps : list (string * value)) :=
            match ps with
            | [] => O
            | (_, c) :: rest => Nat.max (depth c) (go rest)
            end) props)
  | _ => O
  end.

End JS.

Module JSON.

Definition bytes (s : string) : list byte := list_byte_of_string s.

(** *** Serialisation *)

Definition hex_digit (n : Z) : byte :=
  byte_of_Z (if n <? 10 then 48 + n else 87 + n).

(** [QuoteJSONString]: the short escapes, [\u00XX] for the other control
    characters, every other byte as it is. *)
Definition escape_byte (c : byte) : list byte :=
  match c with
  | x22 => [x5c; x22]
  | x5c => [x5c; x5c]
  | x08 => [x5c; x62]
  | x0c => [x5c; x66]
  | x0a => [x5c; x6e]
  | x0d => [x5c; x72]
  | x09 => [x5c; x74]
  | _ =>
      if Z_of_byte c <? 32 then
        [x5c; x75; x30; x30; hex_digit (Z_of_byte c / 16);
         hex_digit (Z_of_byte c mod 16)]
      else [c]
  end.

Definition quote (s : string) : list byte :=
  x22 :: flat_map escape_byte (bytes s) ++ [x22].

Fixpoint join_comma (parts : list (list byte)) : list byte :=
  match parts with
  | [] => []
  | [p] => p
  | p :: rest => p ++ x2c :: join_comma rest
  end.

Definition null_text : list byte := [x6e; x75; x6c; x6c].
Definition true_text : list byte := [x74; x72; x75; x65].
Definition false_text : list byte := [x66; x61; x6c; x73; x65].

(** [SerializeJSONProperty] once the replacer has been applied: [None]
    stands for the [undefined] result.  A number that is not finite
    prints [null]; an array prints [null] for an element without a text,
    an object leaves such a member out. *)
Fixpoint text (v : value) : option (list byte) :=
  match v with
  | VUndefined => None
  | VNull => Some null_text
  | VBool b => Some (if b then true_text else false_text)
  | VNum n => Some (if Number.finite n then Number.to_text n else null_text)
  | VStr s => Some (quote s)
  | VArr items =>
      Some (x5b ::
            join_comma (map (fun c => match text c with
                                      | Some t => t
                                      | None => null_text
                                      end) items)
            ++ [x5d])
  | VObj props =>
      Some (x7b ::
            join_comma
              ((fix go (ps : list (string * value)) :=
                  match ps with
                  | [] => []
                  | (k, c) :: rest =>
                      match text c with
                      | Some t => (quote k ++ x3a :: t) :: go rest
                      | None => go rest
                      end
                  end) props)
            ++ [x7d])
  end.

(** The replacer is called on every property on the way down, and the
    traversal continues inside what it returned.  The recursion is
    bounded by [fuel]; going deeper is the engine's stack overflow. *)
Fixpoint replace_tree (fuel : nat) (replacer : string -> value -> result value)
    (key : string) (v : value) : result value :=
  match fuel with
  | O => Throw JsRangeError
  | S fuel' =>
      v' <- replacer key v ;;
      match v' with
      | VArr items =>
          items' <-
            (fix go (i : nat) (l : list value) : result (list value) :=
               match l with
               | [] => Ok []
               | c :: rest =>
                   c' <- replace_tree fuel' replacer (string_of_Z (Z.of_nat i)) c ;;
                   rest' <- go (S i) rest ;;
                   Ok (c' :: rest')
               end) O items ;;
          Ok (VArr items')
      | VObj props =>
          props' <-
            (fix go (l : list (string * value)) : result (list (string * value)) :=
               match l with
               | [] => Ok []
               | (k, c) :: rest =>
                   c' <- replace_tree fuel' replacer k c ;;
                   rest' <- go rest ;;
                   Ok ((k, c') :: rest')
               end) props ;;
          Ok (VObj props')
      | _ => Ok v'
      end
  end.

Definition stringify_fuel (v : value) : nat := 2 * JS.depth v + 4.

(** [JSON.stringify(v, replacer)]; [None] is the [undefined] result. *)
Definition stringify (v : value) (replacer : string -> value -> result value)
    : result (option string) :=
  v' <- replace_tree (stringify_fuel v) replacer EmptyString v ;;
  Ok (option_map string_of_list_byte (text v')).

(** *** Parsing *)

Definition is_ws (c : byte) : bool :=
  match c with
  | x20 | x09 | x0a | x0d => true
  | _ => false
  end.

Fixpoint skip_ws (s : list byte) : list byte :=
  match s with
  | c :: r => if is_ws c then skip_ws r else s
  | [] => []
  end.

Fixpoint strip_prefix (p s : list byte) : option (list byte) :=
  match p, s with
  | [], _ => Some s
  | a :: p', b :: s' => if Byte.eqb a b then strip_prefix p' s' else None
  | _ :: _, [] => None
  end.

Definition hex_value (c : byte) : option Z :=
  let n := Z_of_byte c in
  if (48 <=? n) && (n <=? 57) then Some (n - 48)
  else if (97 <=? n) && (n <=? 102) then Some (n - 87)
  else if (65 <=? n) && (n <=? 70) then Some (n - 55)
  else None.

Definition hex4 (h1 h2 h3 h4 : byte) : option Z :=
  match hex_value h1, hex_value h2, hex_value h3, hex_value h4 with
  | Some a, Some b, Some c, Some d => Some (((a * 16 + b) * 16 + c) * 16 + d)
  | _, _, _, _ => None
  end.

Definition is_high_surrogate (cp : Z) : bool := (55296 <=? cp) && (cp <=? 56319).

Definition is_low_surrogate (cp : Z) : bool := (56320 <=? cp) && (cp <=? 57343).

(** The UTF-8 bytes of a code point.  A surrogate half on its own has
    none: it is held as the replacement character U+FFFD, which is what
    Node writes for it. *)
Definition utf8_of_code_point (cp : Z) : list byte :=
  if cp <? 128 then [byte_of_Z cp]
  else if cp <? 2048 then
    [byte_of_Z (192 + cp / 64); byte_of_Z (128 + cp mod 64)]
  else if (55296 <=? cp) && (cp <=? 57343) then [xef; xbf; xbd]
  else if cp <? 65536 then
    [byte_of_Z (224 + cp / 4096); byte_of_Z (128 + (cp / 64) mod 64);
     byte_of_Z (128 + cp mod 64)]
  else
    [byte_of_Z (240 + cp / 262144); byte_of_Z (128 + (cp / 4096) mod 64);
     byte_of_Z (128 + (cp / 64) mod 64); byte_of_Z (128 + cp mod 64)].

(** The characters of a string literal after its opening quote, up to
    and including the closing one.  An escaped high surrogate followed
    by an escaped low surrogate is one code point. *)
Fixpoint parse_string (s : list byte) : option (list byte * list byte) :=
  match s with
  | [] => None
  | x22 :: r => Some ([], r)
  | x5c :: x75 :: h1 :: h2 :: h3 :: h4 :: r =>
      match hex4 h1 h2 h3 h4 with
      | Some cp =>
          let single :=
            match parse_string r with
            | Some (cs, r') => Some (utf8_of_code_point cp ++ cs, r')
            | None => None
            end in
          if is_high_surrogate cp then
            match r with
            | x5c :: x75 :: l1 :: l2 :: l3 :: l4 :: r' =>
                match hex4 l1 l2 l3 l4 with
                | Some lo =>
                    if is_low_surrogate lo then
                      match parse_string r' with
                      | Some (cs, r'') =>
                          Some (utf8_of_code_point
                                  (65536 + (cp - 55296) * 1024 + (lo - 56320))
                                  ++ cs, r'')
                      | None => None
                      end
                    else single
                | None => single
                end
            | _ => single
            end
          else single
      | None => None
      end
  | x5c :: e :: r =>
      let unescaped :=
        match e with
        | x22 => Some x22
        | x5c => Some x5c
        | x2f => Some x2f
        | x62 => Some x08
        | x66 => Some x0c
        | x6e => Some x0a
        | x72 => Some x0d
        | x74 => Some x09
        | _ => None
        end in
      match unescaped, parse_string r with
      | Some c, Some (cs, r') => Some (c :: cs, r')
      | _, _ => None
      end
  | c :: r =>
      if Z_of_byte c <? 32 then None
      else
        match parse_string r with
        | Some (cs, r') => Some (c :: cs, r')
        | None => None
        end
  end.

Definition is_digit (c : byte) : bool :=
  (48 <=? Z_of_byte c) && (Z_of_byte c <=? 57).

(** The longest run of digits at the head of the input. *)
Fixpoint span_digits (s : list byte) : list byte * list byte :=
  match s with
  | c :: r =>
      if is_digit c then let '(digits, rest) := span_digits r in (c :: digits, rest)
      else ([], s)
  | [] => ([], [])
  end.

Definition digit_value (c : byte) : N := Z.to_N (Z_of_byte c - 48).

Definition digits_value (digits : list byte) : N :=
  fold_left (fun acc c => (acc * 10 + digit_value c)%N) digits 0%N.

(** The grammar of a numeral: [int frac? exp?], where [int] is [0] or
    starts with another digit. *)
Definition parse_int (s : list byte) : option (list byte * list byte) :=
  match s with
  | x30 :: r => Some ([x30], r)
  | c :: _ => if is_digit c then Some (span_digits s) else None
  | [] => None
  end.

Definition parse_frac (s : list byte) : option (list byte * list byte) :=
  match s with
  | x2e :: r =>
      match span_digits r with
      | ([], _) => None
      | (digits, rest) => Some (digits, rest)
      end
  | _ => Some ([], s)
  end.

Definition parse_exp (s : list byte) : option (Z * list byte) :=
  match s with
  | c :: r =>
      if Byte.eqb c x65 || Byte.eqb c x45 then
        let '(negative, r) :=
          match r with
          | x2b :: r' => (false, r')
          | x2d :: r' => (true, r')
          | _ => (false, r)
          end in
        match span_digits r with
        | ([], _) => None
        | (digits, rest) =>
            Some (Number.signed negative (Z.of_N (digits_value digits)), rest)
        end
      else Some (0, s)
  | [] => Some (0, [])
  end.

(** A numeral denotes the double nearest to its value. *)
Definition parse_unsigned (negative : bool) (s : list byte)
    : option (value * list byte) :=
  match parse_int s with
  | Some (int, s) =>
      match parse_frac s with
      | Some (frac, s) =>
          match parse_exp s with
          | Some (e, rest) =>
              Some (VNum (Number.nearest
                            (Number.of_decimal negative
                               (digits_value (int ++ frac))
                               (e - Z.of_nat (length frac)))),
                    rest)
          | None => None
          end
      | None => None
      end
  | None => None
  end.

Definition parse_number (s : list byte) : option (value * list byte) :=
  match s with
  | x2d :: r => parse_unsigned true r
  | _ => parse_unsigned false s
  end.

(** The input after the byte [c], when it starts with [c]. *)
Definition expect (c : byte) (s : list byte) : option (list byte) :=
  match s with
  | c' :: r => if Byte.eqb c' c then Some r else None
  | [] => None
  end.

Section Containers.
(** The parser of one value, for the elements of an array and the
    members of an object. *)
Variable parse_item : list byte -> option (value * list byte).

(** The elements after [[], up to the closing bracket. *)
Fixpoint parse_elements (n : nat) (s : list byte)
    : option (list value * list byte) :=
  match n with
  | O => None
  | S n' =>
      match parse_item s with
      | Some (v, r) =>
          match expect x2c (skip_ws r) with
          | Some r' =>
              match parse_elements n' r' with
              | Some (vs, r'') => Some (v :: vs, r'')
              | None => None
              end
          | None =>
              match expect x5d (skip_ws r) with
              | Some r' => Some ([v], r')
              | None => None
              end
          end
      | None => None
      end
  end.

(** The members after [{], up to the closing brace; a repeated key
    overwrites the earlier value. *)
Fixpoint parse_members (n : nat) (acc : list (string * value)) (s : list byte)
    : option (list (string * value) * list byte) :=
  match n with
  | O => None
  | S n' =>
      match expect x22 (skip_ws s) with
      | Some r =>
          match parse_string r with
          | Some (k, r1) =>
              match expect x3a (skip_ws r1) with
              | Some r2 =>
                  match parse_item r2 with
                  | Some (v, r3) =>
                      let acc' := JS.set_own acc (string_of_list_byte k) v in
                      match expect x2c (skip_ws r3) with
                      | Some r4 => parse_members n' acc' r4
                      | None =>
                          match expect x7d (skip_ws r3) with
                          | Some r4 => Some (acc', r4)
                          | None => None
                          end
                      end
                  | None => None
                  end
              | None => None
              end
          | None => None
          end
      | None => None
      end
  end.
End Containers.

Fixpoint parse_value (fuel : nat) (s : list byte) : option (value * list byte) :=
  match fuel with
  | O => None
  | S fuel' =>
      match skip_ws s with
      | [] => None
      | c :: r =>
          if Byte.eqb c x22 then
            match parse_string r with
            | Some (cs, r') => Some (VStr (string_of_list_byte cs), r')
            | None => None
            end
          else if Byte.eqb c x5b then
            match expect x5d (skip_ws r) with
            | Some r' => Some (VArr [], r')
            | None =>
                match parse_elements (parse_value fuel') (length r) r with
                | Some (items, r') => Some (VArr items, r')
                | None => None
                end
            end
          else if Byte.eqb c x7b then
            match expect x7d (skip_ws r) with
            | Some r' => Some (VObj [], r')
            | None =>
                match parse_members (parse_value fuel') (length r) [] r with
                | Some (props, r') => Some (VObj props, r')
                | None => None
                end
            end
          else if Byte.eqb c x2d || is_digit c then parse_number (c :: r)
          else
            match strip_prefix null_text (c :: r) with
            | Some r' => Some (VNull, r')
            | None =>
                match strip_prefix true_text (c :: r) with
                | Some r' => Some (VBool true, r')
                | None =>
                    match strip_prefix false_text (c :: r) with
                    | Some r' => Some (VBool false, r')
                    | None => None
                    end
                end
            end
      end
  end.

(** [JSON.parse(s)]; [None] is the [SyntaxError]. *)
Definition parse (s : string) : option value :=
  let input := bytes s in
  match parse_value (S (length input)) input with
  | Some (v, rest) =>
      match skip_ws rest with
      | [] => Some v
      | _ => None
      end
  | None => None
  end.

End JSON.

(** ** The objects behind the typed values

    What a value of each TypeScript interface is at run time: an object
    holding the fields that are present, in declaration order; the two
    properties of a frame in the order the frame says. *)

Module Embed.

Definition optional_prop (k : string) (o : option Number.t)
    : list (string * value) :=
  match o with
  | Some n => [(k, VNum n)]
  | None => []
  end.

Definition sound_value (s : SoundMeta.t) : value :=
  VObj (("name", VStr (SoundMeta.name s))
        :: optional_prop "volume" (SoundMeta.volume s)
        ++ optional_prop "pitch" (SoundMeta.pitch s)).

Definition object_value (o : H5AnimateObject.t) : value :=
  VObj (("index", VNum (H5AnimateObject.index o))
        :: ("x", VNum (H5AnimateObject.x o))
        :: ("y", VNum (H5AnimateObject.y o))
        :: ("scale", VNum (H5AnimateObject.scale o))
        :: ("opacity", VNum (H5AnimateObject.opacity o))
        :: optional_prop "mirror" (H5AnimateObject.mirror o)
        ++ optional_prop "rotate" (H5AnimateObject.rotate o)).

Definition frame_value (f : H5AnimateFrame.t) : value :=
  let sound :=
    match H5AnimateFrame.sound f with
    | Some l => [("sound", VArr (map sound_value l))]
    | None => []
    end in
  let objects :=
    match H5AnimateFrame.objects f with
    | Some l => [("objects", VArr (map object_value l))]
    | None => []
    end in
  VObj (if H5AnimateFrame.objects_first f then objects ++ sound
        else sound ++ objects).

Definition meta_value (m : H5AnimateMeta.t) : value :=
  VObj [("ratio", VNum (H5AnimateMeta.ratio m));
        ("frame", VArr (map frame_value (H5AnimateMeta.frame m)))].

Definition dimension_value (d : SpriteDimension.t) : value :=
  VObj [("width", VNum (Number.Int (SpriteDimension.width d)));
        ("height", VNum (Number.Int (SpriteDimension.height d)))].

Definition spriteInfo_value (s : SpriteInfo.t) : value :=
  VObj [("count", VNum (Number.Int (SpriteInfo.count s)));
        ("dimensions", VArr (map dimension_value (SpriteInfo.dimensions s)))].

End Embed.

(** ** encoder.ts *)

Module Encoder.

Definition FILE_SIGNATURE : string := "ANIM".

Definition CURRENT_VERSION : Z := 1.

Definition convertObjectToArray (obj : value) : result value :=
  index <- JS.getProp obj "index" ;;
  x <- JS.getProp obj "x" ;;
  y <- JS.getProp obj "y" ;;
  scale <- JS.getProp obj "scale" ;;
  opacity <- JS.getProp obj "opacity" ;;
  mirror <- JS.getProp obj "mirror" ;;
  rotate <- JS.getProp obj "rotate" ;;
  Ok (VArr [index; x; y; scale; opacity;
            JS.nullish_or mirror (VNum (Number.Int 0));
            JS.nullish_or rotate (VNum (Number.Int 0))]).

Definition metaReplacer (key : string) (v : value) : result value :=
  match v with
  | VArr _ =>
      if String.eqb key "objects" then JS.map_method v convertObjectToArray
      else Ok v
  | _ => Ok v
  end.

(** The metadata stays untyped here as it does for the replacer: the
    result is the object literal of the source, with both properties of a
    frame present and [undefined] where the frame has none. *)
Definition convertObjectsToArrays (meta : value) : result value :=
  ratio <- JS.getProp meta "ratio" ;;
  frame <- JS.getProp meta "frame" ;;
  frames <-
    JS.map_method frame
      (fun frame =>
         sound <- JS.getProp frame "sound" ;;
         objects <- JS.getProp frame "objects" ;;
         objects <- JS.optional_map objects convertObjectToArray ;;
         Ok (VObj [("sound", sound); ("objects", objects)])) ;;
  Ok (VObj [("ratio", ratio); ("frame", frames)]).

Definition getSpriteInfoSize (spriteInfo : SpriteInfo.t) : Z :=
  4 + SpriteInfo.count spriteInfo * 8.

(** What [validateEncodeInput] can find in its arguments: [None] for
    the first two is [null] or [undefined]; inside, [None] is a field
    that fails the test made on it ([typeof ... !== "number"],
    [!Array.isArray(...)]); [None] for the third is a value that is not
    a [Buffer]. *)
Module MetaInput.
Record t := {
  ratio : option Number.t;
  frame : option (list H5AnimateFrame.t)
}.
End MetaInput.

Module SpriteInfoInput.
Record t := {
  count : option Z;
  dimensions : option (list SpriteDimension.t)
}.
End SpriteInfoInput.

Definition missing_of_meta (meta : option MetaInput.t) : list string :=
  match meta with
  | None => ["meta"]
  | Some m =>
      match MetaInput.ratio m with Some _ => [] | None => ["meta.ratio"] end
      ++ match MetaInput.frame m with Some _ => [] | None => ["meta.frame"] end
  end.

Definition missing_of_spriteInfo (spriteInfo : option SpriteInfoInput.t)
    : list string :=
  match spriteInfo with
  | None => ["spriteInfo"]
  | Some s =>
      match SpriteInfoInput.count s with
      | Some _ => []
      | None => ["spriteInfo.count"]
      end
      ++ match SpriteInfoInput.dimensions s with
         | Some _ => []
         | None => ["spriteInfo.dimensions"]
         end
  end.

Definition missing_of_webpData (webpData : option Buffer) : list string :=
  match webpData with
  | Some _ => []
  | None => ["webpData"]
  end.

(** The three arguments as the typed values the rest of the encoder
    works on, when every test passed. *)
Definition narrowed (meta : option MetaInput.t)
    (spriteInfo : option SpriteInfoInput.t) (webpData : option Buffer)
    : option (H5AnimateMeta.t * SpriteInfo.t * Buffer) :=
  match meta, spriteInfo, webpData with
  | Some {| MetaInput.ratio := Some r; MetaInput.frame := Some f |},
    Some {| SpriteInfoInput.count := Some c;
            SpriteInfoInput.dimensions := Some d |},
    Some w =>
      Some ({| H5AnimateMeta.ratio := r; H5AnimateMeta.frame := f |},
            {| SpriteInfo.count := c; SpriteInfo.dimensions := d |}, w)
  | _, _, _ => None
  end.

(** Returns the narrowed arguments where the source returns nothing. *)
Definition validateEncodeInput (meta : option MetaInput.t)
    (spriteInfo : option SpriteInfoInput.t) (webpData : option Buffer)
    : result (H5AnimateMeta.t * SpriteInfo.t * Buffer) :=
  let missingFields :=
    missing_of_meta meta ++ missing_of_spriteInfo spriteInfo
    ++ missing_of_webpData webpData in
  match narrowed meta spriteInfo webpData with
  | Some args =>
      if (0 <? length missingFields)%nat then
        Throw (H5 (Errors.createValidationError "输入数据缺少必需字段"
                     (Some missingFields)))
      else Ok args
  | None =>
      Throw (H5 (Errors.createValidationError "输入数据缺少必需字段"
                   (Some missingFields)))
  end.

(** [for (const dimension of spriteInfo.dimensions) { ... }] *)
Fixpoint write_dimensions (dims : list SpriteDimension.t) (w : BinaryWriter.t)
    : result BinaryWriter.t :=
  match dims with
  | [] => Ok w
  | dimension :: rest =>
      w1 <- BinaryWriter.writeUInt32LE (SpriteDimension.width dimension) w ;;
      w2 <- BinaryWriter.writeUInt32LE (SpriteDimension.height dimension) w1 ;;
      write_dimensions rest w2
  end.

Section Encode.
Variable uninit : nat -> byte.

Definition encodeH5Animate (meta : option MetaInput.t)
    (spriteInfo : option SpriteInfoInput.t) (webpData : option Buffer)
    : result Buffer :=
  args <- validateEncodeInput meta spriteInfo webpData ;;
  let '(meta, spriteInfo, webpData) := args in
  metaJson <- JSON.stringify (Embed.meta_value meta) metaReplacer ;;
  match metaJson with
  | None => Throw JsTypeError
  | Some metaJson =>
      let metaBuffer := list_byte_of_string metaJson in
      let spriteInfoSize := getSpriteInfoSize spriteInfo in
      let totalImageDataSize := spriteInfoSize + blength webpData in
      let headerSize := 16 in
      let totalSize := headerSize + totalImageDataSize + blength metaBuffer in
      writer <- BinaryWriter.new uninit totalSize ;;
      writer <- BinaryWriter.writeString FILE_SIGNATURE writer ;;
      writer <- BinaryWriter.writeUInt32LE CURRENT_VERSION writer ;;
      writer <- BinaryWriter.writeUInt32LE totalImageDataSize writer ;;
      writer <- BinaryWriter.writeUInt32LE (blength metaBuffer) writer ;;
      writer <- BinaryWriter.writeUInt32LE (SpriteInfo.count spriteInfo) writer ;;
      writer <- write_dimensions (SpriteInfo.dimensions spriteInfo) writer ;;
      writer <- BinaryWriter.writeBuffer webpData writer ;;
      writer <- BinaryWriter.writeBuffer metaBuffer writer ;;
      Ok (BinaryWriter.getBuffer writer)
  end.
End Encode.

End Encoder.

(** ** decoder.ts *)

Module DecodedH5Animate.
Record t := {
  meta : value;
  spriteInfo : SpriteInfo.t;
  webpData : Buffer
}.
End DecodedH5Animate.

Module Decoder.

Definition FILE_SIGNATURE : string := "ANIM".

Definition parseHeader (parser : BinaryParser.t)
    : result (FileHeader.t * BinaryParser.t) :=
  r <- BinaryParser.readString 4 parser ;;
  let '(signature, parser) := r in
  if negb (String.eqb signature FILE_SIGNATURE) then
    Throw (H5 (Errors.createInvalidSignatureError signature))
  else
    r <- BinaryParser.readUInt32LE parser ;;
    let '(version, parser) := r in
    r <- BinaryParser.readUInt32LE parser ;;
    let '(imageDataSize, parser) := r in
    r <- BinaryParser.readUInt32LE parser ;;
    let '(metaDataSize, parser) := r in
    Ok ({| FileHeader.signature := signature;
           FileHeader.version := version;
           FileHeader.imageDataSize := imageDataSize;
           FileHeader.metaDataSize := metaDataSize |}, parser).

(** [for (let i = 0; i < count; i++) dimensions.push({ width, height })],
    with [n] the number of rounds left. *)
Fixpoint read_dimensions (n : nat) (dimensions : list SpriteDimension.t)
    (parser : BinaryParser.t)
    : result (list SpriteDimension.t * BinaryParser.t) :=
  match n with
  | O => Ok (dimensions, parser)
  | S n' =>
      r <- BinaryParser.readUInt32LE parser ;;
      let '(width, parser) := r in
      r <- BinaryParser.readUInt32LE parser ;;
      let '(height, parser) := r in
      read_dimensions n'
        (dimensions ++ [{| SpriteDimension.width := width;
                           SpriteDimension.height := height |}])
        parser
  end.

Definition parseSpriteInfo (parser : BinaryParser.t)
    : result (SpriteInfo.t * BinaryParser.t) :=
  r <- BinaryParser.readUInt32LE parser ;;
  let '(count, parser) := r in
  r <- read_dimensions (Z.to_nat count) [] parser ;;
  let '(dimensions, parser) := r in
  Ok ({| SpriteInfo.count := count; SpriteInfo.dimensions := dimensions |},
      parser).

Definition getSpriteInfoSize (spriteInfo : SpriteInfo.t) : Z :=
  4 + SpriteInfo.count spriteInfo * 8.

Definition convertArrayToObject (objArray : value) : result value :=
  index <- JS.getIndex objArray 0 ;;
  x <- JS.getIndex objArray 1 ;;
  y <- JS.getIndex objArray 2 ;;
  scale <- JS.getIndex objArray 3 ;;
  opacity <- JS.getIndex objArray 4 ;;
  mirror <- JS.getIndex objArray 5 ;;
  rotate <- JS.getIndex objArray 6 ;;
  Ok (VObj [("index", index); ("x", x); ("y", y); ("scale", scale);
            ("opacity", opacity);
            ("mirror", JS.nullish_or mirror (VNum (Number.Int 0)));
            ("rotate", JS.nullish_or rotate (VNum (Number.Int 0)))]).

Definition convertArraysToObjects (rawMeta : value) : result value :=
  frame <- JS.getProp rawMeta "frame" ;;
  if JS.falsy frame then Ok rawMeta
  else
    ratio <- JS.getProp rawMeta "ratio" ;;
    frames <-
      JS.map_method frame
        (fun frame =>
           sound <- JS.getProp frame "sound" ;;
           objects <- JS.getProp frame "objects" ;;
           objects <- JS.optional_map objects convertArrayToObject ;;
           Ok (VObj [("sound", sound); ("objects", objects)])) ;;
    Ok (VObj [("ratio", ratio); ("frame", frames)]).

Definition decodeH5Animate (buffer : Buffer) : result DecodedH5Animate.t :=
  let parser := BinaryParser.new buffer in
  r <- parseHeader parser ;;
  let '(header, parser) := r in
  r <- parseSpriteInfo parser ;;
  let '(spriteInfo, parser) := r in
  let spriteInfoSize := getSpriteInfoSize spriteInfo in
  let webpDataSize := FileHeader.imageDataSize header - spriteInfoSize in
  r <- BinaryParser.readBytes webpDataSize parser ;;
  let '(webpData, parser) := r in
  r <- BinaryParser.readBytes (FileHeader.metaDataSize header) parser ;;
  let '(metaBuffer, parser) := r in
  let metaJson := string_of_list_byte metaBuffer in
  match JSON.parse metaJson with
  | None => Throw (H5 (Errors.createInvalidMetadataError "JSON 解析失败" None))
  | Some rawMeta =>
      meta <- convertArraysToObjects rawMeta ;;
      Ok {| DecodedH5Animate.meta := meta;
            DecodedH5Animate.spriteInfo := spriteInfo;
            DecodedH5Animate.webpData := webpData |}
  end.

End Decoder.

(** ** webp.ts

    The image library ([sharp]) is an external capability: measuring an
    image and cropping a region either give a result or reject with an
    [Error] carrying a message.  An awaited promise that rejects is a
    [Throw]. *)

Module ImageMetadata.
Record t := {
  width : option Z;
  height : option Z
}.
End ImageMetadata.

Module ExtractFrameOptions.
Record t := {
  width : option Z;
  height : Z
}.
End ExtractFrameOptions.

Module WebP.

(** [error instanceof Error ? error.message : "未知错误"]; the text the
    engine attaches to its own errors is not modelled, and none of them
    is raised inside the blocks that read it. *)
Definition error_message (e : exn) : string :=
  match e with
  | H5 err => Errors.message err
  | ExternalError msg => msg
  | JsTypeError | JsRangeError => EmptyString
  end.

Section Sharp.
(** [sharp(buffer).metadata()] *)
Variable sharp_metadata : Buffer -> string + ImageMetadata.t.
(** [sharp(buffer).extract({ left, top, width, height }).toBuffer()] *)
Variable sharp_extract : Buffer -> Z -> Z -> Z -> Z -> string + Buffer.

Definition await {A} (p : string + A) : result A :=
  match p with
  | inl msg => Throw (ExternalError msg)
  | inr a => Ok a
  end.

Definition extractFrameByIndex (webpBuffer : Buffer) (frameIndex : Z)
    (options : ExtractFrameOptions.t) : result Buffer :=
  let height := ExtractFrameOptions.height options in
  let body :=
    metadata <- await (sharp_metadata webpBuffer) ;;
    let spriteWidth :=
      match ExtractFrameOptions.width options with
      | Some w => w
      | None =>
          match ImageMetadata.width metadata with
          | Some w => w
          | None => 0
          end
      end in
    let spriteHeight :=
      match ImageMetadata.height metadata with
      | Some h => h
      | None => 0
      end in
    let top := frameIndex * height in
    if top + height >? spriteHeight then
      Throw (H5 (Errors.createWebPProcessingError
        ("帧索引 " ++ string_of_Z frameIndex
           ++ " 超出精灵图范围（精灵图高度: " ++ string_of_Z spriteHeight
           ++ ", 请求位置: " ++ string_of_Z top ++ "-"
           ++ string_of_Z (top + height) ++ "）")%string))
    else await (sharp_extract webpBuffer 0 top spriteWidth height) in
  match body with
  | Ok frame => Ok frame
  | Throw error =>
      if is_H5AnimateError error then Throw error
      else
        Throw (H5 (Errors.createWebPProcessingError
                     ("提取帧失败: " ++ error_message error)%string))
  end.
End Sharp.

(** [WebPOptions]: of the options of the library only [lossless] and
    [quality] are ever read. *)
Module WebPOptions.
Record t := {
  lossless : option bool;
  quality : option Z
}.
End WebPOptions.

(** The options object handed to [sharp(...).webp(...)]. *)
Module SharpWebpOptions.
Record t := {
  lossless : bool;
  quality : option Z;
  effort : option Z
}.
End SharpWebpOptions.

(** One entry of the list given to [composite]. *)
Module OverlayOptions.
Record t := {
  input : Buffer;
  top : Z;
  left : Z
}.
End OverlayOptions.

(** [interface ImageMeta] *)
Module ImageMeta.
Record t := {
  width : Z;
  height : Z
}.
End ImageMeta.

(** [options = {}] and [const { lossless = true, quality = 80 } = options] *)
Definition lossless_of (options : option WebPOptions.t) : bool :=
  match options with
  | Some {| WebPOptions.lossless := Some l |} => l
  | _ => true
  end.

Definition quality_of (options : option WebPOptions.t) : Z :=
  match options with
  | Some {| WebPOptions.quality := Some q |} => q
  | _ => 80
  end.

(** [Math.max(...values)] on a list that is not empty. *)
Definition max_of (values : list Z) : Z :=
  match values with
  | v :: rest => fold_left Z.max rest v
  | [] => 0
  end.

(** [values.reduce((sum, v) => sum + v, 0)] *)
Definition sum_of (values : list Z) : Z := fold_left Z.add values 0.

(** [for (i...) { composite.push({ input, top: currentY, left: 0 });
    currentY += imageMetas[i].height }], on the images paired with their
    measures. *)
Fixpoint stack_layers (images : list (Buffer * ImageMeta.t)) (currentY : Z)
    (composite : list OverlayOptions.t) : list OverlayOptions.t :=
  match images with
  | [] => composite
  | (image, meta) :: rest =>
      stack_layers rest (currentY + ImageMeta.height meta)
        (composite ++ [{| OverlayOptions.input := image;
                          OverlayOptions.top := currentY;
                          OverlayOptions.left := 0 |}])
  end.

(** [base64Data.includes(",")] and [base64Data.split(",")] *)
Fixpoint includes_comma (s : string) : bool :=
  match s with
  | EmptyString => false
  | String c r => Ascii.eqb c "," || includes_comma r
  end.

Fixpoint split_comma (s : string) : list string :=
  match s with
  | EmptyString => [EmptyString]
  | String c r =>
      if Ascii.eqb c "," then EmptyString :: split_comma r
      else
        match split_comma r with
        | h :: t => String c h :: t
        | [] => [String c EmptyString]
        end
  end.

(** The number of rounds of the loop of [extractAllFrames]:
    [frameCount ?? Math.floor(spriteHeight / frameHeight)].  A division
    by zero gives [Infinity] for a positive height ([None] here: the loop
    has no bound), and [NaN] or [-Infinity] otherwise, for which
    [i < count] is false at once. *)
Definition frame_rounds (frameCount : option Z) (spriteHeight frameHeight : Z)
    : option Z :=
  match frameCount with
  | Some c => Some c
  | None =>
      if frameHeight =? 0 then
        if 0 <? spriteHeight then None else Some 0
      else Some (spriteHeight / frameHeight)
  end.

Section Codec.
(** [sharp(buffer).metadata()] *)
Variable sharp_metadata : Buffer -> string + ImageMetadata.t.
(** [sharp(buffer).extract({ left, top, width, height }).toBuffer()] *)
Variable sharp_extract : Buffer -> Z -> Z -> Z -> Z -> string + Buffer.
(** [sharp(buffer).webp(options).toBuffer()] *)
Variable sharp_webp : Buffer -> SharpWebpOptions.t -> string + Buffer.
(** [sharp({ create: { width, height, channels: 4, background } })
    .composite(layers).webp(options).toBuffer()] *)
Variable sharp_composite :
  Z -> Z -> list OverlayOptions.t -> SharpWebpOptions.t -> string + Buffer.
(** [Buffer.from(text, "base64")], which never throws. *)
Variable base64_decode : string -> Buffer.

(** [try { ... } catch (error) { throw createWebPProcessingError(prefix +
    message) }], with or without the test that lets a typed error
    through. *)
Definition wrap_all {A} (pre : string) (body : result A) : result A :=
  match body with
  | Ok a => Ok a
  | Throw error =>
      Throw (H5 (Errors.createWebPProcessingError (pre ++ error_message error)%string))
  end.

Definition wrap_untyped {A} (pre : string) (body : result A) : result A :=
  match body with
  | Ok a => Ok a
  | Throw error =>
      if is_H5AnimateError error then Throw error
      else
        Throw (H5 (Errors.createWebPProcessingError
                     (pre ++ error_message error)%string))
  end.

Definition convertToWebP (imageBuffer : Buffer) (options : option WebPOptions.t)
    : result Buffer :=
  let lossless := lossless_of options in
  let quality := quality_of options in
  wrap_all "图像转换为 WebP 失败: "
    (let webpOptions :=
       if lossless then
         {| SharpWebpOptions.lossless := true; SharpWebpOptions.quality := None;
            SharpWebpOptions.effort := None |}
       else
         {| SharpWebpOptions.lossless := false;
            SharpWebpOptions.quality := Some quality;
            SharpWebpOptions.effort := None |} in
     await (sharp_webp imageBuffer webpOptions)).

Definition getImageMeta (imageBuffer : Buffer) : result ImageMeta.t :=
  metadata <- await (sharp_metadata imageBuffer) ;;
  Ok {| ImageMeta.width :=
          match ImageMetadata.width metadata with Some w => w | None => 0 end;
        ImageMeta.height :=
          match ImageMetadata.height metadata with Some h => h | None => 0 end |}.

(** [Promise.all] rejects with the rejection that settles first; here
    the measures are taken in list order, which fixes the message that is
    reported when several images fail, and nothing else. *)
Definition createVerticalSpriteSheet (imageBuffers : list Buffer)
    (options : option WebPOptions.t) : result ImageConversionResult.t :=
  if (length imageBuffers =? 0)%nat then
    Throw (H5 (Errors.createWebPProcessingError "没有图像可处理"))
  else
    let webpOptions :=
      {| SharpWebpOptions.lossless := lossless_of options;
         SharpWebpOptions.quality := Some (quality_of options);
         SharpWebpOptions.effort := Some 6 |} in
    wrap_untyped "创建精灵图失败: "
      (imageMetas <- JS.mapM getImageMeta imageBuffers ;;
       match imageBuffers, imageMetas with
       | [image], [meta] =>
           webpData <- await (sharp_webp image webpOptions) ;;
           Ok {| ImageConversionResult.webpData := webpData;
                 ImageConversionResult.spriteInfo :=
                   {| SpriteInfo.count := 1;
                      SpriteInfo.dimensions :=
                        [{| SpriteDimension.width := ImageMeta.width meta;
                            SpriteDimension.height := ImageMeta.height meta |}] |} |}
       | _, _ =>
           let maxWidth := max_of (map ImageMeta.width imageMetas) in
           let totalHeight := sum_of (map ImageMeta.height imageMetas) in
           let composite := stack_layers (combine imageBuffers imageMetas) 0 [] in
           webpData <-
             await (sharp_composite maxWidth totalHeight composite webpOptions) ;;
           Ok {| ImageConversionResult.webpData := webpData;
                 ImageConversionResult.spriteInfo :=
                   {| SpriteInfo.count := 1;
                      SpriteInfo.dimensions :=
                        [{| SpriteDimension.width := maxWidth;
                            SpriteDimension.height := totalHeight |}] |} |}
       end).

Definition base64ToBuffer (base64Data : string) : Buffer :=
  let base64Content :=
    if includes_comma base64Data then nth 1 (split_comma base64Data) EmptyString
    else base64Data in
  base64_decode base64Content.

Definition combineBase64ImagesToWebP (base64Images : list string)
    (options : option WebPOptions.t) : result ImageConversionResult.t :=
  let imageBuffers :=
    map base64ToBuffer
      (filter (fun img => negb (String.length img =? 0)%nat) base64Images) in
  createVerticalSpriteSheet imageBuffers options.

Definition extractFrameByPosition (webpBuffer : Buffer) (top left width height : Z)
    : result Buffer :=
  wrap_all "提取帧失败: " (await (sharp_extract webpBuffer left top width height)).

(** The loop of [extractAllFrames], with the number of rounds left
    ([None]: no bound) and [fuel] bounding the rounds the model follows;
    [None] as a result is a run that goes on past the fuel. *)
Fixpoint extract_rounds (fuel : nat) (webpBuffer : Buffer)
    (spriteWidth frameHeight : Z) (rounds : option nat) (i : Z)
    (frames : list Buffer) : option (result (list Buffer)) :=
  match rounds with
  | Some O => Some (Ok frames)
  | _ =>
      match fuel with
      | O => None
      | S fuel' =>
          match await (sharp_extract webpBuffer 0 (i * frameHeight)
                         spriteWidth frameHeight) with
          | Ok frame =>
              extract_rounds fuel' webpBuffer spriteWidth frameHeight
                (option_map Nat.pred rounds) (i + 1) (frames ++ [frame])
          | Throw error => Some (Throw error)
          end
      end
  end.

Definition extractAllFrames (fuel : nat) (webpBuffer : Buffer) (frameHeight : Z)
    (frameCount : option Z) : option (result (list Buffer)) :=
  match await (sharp_metadata webpBuffer) with
  | Throw error => Some (wrap_untyped "提取所有帧失败: " (Throw error))
  | Ok metadata =>
      let spriteHeight :=
        match ImageMetadata.height metadata with Some h => h | None => 0 end in
      let spriteWidth :=
        match ImageMetadata.width metadata with Some w => w | None => 0 end in
      let count := frame_rounds frameCount spriteHeight frameHeight in
      option_map (wrap_untyped "提取所有帧失败: ")
        (extract_rounds fuel webpBuffer spriteWidth frameHeight
           (option_map Z.to_nat count) 0 [])
  end.
End Codec.

End WebP.

(** ** converter.ts *)

Module Converter.

Definition REQUIRED_FIELDS : list string :=
  ["ratio"; "bitmaps"; "frame_max"; "frames"].

(** [field in obj] *)
Fixpoint has_own (props : list (string * value)) (k : string) : bool :=
  match props with
  | [] => false
  | (k', _) :: rest => String.eqb k' k || has_own rest k
  end.

(** [data] is [unknown] in the source and stays untyped here. *)
Definition validateLegacyFormat (data : value) : result unit :=
  match data with
  | VObj _ | VArr _ =>
      let props :=
        match data with
        | VObj props => props
        | _ => []
        end in
      let missingFields :=
        filter (fun field => has_own props field = false) REQUIRED_FIELDS in
      if (0 <? length missingFields)%nat then
        Throw (H5 (Errors.createValidationError "旧格式文件缺少必需字段"
                     (Some missingFields)))
      else
        match JS.get_own props "ratio" with
        | VNum _ =>
            match JS.get_own props "bitmaps" with
            | VArr _ =>
                match JS.get_own props "frame_max" with
                | VNum frame_max =>
                    if Number.ltb frame_max (Number.Int 0) then
                      Throw (H5 (Errors.createValidationError
                                   "frame_max 字段必须是非负数字" None))
                    else
                      match JS.get_own props "frames" with
                      | VArr _ => Ok tt
                      | _ =>
                          Throw (H5 (Errors.createValidationError
                                       "frames 字段必须是数组" None))
                      end
                | _ =>
                    Throw (H5 (Errors.createValidationError
                                 "frame_max 字段必须是非负数字" None))
                end
            | _ =>
                Throw (H5 (Errors.createValidationError
                             "bitmaps 字段必须是数组" None))
            end
        | _ =>
            Throw (H5 (Errors.createValidationError "ratio 字段必须是数字" None))
        end
  | _ => Throw (H5 (Errors.createValidationError "输入数据必须是对象" None))
  end.

(** Returns the parsed value, which the source narrows to
    [LegacyAnimateFile] without looking further inside. *)
Definition parseLegacyAnimateFile (jsonString : string) : result value :=
  match JSON.parse jsonString with
  | None => Throw (H5 (Errors.createConversionFailedError "JSON 解析失败"))
  | Some data =>
      _ <- validateLegacyFormat data ;;
      Ok data
  end.

(** The object a typed legacy file is at run time. *)
Definition layer_value (l : FrameLayer.t) : value :=
  VArr ([VNum (FrameLayer.at0 l); VNum (FrameLayer.at1 l);
         VNum (FrameLayer.at2 l); VNum (FrameLayer.at3 l);
         VNum (FrameLayer.at4 l)]
        ++ match FrameLayer.at5 l, FrameLayer.at6 l with
           | None, None => []
           | Some m, None => [VNum m]
           | None, Some r => [VUndefined; VNum r]
           | Some m, Some r => [VNum m; VNum r]
           end).

(** The entries of a sparse map in the order the object lists them: the
    keys that are array indices first and ascending; the other keys
    (negative ones, or from [2^32 - 1] on) after them, ascending as
    well, the order of their creation being no part of the map. *)
Definition is_index (k : Z) : bool := (0 <=? k) && (k <? 4294967295).

Definition entry_leb {A} (a b : Z * A) : bool :=
  match is_index (fst a), is_index (fst b) with
  | true, false => true
  | false, true => false
  | _, _ => fst a <=? fst b
  end.

Definition sparse_entries {A} (m : gmap Z A) : list (Z * A) :=
  merge_sort (fun a b => entry_leb a b = true)
    (H := fun a b => decide (entry_leb a b = true)) (map_to_list m).

Definition se_value (se : LegacySe) : value :=
  match se with
  | SeString s => VStr s
  | SeMap m =>
      VObj (map (fun kv => (string_of_Z (fst kv), VStr (snd kv)))
              (sparse_entries m))
  end.

Definition pitch_value (pitch : gmap Z Number.t) : value :=
  VObj (map (fun kv => (string_of_Z (fst kv), VNum (snd kv)))
          (sparse_entries pitch)).

Definition legacy_value (legacy : LegacyAnimateFile.t) : value :=
  VObj ([("ratio", VNum (LegacyAnimateFile.ratio legacy))]
        ++ match LegacyAnimateFile.se legacy with
           | Some se => [("se", se_value se)]
           | None => []
           end
        ++ match LegacyAnimateFile.pitch legacy with
           | Some pitch => [("pitch", pitch_value pitch)]
           | None => []
           end
        ++ [("bitmaps", VArr (map VStr (LegacyAnimateFile.bitmaps legacy)));
            ("frame_max", VNum (LegacyAnimateFile.frame_max legacy));
            ("frames",
             VArr (map (fun layers => VArr (map layer_value layers))
                     (LegacyAnimateFile.frames legacy)))]).

Definition convertSoundData (legacy : LegacyAnimateFile.t) (frameIndex : Z)
    : option (list SoundMeta.t) :=
  match LegacyAnimateFile.se legacy with
  | None => None
  | Some (SeString s) =>
      if String.eqb s EmptyString then None
      else
        let sounds :=
          if frameIndex =? 0 then
            [{| SoundMeta.name := s; SoundMeta.volume := None;
                SoundMeta.pitch := None |}]
          else [] in
        if (0 <? length sounds)%nat then Some sounds else None
  | Some (SeMap se) =>
      let sounds :=
        match se !! frameIndex with
        | Some soundName =>
            if String.eqb soundName EmptyString then []
            else
              [{| SoundMeta.name := soundName;
                  SoundMeta.volume := None;
                  SoundMeta.pitch :=
                    match LegacyAnimateFile.pitch legacy with
                    | Some pitch => pitch !! frameIndex
                    | None => None
                    end |}]
        | None => []
        end in
      if (0 <? length sounds)%nat then Some sounds else None
  end.

Definition convertFrameLayer (layer : FrameLayer.t) : H5AnimateObject.t :=
  {| H5AnimateObject.index := FrameLayer.at0 layer;
     H5AnimateObject.x := FrameLayer.at1 layer;
     H5AnimateObject.y := FrameLayer.at2 layer;
     H5AnimateObject.scale := FrameLayer.at3 layer;
     H5AnimateObject.opacity := FrameLayer.at4 layer;
     H5AnimateObject.mirror :=
       Some (match FrameLayer.at5 layer with
             | Some m => m
             | None => Number.Int 0
             end);
     H5AnimateObject.rotate :=
       Some (match FrameLayer.at6 layer with
             | Some r => r
             | None => Number.Int 0
             end) |}.

(** One round of the loop of [convertMetadata]: the frame built for
    index [i]. *)
Definition convert_frame (legacy : LegacyAnimateFile.t) (i : Z)
    : H5AnimateFrame.t :=
  let frameData :=
    match LegacyAnimateFile.frames legacy !! Z.to_nat i with
    | Some layers => layers
    | None => []
    end in
  {| H5AnimateFrame.objects :=
       if (0 <? length frameData)%nat then Some (map convertFrameLayer frameData)
       else None;
     H5AnimateFrame.sound := convertSoundData legacy i;
     H5AnimateFrame.objects_first := true |}.

(** [for (let i = 0; i < legacy.frame_max; i++) { ...; frames.push(frame) }]
    from the test of round [i] on.  [fuel] bounds the rounds the model
    follows; [None] is a run that goes on past the fuel. *)
Fixpoint convert_frames (fuel : nat) (legacy : LegacyAnimateFile.t) (i : Z)
    (frames : list H5AnimateFrame.t) : option (list H5AnimateFrame.t) :=
  if Number.ltb (Number.Int i) (LegacyAnimateFile.frame_max legacy) then
    match fuel with
    | O => None
    | S fuel' =>
        convert_frames fuel' legacy (i + 1) (frames ++ [convert_frame legacy i])
    end
  else Some frames.

Definition convertMetadata (fuel : nat) (legacy : LegacyAnimateFile.t)
    : option H5AnimateMeta.t :=
  match convert_frames fuel legacy 0 [] with
  | Some frames =>
      Some {| H5AnimateMeta.ratio := LegacyAnimateFile.ratio legacy;
              H5AnimateMeta.frame := frames |}
  | None => None
  end.

(** *** The same functions on untyped values

    [validateLegacyFormat] looks at four fields and no further, so a
    value that passed it need not be of the declared type.  These are
    the source functions once more, on what such a value can be. *)
Module Untyped.

Definition convertFrameLayer (layer : value) : result value :=
  index <- JS.getIndex layer 0 ;;
  x <- JS.getIndex layer 1 ;;
  y <- JS.getIndex layer 2 ;;
  scale <- JS.getIndex layer 3 ;;
  opacity <- JS.getIndex layer 4 ;;
  mirror <- JS.getIndex layer 5 ;;
  rotate <- JS.getIndex layer 6 ;;
  Ok (VObj [("index", index); ("x", x); ("y", y); ("scale", scale);
            ("opacity", opacity);
            ("mirror", JS.nullish_or mirror (VNum (Number.Int 0)));
            ("rotate", JS.nullish_or rotate (VNum (Number.Int 0)))]).

Definition convertSoundData (legacy : value) (frameIndex : nat) : result value :=
  se <- JS.getProp legacy "se" ;;
  if JS.falsy se then Ok VUndefined
  else
    sounds <-
      match se with
      | VStr _ =>
          Ok (if (frameIndex =? 0)%nat then [VObj [("name", se)]] else [])
      | _ =>
          soundName <- JS.getIndex se frameIndex ;;
          if JS.falsy soundName then Ok []
          else
            pitch <- JS.getProp legacy "pitch" ;;
            if JS.falsy pitch then Ok [VObj [("name", soundName)]]
            else
              entry <- JS.getIndex pitch frameIndex ;;
              match entry with
              | VUndefined => Ok [VObj [("name", soundName)]]
              | _ => Ok [VObj [("name", soundName); ("pitch", entry)]]
              end
      end ;;
    Ok (if (0 <? length sounds)%nat then VArr sounds else VUndefined).

(** [frameData.length > 0] on a value that is not [undefined] or [null].
    A [length] property that is neither a number nor [undefined] is
    compared after a conversion that the model does not follow
    ([None]). *)
Definition has_layers (frameData : value) : option bool :=
  match frameData with
  | VArr items => Some (0 <? length items)%nat
  | VStr s => Some (0 <? String.length s)%nat
  | VObj props =>
      match JS.get_own props "length" with
      | VNum n => Some (Number.gtb n (Number.Int 0))
      | VUndefined => Some false
      | _ => None
      end
  | _ => Some false
  end.

(** One round of the loop: the frame built for index [i]; [objects] is
    assigned before [sound]. *)
Definition convert_frame (legacy : value) (i : nat) : option (result value) :=
  match JS.getProp legacy "frames" with
  | Throw e => Some (Throw e)
  | Ok frames =>
      match JS.getIndex frames i with
      | Throw e => Some (Throw e)
      | Ok entry =>
          let frameData := if JS.falsy entry then VArr [] else entry in
          match has_layers frameData with
          | None => None
          | Some layers =>
              Some (objects <-
                      (if layers then
                         objects <- JS.map_method frameData convertFrameLayer ;;
                         Ok [("objects", objects)]
                       else Ok []) ;;
                    sound <- convertSoundData legacy i ;;
                    Ok (VObj (objects
                              ++ if JS.falsy sound then []
                                 else [("sound", sound)])))
          end
      end
  end.

(** [i < legacy.frame_max] when validation has passed: [frame_max] is a
    number. *)
Definition below_frame_max (legacy : value) (i : nat) : bool :=
  match JS.getProp legacy "frame_max" with
  | Ok (VNum frame_max) => Number.ltb (Number.Int (Z.of_nat i)) frame_max
  | _ => false
  end.

Fixpoint convert_frames (fuel : nat) (legacy : value) (i : nat)
    (frames : list value) : option (result (list value)) :=
  if below_frame_max legacy i then
    match fuel with
    | O => None
    | S fuel' =>
        match convert_frame legacy i with
        | Some (Ok frame) => convert_frames fuel' legacy (S i) (frames ++ [frame])
        | Some (Throw e) => Some (Throw e)
        | None => None
        end
    end
  else Some (Ok frames).

Definition convertMetadata (fuel : nat) (legacy : value) : option (result value) :=
  match convert_frames fuel legacy 0 [] with
  | Some (Ok frames) =>
      Some (ratio <- JS.getProp legacy "ratio" ;;
            Ok (VObj [("ratio", ratio); ("frame", VArr frames)]))
  | Some (Throw e) => Some (Throw e)
  | None => None
  end.

End Untyped.

Module ConvertOptions.
Record t := {
  webp : option WebP.WebPOptions.t
}.
End ConvertOptions.

Section Convert.
Variable sharp_metadata : Buffer -> string + ImageMetadata.t.
Variable sharp_webp : Buffer -> WebP.SharpWebpOptions.t -> string + Buffer.
Variable sharp_composite :
  Z -> Z -> list WebP.OverlayOptions.t -> WebP.SharpWebpOptions.t -> string + Buffer.
Variable base64_decode : string -> Buffer.
Variable uninit : nat -> byte.

Definition convertImages (bitmaps : list string)
    (options : option WebP.WebPOptions.t) : result ImageConversionResult.t :=
  let validBitmaps :=
    filter (fun bitmap => (0 <? String.length bitmap)%nat) bitmaps in
  if (length validBitmaps =? 0)%nat then
    Throw (H5 (Errors.createConversionFailedError "没有有效的图片数据可转换"))
  else
    match WebP.combineBase64ImagesToWebP sharp_metadata sharp_webp
            sharp_composite base64_decode validBitmaps options with
    | Ok images => Ok images
    | Throw error =>
        if is_H5AnimateError error then Throw error
        else
          Throw (H5 (Errors.createConversionFailedError
                       ("图像转换失败: " ++ WebP.error_message error)%string))
    end.

(** [options = {}] is [None] when the argument is left out.  [fuel]
    bounds the rounds of [convertMetadata] that the model follows;
    [None] is a run that goes on past it. *)
Definition convertToH5Animate (fuel : nat) (legacyData : LegacyAnimateFile.t)
    (options : option ConvertOptions.t) : option (result Buffer) :=
  match validateLegacyFormat (legacy_value legacyData) with
  | Throw e => Some (Throw e)
  | Ok _ =>
      match convertImages (LegacyAnimateFile.bitmaps legacyData)
              (match options with
               | Some o => ConvertOptions.webp o
               | None => None
               end) with
      | Throw e => Some (Throw e)
      | Ok images =>
          let webpData := ImageConversionResult.webpData images in
          let spriteInfo := ImageConversionResult.spriteInfo images in
          match convertMetadata fuel legacyData with
          | None => None
          | Some meta =>
              Some (Encoder.encodeH5Animate uninit
                      (Some {| Encoder.MetaInput.ratio :=
                                 Some (H5AnimateMeta.ratio meta);
                               Encoder.MetaInput.frame :=
                                 Some (H5AnimateMeta.frame meta) |})
                      (Some {| Encoder.SpriteInfoInput.count :=
                                 Some (SpriteInfo.count spriteInfo);
                               Encoder.SpriteInfoInput.dimensions :=
                                 Some (SpriteInfo.dimensions spriteInfo) |})
                      (Some webpData))
          end
      end
  end.
End Convert.

End Converter.

(** ** validation.ts *)

Module ValidationResult.
Record t := {
  valid : bool;
  errors : list string
}.
End ValidationResult.

Module Validation.

Definition getTypeDescription (v : value) : string :=
  match v with
  | VNull => "null"
  | VUndefined => "undefined"
  | VArr _ => "array"
  | VBool _ => "boolean"
  | VNum _ => "number"
  | VStr _ => "string"
  | VObj _ => "object"
  end.

(** [v !== null && typeof v === "object"] *)
Definition is_object (v : value) : bool :=
  match v with
  | VObj _ | VArr _ => true
  | _ => false
  end.

(** The named properties of [v as Record<string, unknown>]; an array
    has none of the names that are looked up. *)
Definition record_of (v : value) : list (string * value) :=
  match v with
  | VObj props => props
  | _ => []
  end.

(** [name in obj && obj[name] !== undefined] *)
Definition is_set (obj : list (string * value)) (name : string) : bool :=
  Converter.has_own obj name
  && match JS.get_own obj name with
     | VUndefined => false
     | _ => true
     end.

(** [if (typeof obj[name] !== "number") throw createTypeMismatchError(...)] *)
Definition expect_number (obj : list (string * value)) (name fieldPath : string)
    : result Number.t :=
  match JS.get_own obj name with
  | VNum n => Ok n
  | other =>
      Throw (H5 (Errors.createTypeMismatchError fieldPath "number"
                   (getTypeDescription other)))
  end.

(** [for (let i = 0; i < items.length; i++) validate(items[i], path + "[i]")],
    from index [i] on. *)
Fixpoint validate_each (validate : value -> string -> result unit)
    (path : string) (i : Z) (items : list value) : result unit :=
  match items with
  | [] => Ok tt
  | item :: rest =>
      _ <- validate item (path ++ "[" ++ string_of_Z i ++ "]")%string ;;
      validate_each validate path (i + 1) rest
  end.

Definition validateSoundMeta (sound : value) (path : string) : result unit :=
  if negb (is_object sound) then
    Throw (H5 (Errors.createTypeMismatchError path "object"
                 (getTypeDescription sound)))
  else
    let obj := record_of sound in
    if negb (Converter.has_own obj "name") then
      Throw (H5 (Errors.createMissingFieldError ["name"] (Some path)))
    else
      match JS.get_own obj "name" with
      | VStr _ =>
          _ <- (if is_set obj "volume" then
                  _ <- expect_number obj "volume" (path ++ ".volume") ;; Ok tt
                else Ok tt) ;;
          if is_set obj "pitch" then
            _ <- expect_number obj "pitch" (path ++ ".pitch") ;; Ok tt
          else Ok tt
      | other =>
          Throw (H5 (Errors.createTypeMismatchError (path ++ ".name") "string"
                       (getTypeDescription other)))
      end.

Definition validateH5AnimateObject (obj : value) (path : string) : result unit :=
  if negb (is_object obj) then
    Throw (H5 (Errors.createTypeMismatchError path "object"
                 (getTypeDescription obj)))
  else
    let data := record_of obj in
    let requiredFields := ["index"; "x"; "y"; "scale"; "opacity"]%string in
    let missingFields :=
      filter (fun field => negb (Converter.has_own data field)) requiredFields in
    if (0 <? length missingFields)%nat then
      Throw (H5 (Errors.createMissingFieldError missingFields (Some path)))
    else
      index <- expect_number data "index" (path ++ ".index") ;;
      _ <- expect_number data "x" (path ++ ".x") ;;
      _ <- expect_number data "y" (path ++ ".y") ;;
      _ <- expect_number data "scale" (path ++ ".scale") ;;
      opacity <- expect_number data "opacity" (path ++ ".opacity") ;;
      _ <- (if is_set data "mirror" then
              _ <- expect_number data "mirror" (path ++ ".mirror") ;; Ok tt
            else Ok tt) ;;
      _ <- (if is_set data "rotate" then
              _ <- expect_number data "rotate" (path ++ ".rotate") ;; Ok tt
            else Ok tt) ;;
      if Number.ltb index (Number.Int 0) then
        Throw (H5 (Errors.createValueOutOfRangeError (path ++ ".index") index
                     (Some 0) None))
      else if Number.ltb opacity (Number.Int 0)
              || Number.gtb opacity (Number.Int 255) then
        Throw (H5 (Errors.createValueOutOfRangeError (path ++ ".opacity") opacity
                     (Some 0) (Some 255)))
      else Ok tt.

Definition validateH5AnimateFrame (frame : value) (path : string) : result unit :=
  if negb (is_object frame) then
    Throw (H5 (Errors.createTypeMismatchError path "object"
                 (getTypeDescription frame)))
  else
    let data := record_of frame in
    _ <- (if is_set data "sound" then
            match JS.get_own data "sound" with
            | VArr sounds =>
                validate_each validateSoundMeta (path ++ ".sound") 0 sounds
            | other =>
                Throw (H5 (Errors.createTypeMismatchError (path ++ ".sound")
                             "array" (getTypeDescription other)))
            end
          else Ok tt) ;;
    if is_set data "objects" then
      match JS.get_own data "objects" with
      | VArr objects =>
          validate_each validateH5AnimateObject (path ++ ".objects") 0 objects
      | other =>
          Throw (H5 (Errors.createTypeMismatchError (path ++ ".objects")
                       "array" (getTypeDescription other)))
      end
    else Ok tt.

Definition validateH5AnimateMeta (meta : value) : result unit :=
  if negb (is_object meta) then
    Throw (H5 (Errors.createTypeMismatchError "meta" "object"
                 (getTypeDescription meta)))
  else
    let data := record_of meta in
    let missingFields :=
      ((if Converter.has_own data "ratio" then [] else ["ratio"%string])
       ++ (if Converter.has_own data "frame" then [] else ["frame"%string]))%list in
    if (0 <? length missingFields)%nat then
      Throw (H5 (Errors.createMissingFieldError missingFields (Some "meta"%string)))
    else
      ratio <- expect_number data "ratio" "meta.ratio" ;;
      if Number.leb ratio (Number.Int 0) then
        Throw (H5 (Errors.createValueOutOfRangeError "meta.ratio" ratio
                     (Some 0) None))
      else
        match JS.get_own data "frame" with
        | VArr frames => validate_each validateH5AnimateFrame "meta.frame" 0 frames
        | other =>
            Throw (H5 (Errors.createTypeMismatchError "meta.frame" "array"
                         (getTypeDescription other)))
        end.

Definition validateSpriteDimension (dimension : value) (path : string)
    : result unit :=
  if negb (is_object dimension) then
    Throw (H5 (Errors.createTypeMismatchError path "object"
                 (getTypeDescription dimension)))
  else
    let data := record_of dimension in
    let missingFields :=
      ((if Converter.has_own data "width" then [] else ["width"%string])
       ++ (if Converter.has_own data "height" then [] else ["height"%string]))%list in
    if (0 <? length missingFields)%nat then
      Throw (H5 (Errors.createMissingFieldError missingFields (Some path)))
    else
      width <- expect_number data "width" (path ++ ".width") ;;
      height <- expect_number data "height" (path ++ ".height") ;;
      if Number.leb width (Number.Int 0) then
        Throw (H5 (Errors.createValueOutOfRangeError (path ++ ".width") width
                     (Some 1) None))
      else if Number.leb height (Number.Int 0) then
        Throw (H5 (Errors.createValueOutOfRangeError (path ++ ".height") height
                     (Some 1) None))
      else Ok tt.

Definition validateSpriteInfo (spriteInfo : value) : result unit :=
  if negb (is_object spriteInfo) then
    Throw (H5 (Errors.createTypeMismatchError "spriteInfo" "object"
                 (getTypeDescription spriteInfo)))
  else
    let data := record_of spriteInfo in
    let missingFields :=
      ((if Converter.has_own data "count" then [] else ["count"%string])
       ++ (if Converter.has_own data "dimensions" then [] else ["dimensions"%string]))%list in
    if (0 <? length missingFields)%nat then
      Throw (H5 (Errors.createMissingFieldError missingFields
                   (Some "spriteInfo"%string)))
    else
      count <- expect_number data "count" "spriteInfo.count" ;;
      if Number.ltb count (Number.Int 0) then
        Throw (H5 (Errors.createValueOutOfRangeError "spriteInfo.count" count
                     (Some 0) None))
      else
        match JS.get_own data "dimensions" with
        | VArr dimensions =>
            validate_each validateSpriteDimension "spriteInfo.dimensions" 0
              dimensions
        | other =>
            Throw (H5 (Errors.createTypeMismatchError "spriteInfo.dimensions"
                         "array" (getTypeDescription other)))
        end.

Definition validateLegacyAnimateFile (data : value) : result unit :=
  if negb (is_object data) then
    Throw (H5 (Errors.createTypeMismatchError "legacyData" "object"
                 (getTypeDescription data)))
  else
    let obj := record_of data in
    let requiredFields := ["ratio"; "bitmaps"; "frame_max"; "frames"]%string in
    let missingFields :=
      filter (fun field => negb (Converter.has_own obj field)) requiredFields in
    if (0 <? length missingFields)%nat then
      Throw (H5 (Errors.createMissingFieldError missingFields
                   (Some "legacyData"%string)))
    else
      _ <- expect_number obj "ratio" "legacyData.ratio" ;;
      match JS.get_own obj "bitmaps" with
      | VArr _ =>
          frame_max <- expect_number obj "frame_max" "legacyData.frame_max" ;;
          if Number.ltb frame_max (Number.Int 0) then
            Throw (H5 (Errors.createValueOutOfRangeError "legacyData.frame_max"
                         frame_max (Some 0) None))
          else
            match JS.get_own obj "frames" with
            | VArr _ =>
                _ <- (if is_set obj "se" then
                        match JS.get_own obj "se" with
                        | VStr _ | VObj _ | VArr _ => Ok tt
                        | other =>
                            Throw (H5 (Errors.createTypeMismatchError
                                         "legacyData.se" "string | object"
                                         (getTypeDescription other)))
                        end
                      else Ok tt) ;;
                if is_set obj "pitch" then
                  match JS.get_own obj "pitch" with
                  | VObj _ | VArr _ => Ok tt
                  | other =>
                      Throw (H5 (Errors.createTypeMismatchError
                                   "legacyData.pitch" "object"
                                   (getTypeDescription other)))
                  end
                else Ok tt
            | other =>
                Throw (H5 (Errors.createTypeMismatchError "legacyData.frames"
                             "array" (getTypeDescription other)))
            end
      | other =>
          Throw (H5 (Errors.createTypeMismatchError "legacyData.bitmaps" "array"
                       (getTypeDescription other)))
      end.

(** [try { validate(v); return { valid: true, errors: [] } }
    catch (error) { errors.push(error.message); return { valid: false, errors } }] *)
Definition safely (r : result unit) : ValidationResult.t :=
  match r with
  | Ok _ => {| ValidationResult.valid := true; ValidationResult.errors := [] |}
  | Throw error =>
      {| ValidationResult.valid := false;
         ValidationResult.errors := [WebP.error_message error] |}
  end.

Definition validateH5AnimateMetaSafe (meta : value) : ValidationResult.t :=
  safely (validateH5AnimateMeta meta).

Definition validateSpriteInfoSafe (spriteInfo : value) : ValidationResult.t :=
  safely (validateSpriteInfo spriteInfo).

(** [webpData] is [None] when it is not a [Buffer]. *)
Definition validateEncodeInputComplete (meta spriteInfo : value)
    (webpData : option Buffer) : result unit :=
  _ <- validateH5AnimateMeta meta ;;
  _ <- validateSpriteInfo spriteInfo ;;
  match webpData with
  | None => Throw (H5 (Errors.createValidationError "webpData 必须是 Buffer 类型" None))
  | Some data =>
      if blength data =? 0 then
        Throw (H5 (Errors.createValidationError "webpData 不能为空" None))
      else Ok tt
  end.

End Validation.

(** ** Reachable parser states

    A [BinaryParser] is created by [new] and moved only by its read
    methods; the states below are those a caller reaches when every byte
    count it passes is non-negative. *)

Inductive parser_reachable (b : Buffer) : BinaryParser.t -> Prop :=
| reach_new : parser_reachable b (BinaryParser.new b)
| reach_readUInt32LE p v p' :
    parser_reachable b p ->
    BinaryParser.readUInt32LE p = Ok (v, p') ->
    parser_reachable b p'
| reach_readString p n s p' :
    parser_reachable b p -> 0 <= n ->
    BinaryParser.readString n p = Ok (s, p') ->
    parser_reachable b p'
| reach_readBytes p n bs p' :
    parser_reachable b p -> 0 <= n ->
    BinaryParser.readBytes n p = Ok (bs, p') ->
    parser_reachable b p'.

(** The two outcomes of a read of [n] bytes in state [p]: the bounds
    error, or a value described by [payload] and the cursor [n] further. *)
Definition read_outcome {A} (r : result (A * BinaryParser.t))
    (p : BinaryParser.t) (n : Z) (payload : A -> Prop) : Prop :=
  if BinaryParser.offset p + n >? blength (BinaryParser.buffer p) then
    exists e, r = Throw (H5 e)
              /\ Errors.code e = Errors.CORRUPTED_HEADER
              /\ Errors.position e = Some (BinaryParser.offset p)
  else
    exists a p', r = Ok (a, p')
                 /\ payload a
                 /\ BinaryParser.buffer p' = BinaryParser.buffer p
                 /\ BinaryParser.offset p' = BinaryParser.offset p + n
                 /\ BinaryParser.offset p' <= blength (BinaryParser.buffer p').

(** The [n] bytes of the buffer that start at the cursor. *)
Definition bytes_at_cursor (p : BinaryParser.t) (n : Z) : Buffer :=
  take (Z.to_nat n) (drop (Z.to_nat (BinaryParser.offset p)) (BinaryParser.buffer p)).

(** ** Vocabulary of the specification

    The predicates and auxiliary values that the statements of the second
    part are written with. *)

(** The entry of the sparse pitch map for a frame. *)
Definition pitch_entry (legacy : LegacyAnimateFile.t) (i : Z)
    : option Number.t :=
  match LegacyAnimateFile.pitch legacy with
  | Some pitch => pitch !! i
  | None => None
  end.

Definition plain_sound (name : string) (pitch : option Number.t) : SoundMeta.t :=
  {| SoundMeta.name := name; SoundMeta.volume := None; SoundMeta.pitch := pitch |}.

(** What a successful run of a writer method keeps: the length of the
    buffer, and every byte below the cursor it started from. *)
Definition keeps_below (w w' : BinaryWriter.t) : Prop :=
  length (BinaryWriter.buffer w') = length (BinaryWriter.buffer w)
  /\ BinaryWriter.offset w <= BinaryWriter.offset w'
  /\ forall k : nat,
       Z.of_nat k <= BinaryWriter.offset w ->
       take k (BinaryWriter.buffer w') = take k (BinaryWriter.buffer w).

(** The little-endian word stored at a byte offset of a buffer. *)
Definition u32_at (b : Buffer) (off : nat) : Z := u32le_value (drop off b).

(** The numbers that a JSON text carries unchanged: the doubles that
    are finite and not [-0]. *)
Definition stable_number (x : Number.t) : bool :=
  Number.is_double x && Number.finite x && negb (Number.eqb x Number.NegZero).

(** The values without [undefined] inside, with the keys of an object
    distinct and in the order an object lists them, and with numbers
    that a text carries: those that [JSON.parse] can return. *)
Inductive json_clean : value -> Prop :=
| clean_null : json_clean VNull
| clean_bool b : json_clean (VBool b)
| clean_num n : stable_number n = true -> json_clean (VNum n)
| clean_str s : json_clean (VStr s)
| clean_arr items : Forall json_clean items -> json_clean (VArr items)
| clean_obj props :
    Forall (fun kv => json_clean (snd kv)) props ->
    NoDup (map fst props) ->
    JS.ordered (map fst props) = true ->
    json_clean (VObj props).

Definition starts_nonzero (u : Decimal.uint) : Prop :=
  match u with
  | Decimal.Nil | Decimal.D0 _ => False
  | _ => True
  end.

(** The text an array prints for one element. *)
Definition element_text (c : value) : list byte :=
  match JSON.text c with
  | Some t => t
  | None => JSON.null_text
  end.

(** A text that starts a value: its first byte is neither white space
    nor a closing bracket or brace. *)
Definition head_ok (t : list byte) : Prop :=
  exists c r, t = c :: r /\ JSON.is_ws c = false
              /\ Byte.eqb c x5d = false /\ Byte.eqb c x7d = false.

(** What follows cannot continue a numeral: it does not start with a
    digit, a point or an exponent mark. *)
Definition ends_number (rest : list byte) : bool :=
  match rest with
  | [] => true
  | c :: _ =>
      negb (JSON.is_digit c || Byte.eqb c x2e || Byte.eqb c x65 || Byte.eqb c x45)
  end.

(** [parse_value] with fuel [f] reads [v] back from [t], whatever
    follows that cannot continue a number. *)
Definition parses_back (f : nat) (v : value) (t : list byte) : Prop :=
  forall rest, ends_number rest = true ->
               JSON.parse_value f (t ++ rest) = Some (v, rest).

Definition reads_back (f : nat) (v : value) : Prop :=
  exists t, JSON.text v = Some t /\ head_ok t /\ parses_back f v t.

(** The text an object prints for one member with a printable value. *)
Definition member_text (kv : string * value) : list byte :=
  (JSON.quote (fst kv) ++ x3a :: element_text (snd kv))%list.

Definition or_zero (o : option Number.t) : Number.t :=
  match o with
  | Some n => n
  | None => Number.Int 0
  end.

(** The compact seven-element array of an object. *)
Definition raw_object (o : H5AnimateObject.t) : value :=
  VArr [VNum (H5AnimateObject.index o); VNum (H5AnimateObject.x o);
        VNum (H5AnimateObject.y o); VNum (H5AnimateObject.scale o);
        VNum (H5AnimateObject.opacity o);
        VNum (or_zero (H5AnimateObject.mirror o));
        VNum (or_zero (H5AnimateObject.rotate o))].

Definition raw_frame (f : H5AnimateFrame.t) : value :=
  let sound :=
    match H5AnimateFrame.sound f with
    | Some l => [("sound", VArr (map Embed.sound_value l))]
    | None => []
    end in
  let objects :=
    match H5AnimateFrame.objects f with
    | Some l => [("objects", VArr (map raw_object l))]
    | None => []
    end in
  VObj (if H5AnimateFrame.objects_first f then objects ++ sound
        else sound ++ objects).

(** The tree that is printed into the file: objects in compact form. *)
Definition raw_meta (m : H5AnimateMeta.t) : value :=
  VObj [("ratio", VNum (H5AnimateMeta.ratio m));
        ("frame", VArr (map raw_frame (H5AnimateMeta.frame m)))].

Definition index_key (i : nat) : string := string_of_Z (Z.of_nat i).

(** No key is repeated in a list of property names given in full. *)
Ltac distinct_keys := apply (bool_decide_unpack _); vm_compute; exact I.

(** The text of the metadata block, and [JSON.stringify] producing it. *)
Definition meta_text (m : H5AnimateMeta.t) : list byte :=
  element_text (raw_meta m).

(** A writer that has produced [done] and still has [rest] to fill. *)
Definition wstate (done rest : Buffer) : BinaryWriter.t :=
  {| BinaryWriter.buffer := done ++ rest; BinaryWriter.offset := blength done |}.

(** A parser that has consumed [seen] and still has [rest] to read. *)
Definition pstate (seen rest : Buffer) : BinaryParser.t :=
  {| BinaryParser.buffer := seen ++ rest; BinaryParser.offset := blength seen |}.

Definition dimension_bytes (d : SpriteDimension.t) : Buffer :=
  u32le_bytes (SpriteDimension.width d) ++ u32le_bytes (SpriteDimension.height d).

Definition is_u32 (v : Z) : Prop := 0 <= v < 4294967296.

(** The file of section 6 of the design: header, sprite table, pixel
    payload, metadata. *)
Definition encoded_layout (s : SpriteInfo.t) (w t : Buffer) : Buffer :=
  list_byte_of_string Encoder.FILE_SIGNATURE
  ++ u32le_bytes Encoder.CURRENT_VERSION
  ++ u32le_bytes (Encoder.getSpriteInfoSize s + blength w)
  ++ u32le_bytes (blength t)
  ++ u32le_bytes (SpriteInfo.count s)
  ++ flat_map dimension_bytes (SpriteInfo.dimensions s)
  ++ w ++ t.

(** The numbers held in the metadata. *)
Definition option_numbers (o : option Number.t) : list Number.t :=
  match o with
  | Some n => [n]
  | None => []
  end.

Definition sound_numbers (s : SoundMeta.t) : list Number.t :=
  option_numbers (SoundMeta.volume s) ++ option_numbers (SoundMeta.pitch s).

Definition object_numbers (o : H5AnimateObject.t) : list Number.t :=
  [H5AnimateObject.index o; H5AnimateObject.x o; H5AnimateObject.y o;
   H5AnimateObject.scale o; H5AnimateObject.opacity o]
  ++ option_numbers (H5AnimateObject.mirror o)
  ++ option_numbers (H5AnimateObject.rotate o).

Definition frame_numbers (f : H5AnimateFrame.t) : list Number.t :=
  match H5AnimateFrame.sound f with
  | Some sounds => flat_map sound_numbers sounds
  | None => []
  end
  ++ match H5AnimateFrame.objects f with
     | Some objects => flat_map object_numbers objects
     | None => []
     end.

Definition meta_numbers (m : H5AnimateMeta.t) : list Number.t :=
  H5AnimateMeta.ratio m :: flat_map frame_numbers (H5AnimateMeta.frame m).

(** Metadata whose numbers a JSON text carries unchanged. *)
Definition stable_meta (m : H5AnimateMeta.t) : Prop :=
  Forall (fun x => stable_number x = true) (meta_numbers m).

(** What makes a triple encodable: the sprite count is the number of
    dimensions, widths and heights are positive 32-bit values, and the
    two sizes stored in the header fit their 32-bit fields. *)
Definition valid_triple (m : H5AnimateMeta.t) (s : SpriteInfo.t) (w : Buffer)
    : Prop :=
  SpriteInfo.count s = Z.of_nat (length (SpriteInfo.dimensions s))
  /\ Forall (fun d => 0 < SpriteDimension.width d < 4294967296
                      /\ 0 < SpriteDimension.height d < 4294967296)
       (SpriteInfo.dimensions s)
  /\ Encoder.getSpriteInfoSize s + blength w < 4294967296
  /\ blength (meta_text m) < 4294967296.

(** The arguments of [encodeH5Animate] that hold typed values. *)
Definition meta_input (m : H5AnimateMeta.t) : Encoder.MetaInput.t :=
  {| Encoder.MetaInput.ratio := Some (H5AnimateMeta.ratio m);
     Encoder.MetaInput.frame := Some (H5AnimateMeta.frame m) |}.

Definition spriteInfo_input (s : SpriteInfo.t) : Encoder.SpriteInfoInput.t :=
  {| Encoder.SpriteInfoInput.count := Some (SpriteInfo.count s);
     Encoder.SpriteInfoInput.dimensions := Some (SpriteInfo.dimensions s) |}.

(** The metadata with the defaults of [mirror] and [rotate] filled in,
    as [convertArraysToObjects] builds it: every frame with [sound]
    before [objects]. *)
Definition normalize_object (o : H5AnimateObject.t) : H5AnimateObject.t :=
  {| H5AnimateObject.index := H5AnimateObject.index o;
     H5AnimateObject.x := H5AnimateObject.x o;
     H5AnimateObject.y := H5AnimateObject.y o;
     H5AnimateObject.scale := H5AnimateObject.scale o;
     H5AnimateObject.opacity := H5AnimateObject.opacity o;
     H5AnimateObject.mirror := Some (or_zero (H5AnimateObject.mirror o));
     H5AnimateObject.rotate := Some (or_zero (H5AnimateObject.rotate o)) |}.

Definition normalize_frame (f : H5AnimateFrame.t) : H5AnimateFrame.t :=
  {| H5AnimateFrame.sound := H5AnimateFrame.sound f;
     H5AnimateFrame.objects :=
       option_map (map normalize_object) (H5AnimateFrame.objects f);
     H5AnimateFrame.objects_first := false |}.

Definition normalize_meta (m : H5AnimateMeta.t) : H5AnimateMeta.t :=
  {| H5AnimateMeta.ratio := H5AnimateMeta.ratio m;
     H5AnimateMeta.frame := map normalize_frame (H5AnimateMeta.frame m) |}.

(** What [convertArraysToObjects] builds for one frame and for the whole
    metadata: every frame has both properties, [undefined] when absent. *)
Definition decoded_frame (f : H5AnimateFrame.t) : value :=
  VObj [("sound",
         match H5AnimateFrame.sound f with
         | Some l => VArr (map Embed.sound_value l)
         | None => VUndefined
         end);
        ("objects",
         match H5AnimateFrame.objects f with
         | Some l => VArr (map (fun o => Embed.object_value (normalize_object o)) l)
         | None => VUndefined
         end)].

Definition decoded_meta (m : H5AnimateMeta.t) : value :=
  VObj [("ratio", VNum (H5AnimateMeta.ratio m));
        ("frame", VArr (map decoded_frame (H5AnimateMeta.frame m)))].

(** ** Sample inputs *)

Definition sample_object : H5AnimateObject.t :=
  {| H5AnimateObject.index := Number.Int 0;
     H5AnimateObject.x := Number.Frac false 105 1;
     H5AnimateObject.y := Number.Int (-20);
     H5AnimateObject.scale := Number.Int 100;
     H5AnimateObject.opacity := Number.Int 255;
     H5AnimateObject.mirror := None;
     H5AnimateObject.rotate := Some (Number.Int 90) |}.

Definition sample_sound : SoundMeta.t :=
  {| SoundMeta.name := "hit.mp3";
     SoundMeta.volume := Some (Number.Frac false 8 1);
     SoundMeta.pitch := Some (Number.Frac false 15 1) |}.

Definition sample_meta : H5AnimateMeta.t :=
  {| H5AnimateMeta.ratio := Number.Int 2;
     H5AnimateMeta.frame :=
       [{| H5AnimateFrame.sound := Some [sample_sound];
           H5AnimateFrame.objects := Some [sample_object];
           H5AnimateFrame.objects_first := true |};
        {| H5AnimateFrame.sound := None; H5AnimateFrame.objects := None;
           H5AnimateFrame.objects_first := false |}] |}.

(** Metadata of the declared type whose ratio and whose only opacity
    are [NaN]. *)
Definition nan_meta : H5AnimateMeta.t :=
  {| H5AnimateMeta.ratio := Number.NaN;
     H5AnimateMeta.frame :=
       [{| H5AnimateFrame.sound := None;
           H5AnimateFrame.objects :=
             Some [{| H5AnimateObject.index := Number.Int 0;
                      H5AnimateObject.x := Number.Int 1;
                      H5AnimateObject.y := Number.Int 2;
                      H5AnimateObject.scale := Number.Int 100;
                      H5AnimateObject.opacity := Number.NaN;
                      H5AnimateObject.mirror := None;
                      H5AnimateObject.rotate := None |}];
           H5AnimateFrame.objects_first := false |}] |}.

Definition sample_spriteInfo : SpriteInfo.t :=
  {| SpriteInfo.count := 1;
     SpriteInfo.dimensions :=
       [{| SpriteDimension.width := 100; SpriteDimension.height := 200 |}] |}.

Definition sample_webpData : Buffer := [x52; x49; x46; x46].

Definition zero_fill : nat -> byte := fun _ => x00.

(** A JSON text written with apostrophes where it has quotation
    marks. *)
Definition json_of (s : string) : string :=
  string_of_list_byte
    (map (fun c => match c with x27 => x22 | _ => c end) (list_byte_of_string s)).

(** A two-byte file. *)
Definition short_buffer : Buffer := [x41; x4e].


Definition empty_meta : H5AnimateMeta.t :=
  {| H5AnimateMeta.ratio := Number.Int 1; H5AnimateMeta.frame := [] |}.

(** A file whose header declares 8 bytes of image data although its
    sprite table alone takes 12: one sprite, width 1, and the metadata
    text placed where the height would be. *)
Definition negative_size_buffer : Buffer :=
  list_byte_of_string "ANIM" ++ u32le_bytes 1 ++ u32le_bytes 8
  ++ u32le_bytes (blength (meta_text empty_meta))
  ++ u32le_bytes 1 ++ u32le_bytes 1 ++ meta_text empty_meta.

(** A file whose metadata block is the JSON text [null]. *)
Definition null_metadata_buffer : Buffer :=
  list_byte_of_string "ANIM" ++ u32le_bytes 1 ++ u32le_bytes 4
  ++ u32le_bytes 4 ++ u32le_bytes 0 ++ JSON.null_text.

(** A sprite table with a negative width. *)
Definition negative_width_spriteInfo : SpriteInfo.t :=
  {| SpriteInfo.count := 1;
     SpriteInfo.dimensions :=
       [{| SpriteDimension.width := -1; SpriteDimension.height := 1 |}] |}.

(** An image library that measures every sheet as 100 by 50 and crops to
    an empty image. *)
Definition sample_sharp_metadata (b : Buffer) : string + ImageMetadata.t :=
  inr {| ImageMetadata.width := Some 100; ImageMetadata.height := Some 50 |}.

Definition sample_sharp_extract (b : Buffer) (left top width height : Z)
    : string + Buffer :=
  inr [].

Definition sample_frame_options : ExtractFrameOptions.t :=
  {| ExtractFrameOptions.width := None; ExtractFrameOptions.height := 50 |}.

(** Legacy files: one with a global sound, one whose [se] is the empty
    string, one with sparse maps. *)
Definition legacy_global_sound : LegacyAnimateFile.t :=
  {| LegacyAnimateFile.ratio := Number.Int 2;
     LegacyAnimateFile.se := Some (SeString "hit.mp3");
     LegacyAnimateFile.pitch := None;
     LegacyAnimateFile.bitmaps := [];
     LegacyAnimateFile.frame_max := Number.Int 2;
     LegacyAnimateFile.frames := [[]] |}.

Definition legacy_empty_sound : LegacyAnimateFile.t :=
  {| LegacyAnimateFile.ratio := Number.Int 2;
     LegacyAnimateFile.se := Some (SeString EmptyString);
     LegacyAnimateFile.pitch := None;
     LegacyAnimateFile.bitmaps := [];
     LegacyAnimateFile.frame_max := Number.Int 2;
     LegacyAnimateFile.frames := [[]] |}.

Definition legacy_sparse_sound : LegacyAnimateFile.t :=
  {| LegacyAnimateFile.ratio := Number.Int 2;
     LegacyAnimateFile.se := Some (SeMap {[ 2 := "x.mp3"%string ]});
     LegacyAnimateFile.pitch := Some {[ 2 := Number.Frac false 15 1 ]};
     LegacyAnimateFile.bitmaps := [];
     LegacyAnimateFile.frame_max := Number.Int 3;
     LegacyAnimateFile.frames := [] |}.




(** Metadata with a pitch that is [NaN], and metadata with an [x] that
    is [-0]. *)
Definition nan_pitch_meta : H5AnimateMeta.t :=
  {| H5AnimateMeta.ratio := Number.Int 1;
     H5AnimateMeta.frame :=
       [{| H5AnimateFrame.sound :=
             Some [{| SoundMeta.name := "hit.mp3";
                      SoundMeta.volume := None;
                      SoundMeta.pitch := Some Number.NaN |}];
           H5AnimateFrame.objects := None;
           H5AnimateFrame.objects_first := false |}] |}.

Definition negative_zero_meta : H5AnimateMeta.t :=
  {| H5AnimateMeta.ratio := Number.Int 1;
     H5AnimateMeta.frame :=
       [{| H5AnimateFrame.sound := None;
           H5AnimateFrame.objects :=
             Some [{| H5AnimateObject.index := Number.Int 0;
                      H5AnimateObject.x := Number.NegZero;
                      H5AnimateObject.y := Number.Int 0;
                      H5AnimateObject.scale := Number.Int 100;
                      H5AnimateObject.opacity := Number.Int 255;
                      H5AnimateObject.mirror := Some (Number.Int 0);
                      H5AnimateObject.rotate := Some (Number.Int 0) |}];
           H5AnimateFrame.objects_first := false |}] |}.

(** ** Vocabulary of the further properties *)

(** A parser at a given offset of a buffer. *)
Definition parser_at (b : Buffer) (off : Z) : BinaryParser.t :=
  {| BinaryParser.buffer := b; BinaryParser.offset := off |}.

(** The sprite table of [n] entries stored from byte [off] on. *)
Definition table_at (b : Buffer) (off : Z) (n : nat) : list SpriteDimension.t :=
  map (fun i : nat =>
         {| SpriteDimension.width := u32_at b (Z.to_nat (off + 8 * Z.of_nat i));
            SpriteDimension.height := u32_at b (Z.to_nat (off + 8 * Z.of_nat i + 4)) |})
    (seq 0 n).

(** The parts of a file that the decoder reads, by position: the sizes
    at offsets 8 and 12, the sprite count at offset 16, the sprite table
    from offset 20, the pixel payload after it and the metadata text
    after the declared image data. *)
Definition sprite_table_of (b : Buffer) : SpriteInfo.t :=
  {| SpriteInfo.count := u32_at b 16;
     SpriteInfo.dimensions := table_at b 20 (Z.to_nat (u32_at b 16)) |}.

Definition payload_of (b : Buffer) : Buffer :=
  take (Z.to_nat (u32_at b 8 - (4 + u32_at b 16 * 8)))
    (drop (Z.to_nat (20 + 8 * u32_at b 16)) b).

Definition metadata_of (b : Buffer) : Buffer :=
  take (Z.to_nat (u32_at b 12)) (drop (Z.to_nat (16 + u32_at b 8)) b).

(** The file is long enough for what its header and sprite count
    declare. *)
Definition parts_fit (b : Buffer) : Prop :=
  20 <= blength b
  /\ 20 + 8 * u32_at b 16 <= blength b
  /\ 16 + u32_at b 8 + u32_at b 12 <= blength b.

(** A file of twenty bytes that declares one sprite and stops there. *)
Definition cut_table_buffer : Buffer :=
  list_byte_of_string "ANIM" ++ u32le_bytes 1 ++ u32le_bytes 12
  ++ u32le_bytes 2 ++ u32le_bytes 1.

(** A file cut inside its header, after the version. *)
Definition cut_header_buffer : Buffer :=
  list_byte_of_string "ANIM" ++ u32le_bytes 1 ++ [x0c; x00].

(** The encoded sample. *)
Definition sample_file : Buffer :=
  encoded_layout sample_spriteInfo sample_webpData (meta_text sample_meta).


(** What the encoded sample decodes to. *)
Definition sample_decoded : DecodedH5Animate.t :=
  {| DecodedH5Animate.meta := decoded_meta sample_meta;
     DecodedH5Animate.spriteInfo := sample_spriteInfo;
     DecodedH5Animate.webpData := sample_webpData |}.

(** A file with an empty sprite table, no payload and no metadata. *)
Definition blank_metadata_buffer : Buffer :=
  list_byte_of_string "ANIM" ++ u32le_bytes 1 ++ u32le_bytes 4
  ++ u32le_bytes 0 ++ u32le_bytes 0.

(** What [convertObjectsToArrays] builds: every frame has both
    properties, [undefined] where the frame has none, and the objects are
    in compact form. *)
Definition compact_frame (f : H5AnimateFrame.t) : value :=
  VObj [("sound",
         match H5AnimateFrame.sound f with
         | Some l => VArr (map Embed.sound_value l)
         | None => VUndefined
         end);
        ("objects",
         match H5AnimateFrame.objects f with
         | Some l => VArr (map raw_object l)
         | None => VUndefined
         end)].

Definition compact_meta (m : H5AnimateMeta.t) : value :=
  VObj [("ratio", VNum (H5AnimateMeta.ratio m));
        ("frame", VArr (map compact_frame (H5AnimateMeta.frame m)))].


(** The same metadata with every frame holding [sound] before
    [objects]. *)
Definition sound_first_frame (f : H5AnimateFrame.t) : H5AnimateFrame.t :=
  {| H5AnimateFrame.sound := H5AnimateFrame.sound f;
     H5AnimateFrame.objects := H5AnimateFrame.objects f;
     H5AnimateFrame.objects_first := false |}.

Definition sound_first (m : H5AnimateMeta.t) : H5AnimateMeta.t :=
  {| H5AnimateMeta.ratio := H5AnimateMeta.ratio m;
     H5AnimateMeta.frame := map sound_first_frame (H5AnimateMeta.frame m) |}.

(** A writer over eight cleared bytes with the cursor at 2. *)
Definition sample_writer : BinaryWriter.t :=
  {| BinaryWriter.buffer := [x00; x00; x00; x00; x00; x00; x00; x00];
     BinaryWriter.offset := 2 |}.

(** A legacy file with numbers of every printed form: the ratio 1.5,
    and a layer at [x = 1e21], [y = -1.5e-7], with scale 0.5. *)
Definition legacy_wide_numbers : LegacyAnimateFile.t :=
  {| LegacyAnimateFile.ratio := Number.Frac false 15 1;
     LegacyAnimateFile.se := Some (SeString "hit.mp3");
     LegacyAnimateFile.pitch := None;
     LegacyAnimateFile.bitmaps := ["AAAA"%string];
     LegacyAnimateFile.frame_max := Number.Int 1;
     LegacyAnimateFile.frames :=
       [[{| FrameLayer.at0 := Number.Int 0;
            FrameLayer.at1 := Number.Int 1000000000000000000000;
            FrameLayer.at2 := Number.Frac true 15 8;
            FrameLayer.at3 := Number.Frac false 5 1;
            FrameLayer.at4 := Number.Int 255;
            FrameLayer.at5 := Some (Number.Int 0);
            FrameLayer.at6 := Some (Number.Int 90) |}]] |}.

(** Its JSON text. *)
Definition legacy_sample_text : list byte :=
  element_text (Converter.legacy_value legacy_wide_numbers).

(** What [validateH5AnimateObject] asks of the numbers of an object:
    none of its three comparisons holds.  A comparison with [NaN] never
    holds. *)
Definition object_in_range (o : H5AnimateObject.t) : Prop :=
  Number.ltb (H5AnimateObject.index o) (Number.Int 0) = false
  /\ Number.ltb (H5AnimateObject.opacity o) (Number.Int 0) = false
  /\ Number.gtb (H5AnimateObject.opacity o) (Number.Int 255) = false.

Definition frame_in_range (f : H5AnimateFrame.t) : Prop :=
  match H5AnimateFrame.objects f with
  | Some objects => Forall object_in_range objects
  | None => True
  end.

(** What [validateSpriteDimension] accepts: an object whose [width] and
    [height] are numbers for which [<= 0] does not hold. *)
Definition dimension_accepted (dimension : value) : Prop :=
  exists props width height,
    dimension = VObj props
    /\ JS.get_own props "width" = VNum width
    /\ JS.get_own props "height" = VNum height
    /\ Number.leb width (Number.Int 0) = false
    /\ Number.leb height (Number.Int 0) = false.

(** An optional field of a legacy file as [validateLegacyAnimateFile]
    wants it: absent, an object or an array, and for [se] also a string. *)
Definition optional_field_typed (allow_string : bool) (v : value) : Prop :=
  match v with
  | VUndefined | VObj _ | VArr _ => True
  | VStr _ => allow_string = true
  | _ => False
  end.

(** An image library that encodes an image to itself and composes any
    layers into a sheet of four bytes, and a base64 decoder that returns
    the bytes of its text. *)
Definition sample_sharp_webp (b : Buffer) (o : WebP.SharpWebpOptions.t)
    : string + Buffer :=
  inr b.

Definition sample_sharp_composite (width height : Z)
    (layers : list WebP.OverlayOptions.t) (o : WebP.SharpWebpOptions.t)
    : string + Buffer :=
  inr sample_webpData.

Definition sample_base64_decode (text : string) : Buffer :=
  list_byte_of_string text.

(** The sheet this library makes of two images. *)
Definition sample_sheet : ImageConversionResult.t :=
  {| ImageConversionResult.webpData := sample_webpData;
     ImageConversionResult.spriteInfo :=
       {| SpriteInfo.count := 1;
          SpriteInfo.dimensions :=
            [{| SpriteDimension.width := 100; SpriteDimension.height := 100 |}] |} |}.

(** A legacy file with two bitmaps and an empty one between them, and
    one frame of one layer. *)
Definition legacy_with_bitmaps : LegacyAnimateFile.t :=
  {| LegacyAnimateFile.ratio := Number.Int 2;
     LegacyAnimateFile.se := None;
     LegacyAnimateFile.pitch := None;
     LegacyAnimateFile.bitmaps := ["data:image/png;base64,AAAA"; EmptyString; "BBBB"]%string;
     LegacyAnimateFile.frame_max := Number.Int 1;
     LegacyAnimateFile.frames :=
       [[{| FrameLayer.at0 := Number.Int 0;
            FrameLayer.at1 := Number.Frac false 105 1;
            FrameLayer.at2 := Number.Int 20;
            FrameLayer.at3 := Number.Int 100;
            FrameLayer.at4 := Number.Int 255;
            FrameLayer.at5 := None;
            FrameLayer.at6 := Some (Number.Int 90) |}]] |}.

(** The metadata that [convertMetadata] builds for it. *)
Definition legacy_with_bitmaps_meta : H5AnimateMeta.t :=
  {| H5AnimateMeta.ratio := Number.Int 2;
     H5AnimateMeta.frame :=
       [{| H5AnimateFrame.sound := None;
           H5AnimateFrame.objects :=
             Some [{| H5AnimateObject.index := Number.Int 0;
                      H5AnimateObject.x := Number.Frac false 105 1;
                      H5AnimateObject.y := Number.Int 20;
                      H5AnimateObject.scale := Number.Int 100;
                      H5AnimateObject.opacity := Number.Int 255;
                      H5AnimateObject.mirror := Some (Number.Int 0);
                      H5AnimateObject.rotate := Some (Number.Int 90) |}];
           H5AnimateFrame.objects_first := true |}] |}.

(* ================================================================== *)
(** * Part II: lemmas and theorems                                      *)
(* ================================================================== *)

(** ** Bytes *)

Lemma Z_of_byte_range (b : byte) : 0 <= Z_of_byte b < 256.
Proof.
  unfold Z_of_byte. pose proof (Byte.to_N_bounded b). lia.
Qed.

Lemma Z_of_byte_of_Z (z : Z) : Z_of_byte (byte_of_Z z) = z mod 256.
Proof.
  unfold Z_of_byte, byte_of_Z.
  assert (Hr : 0 <= z mod 256 < 256) by (apply Z.mod_pos_bound; lia).
  destruct (Byte.of_N (Z.to_N (z mod 256))) as [b|] eqn:E.
  - apply Byte.to_of_N in E. rewrite E. lia.
  - pose proof (Byte.to_of_N_option_map (Z.to_N (z mod 256))) as H.
    rewrite E in H. simpl in H.
    destruct (N.leb_spec (Z.to_N (z mod 256)) 255); [discriminate | lia].
Qed.

Lemma byte_of_Z_of_byte (b : byte) : byte_of_Z (Z_of_byte b) = b.
Proof.
  unfold byte_of_Z, Z_of_byte.
  pose proof (Byte.to_N_bounded b).
  rewrite Z.mod_small by lia. rewrite N2Z.id, Byte.of_to_N. reflexivity.
Qed.

Lemma blength_nonneg (b : Buffer) : 0 <= blength b.
Proof. unfold blength. lia. Qed.

Lemma blength_app (a b : Buffer) : blength (a ++ b) = blength a + blength b.
Proof. unfold blength. rewrite length_app. lia. Qed.

Lemma u32le_value_bytes (v : Z) (rest : Buffer) :
  0 <= v < 4294967296 -> u32le_value (u32le_bytes v ++ rest) = v.
Proof.
  intros Hv. unfold u32le_bytes, u32le_value. simpl.
  rewrite !Z_of_byte_of_Z, !Z.shiftr_div_pow2, !Z.shiftl_mul_pow2 by lia.
  change (2 ^ 8) with 256. change (2 ^ 16) with 65536.
  change (2 ^ 24) with 16777216.
  Z.div_mod_to_equations. lia.
Qed.

Lemma u32le_bytes_length (v : Z) : blength (u32le_bytes v) = 4.
Proof. reflexivity. Qed.

(** Inside the buffer, [subarray] is the plain slice. *)
Lemma subarray_slice (b : Buffer) (off n : Z) :
  0 <= off -> 0 <= n -> off + n <= blength b ->
  subarray b off (off + n) = take (Z.to_nat n) (drop (Z.to_nat off) b).
Proof.
  intros Ho Hn Hb. unfold subarray, clamp_index.
  destruct (Z.ltb_spec off 0); [lia|].
  destruct (Z.ltb_spec (off + n) 0); [lia|].
  rewrite !Z.min_l by lia. f_equal. f_equal. lia.
Qed.

(** A view that would end before it starts is empty. *)
Lemma subarray_backwards (b : Buffer) (off n : Z) :
  0 <= off + n -> n < 0 -> subarray b off (off + n) = [].
Proof.
  intros Ho Hn. unfold subarray, clamp_index.
  destruct (Z.ltb_spec off 0); [lia|].
  destruct (Z.ltb_spec (off + n) 0); [lia|].
  replace (Z.to_nat _) with O by lia. reflexivity.
Qed.

(** ** BinaryParser *)

Lemma checkBounds_ok (n : Z) (p : BinaryParser.t) :
  BinaryParser.offset p + n <= blength (BinaryParser.buffer p) ->
  BinaryParser.checkBounds n p = Ok tt.
Proof.
  intros H. unfold BinaryParser.checkBounds.
  destruct (Z.gtb_spec (BinaryParser.offset p + n) (blength (BinaryParser.buffer p)));
    [lia | reflexivity].
Qed.

Lemma checkBounds_throw (n : Z) (p : BinaryParser.t) :
  BinaryParser.offset p + n > blength (BinaryParser.buffer p) ->
  exists e, BinaryParser.checkBounds n p = Throw (H5 e)
            /\ Errors.code e = Errors.CORRUPTED_HEADER
            /\ Errors.position e = Some (BinaryParser.offset p).
Proof.
  intros H. unfold BinaryParser.checkBounds.
  destruct (Z.gtb_spec (BinaryParser.offset p + n) (blength (BinaryParser.buffer p)));
    [| lia].
  eexists. split; [reflexivity|]. split; reflexivity.
Qed.

Lemma readBytes_outcome (p : BinaryParser.t) (n : Z) :
  0 <= BinaryParser.offset p -> 0 <= n ->
  read_outcome (BinaryParser.readBytes n p) p n (fun bs => bs = bytes_at_cursor p n).
Proof.
  intros Ho Hn. unfold read_outcome, BinaryParser.readBytes.
  destruct (Z.gtb_spec (BinaryParser.offset p + n) (blength (BinaryParser.buffer p))) as [H|H].
  - destruct (checkBounds_throw n p) as (e & He & Hc & Hp); [lia|].
    exists e. rewrite He. auto.
  - rewrite checkBounds_ok by lia. simpl.
    eexists _, _. split; [reflexivity|].
    split; [apply subarray_slice; lia|]. simpl. repeat split; lia.
Qed.

Lemma readString_outcome (p : BinaryParser.t) (n : Z) :
  0 <= BinaryParser.offset p -> 0 <= n ->
  read_outcome (BinaryParser.readString n p) p n
    (fun s => s = ascii_decode (bytes_at_cursor p n)).
Proof.
  intros Ho Hn. unfold read_outcome, BinaryParser.readString.
  destruct (Z.gtb_spec (BinaryParser.offset p + n) (blength (BinaryParser.buffer p))) as [H|H].
  - destruct (checkBounds_throw n p) as (e & He & Hc & Hp); [lia|].
    exists e. rewrite He. auto.
  - rewrite checkBounds_ok by lia. simpl.
    eexists _, _. split; [reflexivity|].
    split; [f_equal; apply subarray_slice; lia|]. simpl. repeat split; lia.
Qed.

Lemma readUInt32LE_outcome (p : BinaryParser.t) :
  0 <= BinaryParser.offset p ->
  read_outcome (BinaryParser.readUInt32LE p) p 4
    (fun v => v = u32le_value (bytes_at_cursor p 4)).
Proof.
  intros Ho. unfold read_outcome, BinaryParser.readUInt32LE.
  destruct (Z.gtb_spec (BinaryParser.offset p + 4) (blength (BinaryParser.buffer p))) as [H|H].
  - destruct (checkBounds_throw 4 p) as (e & He & Hc & Hp); [lia|].
    exists e. rewrite He. auto.
  - rewrite checkBounds_ok by lia. simpl.
    unfold BinaryParser.getUint32.
    destruct (Z.leb_spec 0 (BinaryParser.offset p)); [|lia].
    destruct (Z.leb_spec (BinaryParser.offset p + 4) (blength (BinaryParser.buffer p))); [|lia].
    simpl. eexists _, _. split; [reflexivity|]. simpl.
    split; [| repeat split; lia].
    unfold bytes_at_cursor.
    assert (Hlen : (4 <= length (drop (Z.to_nat (BinaryParser.offset p)) (BinaryParser.buffer p)))%nat).
    { rewrite length_drop. unfold blength in *. lia. }
    destruct (drop (Z.to_nat (BinaryParser.offset p)) (BinaryParser.buffer p))
      as [|b0 [|b1 [|b2 [|b3 l]]]]; simpl in Hlen; try lia.
    reflexivity.
Qed.

Lemma read_outcome_ok {A} (r : result (A * BinaryParser.t)) p n payload a p' :
  read_outcome r p n payload -> r = Ok (a, p') ->
  payload a /\ BinaryParser.buffer p' = BinaryParser.buffer p
  /\ BinaryParser.offset p' = BinaryParser.offset p + n
  /\ BinaryParser.offset p' <= blength (BinaryParser.buffer p').
Proof.
  unfold read_outcome. intros H E.
  destruct (_ >? _).
  - destruct H as (e & He & _). congruence.
  - destruct H as (a0 & p0 & He & Hrest). rewrite E in He.
    injection He as <- <-. exact Hrest.
Qed.

(** Every reachable state has its cursor inside the buffer it was
    created on. *)
Lemma parser_reachable_inv (b : Buffer) (p : BinaryParser.t) :
  parser_reachable b p ->
  BinaryParser.buffer p = b
  /\ 0 <= BinaryParser.offset p <= blength b.
Proof.
  induction 1 as [| p v p' _ [IHb IHo] E | p n s p' _ [IHb IHo] Hn E
                 | p n bs p' _ [IHb IHo] Hn E].
  - simpl. split; [reflexivity|]. pose proof (blength_nonneg b). lia.
  - destruct (read_outcome_ok _ _ _ _ _ _ (readUInt32LE_outcome p ltac:(lia)) E)
      as (_ & Hb & Ho & Hle).
    rewrite Hb, IHb in *. split; [reflexivity | lia].
  - destruct (read_outcome_ok _ _ _ _ _ _ (readString_outcome p n ltac:(lia) Hn) E)
      as (_ & Hb & Ho & Hle).
    rewrite Hb, IHb in *. split; [reflexivity | lia].
  - destruct (read_outcome_ok _ _ _ _ _ _ (readBytes_outcome p n ltac:(lia) Hn) E)
      as (_ & Hb & Ho & Hle).
    rewrite Hb, IHb in *. split; [reflexivity | lia].
Qed.

(** C10.  In every state of a [BinaryParser] reached through reads of
    non-negative byte counts, and for every non-negative count [n],
    [readUInt32LE], [readString(n)] and [readBytes(n)] each either throw
    an [H5AnimateError] with code [CORRUPTED_HEADER] carrying the current
    offset, exactly when [offset + n] exceeds the buffer length, or return
    the bytes found at the cursor and advance the cursor by exactly [n]
    (4 for [readUInt32LE]); the cursor stays within the buffer. *)
Theorem C10_parser_reads_bounded (b : Buffer) (p : BinaryParser.t) (n : Z) :
  parser_reachable b p -> 0 <= n ->
  0 <= BinaryParser.offset p <= blength (BinaryParser.buffer p)
  /\ read_outcome (BinaryParser.readUInt32LE p) p 4
       (fun v => v = u32le_value (bytes_at_cursor p 4))
  /\ read_outcome (BinaryParser.readString n p) p n
       (fun s => s = ascii_decode (bytes_at_cursor p n))
  /\ read_outcome (BinaryParser.readBytes n p) p n
       (fun bs => bs = bytes_at_cursor p n).
Proof.
  intros Hr Hn. destruct (parser_reachable_inv b p Hr) as [Hb Ho].
  rewrite Hb. split; [exact Ho|].
  split; [apply readUInt32LE_outcome; lia|].
  split; [apply readString_outcome; lia | apply readBytes_outcome; lia].
Qed.

(** ** Signature check of the decoder *)

Lemma ascii_decode_length (b : Buffer) :
  String.length (ascii_decode b) = length b.
Proof.
  unfold ascii_decode.
  set (l := map _ b). replace (length b) with (length l) by apply length_map.
  clearbody l. clear b. induction l as [|c l IH]; simpl; [reflexivity|].
  f_equal. exact IH.
Qed.


(** The bytes [C1 4E 49 4D] are not ["ANIM"], yet they pass the signature
    check, because the ASCII decoding drops the top bit of [C1]. *)
Lemma signature_high_bit_accepted (rest : Buffer) :
  ascii_decode ([xc1; x4e; x49; x4d] ++ rest)%list
  = ascii_decode ([x41; x4e; x49; x4d] ++ rest)%list.
Proof. reflexivity. Qed.

(** ** Validation of the encoder's arguments *)

Lemma narrowed_missing meta spriteInfo webpData :
  Encoder.narrowed meta spriteInfo webpData = None <->
  (Encoder.missing_of_meta meta ++ Encoder.missing_of_spriteInfo spriteInfo
     ++ Encoder.missing_of_webpData webpData <> [])%list.
Proof.
  destruct meta as [[[r|] [f|]]|], spriteInfo as [[[c|] [d|]]|],
    webpData as [w|]; simpl; split; intros H; congruence.
Qed.

(** C8.  [encodeH5Animate(null, null, webpData)] with [webpData] a buffer
    raises one [ValidationError] whose [missingFields] holds both
    ["meta"] and ["spriteInfo"]. *)
Theorem C8_validation_aggregation (uninit : nat -> byte) (webpData : Buffer) :
  exists e,
    Encoder.encodeH5Animate uninit None None (Some webpData) = Throw (H5 e)
    /\ Encoder.validateEncodeInput None None (Some webpData) = Throw (H5 e)
    /\ Errors.code e = Errors.VALIDATION_ERROR
    /\ Errors.missingFields e = Some ["meta"; "spriteInfo"]%string.
Proof.
  eexists. repeat split; reflexivity.
Qed.

(** ** Legacy sound mapping *)

(** C7 (amended).  When [se] is a non-empty string [s],
    [convertSoundData(legacy, i)] is [[{name: s}]] for frame 0 and
    [undefined] for every other frame.  When [se] is a sparse map, the
    result is a one-element list exactly when the map has a non-empty
    entry at [i], and that sound has the pitch of the sparse pitch map at
    [i], present exactly when that map has an entry there. *)
Theorem C7_legacy_sound_mapping (legacy : LegacyAnimateFile.t) (i : Z) :
  (forall s, LegacyAnimateFile.se legacy = Some (SeString s) ->
     s <> EmptyString ->
     Converter.convertSoundData legacy i =
       if i =? 0 then Some [plain_sound s None] else None)
  /\ (forall m, LegacyAnimateFile.se legacy = Some (SeMap m) ->
        (forall name, m !! i = Some name -> name <> EmptyString ->
           Converter.convertSoundData legacy i =
             Some [plain_sound name (pitch_entry legacy i)])
        /\ (m !! i = None \/ m !! i = Some EmptyString ->
            Converter.convertSoundData legacy i = None)).
Proof.
  unfold Converter.convertSoundData, pitch_entry, plain_sound. split.
  - intros s -> Hs.
    destruct (String.eqb_spec s EmptyString); [contradiction|].
    destruct (i =? 0); reflexivity.
  - intros m ->. split.
    + intros name -> Hn.
      destruct (String.eqb_spec name EmptyString); [contradiction|].
      reflexivity.
    + intros [-> | ->]; reflexivity.
Qed.

(** ** BinaryWriter *)

Lemma write_at_length (target : Buffer) (off : Z) (src : Buffer) :
  0 <= off <= blength target ->
  length (BinaryWriter.write_at target off src) = length target.
Proof.
  intros H. unfold BinaryWriter.write_at, blength in *.
  rewrite !length_app, !length_take, length_drop. lia.
Qed.

Lemma write_at_prefix (k : nat) (target : Buffer) (off : Z) (src : Buffer) :
  0 <= off <= blength target -> Z.of_nat k <= off ->
  take k (BinaryWriter.write_at target off src) = take k target.
Proof.
  intros H Hk. unfold BinaryWriter.write_at, blength in *.
  rewrite take_app_le by (rewrite length_take; lia).
  rewrite take_take. f_equal. lia.
Qed.

(** Writing right after a finished prefix replaces the bytes that
    follow it. *)
Lemma write_at_app (done rest src : Buffer) :
  (length src <= length rest)%nat ->
  BinaryWriter.write_at (done ++ rest) (blength done) src
  = (done ++ src ++ drop (length src) rest)%list.
Proof.
  intros H. unfold BinaryWriter.write_at, blength.
  rewrite length_app, Nat2Z.id.
  replace (Z.to_nat (Z.min _ _)) with (length src) by lia.
  rewrite take_app_length, firstn_all.
  rewrite drop_app_ge by lia.
  do 3 f_equal. lia.
Qed.

Lemma writeUInt32LE_ok v w w' :
  BinaryWriter.writeUInt32LE v w = Ok w' ->
  0 <= v < 4294967296
  /\ 0 <= BinaryWriter.offset w
  /\ BinaryWriter.offset w + 4 <= blength (BinaryWriter.buffer w)
  /\ w' = {| BinaryWriter.buffer :=
               BinaryWriter.write_at (BinaryWriter.buffer w)
                 (BinaryWriter.offset w) (u32le_bytes v);
             BinaryWriter.offset := BinaryWriter.offset w + 4 |}.
Proof.
  unfold BinaryWriter.writeUInt32LE. intros H.
  destruct (Z.ltb_spec v 0); [discriminate|].
  destruct (Z.gtb_spec v 4294967295); [discriminate|].
  destruct (Z.ltb_spec (BinaryWriter.offset w) 0); [discriminate|].
  destruct (Z.gtb_spec (BinaryWriter.offset w + 4) (blength (BinaryWriter.buffer w)));
    [discriminate|].
  simpl in H. injection H as <-. repeat split; lia.
Qed.

Lemma keeps_below_refl w : keeps_below w w.
Proof. unfold keeps_below. split; [reflexivity|]. split; [lia | auto]. Qed.

Lemma keeps_below_trans w1 w2 w3 :
  keeps_below w1 w2 -> keeps_below w2 w3 -> keeps_below w1 w3.
Proof.
  intros (L1 & O1 & T1) (L2 & O2 & T2). unfold keeps_below.
  split; [congruence|]. split; [lia|].
  intros k Hk. rewrite T2 by lia. apply T1. exact Hk.
Qed.

Lemma writeUInt32LE_keeps v w w' :
  BinaryWriter.writeUInt32LE v w = Ok w' -> keeps_below w w'.
Proof.
  intros H. apply writeUInt32LE_ok in H as (_ & Ho & Hb & ->).
  unfold keeps_below. simpl.
  split; [apply write_at_length; lia|]. split; [lia|].
  intros k Hk. apply write_at_prefix; lia.
Qed.

Lemma writeBuffer_keeps src w w' :
  BinaryWriter.writeBuffer src w = Ok w' -> keeps_below w w'.
Proof.
  unfold BinaryWriter.writeBuffer. intros H.
  destruct (Z.ltb_spec (BinaryWriter.offset w) 0); [discriminate|].
  injection H as <-. unfold keeps_below. simpl.
  pose proof (blength_nonneg src).
  destruct (Z.geb_spec (BinaryWriter.offset w) (blength (BinaryWriter.buffer w))).
  - split; [reflexivity|]. split; [lia | auto].
  - split; [apply write_at_length; lia|]. split; [lia|].
    intros k Hk. apply write_at_prefix; lia.
Qed.

Lemma write_dimensions_keeps dims w w' :
  Encoder.write_dimensions dims w = Ok w' -> keeps_below w w'.
Proof.
  revert w. induction dims as [|d dims IH]; intros w H; simpl in H.
  - injection H as <-. apply keeps_below_refl.
  - destruct (BinaryWriter.writeUInt32LE (SpriteDimension.width d) w)
      as [w1|] eqn:E1; [|discriminate].
    simpl in H.
    destruct (BinaryWriter.writeUInt32LE (SpriteDimension.height d) w1)
      as [w2|] eqn:E2; [|discriminate].
    simpl in H.
    eapply keeps_below_trans; [eapply writeUInt32LE_keeps; eassumption|].
    eapply keeps_below_trans; [eapply writeUInt32LE_keeps; eassumption|].
    apply IH. exact H.
Qed.

Lemma u32_at_take (b : Buffer) (off k : nat) :
  (off + 4 <= k)%nat -> (k <= length b)%nat ->
  u32_at (take k b) off = u32_at b off.
Proof.
  intros Hk Hl. unfold u32_at.
  rewrite <- (take_drop k b) at 2. rewrite drop_app_le by (rewrite length_take; lia).
  assert (H4 : (4 <= length (drop off (take k b)))%nat)
    by (rewrite length_drop, length_take; lia).
  destruct (drop off (take k b)) as [|b0 [|b1 [|b2 [|b3 l]]]];
    simpl in H4; try lia.
  reflexivity.
Qed.

Lemma u32_at_write (target : Buffer) (off : Z) (v : Z) :
  0 <= off -> off + 4 <= blength target -> 0 <= v < 4294967296 ->
  u32_at (BinaryWriter.write_at target off (u32le_bytes v)) (Z.to_nat off) = v.
Proof.
  intros Ho Hb Hv. unfold u32_at, BinaryWriter.write_at, blength in *.
  rewrite drop_app_length' by (rewrite length_take; lia).
  replace (Z.to_nat (Z.min _ _)) with 4%nat by (simpl; lia).
  change (take 4 (u32le_bytes v)) with (u32le_bytes v).
  apply u32le_value_bytes. exact Hv.
Qed.

(** C4.  Whenever [encodeH5Animate] produces a buffer, the arguments
    passed validation and the word stored at byte offset 8 is
    [4 + 8 * spriteInfo.count + webpData.length]. *)
Theorem C4_size_invariant (uninit : nat -> byte)
    (meta : option Encoder.MetaInput.t)
    (spriteInfo : option Encoder.SpriteInfoInput.t)
    (webpData : option Buffer) (encoded : Buffer) :
  Encoder.encodeH5Animate uninit meta spriteInfo webpData = Ok encoded ->
  exists m s w,
    Encoder.narrowed meta spriteInfo webpData = Some (m, s, w)
    /\ u32_at encoded 8 = 4 + 8 * SpriteInfo.count s + blength w.
Proof.
  unfold Encoder.encodeH5Animate, Encoder.validateEncodeInput.
  destruct (Encoder.narrowed meta spriteInfo webpData) as [[[m s] w]|] eqn:En;
    [|discriminate].
  destruct (0 <? _)%nat; [discriminate|]. simpl.
  destruct (JSON.stringify (Embed.meta_value m) Encoder.metaReplacer)
    as [[json|]|]; simpl; try discriminate.
  set (metaBuffer := list_byte_of_string json).
  set (total := Encoder.getSpriteInfoSize s + blength w).
  unfold BinaryWriter.new, BinaryWriter.allocUnsafe.
  destruct (Z.ltb_spec (16 + total + blength metaBuffer) 0); [discriminate|].
  simpl. set (b0 := map uninit _).
  unfold BinaryWriter.writeString. simpl.
  pose proof (blength_nonneg b0) as Hb0.
  destruct (Z.gtb_spec 0 (blength b0)); [lia|]. simpl.
  match goal with
  | |- context [BinaryWriter.writeUInt32LE Encoder.CURRENT_VERSION ?x] =>
      remember x as w1 eqn:Hw1
  end.
  assert (Hlen1 : blength (BinaryWriter.buffer w1) = blength b0).
  { subst w1. simpl. unfold blength. rewrite write_at_length; [reflexivity | lia]. }
  assert (Hoff1 : BinaryWriter.offset w1 = Z.min 4 (blength b0)).
  { subst w1. simpl.
    change (blength (list_byte_of_string Encoder.FILE_SIGNATURE)) with 4. lia. }
  clear Hw1.
  destruct (BinaryWriter.writeUInt32LE Encoder.CURRENT_VERSION w1) as [w2|] eqn:E2;
    [|discriminate]. simpl.
  destruct (BinaryWriter.writeUInt32LE total w2) as [w3|] eqn:E3;
    [|discriminate]. simpl.
  destruct (BinaryWriter.writeUInt32LE (blength metaBuffer) w3) as [w4|] eqn:E4;
    [|discriminate]. simpl.
  destruct (BinaryWriter.writeUInt32LE (SpriteInfo.count s) w4) as [w5|] eqn:E5;
    [|discriminate]. simpl.
  destruct (Encoder.write_dimensions (SpriteInfo.dimensions s) w5) as [w6|] eqn:E6;
    [|discriminate]. simpl.
  destruct (BinaryWriter.writeBuffer w w6) as [w7|] eqn:E7; [|discriminate]. simpl.
  destruct (BinaryWriter.writeBuffer metaBuffer w7) as [w8|] eqn:E8;
    [|discriminate]. simpl.
  intros Hres. injection Hres as <-. exists m, s, w. split; [reflexivity|].
  (* the cursor is at 8 when the size is written *)
  pose proof (writeUInt32LE_ok _ _ _ E2) as (_ & Ho1 & Hl1 & Hw2).
  pose proof (writeUInt32LE_ok _ _ _ E3) as (Hv & Ho2 & Hl2 & Hw3).
  assert (Hoff2 : BinaryWriter.offset w2 = 8) by (subst w2; simpl; lia).
  assert (K : keeps_below w3 w8).
  { eapply keeps_below_trans; [eapply writeUInt32LE_keeps; eassumption|].
    eapply keeps_below_trans; [eapply writeUInt32LE_keeps; eassumption|].
    eapply keeps_below_trans; [eapply write_dimensions_keeps; eassumption|].
    eapply keeps_below_trans; [eapply writeBuffer_keeps; eassumption|].
    eapply writeBuffer_keeps; eassumption. }
  destruct K as (KL & KO & KT).
  assert (Hoff3 : BinaryWriter.offset w3 = 12) by (subst w3; simpl; lia).
  assert (Hlen3 : (12 <= length (BinaryWriter.buffer w3))%nat).
  { subst w3. simpl. rewrite write_at_length by lia. unfold blength in *. lia. }
  unfold BinaryWriter.getBuffer.
  rewrite <- (u32_at_take _ 8 12) by lia.
  rewrite KT by lia.
  rewrite u32_at_take by lia.
  subst w3. simpl. rewrite Hoff2.
  change 8%nat with (Z.to_nat 8).
  rewrite u32_at_write by lia.
  subst total. unfold Encoder.getSpriteInfoSize. lia.
Qed.

(** ** Frame extraction *)

(** C5 (amended).  For a sprite sheet that the image library measures
    with height [sheetHeight] ([0] when it reports none),
    [extractFrameByIndex(sheet, index, {height})] with
    [index * height + height > sheetHeight] raises an [H5AnimateError]
    whose code is [WEBP_PROCESSING_ERROR] (H5A300). *)
Theorem C5_out_of_range_extraction
    (sharp_metadata : Buffer -> string + ImageMetadata.t)
    (sharp_extract : Buffer -> Z -> Z -> Z -> Z -> string + Buffer)
    (sheet : Buffer) (index : Z) (options : ExtractFrameOptions.t)
    (metadata : ImageMetadata.t) (sheetHeight : Z) :
  sharp_metadata sheet = inr metadata ->
  sheetHeight = match ImageMetadata.height metadata with
                | Some h => h
                | None => 0
                end ->
  index * ExtractFrameOptions.height options + ExtractFrameOptions.height options
    > sheetHeight ->
  exists e,
    WebP.extractFrameByIndex sharp_metadata sharp_extract sheet index options
      = Throw (H5 e)
    /\ Errors.code e = Errors.WEBP_PROCESSING_ERROR.
Proof.
  intros Hm -> Hout. unfold WebP.extractFrameByIndex. rewrite Hm. simpl.
  match goal with |- context [?a >? ?b] => destruct (Z.gtb_spec a b) end; [|lia].
  simpl. eexists. split; reflexivity.
Qed.

(** Every failure of [extractFrameByIndex] is of that one kind. *)
Lemma extractFrameByIndex_failure_code
    (sharp_metadata : Buffer -> string + ImageMetadata.t)
    (sharp_extract : Buffer -> Z -> Z -> Z -> Z -> string + Buffer)
    (sheet : Buffer) (index : Z) (options : ExtractFrameOptions.t) (ex : exn) :
  WebP.extractFrameByIndex sharp_metadata sharp_extract sheet index options
    = Throw ex ->
  exists e, ex = H5 e /\ Errors.code e = Errors.WEBP_PROCESSING_ERROR.
Proof.
  unfold WebP.extractFrameByIndex.
  destruct (sharp_metadata sheet) as [msg|md]; simpl.
  - intros H. injection H as <-. eexists. split; reflexivity.
  - match goal with |- context [?a >? ?b] => destruct (a >? b) end; simpl.
    + intros H. injection H as <-. eexists. split; reflexivity.
    + destruct (sharp_extract _ _ _ _ _) as [msg|frame]; simpl.
      * intros H. injection H as <-. eexists. split; reflexivity.
      * discriminate.
Qed.

(** ** JSON: what is printed is parsed back *)

(** Induction on values that reaches inside arrays and objects. *)
Lemma value_ind_nested (P : value -> Prop) :
  P VUndefined -> P VNull -> (forall b, P (VBool b)) -> (forall n, P (VNum n)) ->
  (forall s, P (VStr s)) ->
  (forall items, Forall P items -> P (VArr items)) ->
  (forall props, Forall (fun kv => P (snd kv)) props -> P (VObj props)) ->
  forall v, P v.
Proof.
  intros Hu Hn Hb Hz Hs Ha Ho.
  fix IH 1. intros [| |b|n|s|items|props].
  - exact Hu.
  - exact Hn.
  - apply Hb.
  - apply Hz.
  - apply Hs.
  - apply Ha. induction items as [|c items IHl]; constructor; [apply IH | exact IHl].
  - apply Ho. induction props as [|[k c] props IHl]; constructor;
      [apply IH | exact IHl].
Qed.

Lemma skip_ws_start (c : byte) (r : list byte) :
  JSON.is_ws c = false -> JSON.skip_ws (c :: r) = c :: r.
Proof. intros H. simpl. rewrite H. reflexivity. Qed.

Lemma parse_string_escape (c : byte) (s : list byte) :
  JSON.parse_string (JSON.escape_byte c ++ s)
  = match JSON.parse_string s with
    | Some (cs, r) => Some (c :: cs, r)
    | None => None
    end.
Proof. destruct c; reflexivity. Qed.

Lemma parse_string_quoted (bs rest : list byte) :
  JSON.parse_string (flat_map JSON.escape_byte bs ++ x22 :: rest) = Some (bs, rest).
Proof.
  induction bs as [|c bs IH]; [reflexivity|].
  simpl. rewrite <- app_assoc, parse_string_escape, IH. reflexivity.
Qed.

(** *** Numerals *)

Lemma to_uint_shape (n : N) :
  N.to_uint n = Decimal.zero \/ starts_nonzero (N.to_uint n).
Proof.
  pose proof (DecimalN.Unsigned.to_of (N.to_uint n)) as H.
  rewrite DecimalN.Unsigned.of_to in H.
  unfold Decimal.unorm in H.
  pose proof (DecimalFacts.nzhead_nonzero (N.to_uint n)) as Hnz.
  destruct (Decimal.nzhead (N.to_uint n)) eqn:E; rewrite H;
    try (right; exact I); [left; reflexivity|].
  exfalso. eapply Hnz. reflexivity.
Qed.

Lemma bytes_of_uint_digit (u : Decimal.uint) :
  u <> Decimal.Nil ->
  exists c r, bytes_of_uint u = c :: r /\ JSON.is_digit c = true.
Proof.
  destruct u; intros H; try contradiction; simpl; eexists _, _;
    (split; [reflexivity | reflexivity]).
Qed.

Lemma to_uint_nonnil (n : N) : N.to_uint n <> Decimal.Nil.
Proof.
  destruct (to_uint_shape n) as [H|H].
  - rewrite H. discriminate.
  - destruct (N.to_uint n); try contradiction; discriminate.
Qed.

Lemma bytes_of_uint_digits (u : Decimal.uint) :
  Forall (fun c => JSON.is_digit c = true) (bytes_of_uint u).
Proof. induction u; constructor; (reflexivity || assumption). Qed.

Lemma digits_value_acc_pos (u : Decimal.uint) (acc : positive) :
  fold_left (fun a c => (a * 10 + JSON.digit_value c)%N) (bytes_of_uint u)
    (Npos acc)
  = Npos (Pos.of_uint_acc u acc).
Proof.
  revert acc. induction u; intros acc; cbn [bytes_of_uint fold_left Pos.of_uint_acc];
    [reflexivity|..];
    match goal with
    | |- fold_left _ _ ?a = _ =>
        match goal with
        | |- _ = Npos (Pos.of_uint_acc _ ?b) =>
            replace a with (Npos b) by (vm_compute JSON.digit_value; lia)
        end
    end; apply IHu.
Qed.

Lemma digits_value_uint (u : Decimal.uint) :
  JSON.digits_value (bytes_of_uint u) = N.of_uint u.
Proof.
  unfold JSON.digits_value, N.of_uint.
  induction u; cbn [bytes_of_uint fold_left Pos.of_uint]; [reflexivity|..];
    first [ exact IHu | apply (digits_value_acc_pos u) ].
Qed.

Lemma digits_value_of (n : N) : JSON.digits_value (Number.digits_of n) = n.
Proof.
  unfold Number.digits_of. rewrite digits_value_uint.
  apply DecimalN.Unsigned.of_to.
Qed.

Lemma byte_eqb_spec (a b : byte) : reflect (a = b) (Byte.eqb a b).
Proof.
  destruct (Byte.eqb a b) eqn:E; constructor.
  - apply Byte.byte_dec_bl. exact E.
  - apply Byte.eqb_false. exact E.
Qed.

Lemma digits_value_fold (digits : list byte) (acc : N) :
  fold_left (fun a c => (a * 10 + JSON.digit_value c)%N) digits acc
  = (acc * 10 ^ N.of_nat (length digits) + JSON.digits_value digits)%N.
Proof.
  unfold JSON.digits_value. revert acc.
  induction digits as [|c digits IH]; intros acc.
  - simpl. lia.
  - cbn [fold_left length]. rewrite IH, (IH (0 * 10 + JSON.digit_value c)%N).
    rewrite Nat2N.inj_succ, N.pow_succ_r'. lia.
Qed.

Lemma digits_value_app (a b : list byte) :
  JSON.digits_value (a ++ b)
  = (JSON.digits_value a * 10 ^ N.of_nat (length b) + JSON.digits_value b)%N.
Proof.
  unfold JSON.digits_value at 1. rewrite fold_left_app.
  fold (JSON.digits_value a). apply digits_value_fold.
Qed.

Lemma digits_value_zeros (j : nat) : JSON.digits_value (repeat x30 j) = 0%N.
Proof.
  induction j as [|j IH]; [reflexivity|].
  change (repeat x30 (S j)) with ([x30] ++ repeat x30 j)%list.
  rewrite digits_value_app, IH. reflexivity.
Qed.

Lemma repeat_digits (j : nat) :
  Forall (fun c => JSON.is_digit c = true) (repeat x30 j).
Proof. induction j; constructor; [reflexivity | assumption]. Qed.

Lemma span_digits_app (digits rest : list byte) :
  Forall (fun c => JSON.is_digit c = true) digits ->
  JSON.span_digits rest = ([], rest) ->
  JSON.span_digits (digits ++ rest) = (digits, rest).
Proof.
  intros Hd Hrest. induction Hd as [|c digits Hc _ IH]; [exact Hrest|].
  cbn [app JSON.span_digits]. rewrite Hc, IH. reflexivity.
Qed.

Lemma span_digits_end (rest : list byte) :
  ends_number rest = true -> JSON.span_digits rest = ([], rest).
Proof.
  destruct rest as [|c rest]; [reflexivity|].
  unfold ends_number. cbn [JSON.span_digits].
  destruct (JSON.is_digit c); [discriminate | reflexivity].
Qed.

Lemma span_digits_other (c : byte) (rest : list byte) :
  JSON.is_digit c = false -> JSON.span_digits (c :: rest) = ([], c :: rest).
Proof. intros H. cbn [JSON.span_digits]. rewrite H. reflexivity. Qed.

Lemma digits_of_head (n : N) :
  n <> 0%N ->
  exists c r, Number.digits_of n = c :: r
              /\ JSON.is_digit c = true /\ c <> x30.
Proof.
  intros Hn. unfold Number.digits_of.
  destruct (to_uint_shape n) as [Hz|Hnz].
  - exfalso. apply Hn. rewrite <- (DecimalN.Unsigned.of_to n), Hz. reflexivity.
  - destruct (N.to_uint n); try contradiction; cbn [bytes_of_uint];
      eexists _, _; (split; [reflexivity|]); (split; [reflexivity | discriminate]).
Qed.

Lemma digits_of_digits (n : N) :
  Forall (fun c => JSON.is_digit c = true) (Number.digits_of n).
Proof. apply bytes_of_uint_digits. Qed.

(** What [strip_zeros] removes is a run of zeros at the end. *)
Lemma strip_zeros_spec (digits : list byte) :
  digits = (Number.strip_zeros digits
              ++ repeat x30 (length digits - length (Number.strip_zeros digits)))%list.
Proof.
  induction digits as [|c digits IH]; [reflexivity|].
  cbn [Number.strip_zeros].
  destruct (Number.strip_zeros digits) as [|c' rest'] eqn:E.
  - cbn [length app] in IH. rewrite Nat.sub_0_r in IH.
    destruct (byte_eqb_spec c x30) as [->|Hc].
    + cbn [app length]. rewrite Nat.sub_0_r.
      change (repeat x30 (S (length digits))) with (x30 :: repeat x30 (length digits)).
      rewrite <- IH. reflexivity.
    + cbn [app length]. replace (S (length digits) - 1)%nat with (length digits) by lia.
      rewrite <- IH. reflexivity.
  - cbn [app length]. cbn [length] in IH.
    replace (S (length digits) - S (S (length rest')))%nat
      with (length digits - S (length rest'))%nat by lia.
    f_equal. exact IH.
Qed.

Lemma strip_zeros_length (digits : list byte) :
  (length (Number.strip_zeros digits) <= length digits)%nat.
Proof.
  rewrite (strip_zeros_spec digits) at 2. rewrite length_app. lia.
Qed.

Lemma strip_zeros_head (c : byte) (digits : list byte) :
  c <> x30 ->
  exists rest, Number.strip_zeros (c :: digits) = c :: rest.
Proof.
  intros Hc. cbn [Number.strip_zeros].
  destruct (Number.strip_zeros digits); [|eexists; reflexivity].
  destruct (byte_eqb_spec c x30); [contradiction|]. eexists. reflexivity.
Qed.

Lemma strip_zeros_digits (digits : list byte) :
  Forall (fun c => JSON.is_digit c = true) digits ->
  Forall (fun c => JSON.is_digit c = true) (Number.strip_zeros digits).
Proof.
  intros H. rewrite (strip_zeros_spec digits) in H.
  apply Forall_app in H. apply H.
Qed.

Lemma parse_int_head (c : byte) (r : list byte) :
  JSON.is_digit c = true -> c <> x30 ->
  JSON.parse_int (c :: r) = Some (JSON.span_digits (c :: r)).
Proof.
  intros Hd Hc. destruct c; try discriminate Hd; try reflexivity.
  contradiction.
Qed.

Lemma parse_frac_end (rest : list byte) :
  ends_number rest = true -> JSON.parse_frac rest = Some ([], rest).
Proof.
  destruct rest as [|c rest]; [reflexivity|].
  destruct c; try reflexivity. discriminate.
Qed.

Lemma parse_frac_text (digits rest : list byte) :
  digits <> [] ->
  Forall (fun c => JSON.is_digit c = true) digits ->
  JSON.span_digits rest = ([], rest) ->
  JSON.parse_frac (x2e :: digits ++ rest) = Some (digits, rest).
Proof.
  intros Hne Hd Hrest. cbn [JSON.parse_frac].
  rewrite span_digits_app by assumption.
  destruct digits; [contradiction | reflexivity].
Qed.

Lemma parse_exp_end (rest : list byte) :
  ends_number rest = true -> JSON.parse_exp rest = Some (0, rest).
Proof.
  destruct rest as [|c rest]; [reflexivity|].
  unfold ends_number, JSON.parse_exp.
  destruct (JSON.is_digit c), (Byte.eqb c x2e), (Byte.eqb c x65), (Byte.eqb c x45);
    try discriminate; reflexivity.
Qed.

Lemma parse_exp_text (e : Z) (rest : list byte) :
  ends_number rest = true ->
  JSON.parse_exp
    (x65 :: (if e <? 0 then x2d else x2b) :: Number.digits_of (Z.abs_N e) ++ rest)
  = Some (e, rest).
Proof.
  intros Hrest.
  assert (Hspan : JSON.span_digits (Number.digits_of (Z.abs_N e) ++ rest)
                  = (Number.digits_of (Z.abs_N e), rest))
    by (apply span_digits_app; [apply digits_of_digits | apply span_digits_end, Hrest]).
  destruct (bytes_of_uint_digit _ (to_uint_nonnil (Z.abs_N e))) as (c & r & E & _).
  fold (Number.digits_of (Z.abs_N e)) in E.
  pose proof (digits_value_of (Z.abs_N e)) as Hv.
  destruct (Z.ltb_spec e 0); cbn [JSON.parse_exp Byte.eqb orb];
    change (Byte.eqb x65 x65) with true; cbn [orb];
    rewrite Hspan, E; rewrite E in Hv; rewrite Hv;
    unfold Number.signed; do 2 f_equal; lia.
Qed.

Lemma of_decimal_scale (negative : bool) (m : N) (j : Z) :
  0 <= j ->
  Number.of_decimal negative (m * 10 ^ Z.to_N j) 0
  = Number.of_decimal negative m j.
Proof.
  intros Hj. unfold Number.of_decimal.
  destruct m as [|m].
  - reflexivity.
  - destruct (N.pos m * 10 ^ Z.to_N j)%N eqn:E.
    + exfalso. apply N.eq_mul_0 in E. destruct E as [E|E]; [discriminate|].
      apply N.pow_nonzero in E; [exact E | discriminate].
    + rewrite <- E. cbn [Z.leb Z.compare]. destruct (Z.leb_spec 0 j); [|lia].
      f_equal. f_equal. rewrite N2Z.inj_mul, N2Z.inj_pow, Z2N.id by lia.
      change (Z.of_N 10) with 10. change (10 ^ 0) with 1. lia.
Qed.

Lemma span_digits_point (r : list byte) :
  JSON.span_digits (x2e :: r) = ([], x2e :: r).
Proof. reflexivity. Qed.

Lemma span_digits_mark (r : list byte) :
  JSON.span_digits (x65 :: r) = ([], x65 :: r).
Proof. reflexivity. Qed.

Lemma span_digits_one (c : byte) (rest : list byte) :
  JSON.is_digit c = true -> JSON.span_digits rest = ([], rest) ->
  JSON.span_digits (c :: rest) = ([c], rest).
Proof. intros Hc Hrest. cbn [JSON.span_digits]. rewrite Hc, Hrest. reflexivity. Qed.

(** A numeral printed from its digits is read back as the number the
    digits and the exponent denote. *)
Lemma parse_unsigned_format (negative : bool) (c : byte) (r : list byte) (n : Z)
    (rest : list byte) :
  JSON.is_digit c = true -> c <> x30 ->
  Forall (fun c => JSON.is_digit c = true) r ->
  ends_number rest = true ->
  JSON.parse_unsigned negative (Number.format (c :: r) n ++ rest)
  = Some (VNum (Number.nearest
                  (Number.of_decimal negative (JSON.digits_value (c :: r))
                     (n - Z.of_nat (length (c :: r))))),
          rest).
Proof.
  intros Hc Hnz Hr Hrest.
  assert (Hall : Forall (fun c => JSON.is_digit c = true) (c :: r))
    by (constructor; assumption).
  pose proof (span_digits_end rest Hrest) as Hend.
  pose proof (parse_frac_end rest Hrest) as Hfrac.
  pose proof (parse_exp_end rest Hrest) as Hexp.
  unfold Number.format.
  set (k := Z.of_nat (length (c :: r))).
  assert (Hk : k = Z.of_nat (length (c :: r))) by reflexivity.
  assert (Hk1 : 1 <= k) by (subst k; cbn [length]; lia).
  destruct ((k <=? n) && (n <=? 21)) eqn:Ea.
  { (* the digits, then zeros *)
    apply andb_true_iff in Ea. destruct Ea as [Ekn _].
    apply Z.leb_le in Ekn.
    unfold JSON.parse_unsigned.
    rewrite <- !app_assoc. cbn [app].
    rewrite parse_int_head by assumption.
    replace (c :: r ++ repeat x30 (Z.to_nat (n - k)) ++ rest)
      with (((c :: r) ++ repeat x30 (Z.to_nat (n - k))) ++ rest)%list
      by (rewrite <- app_assoc; reflexivity).
    rewrite span_digits_app;
      [|apply Forall_app; split; [exact Hall | apply repeat_digits] | exact Hend].
    rewrite Hfrac, Hexp. rewrite app_nil_r.
    rewrite digits_value_app, digits_value_zeros, N.add_0_r, repeat_length.
    cbn [length]. change (0 - Z.of_nat 0) with 0.
    replace (N.of_nat (Z.to_nat (n - k))) with (Z.to_N (n - k)) by lia.
    rewrite of_decimal_scale by lia. reflexivity. }
  destruct ((0 <? n) && (n <=? 21)) eqn:Eb.
  { (* a point inside the digits *)
    apply andb_true_iff in Eb. destruct Eb as [En En21].
    apply Z.ltb_lt in En. apply Z.leb_le in En21.
    assert (Hlt : n < k).
    { destruct (Z.leb_spec k n) as [Hle|]; [|lia].
      destruct (Z.leb_spec n 21); [discriminate Ea | lia]. }
    clear Ea.
    destruct (Z.to_nat n) as [|n'] eqn:En'; [lia|].
    cbn [take drop]. unfold JSON.parse_unsigned.
    cbn [app]. rewrite parse_int_head by assumption.
    rewrite <- app_assoc.
    change (c :: take n' r ++ (x2e :: drop n' r) ++ rest)
      with ((c :: take n' r) ++ x2e :: drop n' r ++ rest)%list.
    rewrite span_digits_app;
      [|constructor; [exact Hc | apply Forall_take; exact Hr]
       |apply span_digits_point].
    rewrite parse_frac_text;
      [|intros Hnil; apply (f_equal length) in Hnil; rewrite length_drop in Hnil;
        subst k; cbn [length] in *; lia
       |apply Forall_drop; exact Hr | exact Hend].
    rewrite Hexp.
    replace ((c :: take n' r) ++ drop n' r)%list with (c :: r)
      by (cbn [app]; rewrite take_drop; reflexivity).
    replace (0 - Z.of_nat (length (drop n' r))) with (n - k); [reflexivity|].
    rewrite length_drop. subst k. cbn [length] in *. lia. }
  destruct ((-6 <? n) && (n <=? 0)) eqn:Ec.
  { (* zeros before the digits *)
    apply andb_true_iff in Ec. destruct Ec as [_ En]. apply Z.leb_le in En.
    unfold JSON.parse_unsigned. cbn [app JSON.parse_int].
    rewrite <- app_assoc.
    rewrite (app_assoc (repeat x30 (Z.to_nat (- n))) (c :: r) rest).
    rewrite parse_frac_text;
      [|intros Hnil; apply app_eq_nil in Hnil; destruct Hnil; discriminate
       |apply Forall_app; split; [apply repeat_digits | exact Hall]
       |exact Hend].
    rewrite Hexp.
    change (x30 :: repeat x30 (Z.to_nat (- n)) ++ c :: r)%list
      with (repeat x30 (S (Z.to_nat (- n))) ++ c :: r)%list.
    rewrite digits_value_app, digits_value_zeros, N.mul_0_l, N.add_0_l.
    match goal with
    | |- context [Number.of_decimal _ _ ?e] =>
        replace e with (n - k); [reflexivity|]
    end.
    rewrite length_app, repeat_length. subst k. cbn [length] in *. lia. }
  (* the exponent form *)
  destruct r as [|c2 r2].
  - unfold JSON.parse_unsigned. cbn [app].
    rewrite parse_int_head by assumption.
    rewrite span_digits_one by (first [exact Hc | apply span_digits_mark]).
    cbn [JSON.parse_frac]. rewrite parse_exp_text by exact Hrest.
    rewrite app_nil_r.
    match goal with
    | |- context [Number.of_decimal _ _ ?e] =>
        replace e with (n - k); [reflexivity|]
    end.
    subst k. cbn [length] in *. lia.
  - unfold JSON.parse_unsigned. cbn [app].
    rewrite parse_int_head by assumption.
    rewrite span_digits_one by (first [exact Hc | apply span_digits_point]).
    rewrite <- app_assoc.
    change (x2e :: c2 :: r2 ++ ?t) with (x2e :: (c2 :: r2) ++ t).
    rewrite (parse_frac_text (c2 :: r2));
      [|discriminate | exact Hr | apply span_digits_mark].
    cbn [app]. rewrite parse_exp_text by exact Hrest.
    match goal with
    | |- context [Number.of_decimal _ _ ?e] =>
        replace e with (n - k); [reflexivity|]
    end.
    subst k. cbn [length] in *. lia.
Qed.

Lemma number_eqb_eq (x y : Number.t) : Number.eqb x y = true -> x = y.
Proof.
  destruct x as [|a| |a|a d p], y as [|b| |b|b d' p']; cbn [Number.eqb];
    try discriminate; try reflexivity.
  - intros H. apply Bool.eqb_prop in H. congruence.
  - intros H. apply Z.eqb_eq in H. congruence.
  - intros H. apply andb_true_iff in H. destruct H as [H Hp].
    apply andb_true_iff in H. destruct H as [Ha Hd].
    apply Bool.eqb_prop in Ha. apply Pos.eqb_eq in Hd, Hp. congruence.
Qed.

Lemma stable_number_inv (x : Number.t) :
  stable_number x = true ->
  Number.canonical x = true /\ Number.nearest x = x
  /\ Number.finite x = true /\ x <> Number.NegZero.
Proof.
  unfold stable_number, Number.is_double. intros H.
  apply andb_true_iff in H. destruct H as [H Hz].
  apply andb_true_iff in H. destruct H as [H Hf].
  apply andb_true_iff in H. destruct H as [Hc Hn].
  repeat split; try assumption.
  - apply number_eqb_eq. exact Hn.
  - intros ->. discriminate Hz.
Qed.

Lemma parse_number_digit (c : byte) (r : list byte) :
  JSON.is_digit c = true ->
  JSON.parse_number (c :: r) = JSON.parse_unsigned false (c :: r).
Proof. intros H. destruct c; try discriminate H; reflexivity. Qed.

Lemma format_head (c : byte) (r : list byte) (n : Z) :
  JSON.is_digit c = true ->
  exists c' r', Number.format (c :: r) n = c' :: r' /\ JSON.is_digit c' = true.
Proof.
  intros Hc. unfold Number.format.
  destruct ((_ <=? n) && (n <=? 21)); [eexists _, _; split; [reflexivity | exact Hc]|].
  destruct ((0 <? n) && (n <=? 21)) eqn:E.
  - apply andb_true_iff in E. destruct E as [E _]. apply Z.ltb_lt in E.
    destruct (Z.to_nat n) eqn:En; [lia|].
    eexists _, _. split; [reflexivity | exact Hc].
  - destruct ((-6 <? n) && (n <=? 0)); [eexists _, _; split; reflexivity|].
    destruct r; eexists _, _; (split; [reflexivity | exact Hc]).
Qed.

Lemma of_decimal_frac (negative : bool) (d p : positive) :
  Number.canonical (Number.Frac negative d p) = true ->
  Number.of_decimal negative (Npos d) (- Zpos p) = Number.Frac negative d p.
Proof.
  cbn [Number.canonical]. intros Hc. apply negb_true_iff, Z.eqb_neq in Hc.
  unfold Number.of_decimal.
  destruct (Z.leb_spec 0 (- Z.pos p)); [lia|].
  assert (Hmod : (N.pos d mod 10 =? 0)%N = false).
  { apply N.eqb_neq. intros Hm. apply Hc.
    change (Z.pos d) with (Z.of_N (N.pos d)). change 10 with (Z.of_N 10).
    rewrite <- N2Z.inj_mod, Hm. reflexivity. }
  destruct (N.to_nat (N.size (N.pos d))) as [|fuel];
    cbn [Number.reduce]; rewrite ?Hmod, ?andb_false_r;
    (destruct (Z.eqb_spec (- Z.pos p) 0); [lia|]); reflexivity.
Qed.

Lemma of_decimal_int (negative : bool) (digits : list byte) (z : Z) :
  z <> 0 -> negative = (z <? 0) ->
  JSON.digits_value digits = Z.abs_N z ->
  Number.of_decimal negative (JSON.digits_value (Number.strip_zeros digits))
    (Z.of_nat (length digits) - Z.of_nat (length (Number.strip_zeros digits)))
  = Number.Int z.
Proof.
  intros Hz Hneg Hv.
  pose proof (strip_zeros_spec digits) as Hs.
  pose proof (strip_zeros_length digits) as Hl.
  set (s := Number.strip_zeros digits) in *.
  set (j := (length digits - length s)%nat) in *.
  rewrite Hs in Hv. rewrite digits_value_app, digits_value_zeros, N.add_0_r in Hv.
  rewrite repeat_length in Hv.
  replace (Z.of_nat (length digits) - Z.of_nat (length s)) with (Z.of_nat j)
    by (subst j; lia).
  rewrite <- of_decimal_scale by lia.
  replace (Z.to_N (Z.of_nat j)) with (N.of_nat j) by lia.
  rewrite Hv. unfold Number.of_decimal.
  destruct (Z.abs_N z) eqn:E; [lia|].
  rewrite <- E. cbn [Z.leb Z.compare]. change (10 ^ 0) with 1.
  f_equal. subst negative. unfold Number.signed.
  destruct (Z.ltb_spec z 0); lia.
Qed.

(** A number that a text carries is read back from the text that
    [Number::toString] prints for it. *)
Lemma parse_number_text (x : Number.t) (rest : list byte) :
  stable_number x = true -> ends_number rest = true ->
  JSON.parse_number (Number.to_text x ++ rest) = Some (VNum x, rest).
Proof.
  intros Hx Hrest.
  destruct (stable_number_inv x Hx) as (Hcanon & Hnear & Hfin & Hnz).
  destruct x as [|a| |z|negative d p]; try discriminate Hfin; [contradiction|..].
  - (* an integer *)
    cbn [Number.to_text]. destruct (Z.eqb_spec z 0) as [->|Hz].
    + cbn [app]. change (JSON.parse_number (x30 :: rest))
        with (JSON.parse_unsigned false (x30 :: rest)).
      unfold JSON.parse_unsigned. cbn [JSON.parse_int].
      rewrite (parse_frac_end rest Hrest), (parse_exp_end rest Hrest).
      reflexivity.
    + destruct (digits_of_head (Z.abs_N z) ltac:(lia)) as (c & r & E & Hc & Hc0).
      destruct (strip_zeros_head c r Hc0) as (r' & Es).
      pose proof (strip_zeros_digits _ (digits_of_digits (Z.abs_N z))) as Hd.
      pose proof (of_decimal_int (z <? 0) (Number.digits_of (Z.abs_N z)) z Hz
                    eq_refl (digits_value_of _)) as Hof.
      rewrite E in *. rewrite Es in *.
      apply Forall_cons in Hd. destruct Hd as [_ Hd].
      pose proof (parse_unsigned_format (z <? 0) c r'
                    (Z.of_nat (length (c :: r))) rest Hc Hc0 Hd Hrest) as Hp.
      rewrite Hof, Hnear in Hp.
      destruct (z <? 0); cbn [Number.minus app].
      * exact Hp.
      * destruct (format_head c r' (Z.of_nat (length (c :: r))) Hc)
          as (c' & t & Ef & Hc').
        rewrite Ef in *. cbn [app] in *.
        rewrite parse_number_digit by exact Hc'. exact Hp.
  - (* a fraction *)
    cbn [Number.to_text].
    destruct (digits_of_head (N.pos d) ltac:(discriminate)) as (c & r & E & Hc & Hc0).
    pose proof (digits_of_digits (N.pos d)) as Hd.
    pose proof (digits_value_of (N.pos d)) as Hv.
    rewrite E in *.
    apply Forall_cons in Hd. destruct Hd as [_ Hd].
    pose proof (parse_unsigned_format negative c r
                  (Z.of_nat (length (c :: r)) - Z.pos p) rest Hc Hc0 Hd Hrest) as Hp.
    rewrite Hv in Hp.
    replace (Z.of_nat (length (c :: r)) - Z.pos p - Z.of_nat (length (c :: r)))
      with (- Z.pos p) in Hp by lia.
    rewrite (of_decimal_frac negative d p Hcanon), Hnear in Hp.
    destruct negative; cbn [Number.minus app].
    + exact Hp.
    + destruct (format_head c r (Z.of_nat (length (c :: r)) - Z.pos p) Hc)
        as (c' & t & Ef & Hc').
      rewrite Ef in *. cbn [app] in *.
      rewrite parse_number_digit by exact Hc'. exact Hp.
Qed.

(** The first byte of a number: a minus sign or a digit. *)
Lemma to_text_head (x : Number.t) :
  Number.finite x = true ->
  exists c r, Number.to_text x = c :: r
              /\ (Byte.eqb c x2d || JSON.is_digit c = true).
Proof.
  intros Hfin. destruct x as [|a| |z|negative d p]; try discriminate Hfin.
  - eexists _, _. split; reflexivity.
  - cbn [Number.to_text]. destruct (Z.eqb_spec z 0); [eexists _, _; split; reflexivity|].
    destruct (z <? 0); cbn [Number.minus app]; [eexists _, _; split; reflexivity|].
    destruct (digits_of_head (Z.abs_N z)) as (c & r & E & Hc & Hne); [lia|].
    rewrite E. destruct (strip_zeros_head c r Hne) as (rest & ->).
    destruct (format_head c rest (Z.of_nat (length (c :: r))) Hc)
      as (c2 & r2 & Ef & Hc2).
    rewrite Ef. exists c2, r2. split; [reflexivity|].
    rewrite Hc2. apply orb_true_r.
  - cbn [Number.to_text]. destruct negative; cbn [Number.minus app];
      [eexists _, _; split; reflexivity|].
    destruct (bytes_of_uint_digit _ (to_uint_nonnil (N.pos d))) as (c & r & E & Hc).
    fold (Number.digits_of (N.pos d)) in E. rewrite E.
    destruct (format_head c r (Z.of_nat (length (c :: r)) - Z.pos p) Hc)
      as (c2 & r2 & Ef & Hc2).
    rewrite Ef. exists c2, r2. split; [reflexivity|].
    rewrite Hc2. apply orb_true_r.
Qed.

(** The first byte of an index or a length: a minus sign or a digit. *)
Lemma number_text_head (n : Z) :
  exists c r, number_text n = c :: r
              /\ (Byte.eqb c x2d || JSON.is_digit c = true).
Proof.
  unfold number_text. destruct (n <? 0).
  - eexists _, _. split; reflexivity.
  - destruct (bytes_of_uint_digit _ (to_uint_nonnil (Z.abs_N n))) as (c & r & E & Hd).
    exists c, r. split; [exact E|]. rewrite Hd. apply orb_true_r.
Qed.

(** *** Values *)

Lemma parse_value_str f r :
  JSON.parse_value (S f) (x22 :: r)
  = match JSON.parse_string r with
    | Some (cs, r') => Some (VStr (string_of_list_byte cs), r')
    | None => None
    end.
Proof. reflexivity. Qed.

Lemma parse_value_arr f r :
  JSON.parse_value (S f) (x5b :: r)
  = match JSON.expect x5d (JSON.skip_ws r) with
    | Some r' => Some (VArr [], r')
    | None =>
        match JSON.parse_elements (JSON.parse_value f) (length r) r with
        | Some (items, r') => Some (VArr items, r')
        | None => None
        end
    end.
Proof. reflexivity. Qed.

Lemma parse_value_obj f r :
  JSON.parse_value (S f) (x7b :: r)
  = match JSON.expect x7d (JSON.skip_ws r) with
    | Some r' => Some (VObj [], r')
    | None =>
        match JSON.parse_members (JSON.parse_value f) (length r) [] r with
        | Some (props, r') => Some (VObj props, r')
        | None => None
        end
    end.
Proof. reflexivity. Qed.

Lemma parse_value_num f c r :
  Byte.eqb c x2d || JSON.is_digit c = true ->
  JSON.parse_value (S f) (c :: r) = JSON.parse_number (c :: r).
Proof. destruct c; intros H; try discriminate H; reflexivity. Qed.

Lemma number_head_ok c :
  Byte.eqb c x2d || JSON.is_digit c = true ->
  JSON.is_ws c = false /\ Byte.eqb c x5d = false /\ Byte.eqb c x7d = false.
Proof. destruct c; intros H; try discriminate H; repeat split; reflexivity. Qed.

Lemma join_comma_cons (p : list byte) (q : list byte) (rest : list (list byte)) :
  JSON.join_comma (p :: q :: rest) = (p ++ x2c :: JSON.join_comma (q :: rest))%list.
Proof. reflexivity. Qed.

Lemma join_comma_length (parts : list (list byte)) :
  Forall (fun p => p <> []) parts ->
  (length parts <= length (JSON.join_comma parts))%nat.
Proof.
  induction 1 as [|p parts Hp _ IH]; [simpl; lia|].
  destruct parts as [|q parts].
  - simpl. destruct p; [contradiction | simpl; lia].
  - rewrite join_comma_cons, length_app. simpl in *. lia.
Qed.

Lemma join_comma_part_length (parts : list (list byte)) (p : list byte) :
  In p parts -> (length p <= length (JSON.join_comma parts))%nat.
Proof.
  induction parts as [|q parts IH]; [contradiction|].
  intros [-> | Hin].
  - destruct parts; [simpl; lia|]. rewrite join_comma_cons, length_app. lia.
  - destruct parts as [|q' parts]; [contradiction|].
    rewrite join_comma_cons, length_app. simpl. specialize (IH Hin). simpl in IH. lia.
Qed.

Lemma join_comma_head (parts : list (list byte)) :
  parts <> [] -> Forall head_ok parts -> head_ok (JSON.join_comma parts).
Proof.
  intros Hne Hall. destruct Hall as [|p parts (c & r & -> & Hws & Hc & Hb) _];
    [contradiction|].
  destruct parts as [|q parts].
  - exists c, r. auto.
  - rewrite join_comma_cons. simpl. eexists c, _. auto.
Qed.

Lemma skip_ws_head_ok (t rest : list byte) :
  head_ok t -> JSON.skip_ws (t ++ rest) = (t ++ rest)%list.
Proof.
  intros (c & r & -> & Hws & _). simpl. rewrite Hws. reflexivity.
Qed.

Lemma expect_close_head_ok (t rest : list byte) :
  head_ok t -> JSON.expect x5d (t ++ rest) = None.
Proof.
  intros (c & r & -> & _ & Hc & _). simpl. rewrite Hc. reflexivity.
Qed.

Lemma expect_brace_head_ok (t rest : list byte) :
  head_ok t -> JSON.expect x7d (t ++ rest) = None.
Proof.
  intros (c & r & -> & _ & _ & Hc). simpl. rewrite Hc. reflexivity.
Qed.

Lemma elements_parse (f : nat) (items : list value) :
  items <> [] -> Forall (reads_back f) items ->
  forall n rest, (length items <= n)%nat ->
    JSON.parse_elements (JSON.parse_value f) n
      (JSON.join_comma (map element_text items) ++ x5d :: rest)
    = Some (items, rest).
Proof.
  induction items as [|v items IH]; [contradiction|].
  intros _ Hall n rest Hn.
  inversion Hall as [|? ? (t & Ht & Hh & Hp) Hall']; subst.
  destruct n as [|n]; [simpl in Hn; lia|].
  assert (Het : element_text v = t) by (unfold element_text; rewrite Ht; reflexivity).
  destruct items as [|v2 items].
  - cbn [map JSON.join_comma JSON.parse_elements]. rewrite Het.
    rewrite (Hp (x5d :: rest)) by reflexivity. reflexivity.
  - cbn [map]. rewrite join_comma_cons, Het, <- app_assoc.
    cbn [app JSON.parse_elements].
    rewrite (Hp (x2c :: _)) by reflexivity.
    cbn [JSON.skip_ws JSON.is_ws JSON.expect Byte.eqb].
    change (Byte.eqb x2c x2c) with true. cbv iota.
    change (map element_text (v2 :: items))
      with (element_text v2 :: map element_text items) in IH.
    rewrite IH; [reflexivity | discriminate | exact Hall' | simpl in *; lia].
Qed.

Lemma replace_own_fresh (acc : list (string * value)) (k : string) (v : value) :
  ~ In k (map fst acc) -> JS.replace_own acc k v = None.
Proof.
  induction acc as [|[k' v'] acc IH]; intros Hk; [reflexivity|].
  simpl in *. destruct (String.eqb_spec k' k) as [->|Hne].
  - exfalso. apply Hk. left. reflexivity.
  - rewrite IH; [reflexivity|]. intros Hin. apply Hk. right. exact Hin.
Qed.

Lemma insert_own_last (acc : list (string * value)) (k : string) (v : value) :
  forallb (fun k' => JS.key_before k' k) (map fst acc) = true ->
  JS.insert_own acc k v = (acc ++ [(k, v)])%list.
Proof.
  induction acc as [|[k' v'] acc IH]; intros Hk; [reflexivity|].
  cbn [map fst forallb] in Hk. apply andb_true_iff in Hk as [Hk' Hk].
  cbn [JS.insert_own app]. rewrite Hk', (IH Hk). reflexivity.
Qed.

Lemma ordered_app_cons (before after : list string) (k : string) :
  JS.ordered (before ++ k :: after) = true ->
  forallb (fun k' => JS.key_before k' k) before = true.
Proof.
  induction before as [|k' before IH]; [reflexivity|].
  cbn [app JS.ordered forallb]. intros H.
  apply andb_true_iff in H as [Hall Hrest].
  rewrite forallb_app in Hall. apply andb_true_iff in Hall as [_ Hall].
  cbn [forallb] in Hall. apply andb_true_iff in Hall as [Hk _].
  rewrite Hk, (IH Hrest). reflexivity.
Qed.

(** A new key that belongs after the keys there are goes to the end. *)
Lemma set_own_fresh (acc : list (string * value)) (k : string) (v : value) :
  ~ In k (map fst acc) ->
  forallb (fun k' => JS.key_before k' k) (map fst acc) = true ->
  JS.set_own acc k v = (acc ++ [(k, v)])%list.
Proof.
  intros Hk Hord. unfold JS.set_own.
  rewrite replace_own_fresh by exact Hk. apply insert_own_last. exact Hord.
Qed.

Lemma members_parse (f : nat) (props : list (string * value)) :
  props <> [] -> Forall (fun kv => reads_back f (snd kv)) props ->
  forall n acc rest, (length props <= n)%nat ->
    NoDup (map fst (acc ++ props)) ->
    JS.ordered (map fst (acc ++ props)) = true ->
    JSON.parse_members (JSON.parse_value f) n acc
      (JSON.join_comma (map member_text props) ++ x7d :: rest)
    = Some ((acc ++ props)%list, rest).
Proof.
  induction props as [|[k v] props IH]; [contradiction|].
  intros _ Hall n acc rest Hn Hnd Hord.
  inversion Hall as [|? ? (t & Ht & Hh & Hp) Hall']; subst. simpl in Ht, Hh, Hp.
  destruct n as [|n]; [simpl in Hn; lia|].
  assert (Hmt : forall tail,
             (member_text (k, v) ++ tail)%list
             = x22 :: (flat_map JSON.escape_byte (JSON.bytes k)
                       ++ x22 :: x3a :: t ++ tail)%list).
  { intros tail. unfold member_text, element_text, JSON.quote. simpl.
    rewrite Ht. rewrite <- !app_assoc. reflexivity. }
  assert (Hfresh : ~ In k (map fst acc)).
  { rewrite map_app in Hnd. simpl in Hnd.
    apply NoDup_app in Hnd as (_ & Hd & _).
    intros Hin. apply (Hd k).
    - apply list_elem_of_In. exact Hin.
    - left. }
  assert (Hlast : forallb (fun k' => JS.key_before k' k) (map fst acc) = true).
  { rewrite map_app in Hord. cbn [map fst] in Hord.
    exact (ordered_app_cons _ _ _ Hord). }
  assert (Hstep : forall tail,
    ends_number tail = true ->
    JSON.parse_members (JSON.parse_value f) (S n) acc
      (member_text (k, v) ++ tail)
    = match JSON.expect x2c (JSON.skip_ws tail) with
      | Some r4 => JSON.parse_members (JSON.parse_value f) n (acc ++ [(k, v)]) r4
      | None =>
          match JSON.expect x7d (JSON.skip_ws tail) with
          | Some r4 => Some ((acc ++ [(k, v)])%list, r4)
          | None => None
          end
      end).
  { intros tail Htail. rewrite Hmt.
    cbn [JSON.parse_members JSON.skip_ws JSON.is_ws JSON.expect].
    change (Byte.eqb x22 x22) with true. cbv iota.
    rewrite parse_string_quoted.
    cbn [JSON.skip_ws JSON.is_ws JSON.expect].
    change (Byte.eqb x3a x3a) with true. cbv iota.
    rewrite (Hp tail Htail).
    unfold JSON.bytes. rewrite string_of_list_byte_of_string.
    rewrite set_own_fresh by assumption. reflexivity. }
  destruct props as [|kv2 props].
  - cbn [map JSON.join_comma]. rewrite Hstep by reflexivity. reflexivity.
  - cbn [map]. rewrite join_comma_cons, <- app_assoc. cbn [app].
    rewrite Hstep by reflexivity.
    cbn [JSON.skip_ws JSON.is_ws JSON.expect].
    change (Byte.eqb x2c x2c) with true. cbv iota.
    change (map member_text (kv2 :: props))
      with (member_text kv2 :: map member_text props) in IH.
    rewrite IH.
    + rewrite <- app_assoc. reflexivity.
    + discriminate.
    + exact Hall'.
    + simpl in *. lia.
    + rewrite <- app_assoc. exact Hnd.
    + rewrite <- app_assoc. exact Hord.
Qed.

Lemma depth_arr_children (items : list value) :
  Forall (fun c => (JS.depth c < JS.depth (VArr items))%nat) items.
Proof.
  induction items as [|c items IH]; constructor.
  - simpl. lia.
  - eapply Forall_impl; [exact IH|]. intros x Hx. simpl in *. lia.
Qed.

Lemma depth_obj_children (props : list (string * value)) :
  Forall (fun kv => (JS.depth (snd kv) < JS.depth (VObj props))%nat) props.
Proof.
  induction props as [|[k c] props IH]; constructor.
  - simpl. lia.
  - eapply Forall_impl; [exact IH|]. intros x Hx. simpl in *. lia.
Qed.

Lemma text_obj_members (props : list (string * value)) :
  Forall (fun kv => exists t, JSON.text (snd kv) = Some t) props ->
  JSON.text (VObj props)
  = Some (x7b :: JSON.join_comma (map member_text props) ++ [x7d])%list.
Proof.
  intros H. simpl. do 4 f_equal.
  induction H as [|[k c] props (t & Ht) _ IH]; [reflexivity|].
  simpl in *. rewrite Ht. unfold member_text at 1, element_text. simpl.
  rewrite Ht. f_equal. exact IH.
Qed.

(** Every clean value is printed to a text that is read back as the
    same value, given fuel above its depth. *)
Lemma text_reads_back (v : value) :
  json_clean v -> forall f, (JS.depth v < f)%nat -> reads_back f v.
Proof.
  induction v as [| |b|n|s|items IH|props IH] using value_ind_nested;
    intros Hc f Hd; inversion Hc; subst;
    (destruct f as [|f]; [lia|]).
  - eexists. split; [reflexivity|]. split.
    + eexists _, _. split; [reflexivity|]. repeat split; reflexivity.
    + intros rest _. reflexivity.
  - eexists. split; [reflexivity|]. split.
    + destruct b; eexists _, _; (split; [reflexivity|]; repeat split; reflexivity).
    + intros rest _. destruct b; reflexivity.
  - match goal with H : stable_number n = true |- _ => rename H into Hn end.
    destruct (stable_number_inv n Hn) as (_ & _ & Hfin & _).
    destruct (to_text_head n Hfin) as (c & r & E & Hh).
    exists (Number.to_text n). split; [cbn [JSON.text]; rewrite Hfin; reflexivity|].
    split.
    + exists c, r. split; [exact E|]. apply number_head_ok. exact Hh.
    + intros rest Hrest. rewrite <- (parse_number_text n rest Hn Hrest).
      rewrite E. apply parse_value_num. exact Hh.
  - eexists. split; [reflexivity|]. split.
    + eexists _, _. split; [reflexivity|]. repeat split; reflexivity.
    + intros rest _. unfold JSON.quote. cbn [app].
      rewrite parse_value_str, <- app_assoc. cbn [app].
      rewrite parse_string_quoted. unfold JSON.bytes.
      rewrite string_of_list_byte_of_string. reflexivity.
  - (* arrays *)
    assert (Hall : Forall (reads_back f) items).
    { pose proof (depth_arr_children items) as Hdc.
      rewrite Forall_forall in *. intros c Hin.
      apply IH; [exact Hin | auto |]. specialize (Hdc c Hin). lia. }
    exists (x5b :: JSON.join_comma (map element_text items) ++ [x5d])%list.
    split; [reflexivity|]. split.
    + eexists _, _. split; [reflexivity|]. repeat split; reflexivity.
    + intros rest _. cbn [app]. rewrite parse_value_arr, <- app_assoc. cbn [app].
      destruct items as [|v items]; [reflexivity|].
      assert (Hh : head_ok (JSON.join_comma (map element_text (v :: items)))).
      { apply join_comma_head; [discriminate|].
        apply List.Forall_map. eapply Forall_impl; [exact Hall|].
        intros c (t & Ht & Hh & _).
        unfold element_text. rewrite Ht. exact Hh. }
      rewrite skip_ws_head_ok, expect_close_head_ok by exact Hh.
      rewrite elements_parse; [reflexivity | discriminate | exact Hall |].
      rewrite length_app.
      assert (length (v :: items)
              <= length (JSON.join_comma (map element_text (v :: items))))%nat.
      { rewrite <- (length_map element_text).
        apply join_comma_length.
        apply List.Forall_map. eapply Forall_impl; [exact Hall|].
        intros c (t & Ht & (c0 & r0 & -> & _) & _).
        unfold element_text. rewrite Ht. discriminate. }
      lia.
  - (* objects *)
    assert (Hall : Forall (fun kv => reads_back f (snd kv)) props).
    { pose proof (depth_obj_children props) as Hdc.
      rewrite Forall_forall in *. intros kv Hin.
      apply IH; [exact Hin | auto |]. specialize (Hdc kv Hin). lia. }
    exists (x7b :: JSON.join_comma (map member_text props) ++ [x7d])%list.
    split.
    { apply text_obj_members. eapply Forall_impl; [exact Hall|].
      intros kv (t & Ht & _). eauto. }
    split.
    + eexists _, _. split; [reflexivity|]. repeat split; reflexivity.
    + intros rest _. cbn [app]. rewrite parse_value_obj, <- app_assoc. cbn [app].
      destruct props as [|[k v] props]; [reflexivity|].
      assert (Hh : head_ok (JSON.join_comma (map member_text ((k, v) :: props)))).
      { apply join_comma_head; [discriminate|].
        apply List.Forall_map. apply Forall_forall. intros kv _.
        unfold member_text, JSON.quote. eexists _, _.
        split; [reflexivity|]. repeat split; reflexivity. }
      rewrite skip_ws_head_ok, expect_brace_head_ok by exact Hh.
      rewrite (members_parse f ((k, v) :: props));
        [reflexivity | discriminate | exact Hall | | assumption | assumption].
      rewrite length_app.
      assert (length ((k, v) :: props)
              <= length (JSON.join_comma (map member_text ((k, v) :: props))))%nat.
      { rewrite <- (length_map member_text).
        apply join_comma_length.
        apply List.Forall_map. apply Forall_forall. intros kv _.
        unfold member_text, JSON.quote. discriminate. }
      lia.
Qed.

Lemma text_clean_some (v : value) : json_clean v -> exists t, JSON.text v = Some t.
Proof.
  intros Hc. destruct (text_reads_back v Hc (S (JS.depth v)) ltac:(lia))
    as (t & Ht & _). eauto.
Qed.

Lemma fold_max_bound {A} (d : A -> nat) (l : list A) (bound : nat) :
  Forall (fun c => (d c <= bound)%nat) l ->
  (fold_right (fun c m => Nat.max (d c) m) O l <= bound)%nat.
Proof. induction 1; simpl; lia. Qed.

Lemma depth_obj_bound (props : list (string * value)) (bound : nat) :
  Forall (fun kv => (JS.depth (snd kv) <= bound)%nat) props ->
  (JS.depth (VObj props) <= S bound)%nat.
Proof.
  intros H. simpl. apply le_n_S.
  induction H as [|[k c] props Hc _ IH]; simpl in *; lia.
Qed.

(** A text is at least as long as the value is deep, so the fuel that
    [JSON.parse] starts with is enough. *)
Lemma depth_le_text (v : value) :
  json_clean v -> forall t, JSON.text v = Some t -> (JS.depth v <= length t)%nat.
Proof.
  induction v as [| |b|n|s|items IH|props IH] using value_ind_nested;
    intros Hc t Ht; inversion Hc; subst; try (simpl; lia).
  - simpl in Ht. injection Ht as <-.
    change (JS.depth (VArr items))
      with (S (fold_right (fun c m => Nat.max (JS.depth c) m) O items)).
    simpl length. rewrite length_app. simpl.
    enough (fold_right (fun c m => Nat.max (JS.depth c) m) O items
            <= length (JSON.join_comma (map element_text items)))%nat as E
      by (unfold element_text in E; lia).
    apply fold_max_bound.
    rewrite Forall_forall in *. intros c Hin.
    destruct (text_clean_some c) as (tc & Htc); [auto|].
    transitivity (length (element_text c)).
    + unfold element_text. rewrite Htc. apply IH; auto.
    + apply join_comma_part_length. apply in_map. apply list_elem_of_In. exact Hin.
  - rewrite text_obj_members in Ht.
    2:{ eapply Forall_impl; [eassumption|]. intros kv Hkv. apply text_clean_some. exact Hkv. }
    injection Ht as <-. simpl length. rewrite length_app. simpl length.
    enough (JS.depth (VObj props)
            <= S (length (JSON.join_comma (map member_text props))))%nat by lia.
    apply depth_obj_bound.
    rewrite Forall_forall in *. intros kv Hin.
    destruct (text_clean_some (snd kv)) as (tc & Htc); [auto|].
    transitivity (length (member_text kv)).
    + unfold member_text, element_text. rewrite Htc, length_app. simpl.
      specialize (IH kv Hin ltac:(auto) tc Htc). lia.
    + apply join_comma_part_length. apply in_map. apply list_elem_of_In. exact Hin.
Qed.

(** [JSON.parse] of the text of a clean value is that value. *)
Lemma JSON_parse_text (v : value) (t : list byte) :
  json_clean v -> JSON.text v = Some t ->
  JSON.parse (string_of_list_byte t) = Some v.
Proof.
  intros Hc Ht. unfold JSON.parse, JSON.bytes.
  rewrite list_byte_of_string_of_list_byte.
  pose proof (depth_le_text v Hc t Ht) as Hd.
  destruct (text_reads_back v Hc (S (length t)) ltac:(lia)) as (t' & Ht' & _ & Hp).
  rewrite Ht in Ht'. injection Ht' as <-.
  specialize (Hp [] eq_refl). rewrite app_nil_r in Hp. rewrite Hp. reflexivity.
Qed.

(** *** [JSON.parse] on examples

    Numerals with a fraction or an exponent denote the nearest double;
    [-0] and the overflow to [Infinity] are read as the runtime reads
    them, and a numeral with a leading zero or an empty fraction is a
    syntax error.  An escaped surrogate pair is one code point.  Keys
    that are array indices come first, a repeated key keeps its place
    and takes the last value. *)
Lemma JSON_parse_numerals :
  JSON.parse (json_of "[1.5e3, -0, 1e999, 0.1, 1E-7, 0.30000000000000004, 9007199254740993, 1e-400]")
  = Some (VArr [VNum (Number.Int 1500); VNum Number.NegZero;
                VNum (Number.Infinity false); VNum (Number.Frac false 1 1);
                VNum (Number.Frac false 1 7);
                VNum (Number.Frac false 30000000000000004 17);
                VNum (Number.Int 9007199254740992); VNum (Number.Int 0)])
  /\ JSON.parse (json_of "01") = None
  /\ JSON.parse (json_of "1.") = None
  /\ JSON.parse (json_of ".5") = None
  /\ JSON.parse (json_of "-") = None
  /\ JSON.parse (json_of "1e") = None.
Proof. repeat split; vm_compute; reflexivity. Qed.

Lemma JSON_parse_strings_and_keys :
  JSON.parse (json_of "'\ud83d\ude00'")
  = Some (VStr (string_of_list_byte [xf0; x9f; x98; x80]))
  /\ JSON.parse (json_of "{'b':1,'2':2,'1':3,'b':4}")
     = Some (VObj [("1", VNum (Number.Int 3)); ("2", VNum (Number.Int 2));
                   ("b", VNum (Number.Int 4))]).
Proof. split; vm_compute; reflexivity. Qed.

(** ** The metadata block of an encoded file *)

Lemma string_of_list_byte_cons (c : byte) (r : list byte) :
  string_of_list_byte (c :: r) = String (ascii_of_byte c) (string_of_list_byte r).
Proof. reflexivity. Qed.

Lemma index_key_not_objects (i : nat) : String.eqb (index_key i) "objects" = false.
Proof.
  unfold index_key, string_of_Z.
  destruct (number_text_head (Z.of_nat i)) as (c & r & -> & Hc).
  rewrite string_of_list_byte_cons.
  destruct c; try discriminate Hc; reflexivity.
Qed.

Lemma replace_tree_arr (f : nat) (r : string -> value -> result value)
    (key : string) (items mid res : list value) :
  r key (VArr items) = Ok (VArr mid) ->
  Forall2 (fun c c' => forall i, JSON.replace_tree f r (index_key i) c = Ok c')
    mid res ->
  JSON.replace_tree (S f) r key (VArr items) = Ok (VArr res).
Proof.
  intros Hr H2. cbn [JSON.replace_tree]. rewrite Hr. cbn [rbind].
  match goal with
  | |- rbind (?go O mid) _ = _ =>
      enough (E : forall i, go i mid = Ok res) by (rewrite E; reflexivity)
  end.
  clear Hr.
  induction H2 as [|c c' mid res Hc _ IH]; intros i; [reflexivity|].
  fold (index_key i). rewrite (Hc i). cbn [rbind]. rewrite IH. reflexivity.
Qed.

Lemma replace_tree_obj (f : nat) (r : string -> value -> result value)
    (key : string) (props mid res : list (string * value)) :
  r key (VObj props) = Ok (VObj mid) ->
  Forall2 (fun kv kv' => fst kv' = fst kv
                         /\ JSON.replace_tree f r (fst kv) (snd kv) = Ok (snd kv'))
    mid res ->
  JSON.replace_tree (S f) r key (VObj props) = Ok (VObj res).
Proof.
  intros Hr H2. cbn [JSON.replace_tree]. rewrite Hr. cbn [rbind].
  match goal with
  | |- rbind (?go mid) _ = _ =>
      enough (E : go mid = Ok res) by (rewrite E; reflexivity)
  end.
  clear Hr.
  induction H2 as [|[k c] [k' c'] mid res [Hk Hc] _ IH]; [reflexivity|].
  simpl in Hk, Hc. subst k'. rewrite Hc. cbn [rbind]. rewrite IH. reflexivity.
Qed.

Lemma replace_tree_num f key n :
  JSON.replace_tree (S f) Encoder.metaReplacer key (VNum n) = Ok (VNum n).
Proof. reflexivity. Qed.

Lemma replace_tree_str f key s :
  JSON.replace_tree (S f) Encoder.metaReplacer key (VStr s) = Ok (VStr s).
Proof. reflexivity. Qed.

Lemma replace_tree_sound f key (s : SoundMeta.t) :
  JSON.replace_tree (S (S f)) Encoder.metaReplacer key (Embed.sound_value s)
  = Ok (Embed.sound_value s).
Proof.
  unfold Embed.sound_value.
  destruct (SoundMeta.volume s), (SoundMeta.pitch s); reflexivity.
Qed.

Lemma replace_tree_sounds f (l : list SoundMeta.t) :
  JSON.replace_tree (S (S (S f))) Encoder.metaReplacer "sound"
    (VArr (map Embed.sound_value l))
  = Ok (VArr (map Embed.sound_value l)).
Proof.
  eapply replace_tree_arr; [reflexivity|].
  induction l as [|s l IH]; constructor; [|exact IH].
  intros i. apply replace_tree_sound.
Qed.

Lemma convertObjectToArray_object (o : H5AnimateObject.t) :
  Encoder.convertObjectToArray (Embed.object_value o) = Ok (raw_object o).
Proof.
  unfold Embed.object_value, raw_object.
  destruct (H5AnimateObject.mirror o), (H5AnimateObject.rotate o); reflexivity.
Qed.

Lemma mapM_convertObjectToArray (l : list H5AnimateObject.t) :
  JS.mapM Encoder.convertObjectToArray (map Embed.object_value l)
  = Ok (map raw_object l).
Proof.
  induction l as [|o l IH]; [reflexivity|].
  cbn [map JS.mapM]. rewrite convertObjectToArray_object. cbn [rbind].
  rewrite IH. reflexivity.
Qed.

Lemma replace_tree_raw_object f i (o : H5AnimateObject.t) :
  JSON.replace_tree (S (S f)) Encoder.metaReplacer (index_key i) (raw_object o)
  = Ok (raw_object o).
Proof.
  eapply replace_tree_arr.
  - unfold Encoder.metaReplacer, raw_object. rewrite index_key_not_objects.
    reflexivity.
  - repeat constructor.
Qed.

Lemma replace_tree_objects f (l : list H5AnimateObject.t) :
  JSON.replace_tree (S (S (S f))) Encoder.metaReplacer "objects"
    (VArr (map Embed.object_value l))
  = Ok (VArr (map raw_object l)).
Proof.
  eapply replace_tree_arr.
  - cbn [Encoder.metaReplacer String.eqb Ascii.eqb Bool.eqb]. cbv iota.
    unfold JS.map_method. rewrite mapM_convertObjectToArray. reflexivity.
  - induction l as [|o l IH]; constructor; [|exact IH].
    intros i. apply replace_tree_raw_object.
Qed.

Lemma replace_tree_frame f key (fr : H5AnimateFrame.t) :
  JSON.replace_tree (S (S (S (S f)))) Encoder.metaReplacer key (Embed.frame_value fr)
  = Ok (raw_frame fr).
Proof.
  unfold Embed.frame_value, raw_frame.
  eapply replace_tree_obj; [reflexivity|].
  destruct (H5AnimateFrame.sound fr), (H5AnimateFrame.objects fr),
    (H5AnimateFrame.objects_first fr);
    repeat constructor; simpl;
    first [apply replace_tree_sounds | apply replace_tree_objects].
Qed.

Lemma replace_tree_frames f (l : list H5AnimateFrame.t) :
  JSON.replace_tree (S (S (S (S (S f))))) Encoder.metaReplacer "frame"
    (VArr (map Embed.frame_value l))
  = Ok (VArr (map raw_frame l)).
Proof.
  eapply replace_tree_arr; [reflexivity|].
  induction l as [|fr l IH]; constructor; [|exact IH].
  intros i. apply replace_tree_frame.
Qed.

Lemma replace_tree_meta (fuel : nat) (m : H5AnimateMeta.t) :
  (6 <= fuel)%nat ->
  JSON.replace_tree fuel Encoder.metaReplacer EmptyString (Embed.meta_value m)
  = Ok (raw_meta m).
Proof.
  intros H. do 6 (destruct fuel as [|fuel]; [lia|]).
  unfold Embed.meta_value, raw_meta.
  eapply replace_tree_obj; [reflexivity|].
  repeat constructor; simpl. apply replace_tree_frames.
Qed.

(** *** The printed tree is clean *)

Lemma Forall_flat_map_inv {A B} (P : B -> Prop) (f : A -> list B)
    (l : list A) (x : A) :
  Forall P (flat_map f l) -> x ∈ l -> Forall P (f x).
Proof.
  intros H Hx. rewrite Forall_forall in *. intros y Hy. apply H.
  apply list_elem_of_In, in_flat_map. exists x.
  split; apply list_elem_of_In; assumption.
Qed.

Lemma stable_zero : stable_number (Number.Int 0) = true.
Proof. vm_compute. reflexivity. Qed.

Lemma or_zero_stable (o : option Number.t) :
  Forall (fun x => stable_number x = true) (option_numbers o) ->
  stable_number (or_zero o) = true.
Proof.
  destruct o as [n|]; simpl; intros H; [|exact stable_zero].
  inversion H; assumption.
Qed.

Lemma sound_value_clean (s : SoundMeta.t) :
  Forall (fun x => stable_number x = true) (sound_numbers s) ->
  json_clean (Embed.sound_value s).
Proof.
  unfold Embed.sound_value, sound_numbers. intros H.
  destruct (SoundMeta.volume s), (SoundMeta.pitch s); simpl in *;
    (constructor; [|distinct_keys|reflexivity]);
    repeat match goal with
           | H : Forall _ (_ :: _) |- _ => inversion H; clear H; subst
           end;
    repeat constructor; assumption.
Qed.

Lemma raw_object_clean (o : H5AnimateObject.t) :
  Forall (fun x => stable_number x = true) (object_numbers o) ->
  json_clean (raw_object o).
Proof.
  unfold raw_object, object_numbers. intros H.
  do 5 (inversion H as [|? ? ? H']; clear H; subst; rename H' into H).
  apply Forall_app in H as [Hm Hr].
  repeat constructor; try assumption; apply or_zero_stable; assumption.
Qed.

Lemma raw_frame_clean (f : H5AnimateFrame.t) :
  Forall (fun x => stable_number x = true) (frame_numbers f) ->
  json_clean (raw_frame f).
Proof.
  unfold raw_frame, frame_numbers. intros H. apply Forall_app in H as [Hs Ho].
  destruct (H5AnimateFrame.sound f) as [ls|], (H5AnimateFrame.objects f) as [lo|],
    (H5AnimateFrame.objects_first f);
    simpl; (constructor; [|distinct_keys|reflexivity]);
    repeat constructor; simpl;
    apply List.Forall_map, Forall_forall; intros x Hx;
    first [apply sound_value_clean; exact (Forall_flat_map_inv _ _ _ x Hs Hx)
          | apply raw_object_clean; exact (Forall_flat_map_inv _ _ _ x Ho Hx)].
Qed.

Lemma raw_meta_clean (m : H5AnimateMeta.t) :
  stable_meta m -> json_clean (raw_meta m).
Proof.
  unfold raw_meta, stable_meta, meta_numbers. intros H.
  inversion H as [|? ? Hr Hf]; subst. constructor.
  - repeat constructor; [exact Hr|]. simpl.
    apply List.Forall_map, Forall_forall. intros f Hin. apply raw_frame_clean.
    exact (Forall_flat_map_inv _ _ _ f Hf Hin).
  - distinct_keys.
  - reflexivity.
Qed.

Lemma text_raw_meta (m : H5AnimateMeta.t) :
  JSON.text (raw_meta m) = Some (meta_text m).
Proof. reflexivity. Qed.

Lemma stringify_meta (m : H5AnimateMeta.t) :
  JSON.stringify (Embed.meta_value m) Encoder.metaReplacer
  = Ok (Some (string_of_list_byte (meta_text m))).
Proof.
  unfold JSON.stringify. rewrite replace_tree_meta.
  - cbn [rbind]. rewrite text_raw_meta. reflexivity.
  - unfold JSON.stringify_fuel, Embed.meta_value. simpl. lia.
Qed.

(** ** The layout of an encoded file *)

Lemma wstate_eq (d1 r1 d2 r2 : Buffer) :
  d1 = d2 -> r1 = r2 -> wstate d1 r1 = wstate d2 r2.
Proof. intros -> ->. reflexivity. Qed.

Lemma writeUInt32LE_at (v : Z) (done rest : Buffer) :
  is_u32 v -> (4 <= length rest)%nat ->
  BinaryWriter.writeUInt32LE v (wstate done rest)
  = Ok (wstate (done ++ u32le_bytes v) (drop 4 rest)).
Proof.
  intros [Hv0 Hv1] Hr. unfold BinaryWriter.writeUInt32LE, wstate. simpl.
  pose proof (blength_nonneg done) as Hd.
  destruct (Z.ltb_spec v 0); [lia|].
  destruct (Z.gtb_spec v 4294967295); [lia|].
  destruct (Z.ltb_spec (blength done) 0); [lia|].
  destruct (Z.gtb_spec (blength done + 4) (blength (done ++ rest))) as [Hgt|_].
  { rewrite blength_app in Hgt. unfold blength in Hgt. lia. }
  simpl. rewrite write_at_app by (simpl; lia).
  rewrite blength_app. change (blength (u32le_bytes v)) with 4.
  rewrite <- app_assoc. reflexivity.
Qed.

Lemma writeBuffer_at (src done rest : Buffer) :
  (length src <= length rest)%nat ->
  BinaryWriter.writeBuffer src (wstate done rest)
  = Ok (wstate (done ++ src) (drop (length src) rest)).
Proof.
  intros Hr. unfold BinaryWriter.writeBuffer, wstate. simpl.
  pose proof (blength_nonneg done) as Hd.
  destruct (Z.ltb_spec (blength done) 0); [lia|].
  destruct (Z.geb_spec (blength done) (blength (done ++ rest))) as [Hge|Hlt].
  - rewrite blength_app in Hge. unfold blength in Hge.
    assert (length rest = 0%nat) by lia.
    destruct rest; [|simpl in *; lia]. destruct src; [|simpl in *; lia].
    simpl. rewrite !app_nil_r, Z.add_0_r. reflexivity.
  - rewrite write_at_app by exact Hr. rewrite blength_app, <- app_assoc.
    reflexivity.
Qed.

Lemma writeString_at (value : string) (rest : Buffer) :
  (length (list_byte_of_string value) <= length rest)%nat ->
  BinaryWriter.writeString value (wstate [] rest)
  = Ok (wstate (list_byte_of_string value)
          (drop (length (list_byte_of_string value)) rest)).
Proof.
  intros Hr. unfold BinaryWriter.writeString, wstate.
  cbn [BinaryWriter.offset BinaryWriter.buffer app].
  change (blength []) with 0. change (0 <? 0) with false. cbn [orb].
  pose proof (blength_nonneg rest) as Hd.
  destruct (Z.gtb_spec 0 (blength rest)); [lia|].
  rewrite (write_at_app [] rest) by exact Hr. cbn [app].
  do 2 f_equal. unfold blength in *. lia.
Qed.

Lemma write_dimensions_at (dims : list SpriteDimension.t) (done rest : Buffer) :
  Forall (fun d => is_u32 (SpriteDimension.width d)
                   /\ is_u32 (SpriteDimension.height d)) dims ->
  (8 * length dims <= length rest)%nat ->
  Encoder.write_dimensions dims (wstate done rest)
  = Ok (wstate (done ++ flat_map dimension_bytes dims)
          (drop (8 * length dims) rest)).
Proof.
  intros Hall. revert done rest.
  induction Hall as [|d dims [Hw Hh] _ IH]; intros done rest Hr.
  - simpl. rewrite app_nil_r. reflexivity.
  - cbn [Encoder.write_dimensions].
    rewrite writeUInt32LE_at by (auto; simpl in Hr; lia). cbn [rbind].
    rewrite writeUInt32LE_at
      by (auto; rewrite length_drop; simpl in Hr; lia).
    cbn [rbind]. rewrite IH by (rewrite !length_drop; simpl in Hr; lia).
    apply f_equal. apply wstate_eq.
    + cbn [flat_map]. unfold dimension_bytes. rewrite <- !app_assoc. reflexivity.
    + rewrite !drop_drop. f_equal. simpl. lia.
Qed.

Lemma flat_map_dimension_length (dims : list SpriteDimension.t) :
  length (flat_map dimension_bytes dims) = (8 * length dims)%nat.
Proof.
  induction dims as [|d dims IH]; [reflexivity|].
  cbn [flat_map]. rewrite length_app, IH. simpl. lia.
Qed.

Lemma encode_layout (uninit : nat -> byte) (m : H5AnimateMeta.t)
    (s : SpriteInfo.t) (w : Buffer) :
  valid_triple m s w ->
  Encoder.encodeH5Animate uninit (Some (meta_input m)) (Some (spriteInfo_input s))
    (Some w)
  = Ok (encoded_layout s w (meta_text m)).
Proof.
  intros (Hcount & Hdims & Himg & Hmeta).
  unfold Encoder.encodeH5Animate, Encoder.validateEncodeInput. simpl.
  destruct m as [ratio frames], s as [count dims]. simpl in *.
  rewrite stringify_meta. cbn [rbind].
  rewrite list_byte_of_string_of_list_byte.
  set (t := meta_text _) in *.
  pose proof (blength_nonneg w) as Hw0. pose proof (blength_nonneg t) as Ht0.
  unfold Encoder.getSpriteInfoSize in *. simpl in *.
  set (total := 4 + count * 8 + blength w) in *.
  unfold BinaryWriter.new, BinaryWriter.allocUnsafe.
  destruct (Z.ltb_spec (16 + total + blength t) 0); [lia|]. cbn [rbind].
  set (b0 := map uninit _).
  assert (Hb0 : length b0 = (20 + 8 * length dims + length w + length t)%nat).
  { subst b0. rewrite length_map, length_seq. subst total. unfold blength in *. lia. }
  change {| BinaryWriter.buffer := b0; BinaryWriter.offset := 0 |}
    with (wstate [] b0).
  rewrite writeString_at by (simpl; lia). cbn [rbind].
  change (length (list_byte_of_string Encoder.FILE_SIGNATURE)) with 4%nat.
  rewrite writeUInt32LE_at
    by (first [unfold is_u32, Encoder.CURRENT_VERSION; lia
              | rewrite ?length_drop; lia]).
  cbn [rbind].
  rewrite writeUInt32LE_at
    by (first [unfold is_u32; lia | rewrite ?length_drop; lia]).
  cbn [rbind].
  rewrite writeUInt32LE_at
    by (first [unfold is_u32; lia | rewrite ?length_drop; lia]).
  cbn [rbind].
  rewrite writeUInt32LE_at
    by (first [unfold is_u32; lia | rewrite ?length_drop; lia]).
  cbn [rbind].
  rewrite write_dimensions_at.
  2:{ eapply Forall_impl; [exact Hdims|]. unfold is_u32. intros d [? ?]. lia. }
  2:{ rewrite ?length_drop. lia. }
  cbn [rbind].
  rewrite writeBuffer_at by (rewrite ?length_drop; lia). cbn [rbind].
  rewrite writeBuffer_at by (rewrite ?length_drop; lia). cbn [rbind].
  unfold BinaryWriter.getBuffer, wstate. cbn [BinaryWriter.buffer].
  rewrite !drop_drop.
  rewrite drop_ge by lia. rewrite app_nil_r.
  unfold encoded_layout, Encoder.getSpriteInfoSize. simpl.
  rewrite <- !app_assoc. reflexivity.
Qed.

(** ** Reading an encoded file back *)

Lemma pstate_eq (c1 r1 c2 r2 : Buffer) :
  (c1 ++ r1 = c2 ++ r2)%list -> blength c1 = blength c2 ->
  pstate c1 r1 = pstate c2 r2.
Proof. unfold pstate. intros -> ->. reflexivity. Qed.

Lemma readBytes_at (bs seen rest : Buffer) :
  BinaryParser.readBytes (blength bs) (pstate seen (bs ++ rest))
  = Ok (bs, pstate (seen ++ bs) rest).
Proof.
  pose proof (readBytes_outcome (pstate seen (bs ++ rest)) (blength bs)
                ltac:(simpl; apply blength_nonneg) (blength_nonneg bs)) as H.
  unfold read_outcome, pstate in H. unfold pstate.
  cbn [BinaryParser.offset BinaryParser.buffer] in H.
  destruct (Z.gtb_spec (blength seen + blength bs) (blength (seen ++ bs ++ rest)))
    as [Hgt|_].
  { rewrite !blength_app in Hgt. pose proof (blength_nonneg rest). lia. }
  destruct H as (a & p' & -> & Ha & Hb & Ho & _).
  f_equal. f_equal.
  - rewrite Ha. unfold bytes_at_cursor.
    cbn [BinaryParser.offset BinaryParser.buffer]. unfold blength.
    rewrite !Nat2Z.id, drop_app_length, take_app_length. reflexivity.
  - destruct p' as [b o]. simpl in *. subst b o. unfold pstate.
    rewrite blength_app, <- app_assoc. reflexivity.
Qed.

Lemma readBytes_at_end (bs seen : Buffer) :
  BinaryParser.readBytes (blength bs) (pstate seen bs)
  = Ok (bs, pstate (seen ++ bs) []).
Proof.
  pose proof (readBytes_at bs seen []) as H. rewrite app_nil_r in H. exact H.
Qed.

Lemma readUInt32LE_at (v : Z) (seen rest : Buffer) :
  is_u32 v ->
  BinaryParser.readUInt32LE (pstate seen (u32le_bytes v ++ rest))
  = Ok (v, pstate (seen ++ u32le_bytes v) rest).
Proof.
  intros Hv.
  pose proof (readUInt32LE_outcome (pstate seen (u32le_bytes v ++ rest))
                ltac:(simpl; apply blength_nonneg)) as H.
  unfold read_outcome, pstate in H. unfold pstate.
  cbn [BinaryParser.offset BinaryParser.buffer] in H.
  destruct (Z.gtb_spec (blength seen + 4)
              (blength (seen ++ u32le_bytes v ++ rest))) as [Hgt|_].
  { rewrite !blength_app in Hgt. change (blength (u32le_bytes v)) with 4 in Hgt.
    pose proof (blength_nonneg rest). lia. }
  destruct H as (a & p' & -> & Ha & Hb & Ho & _).
  f_equal. f_equal.
  - rewrite Ha. unfold bytes_at_cursor.
    cbn [BinaryParser.offset BinaryParser.buffer]. unfold blength.
    rewrite !Nat2Z.id, drop_app_length.
    change (Z.to_nat 4) with (length (u32le_bytes v)). rewrite take_app_length.
    rewrite <- (app_nil_r (u32le_bytes v)). apply u32le_value_bytes. exact Hv.
  - destruct p' as [b o]. simpl in *. subst b o. unfold pstate.
    rewrite blength_app, <- app_assoc. reflexivity.
Qed.

Lemma ascii_decode_signature :
  ascii_decode (list_byte_of_string Decoder.FILE_SIGNATURE) = Decoder.FILE_SIGNATURE.
Proof. reflexivity. Qed.

Lemma readString_signature (rest : Buffer) :
  BinaryParser.readString 4
    (BinaryParser.new (list_byte_of_string Decoder.FILE_SIGNATURE ++ rest))
  = Ok (Decoder.FILE_SIGNATURE,
        pstate (list_byte_of_string Decoder.FILE_SIGNATURE) rest).
Proof.
  pose proof (readString_outcome
                (pstate [] (list_byte_of_string Decoder.FILE_SIGNATURE ++ rest)) 4
                ltac:(unfold pstate, blength; simpl; lia) ltac:(lia)) as H.
  unfold read_outcome in H.
  destruct (_ >? _) eqn:E.
  { apply Z.gtb_lt in E. unfold pstate, blength in E. simpl in E. lia. }
  destruct H as (a & p' & Hr & Ha & Hb & Ho & _).
  change (BinaryParser.new (list_byte_of_string Decoder.FILE_SIGNATURE ++ rest))
    with (pstate [] (list_byte_of_string Decoder.FILE_SIGNATURE ++ rest)).
  rewrite Hr. f_equal. f_equal.
  - rewrite Ha. reflexivity.
  - destruct p' as [b o]. simpl in *. subst b o. reflexivity.
Qed.

Lemma read_dimensions_at (dims acc : list SpriteDimension.t) (seen rest : Buffer) :
  Forall (fun d => is_u32 (SpriteDimension.width d)
                   /\ is_u32 (SpriteDimension.height d)) dims ->
  Decoder.read_dimensions (length dims) acc
    (pstate seen (flat_map dimension_bytes dims ++ rest))
  = Ok ((acc ++ dims)%list, pstate (seen ++ flat_map dimension_bytes dims) rest).
Proof.
  intros Hall. revert acc seen.
  induction Hall as [|[w h] dims [Hw Hh] _ IH]; intros acc seen.
  - simpl. rewrite !app_nil_r. reflexivity.
  - cbn [length Decoder.read_dimensions flat_map]. unfold dimension_bytes at 1.
    simpl in Hw, Hh. cbn [SpriteDimension.width SpriteDimension.height].
    rewrite <- !app_assoc.
    rewrite readUInt32LE_at by exact Hw. cbn [rbind].
    rewrite readUInt32LE_at by exact Hh. cbn [rbind].
    rewrite IH. f_equal. f_equal.
    + rewrite <- app_assoc. reflexivity.
    + apply pstate_eq.
      * unfold dimension_bytes. simpl. rewrite <- !app_assoc. reflexivity.
      * unfold dimension_bytes. simpl. rewrite <- !app_assoc. reflexivity.
Qed.

(** Decoding a file of the standard layout reads its parts back, and
    leaves the metadata to [JSON.parse] and [convertArraysToObjects]. *)
Lemma decode_layout (s : SpriteInfo.t) (w t : Buffer) :
  SpriteInfo.count s = Z.of_nat (length (SpriteInfo.dimensions s)) ->
  Forall (fun d => is_u32 (SpriteDimension.width d)
                   /\ is_u32 (SpriteDimension.height d))
    (SpriteInfo.dimensions s) ->
  is_u32 (Encoder.getSpriteInfoSize s + blength w) ->
  is_u32 (blength t) ->
  Decoder.decodeH5Animate (encoded_layout s w t)
  = match JSON.parse (string_of_list_byte t) with
    | None => Throw (H5 (Errors.createInvalidMetadataError "JSON 解析失败" None))
    | Some rawMeta =>
        meta <- Decoder.convertArraysToObjects rawMeta ;;
        Ok {| DecodedH5Animate.meta := meta;
              DecodedH5Animate.spriteInfo := s;
              DecodedH5Animate.webpData := w |}
    end.
Proof.
  destruct s as [count dims]. simpl. intros Hcount Hdims Himg Hmeta.
  assert (Hc : is_u32 count).
  { unfold is_u32, Encoder.getSpriteInfoSize in *. simpl in *.
    pose proof (blength_nonneg w). lia. }
  unfold Decoder.decodeH5Animate, Decoder.parseHeader, encoded_layout.
  cbn [SpriteInfo.count SpriteInfo.dimensions].
  change Encoder.FILE_SIGNATURE with Decoder.FILE_SIGNATURE.
  rewrite readString_signature. cbn [rbind].
  change (negb (Decoder.FILE_SIGNATURE =? Decoder.FILE_SIGNATURE)%string) with false.
  cbv iota.
  rewrite readUInt32LE_at by (unfold is_u32, Encoder.CURRENT_VERSION; lia).
  cbn [rbind].
  rewrite readUInt32LE_at by exact Himg. cbn [rbind].
  rewrite readUInt32LE_at by exact Hmeta. cbn [rbind].
  unfold Decoder.parseSpriteInfo.
  rewrite readUInt32LE_at by exact Hc. cbn [rbind].
  rewrite Hcount at 1. rewrite Nat2Z.id.
  rewrite read_dimensions_at by exact Hdims. cbn [rbind app].
  cbn [FileHeader.imageDataSize FileHeader.metaDataSize].
  unfold Decoder.getSpriteInfoSize, Encoder.getSpriteInfoSize.
  cbn [SpriteInfo.count].
  replace (4 + count * 8 + blength w - (4 + count * 8)) with (blength w) by lia.
  rewrite readBytes_at. cbn [rbind].
  rewrite readBytes_at_end. cbn [rbind].
  reflexivity.
Qed.

(** ** From compact arrays back to objects *)

Lemma convertArrayToObject_raw (o : H5AnimateObject.t) :
  Decoder.convertArrayToObject (raw_object o)
  = Ok (Embed.object_value (normalize_object o)).
Proof. reflexivity. Qed.

Lemma mapM_ok {A B} (f : A -> result B) (g : A -> B) (l : list A) :
  (forall a, f a = Ok (g a)) -> JS.mapM f l = Ok (map g l).
Proof.
  intros H. induction l as [|a l IH]; [reflexivity|].
  cbn [JS.mapM map]. rewrite H. cbn [rbind]. rewrite IH. reflexivity.
Qed.

Lemma mapM_map {A B C} (f : B -> result C) (h : A -> B) (l : list A) :
  JS.mapM f (map h l) = JS.mapM (fun a => f (h a)) l.
Proof.
  induction l as [|a l IH]; [reflexivity|].
  cbn [JS.mapM map]. rewrite IH. reflexivity.
Qed.

Lemma convert_raw_frame (f : H5AnimateFrame.t) :
  (sound <- JS.getProp (raw_frame f) "sound" ;;
   objects <- JS.getProp (raw_frame f) "objects" ;;
   objects <- JS.optional_map objects Decoder.convertArrayToObject ;;
   Ok (VObj [("sound", sound); ("objects", objects)]))
  = Ok (decoded_frame f).
Proof.
  unfold raw_frame, decoded_frame.
  destruct (H5AnimateFrame.sound f) as [ls|], (H5AnimateFrame.objects f) as [lo|],
    (H5AnimateFrame.objects_first f);
    cbn [app JS.getProp JS.get_own String.eqb Ascii.eqb Bool.eqb rbind
         JS.optional_map JS.map_method];
    try reflexivity;
    rewrite mapM_map,
      (mapM_ok _ (fun o => Embed.object_value (normalize_object o)))
      by (intros; apply convertArrayToObject_raw);
    reflexivity.
Qed.

Lemma convertArraysToObjects_raw (m : H5AnimateMeta.t) :
  Decoder.convertArraysToObjects (raw_meta m) = Ok (decoded_meta m).
Proof.
  unfold Decoder.convertArraysToObjects, raw_meta, decoded_meta.
  cbn [JS.getProp JS.get_own String.eqb Ascii.eqb Bool.eqb rbind JS.falsy
       JS.map_method].
  rewrite mapM_map, (mapM_ok _ decoded_frame) by (intros; apply convert_raw_frame).
  reflexivity.
Qed.

(** *** Structural equality with the input *)

Lemma strip_sound (s : SoundMeta.t) :
  JS.strip (Embed.sound_value s) = Embed.sound_value s.
Proof.
  unfold Embed.sound_value.
  destruct (SoundMeta.volume s), (SoundMeta.pitch s); reflexivity.
Qed.

Lemma strip_object (o : H5AnimateObject.t) :
  JS.strip (Embed.object_value o) = Embed.object_value o.
Proof.
  unfold Embed.object_value.
  destruct (H5AnimateObject.mirror o), (H5AnimateObject.rotate o); reflexivity.
Qed.

Lemma map_strip_id {A} (h : A -> value) (l : list A) :
  (forall a, JS.strip (h a) = h a) -> map JS.strip (map h l) = map h l.
Proof.
  intros H. rewrite List.map_map. apply List.map_ext. exact H.
Qed.

Lemma strip_decoded_frame (f : H5AnimateFrame.t) :
  JS.strip (decoded_frame f) = Embed.frame_value (normalize_frame f).
Proof.
  unfold decoded_frame, Embed.frame_value, normalize_frame.
  destruct (H5AnimateFrame.sound f) as [ls|], (H5AnimateFrame.objects f) as [lo|],
    (H5AnimateFrame.objects_first f);
    cbn [JS.strip H5AnimateFrame.sound H5AnimateFrame.objects option_map app];
    rewrite ?(map_strip_id Embed.sound_value) by apply strip_sound;
    rewrite ?(map_strip_id (fun o => Embed.object_value (normalize_object o)))
      by (intros; apply strip_object);
    rewrite ?List.map_map; reflexivity.
Qed.

Lemma strip_decoded_meta (m : H5AnimateMeta.t) :
  JS.strip (decoded_meta m) = Embed.meta_value (normalize_meta m).
Proof.
  unfold decoded_meta, Embed.meta_value, normalize_meta.
  cbn [JS.strip H5AnimateMeta.ratio H5AnimateMeta.frame].
  rewrite !List.map_map. do 5 f_equal.
  apply List.map_ext. apply strip_decoded_frame.
Qed.

(** C1 (amended).  For every valid triple whose metadata holds only
    numbers that are finite and not [-0], encoding succeeds and decoding
    the encoded buffer returns the same sprite information and pixel
    payload and a metadata value structurally equal to the input with
    absent [mirror] and [rotate] normalized to 0.  The equality is that
    of the two values as objects: properties that hold [undefined] are
    left out ([JS.strip]), and the decoded frames hold [sound] before
    [objects] whatever the order in the input ([normalize_meta]). *)
Theorem C1_round_trip (uninit : nat -> byte) (m : H5AnimateMeta.t)
    (s : SpriteInfo.t) (w : Buffer) :
  valid_triple m s w ->
  stable_meta m ->
  exists encoded decoded,
    Encoder.encodeH5Animate uninit (Some (meta_input m))
      (Some (spriteInfo_input s)) (Some w) = Ok encoded
    /\ Decoder.decodeH5Animate encoded = Ok decoded
    /\ JS.strip (DecodedH5Animate.meta decoded)
       = Embed.meta_value (normalize_meta m)
    /\ DecodedH5Animate.spriteInfo decoded = s
    /\ DecodedH5Animate.webpData decoded = w.
Proof.
  intros Hv Hstable. pose proof Hv as (Hcount & Hdims & Himg & Hmeta).
  exists (encoded_layout s w (meta_text m)).
  exists {| DecodedH5Animate.meta := decoded_meta m;
            DecodedH5Animate.spriteInfo := s;
            DecodedH5Animate.webpData := w |}.
  split; [apply encode_layout; exact Hv|].
  split; [|split; [apply strip_decoded_meta | split; reflexivity]].
  rewrite decode_layout.
  - rewrite (JSON_parse_text (raw_meta m))
      by (apply raw_meta_clean, Hstable || apply text_raw_meta).
    rewrite convertArraysToObjects_raw. reflexivity.
  - exact Hcount.
  - eapply Forall_impl; [exact Hdims|]. unfold is_u32. intros d [? ?]. lia.
  - unfold is_u32, Encoder.getSpriteInfoSize in *.
    pose proof (blength_nonneg w). lia.
  - unfold is_u32. pose proof (blength_nonneg (meta_text m)). lia.
Qed.

(** ** Legacy metadata *)




(** *** The typed converter is the source on typed files *)












(** ** The claims on the sample inputs *)

Lemma sample_valid_triple :
  valid_triple sample_meta sample_spriteInfo sample_webpData.
Proof.
  unfold valid_triple. split; [reflexivity|]. split.
  - repeat constructor.
  - split; vm_compute; reflexivity.
Defined.

Lemma sample_stable_meta : stable_meta sample_meta.
Proof.
  unfold stable_meta.
  let l := eval vm_compute in (meta_numbers sample_meta) in
  change (Forall (fun x => stable_number x = true) l).
  repeat (constructor; [vm_compute; reflexivity|]). constructor.
Defined.

Lemma C1_round_trip_witness :
  valid_triple sample_meta sample_spriteInfo sample_webpData
  /\ stable_meta sample_meta
  /\ exists encoded decoded,
       Encoder.encodeH5Animate zero_fill (Some (meta_input sample_meta))
         (Some (spriteInfo_input sample_spriteInfo)) (Some sample_webpData)
       = Ok encoded
       /\ Decoder.decodeH5Animate encoded = Ok decoded
       /\ JS.strip (DecodedH5Animate.meta decoded)
          = Embed.meta_value (normalize_meta sample_meta)
       /\ DecodedH5Animate.spriteInfo decoded = sample_spriteInfo
       /\ DecodedH5Animate.webpData decoded = sample_webpData.
Proof.
  split; [exact sample_valid_triple|]. split; [exact sample_stable_meta|].
  apply (C1_round_trip zero_fill sample_meta sample_spriteInfo sample_webpData).
  - exact sample_valid_triple.
  - exact sample_stable_meta.
Defined.

(** C1 as stated fails on metadata that holds a number without a JSON
    numeral.  A pitch that is [NaN] passes [validateH5AnimateMeta] and is
    encoded, as [null]; the decoded metadata holds [null] where the input
    holds [NaN].  An [x] that is [-0] is encoded as [0] and comes back as
    [0]. *)
Lemma C1_counterexample :
  (valid_triple nan_pitch_meta sample_spriteInfo sample_webpData
   /\ Validation.validateH5AnimateMeta (Embed.meta_value nan_pitch_meta) = Ok tt
   /\ exists encoded decoded,
        Encoder.encodeH5Animate zero_fill (Some (meta_input nan_pitch_meta))
          (Some (spriteInfo_input sample_spriteInfo)) (Some sample_webpData)
        = Ok encoded
        /\ Decoder.decodeH5Animate encoded = Ok decoded
        /\ JS.strip (DecodedH5Animate.meta decoded)
           = VObj [("ratio", VNum (Number.Int 1));
                   ("frame",
                    VArr [VObj [("sound",
                                 VArr [VObj [("name", VStr "hit.mp3");
                                             ("pitch", VNull)]])]])]
        /\ JS.strip (DecodedH5Animate.meta decoded)
           <> Embed.meta_value (normalize_meta nan_pitch_meta))
  /\ (valid_triple negative_zero_meta sample_spriteInfo sample_webpData
      /\ exists encoded decoded,
           Encoder.encodeH5Animate zero_fill (Some (meta_input negative_zero_meta))
             (Some (spriteInfo_input sample_spriteInfo)) (Some sample_webpData)
           = Ok encoded
           /\ Decoder.decodeH5Animate encoded = Ok decoded
           /\ JS.strip (DecodedH5Animate.meta decoded)
              = Embed.meta_value
                  {| H5AnimateMeta.ratio := Number.Int 1;
                     H5AnimateMeta.frame :=
                       [{| H5AnimateFrame.sound := None;
                           H5AnimateFrame.objects :=
                             Some [{| H5AnimateObject.index := Number.Int 0;
                                      H5AnimateObject.x := Number.Int 0;
                                      H5AnimateObject.y := Number.Int 0;
                                      H5AnimateObject.scale := Number.Int 100;
                                      H5AnimateObject.opacity := Number.Int 255;
                                      H5AnimateObject.mirror := Some (Number.Int 0);
                                      H5AnimateObject.rotate := Some (Number.Int 0) |}];
                           H5AnimateFrame.objects_first := false |}] |}
           /\ JS.strip (DecodedH5Animate.meta decoded)
              <> Embed.meta_value (normalize_meta negative_zero_meta)).
Proof.
  split.
  - split; [|split; [reflexivity|]].
    + unfold valid_triple. split; [reflexivity|]. split; [repeat constructor|].
      split; vm_compute; reflexivity.
    + eexists. eexists. split; [vm_compute; reflexivity|].
      split; [vm_compute; reflexivity|].
      split; [reflexivity | discriminate].
  - split.
    + unfold valid_triple. split; [reflexivity|]. split; [repeat constructor|].
      split; vm_compute; reflexivity.
    + eexists. eexists. split; [vm_compute; reflexivity|].
      split; [vm_compute; reflexivity|].
      split; [reflexivity | discriminate].
Qed.

(** C2 (the code at the failing input).  The header of
    [negative_size_buffer] declares [imageDataSize = 8] and a sprite count
    of 1, so the payload size is [8 - (4 + 8 * 1) = -4]; the decoder
    does not fail: it returns an empty payload and parses the metadata
    from the bytes of the sprite table. *)
Theorem C2_negative_payload_size_accepted :
  u32_at negative_size_buffer 8 - (4 + 8 * u32_at negative_size_buffer 16) = -4
  /\ Decoder.decodeH5Animate negative_size_buffer
     = Ok {| DecodedH5Animate.meta :=
               VObj [("ratio", VNum (Number.Int 1)); ("frame", VArr [])];
             DecodedH5Animate.spriteInfo :=
               {| SpriteInfo.count := 1;
                  SpriteInfo.dimensions :=
                    [{| SpriteDimension.width := 1;
                        SpriteDimension.height := 1634869883 |}] |};
             DecodedH5Animate.webpData := [] |}.
Proof. split; vm_compute; reflexivity. Qed.

(** The part of C2 that holds: a payload size above the bytes that remain
    after the sprite table is the bounds error of [readBytes], at the
    offset where the payload starts. *)
Lemma payload_size_exceeds (buffer : Buffer) (header : FileHeader.t)
    (spriteInfo : SpriteInfo.t) (p1 p2 : BinaryParser.t) :
  Decoder.parseHeader (BinaryParser.new buffer) = Ok (header, p1) ->
  Decoder.parseSpriteInfo p1 = Ok (spriteInfo, p2) ->
  FileHeader.imageDataSize header - Decoder.getSpriteInfoSize spriteInfo
    > BinaryParser.getRemainingBytes p2 ->
  exists e,
    Decoder.decodeH5Animate buffer = Throw (H5 e)
    /\ Errors.code e = Errors.CORRUPTED_HEADER
    /\ Errors.position e = Some (BinaryParser.offset p2).
Proof.
  intros Hh Hs Hgt. unfold Decoder.decodeH5Animate.
  rewrite Hh. cbn [rbind]. rewrite Hs. cbn [rbind].
  unfold BinaryParser.readBytes, BinaryParser.getRemainingBytes in *.
  destruct (checkBounds_throw
              (FileHeader.imageDataSize header - Decoder.getSpriteInfoSize spriteInfo)
              p2 ltac:(lia)) as (e & He & Hc & Hp).
  rewrite He. exists e. auto.
Qed.

(** A negative count passes the bounds check of [readBytes]: the read
    returns no byte and moves the cursor backwards. *)
Lemma readBytes_negative (n : Z) (p : BinaryParser.t) :
  n < 0 -> 0 <= BinaryParser.offset p + n ->
  BinaryParser.offset p <= blength (BinaryParser.buffer p) ->
  BinaryParser.readBytes n p
  = Ok ([], {| BinaryParser.buffer := BinaryParser.buffer p;
               BinaryParser.offset := BinaryParser.offset p + n |}).
Proof.
  intros Hn Ho Hb. unfold BinaryParser.readBytes.
  rewrite checkBounds_ok by lia. cbn [rbind].
  rewrite subarray_backwards by lia. reflexivity.
Qed.



Lemma C4_size_invariant_witness :
  Encoder.encodeH5Animate zero_fill (Some (meta_input sample_meta))
    (Some (spriteInfo_input sample_spriteInfo)) (Some sample_webpData)
  = Ok (encoded_layout sample_spriteInfo sample_webpData (meta_text sample_meta))
  /\ exists m s w,
       Encoder.narrowed (Some (meta_input sample_meta))
         (Some (spriteInfo_input sample_spriteInfo)) (Some sample_webpData)
       = Some (m, s, w)
       /\ u32_at (encoded_layout sample_spriteInfo sample_webpData
                    (meta_text sample_meta)) 8
          = 4 + 8 * SpriteInfo.count s + blength w.
Proof.
  assert (H : Encoder.encodeH5Animate zero_fill (Some (meta_input sample_meta))
                (Some (spriteInfo_input sample_spriteInfo)) (Some sample_webpData)
              = Ok (encoded_layout sample_spriteInfo sample_webpData
                      (meta_text sample_meta)))
    by (vm_compute; reflexivity).
  split; [exact H|].
  exact (C4_size_invariant zero_fill _ _ _ _ H).
Defined.

Lemma C5_out_of_range_extraction_witness :
  sample_sharp_metadata sample_webpData
  = inr {| ImageMetadata.width := Some 100; ImageMetadata.height := Some 50 |}
  /\ 2 * ExtractFrameOptions.height sample_frame_options
     + ExtractFrameOptions.height sample_frame_options > 50
  /\ exists e,
       WebP.extractFrameByIndex sample_sharp_metadata sample_sharp_extract
         sample_webpData 2 sample_frame_options = Throw (H5 e)
       /\ Errors.code e = Errors.WEBP_PROCESSING_ERROR.
Proof.
  split; [reflexivity|]. split; [simpl; lia|].
  apply (C5_out_of_range_extraction sample_sharp_metadata sample_sharp_extract
           sample_webpData 2 sample_frame_options
           {| ImageMetadata.width := Some 100; ImageMetadata.height := Some 50 |} 50);
    [reflexivity | reflexivity | simpl; lia].
Defined.

(** C5 as stated fails: the sheet measures 50 rows, frame 2 of height 50
    would end at row 150, and the error raised does not have the code
    [FRAME_EXTRACTION_ERROR]. *)
Lemma C5_counterexample :
  2 * 50 + 50 > 50
  /\ ~ (exists e,
          WebP.extractFrameByIndex sample_sharp_metadata sample_sharp_extract
            sample_webpData 2 sample_frame_options = Throw (H5 e)
          /\ Errors.code e = Errors.FRAME_EXTRACTION_ERROR).
Proof.
  split; [lia|]. intros (e & He & Hc).
  vm_compute in He. injection He as <-. discriminate Hc.
Qed.

(** C6 (the code at the failing input).  With a sprite dimension of
    width -1, [encodeH5Animate] passes its own validation and then
    raises the runtime's [RangeError] out of [writeUInt32LE]. *)
Theorem C6_untyped_error_escapes (uninit : nat -> byte) :
  Encoder.validateEncodeInput (Some (meta_input empty_meta))
    (Some (spriteInfo_input negative_width_spriteInfo)) (Some sample_webpData)
  = Ok (empty_meta, negative_width_spriteInfo, sample_webpData)
  /\ Encoder.encodeH5Animate uninit (Some (meta_input empty_meta))
       (Some (spriteInfo_input negative_width_spriteInfo)) (Some sample_webpData)
     = Throw JsRangeError.
Proof. split; reflexivity. Qed.

(** The decoder lets a [TypeError] escape as well: metadata that is the
    JSON text [null] parses, and reading [rawMeta.frame] then fails. *)
Lemma decode_null_metadata_type_error :
  Decoder.decodeH5Animate null_metadata_buffer = Throw JsTypeError.
Proof. vm_compute. reflexivity. Qed.

Lemma C7_legacy_sound_mapping_witness :
  LegacyAnimateFile.se legacy_global_sound = Some (SeString "hit.mp3")
  /\ "hit.mp3"%string <> EmptyString
  /\ Converter.convertSoundData legacy_global_sound 0
     = Some [plain_sound "hit.mp3" None]
  /\ Converter.convertSoundData legacy_global_sound 1 = None.
Proof.
  split; [reflexivity|]. split; [discriminate|]. split.
  - apply (proj1 (C7_legacy_sound_mapping legacy_global_sound 0) "hit.mp3"%string);
      [reflexivity | discriminate].
  - apply (proj1 (C7_legacy_sound_mapping legacy_global_sound 1) "hit.mp3"%string);
      [reflexivity | discriminate].
Defined.

(** C7 as stated fails when [se] is the empty string: frame 0 gets no
    sound at all. *)
Lemma C7_counterexample :
  LegacyAnimateFile.se legacy_empty_sound = Some (SeString EmptyString)
  /\ Converter.convertSoundData legacy_empty_sound 0 = None
  /\ Converter.convertSoundData legacy_empty_sound 0
     <> Some [plain_sound EmptyString None].
Proof.
  split; [reflexivity|]. split; [reflexivity|]. discriminate.
Qed.

(** The test of the sparse form given with the design:
    [se = {2: "x.mp3"}], [pitch = {2: 1.5}]. *)
Lemma sparse_sound_example :
  Converter.convertSoundData legacy_sparse_sound 2
  = Some [plain_sound "x.mp3" (Some (Number.Frac false 15 1))]
  /\ Converter.convertSoundData legacy_sparse_sound 0 = None
  /\ Converter.convertSoundData legacy_sparse_sound 1 = None.
Proof. repeat split; vm_compute; reflexivity. Qed.




Lemma C10_parser_reads_bounded_witness :
  parser_reachable sample_webpData (BinaryParser.new sample_webpData)
  /\ 0 <= 3
  /\ read_outcome (BinaryParser.readBytes 3 (BinaryParser.new sample_webpData))
       (BinaryParser.new sample_webpData) 3
       (fun bs => bs = bytes_at_cursor (BinaryParser.new sample_webpData) 3).
Proof.
  split; [constructor|]. split; [lia|].
  apply (C10_parser_reads_bounded sample_webpData
           (BinaryParser.new sample_webpData) 3); [constructor | lia].
Defined.

(* ================================================================== *)
(** * Part III: further properties of the code                           *)
(* ================================================================== *)

Lemma u32le_value_range (bs : Buffer) : 0 <= u32le_value bs < 4294967296.
Proof.
  unfold u32le_value.
  destruct bs as [|b0 [|b1 [|b2 [|b3 r]]]]; try lia.
  pose proof (Z_of_byte_range b0). pose proof (Z_of_byte_range b1).
  pose proof (Z_of_byte_range b2). pose proof (Z_of_byte_range b3).
  rewrite !Z.shiftl_mul_pow2 by lia. lia.
Qed.

Lemma u32le_value_take (bs : Buffer) (k : nat) :
  (4 <= k)%nat -> u32le_value (take k bs) = u32le_value bs.
Proof.
  intros Hk. do 4 (destruct k as [|k]; [lia|]).
  destruct bs as [|b0 [|b1 [|b2 [|b3 r]]]]; reflexivity.
Qed.

Lemma readUInt32LE_inv (p p' : BinaryParser.t) (v : Z) :
  BinaryParser.readUInt32LE p = Ok (v, p') ->
  0 <= BinaryParser.offset p
  /\ BinaryParser.offset p + 4 <= blength (BinaryParser.buffer p)
  /\ v = u32_at (BinaryParser.buffer p) (Z.to_nat (BinaryParser.offset p))
  /\ 0 <= v < 4294967296
  /\ p' = {| BinaryParser.buffer := BinaryParser.buffer p;
             BinaryParser.offset := BinaryParser.offset p + 4 |}.
Proof.
  unfold BinaryParser.readUInt32LE, BinaryParser.checkBounds, BinaryParser.getUint32.
  destruct (Z.gtb_spec (BinaryParser.offset p + 4) (blength (BinaryParser.buffer p)));
    [discriminate|].
  cbn [rbind].
  destruct (Z.leb_spec 0 (BinaryParser.offset p)); cbn [andb]; [|discriminate].
  destruct (Z.leb_spec (BinaryParser.offset p + 4) (blength (BinaryParser.buffer p)));
    [|discriminate].
  cbn [rbind]. intros Hres. injection Hres as <- <-.
  repeat split; try lia; apply u32le_value_range.
Qed.

Lemma readUInt32LE_short (p : BinaryParser.t) :
  BinaryParser.offset p + 4 > blength (BinaryParser.buffer p) ->
  exists e, BinaryParser.readUInt32LE p = Throw (H5 e)
            /\ Errors.code e = Errors.CORRUPTED_HEADER
            /\ Errors.position e = Some (BinaryParser.offset p).
Proof.
  intros Hgt. unfold BinaryParser.readUInt32LE.
  destruct (checkBounds_throw 4 p Hgt) as (e & -> & Hc & Hp).
  exists e. auto.
Qed.

Lemma readUInt32LE_fits (b : Buffer) (o : Z) :
  0 <= o -> o + 4 <= blength b ->
  BinaryParser.readUInt32LE (parser_at b o)
  = Ok (u32_at b (Z.to_nat o), parser_at b (o + 4)).
Proof.
  intros H0 H4.
  unfold BinaryParser.readUInt32LE, BinaryParser.getUint32, parser_at.
  rewrite checkBounds_ok by (simpl; lia). cbn [rbind].
  cbn [BinaryParser.offset BinaryParser.buffer].
  destruct (Z.leb_spec 0 o); [|lia].
  destruct (Z.leb_spec (o + 4) (blength b)); [|lia].
  reflexivity.
Qed.


Lemma u32le_value_app (x y : Buffer) :
  (4 <= length x)%nat -> u32le_value (x ++ y) = u32le_value x.
Proof.
  intros Hx. destruct x as [|b0 [|b1 [|b2 [|b3 r]]]]; simpl in Hx; try lia.
  reflexivity.
Qed.

Lemma readString_fits (b : Buffer) (o n : Z) :
  0 <= o -> 0 <= n -> o + n <= blength b ->
  BinaryParser.readString n (parser_at b o)
  = Ok (ascii_decode (take (Z.to_nat n) (drop (Z.to_nat o) b)), parser_at b (o + n)).
Proof.
  intros Ho Hn Hfit. unfold BinaryParser.readString, parser_at.
  rewrite checkBounds_ok by (simpl; lia). cbn [rbind].
  cbn [BinaryParser.offset BinaryParser.buffer].
  rewrite subarray_slice by lia. reflexivity.
Qed.

Lemma readBytes_fits (b : Buffer) (o n : Z) :
  0 <= o -> 0 <= n -> o + n <= blength b ->
  BinaryParser.readBytes n (parser_at b o)
  = Ok (take (Z.to_nat n) (drop (Z.to_nat o) b), parser_at b (o + n)).
Proof.
  intros Ho Hn Hfit. unfold BinaryParser.readBytes, parser_at.
  rewrite checkBounds_ok by (simpl; lia). cbn [rbind].
  cbn [BinaryParser.offset BinaryParser.buffer].
  rewrite subarray_slice by lia. reflexivity.
Qed.

Lemma readBytes_inv (p p' : BinaryParser.t) (n : Z) (bs : Buffer) :
  BinaryParser.readBytes n p = Ok (bs, p') ->
  BinaryParser.offset p + n <= blength (BinaryParser.buffer p)
  /\ bs = subarray (BinaryParser.buffer p) (BinaryParser.offset p)
            (BinaryParser.offset p + n)
  /\ p' = parser_at (BinaryParser.buffer p) (BinaryParser.offset p + n).
Proof.
  unfold BinaryParser.readBytes, BinaryParser.checkBounds.
  destruct (Z.gtb_spec (BinaryParser.offset p + n) (blength (BinaryParser.buffer p)));
    [discriminate|].
  cbn [rbind]. intros Hres. injection Hres as <- <-. auto.
Qed.

(** *** The header *)

Lemma parseHeader_fits (buffer : Buffer) :
  16 <= blength buffer ->
  ascii_decode (take 4 buffer) = "ANIM"%string ->
  Decoder.parseHeader (BinaryParser.new buffer)
  = Ok ({| FileHeader.signature := "ANIM";
           FileHeader.version := u32_at buffer 4;
           FileHeader.imageDataSize := u32_at buffer 8;
           FileHeader.metaDataSize := u32_at buffer 12 |},
        parser_at buffer 16).
Proof.
  intros Hlen Hsig. unfold Decoder.parseHeader.
  change (BinaryParser.new buffer) with (parser_at buffer 0).
  rewrite readString_fits by lia. cbn [rbind].
  change (Z.to_nat 0) with 0%nat. change (Z.to_nat 4) with 4%nat.
  rewrite drop_0, Hsig.
  change (negb ("ANIM" =? Decoder.FILE_SIGNATURE)%string) with false. cbv iota.
  change (0 + 4) with 4.
  rewrite readUInt32LE_fits by lia. cbn [rbind]. change (4 + 4) with 8.
  rewrite readUInt32LE_fits by lia. cbn [rbind]. change (8 + 4) with 12.
  rewrite readUInt32LE_fits by lia. cbn [rbind].
  reflexivity.
Qed.

Lemma parseHeader_truncated (buffer : Buffer) :
  4 <= blength buffer < 16 ->
  ascii_decode (take 4 buffer) = "ANIM"%string ->
  exists e,
    Decoder.parseHeader (BinaryParser.new buffer) = Throw (H5 e)
    /\ Errors.code e = Errors.CORRUPTED_HEADER
    /\ Errors.position e = Some (4 * (blength buffer / 4)).
Proof.
  intros Hlen Hsig. unfold Decoder.parseHeader.
  change (BinaryParser.new buffer) with (parser_at buffer 0).
  rewrite readString_fits by lia. cbn [rbind].
  change (Z.to_nat 0) with 0%nat. change (Z.to_nat 4) with 4%nat.
  rewrite drop_0, Hsig.
  change (negb ("ANIM" =? Decoder.FILE_SIGNATURE)%string) with false. cbv iota.
  change (0 + 4) with 4.
  destruct (Z_lt_le_dec (blength buffer) 8) as [H8|H8].
  { destruct (readUInt32LE_short (parser_at buffer 4)) as (e & -> & Hc & Hp);
      [simpl; lia|].
    exists e. cbn [rbind]. split; [reflexivity|]. split; [exact Hc|].
    rewrite Hp. simpl. f_equal. Z.div_mod_to_equations; lia. }
  rewrite readUInt32LE_fits by lia. cbn [rbind]. change (4 + 4) with 8.
  destruct (Z_lt_le_dec (blength buffer) 12) as [H12|H12].
  { destruct (readUInt32LE_short (parser_at buffer 8)) as (e & -> & Hc & Hp);
      [simpl; lia|].
    exists e. cbn [rbind]. split; [reflexivity|]. split; [exact Hc|].
    rewrite Hp. simpl. f_equal. Z.div_mod_to_equations; lia. }
  rewrite readUInt32LE_fits by lia. cbn [rbind]. change (8 + 4) with 12.
  destruct (readUInt32LE_short (parser_at buffer 12)) as (e & -> & Hc & Hp);
    [simpl; lia|].
  exists e. cbn [rbind]. split; [reflexivity|]. split; [exact Hc|].
  rewrite Hp. simpl. f_equal. Z.div_mod_to_equations; lia.
Qed.

Lemma parseHeader_inv (buffer : Buffer) (header : FileHeader.t)
    (parser : BinaryParser.t) :
  Decoder.parseHeader (BinaryParser.new buffer) = Ok (header, parser) ->
  16 <= blength buffer /\ ascii_decode (take 4 buffer) = "ANIM"%string.
Proof.
  intros Hok.
  destruct (String.eqb_spec (ascii_decode (take 4 buffer)) "ANIM") as [Hsig|Hsig].
  - split; [|exact Hsig].
    destruct (Z_lt_le_dec (blength buffer) 16) as [Hlt|]; [|assumption].
    destruct (Z_lt_le_dec (blength buffer) 4) as [H4|H4].
    + exfalso. revert Hok. unfold Decoder.parseHeader, BinaryParser.readString.
      destruct (checkBounds_throw 4 (BinaryParser.new buffer)) as (e & -> & _);
        [simpl; lia|].
      discriminate.
    + destruct (parseHeader_truncated buffer ltac:(lia) Hsig) as (e & He & _).
      congruence.
  - exfalso. revert Hok. unfold Decoder.parseHeader.
    pose proof (readString_outcome (BinaryParser.new buffer) 4
                  ltac:(simpl; lia) ltac:(lia)) as R1.
    destruct (BinaryParser.readString 4 (BinaryParser.new buffer))
      as [[signature p1]|] eqn:E1; cbn [rbind]; [|discriminate].
    destruct (read_outcome_ok _ _ _ _ _ _ R1 eq_refl) as (Hs & _).
    unfold bytes_at_cursor in Hs.
    cbn [BinaryParser.new BinaryParser.offset BinaryParser.buffer] in Hs.
    change (Z.to_nat 0) with 0%nat in Hs. change (Z.to_nat 4) with 4%nat in Hs.
    rewrite drop_0 in Hs. subst signature.
    destruct (String.eqb_spec (ascii_decode (take 4 buffer)) Decoder.FILE_SIGNATURE);
      [contradiction|].
    discriminate.
Qed.

(** *** The sprite table *)

Lemma table_at_S (b : Buffer) (off : Z) (n : nat) :
  table_at b off (S n)
  = {| SpriteDimension.width := u32_at b (Z.to_nat off);
       SpriteDimension.height := u32_at b (Z.to_nat (off + 4)) |}
    :: table_at b (off + 8) n.
Proof.
  unfold table_at. cbn [seq map]. f_equal.
  - f_equal; f_equal; f_equal; lia.
  - rewrite <- seq_shift, List.map_map. apply List.map_ext. intros i.
    f_equal; f_equal; f_equal; lia.
Qed.

Lemma table_at_length (b : Buffer) (off : Z) (n : nat) :
  length (table_at b off n) = n.
Proof. unfold table_at. rewrite length_map, length_seq. reflexivity. Qed.

Lemma read_dimensions_fits (b : Buffer) (n : nat) :
  forall (o : Z) (acc : list SpriteDimension.t),
    0 <= o -> o + 8 * Z.of_nat n <= blength b ->
    Decoder.read_dimensions n acc (parser_at b o)
    = Ok ((acc ++ table_at b o n)%list, parser_at b (o + 8 * Z.of_nat n)).
Proof.
  induction n as [|n IH]; intros o acc Ho Hfit.
  - cbn [Decoder.read_dimensions]. unfold table_at. cbn [seq map].
    rewrite app_nil_r. do 3 f_equal. lia.
  - cbn [Decoder.read_dimensions].
    rewrite readUInt32LE_fits by lia. cbn [rbind].
    rewrite readUInt32LE_fits by lia. cbn [rbind].
    replace (o + 4 + 4) with (o + 8) by lia.
    rewrite IH by lia. rewrite table_at_S, <- app_assoc. cbn [app].
    do 3 f_equal. lia.
Qed.

Lemma read_dimensions_short (b : Buffer) (n : nat) :
  forall (o : Z) (acc : list SpriteDimension.t),
    0 <= o <= blength b -> o + 8 * Z.of_nat n > blength b ->
    exists e,
      Decoder.read_dimensions n acc (parser_at b o) = Throw (H5 e)
      /\ Errors.code e = Errors.CORRUPTED_HEADER
      /\ Errors.position e = Some (o + 4 * ((blength b - o) / 4)).
Proof.
  induction n as [|n IH]; intros o acc Ho Hshort; [lia|].
  cbn [Decoder.read_dimensions].
  destruct (Z_lt_le_dec (blength b) (o + 4)) as [H4|H4].
  { destruct (readUInt32LE_short (parser_at b o)) as (e & -> & Hc & Hp);
      [simpl; lia|].
    exists e. cbn [rbind]. split; [reflexivity|]. split; [exact Hc|].
    rewrite Hp. simpl. f_equal. Z.div_mod_to_equations; lia. }
  rewrite readUInt32LE_fits by lia. cbn [rbind].
  destruct (Z_lt_le_dec (blength b) (o + 8)) as [H8|H8].
  { destruct (readUInt32LE_short (parser_at b (o + 4))) as (e & -> & Hc & Hp);
      [simpl; lia|].
    exists e. cbn [rbind]. split; [reflexivity|]. split; [exact Hc|].
    rewrite Hp. simpl. f_equal. Z.div_mod_to_equations; lia. }
  rewrite readUInt32LE_fits by lia. cbn [rbind].
  replace (o + 4 + 4) with (o + 8) by lia.
  destruct (IH (o + 8) (acc ++ [{| SpriteDimension.width := u32_at b (Z.to_nat o);
                                  SpriteDimension.height := u32_at b (Z.to_nat (o + 4)) |}])%list
              ltac:(lia) ltac:(lia)) as (e & -> & Hc & Hp).
  exists e. split; [reflexivity|]. split; [exact Hc|].
  rewrite Hp. f_equal. Z.div_mod_to_equations; lia.
Qed.

Lemma u32_at_range (b : Buffer) (off : nat) : 0 <= u32_at b off < 4294967296.
Proof. apply u32le_value_range. Qed.

Lemma parseSpriteInfo_fits (b : Buffer) (o : Z) :
  0 <= o -> o + 4 + 8 * u32_at b (Z.to_nat o) <= blength b ->
  Decoder.parseSpriteInfo (parser_at b o)
  = Ok ({| SpriteInfo.count := u32_at b (Z.to_nat o);
           SpriteInfo.dimensions :=
             table_at b (o + 4) (Z.to_nat (u32_at b (Z.to_nat o))) |},
        parser_at b (o + 4 + 8 * u32_at b (Z.to_nat o))).
Proof.
  intros Ho Hfit. pose proof (u32_at_range b (Z.to_nat o)) as Hc.
  unfold Decoder.parseSpriteInfo.
  rewrite readUInt32LE_fits by lia. cbn [rbind].
  rewrite read_dimensions_fits by lia. cbn [rbind app].
  rewrite Z2Nat.id by lia. reflexivity.
Qed.

Lemma parseSpriteInfo_short (b : Buffer) (o : Z) :
  0 <= o -> o + 4 <= blength b ->
  o + 4 + 8 * u32_at b (Z.to_nat o) > blength b ->
  exists e,
    Decoder.parseSpriteInfo (parser_at b o) = Throw (H5 e)
    /\ Errors.code e = Errors.CORRUPTED_HEADER
    /\ Errors.position e = Some (o + 4 * ((blength b - o) / 4)).
Proof.
  intros Ho H4 Hshort. pose proof (u32_at_range b (Z.to_nat o)) as Hc.
  unfold Decoder.parseSpriteInfo.
  rewrite readUInt32LE_fits by lia. cbn [rbind].
  destruct (read_dimensions_short b (Z.to_nat (u32_at b (Z.to_nat o))) (o + 4) []
              ltac:(lia) ltac:(lia)) as (e & -> & Hce & Hp).
  exists e. split; [reflexivity|]. split; [exact Hce|].
  rewrite Hp. f_equal. Z.div_mod_to_equations; lia.
Qed.

(** *** The whole file *)


Lemma readBytes_from (b : Buffer) (o n : Z) :
  0 <= o -> 0 <= o + n -> o + n <= blength b ->
  BinaryParser.readBytes n (parser_at b o)
  = Ok (take (Z.to_nat n) (drop (Z.to_nat o) b), parser_at b (o + n)).
Proof.
  intros Ho Hon Hfit.
  destruct (Z_lt_le_dec n 0) as [Hneg|Hpos].
  - unfold BinaryParser.readBytes, parser_at.
    rewrite checkBounds_ok by (simpl; lia). cbn [rbind].
    cbn [BinaryParser.offset BinaryParser.buffer].
    rewrite subarray_backwards by lia.
    replace (Z.to_nat n) with 0%nat by lia. reflexivity.
  - apply readBytes_fits; lia.
Qed.

Lemma readBytes_over (b : Buffer) (o n : Z) :
  o + n > blength b ->
  exists e,
    BinaryParser.readBytes n (parser_at b o) = Throw (H5 e)
    /\ Errors.code e = Errors.CORRUPTED_HEADER
    /\ Errors.position e = Some o.
Proof.
  intros Hover. unfold BinaryParser.readBytes.
  destruct (checkBounds_throw n (parser_at b o)) as (e & -> & Hc & Hp);
    [simpl; lia|].
  exists e. auto.
Qed.

(** Decoding a file whose parts fit comes down to parsing its metadata. *)
Lemma decode_fits (b : Buffer) :
  ascii_decode (take 4 b) = "ANIM"%string -> parts_fit b ->
  Decoder.decodeH5Animate b
  = match JSON.parse (string_of_list_byte (metadata_of b)) with
    | None => Throw (H5 (Errors.createInvalidMetadataError "JSON 解析失败" None))
    | Some rawMeta =>
        meta <- Decoder.convertArraysToObjects rawMeta ;;
        Ok {| DecodedH5Animate.meta := meta;
              DecodedH5Animate.spriteInfo := sprite_table_of b;
              DecodedH5Animate.webpData := payload_of b |}
    end.
Proof.
  intros Hsig (H20 & Htable & Hsizes).
  pose proof (u32_at_range b 8) as Himg. pose proof (u32_at_range b 12) as Hmeta.
  pose proof (u32_at_range b 16) as Hcount.
  unfold Decoder.decodeH5Animate.
  rewrite parseHeader_fits by (lia || exact Hsig). cbn [rbind].
  rewrite parseSpriteInfo_fits by (change (Z.to_nat 16) with 16%nat; lia).
  cbn [rbind]. change (Z.to_nat 16) with 16%nat.
  cbn [FileHeader.imageDataSize FileHeader.metaDataSize].
  unfold Decoder.getSpriteInfoSize. cbn [SpriteInfo.count].
  rewrite readBytes_from by lia. cbn [rbind].
  rewrite readBytes_from by lia. cbn [rbind].
  replace (16 + 4 + 8 * u32_at b 16 + (u32_at b 8 - (4 + u32_at b 16 * 8)))
    with (16 + u32_at b 8) by lia.
  replace (16 + 4 + 8 * u32_at b 16) with (20 + 8 * u32_at b 16) by lia.
  reflexivity.
Qed.

(** A file whose parts do not fit is rejected before its metadata is
    looked at. *)
Lemma decode_misfit (b : Buffer) :
  4 <= blength b -> ascii_decode (take 4 b) = "ANIM"%string -> ~ parts_fit b ->
  exists e,
    Decoder.decodeH5Animate b = Throw (H5 e)
    /\ Errors.code e = Errors.CORRUPTED_HEADER.
Proof.
  intros H4 Hsig Hmis.
  pose proof (u32_at_range b 8) as Himg. pose proof (u32_at_range b 12) as Hmeta.
  pose proof (u32_at_range b 16) as Hcount.
  unfold Decoder.decodeH5Animate.
  destruct (Z_lt_le_dec (blength b) 16) as [H16|H16].
  { destruct (parseHeader_truncated b ltac:(lia) Hsig) as (e & -> & Hc & _).
    exists e. auto. }
  rewrite parseHeader_fits by (lia || exact Hsig). cbn [rbind].
  destruct (Z_lt_le_dec (blength b) 20) as [H20|H20].
  { unfold Decoder.parseSpriteInfo.
    destruct (readUInt32LE_short (parser_at b 16)) as (e & -> & Hc & _);
      [simpl; lia|].
    exists e. auto. }
  destruct (Z_lt_le_dec (blength b) (20 + 8 * u32_at b 16)) as [Ht|Ht].
  { destruct (parseSpriteInfo_short b 16 ltac:(lia) ltac:(lia)) as (e & -> & Hc & _);
      [change (Z.to_nat 16) with 16%nat; lia|].
    exists e. auto. }
  rewrite parseSpriteInfo_fits by (change (Z.to_nat 16) with 16%nat; lia).
  cbn [rbind]. change (Z.to_nat 16) with 16%nat.
  cbn [FileHeader.imageDataSize FileHeader.metaDataSize].
  unfold Decoder.getSpriteInfoSize. cbn [SpriteInfo.count].
  destruct (Z_lt_le_dec (blength b) (16 + u32_at b 8)) as [Hi|Hi].
  { destruct (readBytes_over b (16 + 4 + 8 * u32_at b 16)
                (u32_at b 8 - (4 + u32_at b 16 * 8)) ltac:(lia))
      as (e & -> & Hc & _).
    exists e. auto. }
  rewrite readBytes_from by lia. cbn [rbind].
  destruct (readBytes_over b (16 + 4 + 8 * u32_at b 16
                              + (u32_at b 8 - (4 + u32_at b 16 * 8)))
              (u32_at b 12)) as (e & -> & Hc & _).
  { unfold parts_fit in Hmis. lia. }
  exists e. auto.
Qed.

Lemma signature_length (b : Buffer) :
  ascii_decode (take 4 b) = "ANIM"%string -> 4 <= blength b.
Proof.
  intros Hsig. pose proof (ascii_decode_length (take 4 b)) as Hl.
  rewrite Hsig, length_take in Hl. cbn [String.length] in Hl. unfold blength. lia.
Qed.

Lemma decode_unsigned (b : Buffer) :
  ascii_decode (take 4 b) <> "ANIM"%string ->
  exists e,
    Decoder.decodeH5Animate b = Throw (H5 e)
    /\ (Errors.code e = Errors.CORRUPTED_HEADER
        \/ Errors.code e = Errors.INVALID_SIGNATURE).
Proof.
  intros Hsig. unfold Decoder.decodeH5Animate, Decoder.parseHeader.
  destruct (Z_lt_le_dec (blength b) 4) as [H4|H4].
  - unfold BinaryParser.readString.
    destruct (checkBounds_throw 4 (BinaryParser.new b)) as (e & -> & Hc & _);
      [simpl; lia|].
    exists e. cbn [rbind]. auto.
  - change (BinaryParser.new b) with (parser_at b 0).
    rewrite readString_fits by lia. cbn [rbind].
    change (Z.to_nat 0) with 0%nat. change (Z.to_nat 4) with 4%nat.
    rewrite drop_0.
    destruct (String.eqb_spec (ascii_decode (take 4 b)) Decoder.FILE_SIGNATURE);
      [contradiction|].
    cbn [negb rbind]. eexists. split; [reflexivity|]. right. reflexivity.
Qed.

Lemma decode_ok_inv (b : Buffer) (d : DecodedH5Animate.t) :
  Decoder.decodeH5Animate b = Ok d ->
  ascii_decode (take 4 b) = "ANIM"%string /\ parts_fit b.
Proof.
  intros Hok.
  destruct (String.eqb_spec (ascii_decode (take 4 b)) "ANIM") as [Hsig|Hsig].
  - split; [exact Hsig|].
    assert (Hdec : parts_fit b \/ ~ parts_fit b).
    { unfold parts_fit.
      destruct (Z_le_dec 20 (blength b)), (Z_le_dec (20 + 8 * u32_at b 16) (blength b)),
        (Z_le_dec (16 + u32_at b 8 + u32_at b 12) (blength b));
        [left; repeat split; assumption | right; intros (? & ? & ?); contradiction ..]. }
    destruct Hdec as [Hfit|Hmis]; [exact Hfit|].
    destruct (decode_misfit b (signature_length b Hsig) Hsig Hmis) as (e & He & _).
    congruence.
  - destruct (decode_unsigned b Hsig) as (e & He & _). congruence.
Qed.

(** Only a [TypeError] comes out of the conversion of the parsed
    metadata. *)
Lemma getProp_throws v k ex : JS.getProp v k = Throw ex -> ex = JsTypeError.
Proof. destruct v; simpl; congruence. Qed.

Lemma getIndex_throws v i ex : JS.getIndex v i = Throw ex -> ex = JsTypeError.
Proof. destruct v; simpl; congruence. Qed.

Lemma mapM_throws {A B} (f : A -> result B) (l : list A) ex :
  (forall a ex', f a = Throw ex' -> ex' = JsTypeError) ->
  JS.mapM f l = Throw ex -> ex = JsTypeError.
Proof.
  intros Hf. induction l as [|a l IH]; [discriminate|].
  cbn [JS.mapM]. destruct (f a) eqn:Ea; cbn [rbind].
  - destruct (JS.mapM f l); cbn [rbind]; [discriminate|].
    intros Hres. injection Hres as <-. apply IH. reflexivity.
  - intros Hres. injection Hres as <-. eapply Hf. exact Ea.
Qed.

Lemma map_method_throws v f ex :
  (forall a ex', f a = Throw ex' -> ex' = JsTypeError) ->
  JS.map_method v f = Throw ex -> ex = JsTypeError.
Proof.
  intros Hf. destruct v; simpl; try congruence.
  destruct (JS.mapM f items) eqn:Em; cbn [rbind]; [discriminate|].
  intros Hres. injection Hres as <-. eapply mapM_throws; eassumption.
Qed.

Lemma optional_map_throws v f ex :
  (forall a ex', f a = Throw ex' -> ex' = JsTypeError) ->
  JS.optional_map v f = Throw ex -> ex = JsTypeError.
Proof.
  intros Hf. destruct v; try discriminate; apply map_method_throws; exact Hf.
Qed.

Ltac throws_step :=
  match goal with
  | |- (_ <- ?r ;; _) = Throw _ -> _ =>
      let E := fresh "E" in
      destruct r eqn:E; cbn [rbind];
      [| let Hres := fresh "Hres" in
         intros Hres; injection Hres as <-;
         first [ eapply getProp_throws; eassumption
               | eapply getIndex_throws; eassumption ] ]
  end.

Lemma convertArrayToObject_throws v ex :
  Decoder.convertArrayToObject v = Throw ex -> ex = JsTypeError.
Proof.
  unfold Decoder.convertArrayToObject. repeat throws_step. discriminate.
Qed.

Lemma convertArraysToObjects_throws v ex :
  Decoder.convertArraysToObjects v = Throw ex -> ex = JsTypeError.
Proof.
  unfold Decoder.convertArraysToObjects. throws_step.
  destruct (JS.falsy a); [discriminate|]. throws_step.
  match goal with
  | |- (_ <- ?r ;; _) = Throw _ -> _ => destruct r eqn:Em; cbn [rbind]
  end; [discriminate|].
  intros Hres. injection Hres as <-.
  eapply map_method_throws; [|exact Em].
  intros fr ex'. cbv beta. repeat throws_step.
  match goal with
  | |- (_ <- ?r ;; _) = Throw _ -> _ => destruct r eqn:Eo; cbn [rbind]
  end; [discriminate|].
  intros Hres. injection Hres as <-.
  eapply optional_map_throws; [|exact Eo].
  intros o ex''. apply convertArrayToObject_throws.
Qed.

(** *** What the decoder looks at *)

Lemma drop_from (j k : nat) (b1 b2 : Buffer) :
  drop j b1 = drop j b2 -> (j <= k)%nat -> drop k b1 = drop k b2.
Proof.
  intros Heq Hk. replace k with (j + (k - j))%nat by lia.
  rewrite <- !drop_drop, Heq. reflexivity.
Qed.

Lemma u32_at_from (j k : nat) (b1 b2 : Buffer) :
  drop j b1 = drop j b2 -> (j <= k)%nat -> u32_at b1 k = u32_at b2 k.
Proof.
  intros Heq Hk. unfold u32_at. rewrite (drop_from j k b1 b2 Heq Hk). reflexivity.
Qed.

Lemma table_at_from (j : nat) (b1 b2 : Buffer) (o : Z) (n : nat) :
  drop j b1 = drop j b2 -> Z.of_nat j <= o -> table_at b1 o n = table_at b2 o n.
Proof.
  intros Heq Ho. unfold table_at. apply List.map_ext. intros i.
  rewrite (u32_at_from j _ b1 b2 Heq) by lia.
  rewrite (u32_at_from j (Z.to_nat (o + 8 * Z.of_nat i + 4)) b1 b2 Heq) by lia.
  reflexivity.
Qed.

Lemma decode_same_parts (b1 b2 : Buffer) (d : DecodedH5Animate.t) :
  length b1 = length b2 -> take 4 b1 = take 4 b2 -> drop 8 b1 = drop 8 b2 ->
  Decoder.decodeH5Animate b1 = Ok d -> Decoder.decodeH5Animate b2 = Ok d.
Proof.
  intros Hlen Hhead Htail Hok.
  destruct (decode_ok_inv b1 d Hok) as (Hsig & Hfit).
  rewrite (decode_fits b1 Hsig Hfit) in Hok.
  assert (E8 : u32_at b2 8 = u32_at b1 8) by (symmetry; eapply u32_at_from; eauto).
  assert (E12 : u32_at b2 12 = u32_at b1 12)
    by (symmetry; apply (u32_at_from 8); [exact Htail | lia]).
  assert (E16 : u32_at b2 16 = u32_at b1 16)
    by (symmetry; apply (u32_at_from 8); [exact Htail | lia]).
  pose proof (u32_at_range b1 8) as Himg. pose proof (u32_at_range b1 16) as Hcount.
  rewrite decode_fits.
  - replace (metadata_of b2) with (metadata_of b1).
    replace (sprite_table_of b2) with (sprite_table_of b1).
    replace (payload_of b2) with (payload_of b1).
    + exact Hok.
    + unfold payload_of. rewrite E8, E16. f_equal.
      apply (drop_from 8); [exact Htail | lia].
    + unfold sprite_table_of. rewrite E16. f_equal.
      apply (table_at_from 8); [exact Htail | lia].
    + unfold metadata_of. rewrite E8, E12. f_equal.
      apply (drop_from 8); [exact Htail | lia].
  - rewrite <- Hhead. exact Hsig.
  - unfold parts_fit, blength in *. rewrite <- Hlen, E8, E12, E16. exact Hfit.
Qed.

Lemma u32_at_app (b extra : Buffer) (k : nat) :
  (k + 4 <= length b)%nat -> u32_at (b ++ extra) k = u32_at b k.
Proof.
  intros Hk. unfold u32_at. rewrite drop_app_le by lia.
  apply u32le_value_app. rewrite length_drop. lia.
Qed.

Lemma table_at_app (b extra : Buffer) (o : Z) (n : nat) :
  0 <= o -> o + 8 * Z.of_nat n <= blength b ->
  table_at (b ++ extra) o n = table_at b o n.
Proof.
  intros Ho Hfit. unfold table_at. apply map_ext_in. intros i Hi.
  apply in_seq in Hi. unfold blength in Hfit.
  rewrite !u32_at_app by lia. reflexivity.
Qed.


(** [parseHeader] on a fresh parser succeeds exactly when the
    buffer holds at least 16 bytes and starts with the signature; the
    header then holds the three little-endian words at offsets 4, 8 and
    12, and the parser is left at offset 16. *)
Theorem parseHeader_accepts (buffer : Buffer) (header : FileHeader.t)
    (parser : BinaryParser.t) :
  Decoder.parseHeader (BinaryParser.new buffer) = Ok (header, parser)
  <-> (16 <= blength buffer
       /\ ascii_decode (take 4 buffer) = "ANIM"%string
       /\ header = {| FileHeader.signature := "ANIM";
                      FileHeader.version := u32_at buffer 4;
                      FileHeader.imageDataSize := u32_at buffer 8;
                      FileHeader.metaDataSize := u32_at buffer 12 |}
       /\ parser = parser_at buffer 16).
Proof.
  split.
  - intros Hok. destruct (parseHeader_inv buffer header parser Hok) as (Hlen & Hsig).
    rewrite (parseHeader_fits buffer Hlen Hsig) in Hok.
    injection Hok as <- <-. auto.
  - intros (Hlen & Hsig & -> & ->). apply parseHeader_fits; assumption.
Qed.

(** X1.  A file that starts with the signature and is cut inside its
    16-byte header is rejected with [CORRUPTED_HEADER], and the error
    carries the offset of the first header word that is incomplete. *)
Theorem decode_truncated_header (buffer : Buffer) :
  ascii_decode (take 4 buffer) = "ANIM"%string -> blength buffer < 16 ->
  exists e,
    Decoder.decodeH5Animate buffer = Throw (H5 e)
    /\ Errors.code e = Errors.CORRUPTED_HEADER
    /\ Errors.position e = Some (4 * (blength buffer / 4)).
Proof.
  intros Hsig Hlen. pose proof (signature_length buffer Hsig) as H4.
  destruct (parseHeader_truncated buffer ltac:(lia) Hsig) as (e & He & Hc & Hp).
  exists e. unfold Decoder.decodeH5Animate. rewrite He. auto.
Qed.

Lemma decode_truncated_header_witness :
  ascii_decode (take 4 cut_header_buffer) = "ANIM"%string
  /\ blength cut_header_buffer < 16
  /\ exists e,
       Decoder.decodeH5Animate cut_header_buffer = Throw (H5 e)
       /\ Errors.code e = Errors.CORRUPTED_HEADER
       /\ Errors.position e = Some (4 * (blength cut_header_buffer / 4)).
Proof.
  split; [reflexivity|]. split; [vm_compute; reflexivity|].
  apply (decode_truncated_header cut_header_buffer);
    [reflexivity | vm_compute; reflexivity].
Defined.

(** X2.  [parseSpriteInfo] at an offset where the count can be read:
    when the table the count declares fits in the buffer, the result
    holds that count and exactly as many dimensions, read pairwise from
    the words that follow, and the parser has advanced by
    [getSpriteInfoSize]; otherwise the call fails with
    [CORRUPTED_HEADER]. *)
Theorem parseSpriteInfo_reads_table (buffer : Buffer) (off : Z) :
  0 <= off -> off + 4 <= blength buffer ->
  let count := u32_at buffer (Z.to_nat off) in
  let spriteInfo :=
    {| SpriteInfo.count := count;
       SpriteInfo.dimensions := table_at buffer (off + 4) (Z.to_nat count) |} in
  Z.of_nat (length (SpriteInfo.dimensions spriteInfo)) = count
  /\ (off + 4 + 8 * count <= blength buffer ->
      Decoder.parseSpriteInfo (parser_at buffer off)
      = Ok (spriteInfo,
            parser_at buffer (off + Decoder.getSpriteInfoSize spriteInfo)))
  /\ (off + 4 + 8 * count > blength buffer ->
      exists e,
        Decoder.parseSpriteInfo (parser_at buffer off) = Throw (H5 e)
        /\ Errors.code e = Errors.CORRUPTED_HEADER).
Proof.
  intros Ho H4 count spriteInfo.
  pose proof (u32_at_range buffer (Z.to_nat off)) as Hc. fold count in Hc.
  split; [|split].
  - subst spriteInfo. cbn [SpriteInfo.dimensions].
    rewrite table_at_length. lia.
  - intros Hfit. rewrite parseSpriteInfo_fits by assumption.
    fold count. unfold Decoder.getSpriteInfoSize. subst spriteInfo.
    cbn [SpriteInfo.count]. do 3 f_equal. lia.
  - intros Hshort.
    destruct (parseSpriteInfo_short buffer off Ho H4 Hshort) as (e & He & Hce & _).
    exists e. auto.
Qed.

Lemma parseSpriteInfo_reads_table_witness :
  0 <= 16 /\ 16 + 4 <= blength cut_table_buffer
  /\ exists e,
       Decoder.parseSpriteInfo (parser_at cut_table_buffer 16) = Throw (H5 e)
       /\ Errors.code e = Errors.CORRUPTED_HEADER.
Proof.
  split; [lia|]. split; [vm_compute; discriminate|].
  apply (proj2 (proj2 (parseSpriteInfo_reads_table cut_table_buffer 16
                         ltac:(lia) ltac:(vm_compute; discriminate)))).
  vm_compute. reflexivity.
Defined.

(** X3.  [decodeH5Animate] returns a result exactly when the first
    four bytes of the buffer, decoded as ASCII (the top bit of a byte is
    dropped), spell the signature, the buffer is long enough for the
    sprite table its count declares and for the two sizes of its header,
    and its metadata bytes parse as JSON and convert; the result then
    holds the sprite table, payload and metadata found at those
    positions. *)
Theorem decode_succeeds_iff (buffer : Buffer) (decoded : DecodedH5Animate.t) :
  Decoder.decodeH5Animate buffer = Ok decoded
  <-> (ascii_decode (take 4 buffer) = "ANIM"%string
       /\ parts_fit buffer
       /\ exists rawMeta meta,
            JSON.parse (string_of_list_byte (metadata_of buffer)) = Some rawMeta
            /\ Decoder.convertArraysToObjects rawMeta = Ok meta
            /\ decoded = {| DecodedH5Animate.meta := meta;
                            DecodedH5Animate.spriteInfo := sprite_table_of buffer;
                            DecodedH5Animate.webpData := payload_of buffer |}).
Proof.
  split.
  - intros Hok. destruct (decode_ok_inv buffer decoded Hok) as (Hsig & Hfit).
    split; [exact Hsig|]. split; [exact Hfit|].
    rewrite (decode_fits buffer Hsig Hfit) in Hok.
    destruct (JSON.parse _) as [rawMeta|]; [|discriminate].
    destruct (Decoder.convertArraysToObjects rawMeta) as [meta|] eqn:Em;
      cbn [rbind] in Hok; [|discriminate].
    injection Hok as <-. exists rawMeta, meta. auto.
  - intros (Hsig & Hfit & rawMeta & meta & Hp & Hm & ->).
    rewrite (decode_fits buffer Hsig Hfit), Hp, Hm. reflexivity.
Qed.

(** X4.  The version field is never looked at: two files that differ
    only in the four bytes after the signature decode to the same
    result, or both fail. *)
Theorem decode_ignores_version (signature version1 version2 rest : Buffer)
    (decoded : DecodedH5Animate.t) :
  length signature = 4%nat -> length version1 = 4%nat -> length version2 = 4%nat ->
  Decoder.decodeH5Animate (signature ++ version1 ++ rest) = Ok decoded
  <-> Decoder.decodeH5Animate (signature ++ version2 ++ rest) = Ok decoded.
Proof.
  intros Hs H1 H2.
  assert (Hsame : forall v v' : Buffer, length v = 4%nat -> length v' = 4%nat ->
            Decoder.decodeH5Animate (signature ++ v ++ rest) = Ok decoded ->
            Decoder.decodeH5Animate (signature ++ v' ++ rest) = Ok decoded).
  { intros v v' Hv Hv'. apply decode_same_parts.
    - rewrite !length_app. lia.
    - rewrite !take_app_le by lia. reflexivity.
    - rewrite !drop_app_ge by lia. f_equal. lia. }
  split; apply Hsame; assumption.
Qed.

Lemma decode_ignores_version_witness :
  length (take 4 sample_file) = 4%nat
  /\ length (u32le_bytes 1) = 4%nat
  /\ length (u32le_bytes 7) = 4%nat
  /\ Decoder.decodeH5Animate (take 4 sample_file ++ u32le_bytes 1 ++ drop 8 sample_file)
     = Ok sample_decoded
  /\ Decoder.decodeH5Animate (take 4 sample_file ++ u32le_bytes 7 ++ drop 8 sample_file)
     = Ok sample_decoded.
Proof.
  assert (H : Decoder.decodeH5Animate
                (take 4 sample_file ++ u32le_bytes 1 ++ drop 8 sample_file)
              = Ok sample_decoded) by (vm_compute; reflexivity).
  split; [reflexivity|]. split; [reflexivity|]. split; [reflexivity|].
  split; [exact H|].
  apply (proj1 (decode_ignores_version (take 4 sample_file) (u32le_bytes 1)
                  (u32le_bytes 7) (drop 8 sample_file) sample_decoded
                  eq_refl eq_refl eq_refl)).
  exact H.
Defined.

(** X5.  Bytes after the metadata are never looked at: a file that
    decodes still decodes, to the same result, with anything appended. *)
Theorem decode_ignores_trailing_bytes (buffer extra : Buffer)
    (decoded : DecodedH5Animate.t) :
  Decoder.decodeH5Animate buffer = Ok decoded ->
  Decoder.decodeH5Animate (buffer ++ extra) = Ok decoded.
Proof.
  intros Hok. destruct (decode_ok_inv buffer decoded Hok) as (Hsig & Hfit).
  rewrite (decode_fits buffer Hsig Hfit) in Hok.
  pose proof Hfit as (H20 & Htable & Hsizes).
  pose proof (u32_at_range buffer 8) as Himg.
  pose proof (u32_at_range buffer 12) as Hmeta.
  pose proof (u32_at_range buffer 16) as Hcount.
  pose proof (blength_nonneg extra) as Hextra.
  assert (E8 : u32_at (buffer ++ extra) 8 = u32_at buffer 8)
    by (apply u32_at_app; unfold blength in *; lia).
  assert (E12 : u32_at (buffer ++ extra) 12 = u32_at buffer 12)
    by (apply u32_at_app; unfold blength in *; lia).
  assert (E16 : u32_at (buffer ++ extra) 16 = u32_at buffer 16)
    by (apply u32_at_app; unfold blength in *; lia).
  rewrite decode_fits.
  - replace (metadata_of (buffer ++ extra)) with (metadata_of buffer).
    replace (sprite_table_of (buffer ++ extra)) with (sprite_table_of buffer).
    replace (payload_of (buffer ++ extra)) with (payload_of buffer).
    + exact Hok.
    + unfold payload_of. rewrite E8, E16.
      rewrite drop_app_le by (unfold blength in *; lia).
      rewrite take_app_le; [reflexivity|].
      rewrite length_drop. unfold blength in *. lia.
    + unfold sprite_table_of. rewrite E16. f_equal.
      symmetry. apply table_at_app; lia.
    + unfold metadata_of. rewrite E8, E12.
      rewrite drop_app_le by (unfold blength in *; lia).
      rewrite take_app_le; [reflexivity|].
      rewrite length_drop. unfold blength in *. lia.
  - rewrite take_app_le by (pose proof (signature_length buffer Hsig);
                            unfold blength in *; lia).
    exact Hsig.
  - unfold parts_fit. rewrite E8, E12, E16, blength_app. lia.
Qed.

Lemma decode_ignores_trailing_bytes_witness :
  Decoder.decodeH5Animate sample_file = Ok sample_decoded
  /\ Decoder.decodeH5Animate (sample_file ++ [xff; xff; xff]) = Ok sample_decoded.
Proof.
  assert (H : Decoder.decodeH5Animate sample_file = Ok sample_decoded)
    by (vm_compute; reflexivity).
  split; [exact H|].
  exact (decode_ignores_trailing_bytes sample_file [xff; xff; xff] sample_decoded H).
Defined.

(** X6.  What [decodeH5Animate] can throw: a typed error with code
    [INVALID_SIGNATURE], [CORRUPTED_HEADER] or [INVALID_METADATA], or the
    runtime's [TypeError] out of the conversion of metadata that parsed
    but has an unexpected shape. *)
Theorem decode_errors (buffer : Buffer) (ex : exn) :
  Decoder.decodeH5Animate buffer = Throw ex ->
  ex = JsTypeError
  \/ exists e, ex = H5 e
               /\ (Errors.code e = Errors.INVALID_SIGNATURE
                   \/ Errors.code e = Errors.CORRUPTED_HEADER
                   \/ Errors.code e = Errors.INVALID_METADATA).
Proof.
  intros Hthrow.
  destruct (String.eqb_spec (ascii_decode (take 4 buffer)) "ANIM") as [Hsig|Hsig].
  - assert (Hdec : parts_fit buffer \/ ~ parts_fit buffer).
    { unfold parts_fit.
      destruct (Z_le_dec 20 (blength buffer)),
        (Z_le_dec (20 + 8 * u32_at buffer 16) (blength buffer)),
        (Z_le_dec (16 + u32_at buffer 8 + u32_at buffer 12) (blength buffer));
        [left; repeat split; assumption | right; intros (? & ? & ?); contradiction ..]. }
    destruct Hdec as [Hfit|Hmis].
    + rewrite (decode_fits buffer Hsig Hfit) in Hthrow.
      destruct (JSON.parse _) as [rawMeta|].
      * destruct (Decoder.convertArraysToObjects rawMeta) as [meta|ex'] eqn:Em;
          cbn [rbind] in Hthrow; [discriminate|].
        injection Hthrow as <-. left.
        eapply convertArraysToObjects_throws. exact Em.
      * injection Hthrow as <-. right. eexists. split; [reflexivity|].
        right. right. reflexivity.
    + destruct (decode_misfit buffer (signature_length buffer Hsig) Hsig Hmis)
        as (e & He & Hc).
      rewrite He in Hthrow. injection Hthrow as <-. right. exists e. auto.
  - destruct (decode_unsigned buffer Hsig) as (e & He & Hc).
    rewrite He in Hthrow. injection Hthrow as <-. right. exists e.
    split; [reflexivity|]. destruct Hc; auto.
Qed.

Lemma decode_errors_witness :
  Decoder.decodeH5Animate null_metadata_buffer = Throw JsTypeError
  /\ (JsTypeError = JsTypeError
      \/ exists e, JsTypeError = H5 e
                   /\ (Errors.code e = Errors.INVALID_SIGNATURE
                       \/ Errors.code e = Errors.CORRUPTED_HEADER
                       \/ Errors.code e = Errors.INVALID_METADATA)).
Proof.
  assert (H : Decoder.decodeH5Animate null_metadata_buffer = Throw JsTypeError)
    by (vm_compute; reflexivity).
  split; [exact H|]. exact (decode_errors null_metadata_buffer JsTypeError H).
Defined.

Lemma skip_ws_blank (l : list byte) :
  forallb JSON.is_ws l = true -> JSON.skip_ws l = [].
Proof.
  induction l as [|c l IH]; [reflexivity|].
  cbn [forallb JSON.skip_ws]. intros Hb. apply andb_prop in Hb as [Hc Hl].
  rewrite Hc. apply IH. exact Hl.
Qed.

Lemma parse_blank (l : list byte) :
  forallb JSON.is_ws l = true -> JSON.parse (string_of_list_byte l) = None.
Proof.
  intros Hb. unfold JSON.parse, JSON.bytes.
  rewrite list_byte_of_string_of_list_byte.
  cbn [JSON.parse_value]. rewrite (skip_ws_blank l Hb). reflexivity.
Qed.


(** X7.  A file whose parts fit but whose metadata block is empty, or
    holds only white space, is rejected with [INVALID_METADATA]. *)
Theorem decode_blank_metadata (buffer : Buffer) :
  ascii_decode (take 4 buffer) = "ANIM"%string -> parts_fit buffer ->
  forallb JSON.is_ws (metadata_of buffer) = true ->
  exists e,
    Decoder.decodeH5Animate buffer = Throw (H5 e)
    /\ Errors.code e = Errors.INVALID_METADATA.
Proof.
  intros Hsig Hfit Hblank.
  rewrite (decode_fits buffer Hsig Hfit), (parse_blank _ Hblank).
  eexists. split; reflexivity.
Qed.

Lemma decode_blank_metadata_witness :
  ascii_decode (take 4 blank_metadata_buffer) = "ANIM"%string
  /\ parts_fit blank_metadata_buffer
  /\ forallb JSON.is_ws (metadata_of blank_metadata_buffer) = true
  /\ exists e,
       Decoder.decodeH5Animate blank_metadata_buffer = Throw (H5 e)
       /\ Errors.code e = Errors.INVALID_METADATA.
Proof.
  assert (Hfit : parts_fit blank_metadata_buffer)
    by (unfold parts_fit; repeat split; vm_compute; discriminate).
  split; [reflexivity|]. split; [exact Hfit|]. split; [reflexivity|].
  apply (decode_blank_metadata blank_metadata_buffer); [reflexivity | exact Hfit | reflexivity].
Defined.

(** *** The header of an encoded file *)

Lemma writeUInt32LE_step (v : Z) (done rest : Buffer) (w' : BinaryWriter.t) :
  BinaryWriter.writeUInt32LE v (wstate done rest) = Ok w' ->
  is_u32 v /\ (4 <= length rest)%nat
  /\ w' = wstate (done ++ u32le_bytes v) (drop 4 rest).
Proof.
  intros Hw. destruct (writeUInt32LE_ok _ _ _ Hw) as (Hv & _ & Hfit & _).
  unfold wstate in Hfit. cbn [BinaryWriter.offset BinaryWriter.buffer] in Hfit.
  rewrite blength_app in Hfit.
  assert (Hrest : (4 <= length rest)%nat) by (unfold blength in Hfit; lia).
  rewrite writeUInt32LE_at in Hw by (unfold is_u32; lia || exact Hrest).
  injection Hw as <-. unfold is_u32. auto.
Qed.

Lemma header_writes (b0 : Buffer) (v1 v2 v3 v4 : Z) (w5 : BinaryWriter.t) :
  (w <- BinaryWriter.writeString Encoder.FILE_SIGNATURE
          {| BinaryWriter.buffer := b0; BinaryWriter.offset := 0 |} ;;
   w <- BinaryWriter.writeUInt32LE v1 w ;;
   w <- BinaryWriter.writeUInt32LE v2 w ;;
   w <- BinaryWriter.writeUInt32LE v3 w ;;
   BinaryWriter.writeUInt32LE v4 w) = Ok w5 ->
  (20 <= length b0)%nat
  /\ is_u32 v1 /\ is_u32 v2 /\ is_u32 v3 /\ is_u32 v4
  /\ w5 = wstate (list_byte_of_string Encoder.FILE_SIGNATURE ++ u32le_bytes v1
                   ++ u32le_bytes v2 ++ u32le_bytes v3 ++ u32le_bytes v4)
            (drop 20 b0).
Proof.
  change {| BinaryWriter.buffer := b0; BinaryWriter.offset := 0 |}
    with (wstate [] b0).
  destruct (le_lt_dec 4 (length b0)) as [H4|H4].
  - rewrite writeString_at by exact H4. cbn [rbind].
    change (length (list_byte_of_string Encoder.FILE_SIGNATURE)) with 4%nat.
    destruct (BinaryWriter.writeUInt32LE v1 _) as [w2|] eqn:E2; cbn [rbind];
      [|discriminate].
    apply writeUInt32LE_step in E2 as (Hv1 & Hr1 & ->).
    destruct (BinaryWriter.writeUInt32LE v2 _) as [w3|] eqn:E3; cbn [rbind];
      [|discriminate].
    apply writeUInt32LE_step in E3 as (Hv2 & Hr2 & ->).
    destruct (BinaryWriter.writeUInt32LE v3 _) as [w4|] eqn:E4; cbn [rbind];
      [|discriminate].
    apply writeUInt32LE_step in E4 as (Hv3 & Hr3 & ->).
    intros E5. apply writeUInt32LE_step in E5 as (Hv4 & Hr4 & ->).
    rewrite !length_drop in *.
    split; [lia|]. repeat (split; [assumption|]).
    rewrite !drop_drop, <- !app_assoc. reflexivity.
  - unfold BinaryWriter.writeString, wstate.
    cbn [BinaryWriter.offset BinaryWriter.buffer app].
    change (blength []) with 0.
    pose proof (blength_nonneg b0) as Hb0.
    destruct (Z.gtb_spec 0 (blength b0)); [lia|].
    change (0 <? 0) with false. cbn [orb rbind].
    unfold BinaryWriter.writeUInt32LE at 1.
    cbn [BinaryWriter.offset BinaryWriter.buffer].
    destruct ((v1 <? 0) || (v1 >? 4294967295)); [discriminate|].
    change (blength (list_byte_of_string Encoder.FILE_SIGNATURE)) with 4.
    assert (Hlen : blength (BinaryWriter.write_at b0 0
                              (list_byte_of_string Encoder.FILE_SIGNATURE))
                   = blength b0).
    { unfold blength. rewrite write_at_length; [reflexivity | lia]. }
    rewrite Hlen.
    destruct (Z.gtb_spec (0 + Z.min 4 (blength b0 - 0) + 4) (blength b0)) as [|Hle].
    + rewrite orb_true_r. discriminate.
    + unfold blength in *. lia.
Qed.

Lemma u32_at_skip (pre rest : Buffer) (k : nat) (v : Z) (tail : Buffer) :
  length pre = k -> rest = (u32le_bytes v ++ tail)%list -> is_u32 v ->
  u32_at (pre ++ rest) k = v.
Proof.
  intros <- -> Hv. unfold u32_at. rewrite drop_app_length.
  apply u32le_value_bytes. exact Hv.
Qed.

Lemma keeps_below_take (w w' : BinaryWriter.t) (k : nat) :
  keeps_below w w' -> Z.of_nat k <= BinaryWriter.offset w ->
  take k (BinaryWriter.buffer w') = take k (BinaryWriter.buffer w).
Proof. intros (_ & _ & Ht) Hk. apply Ht. exact Hk. Qed.

Lemma header_words (v1 v2 v3 v4 : Z) :
  is_u32 v1 -> is_u32 v2 -> is_u32 v3 -> is_u32 v4 ->
  let hdr := (list_byte_of_string Encoder.FILE_SIGNATURE ++ u32le_bytes v1
              ++ u32le_bytes v2 ++ u32le_bytes v3 ++ u32le_bytes v4)%list in
  u32_at hdr 4 = v1 /\ u32_at hdr 8 = v2 /\ u32_at hdr 12 = v3
  /\ u32_at hdr 16 = v4.
Proof.
  intros H1 H2 H3 H4 hdr. subst hdr. repeat split.
  - exact (u32_at_skip (list_byte_of_string Encoder.FILE_SIGNATURE) _ 4 v1 _
             eq_refl eq_refl H1).
  - rewrite app_assoc.
    exact (u32_at_skip (list_byte_of_string Encoder.FILE_SIGNATURE ++ u32le_bytes v1)
             _ 8 v2 _ eq_refl eq_refl H2).
  - rewrite 2!app_assoc.
    exact (u32_at_skip ((list_byte_of_string Encoder.FILE_SIGNATURE ++ u32le_bytes v1)
                        ++ u32le_bytes v2)
             _ 12 v3 _ eq_refl eq_refl H3).
  - rewrite 3!app_assoc. rewrite <- (app_nil_r (u32le_bytes v4)).
    exact (u32_at_skip (((list_byte_of_string Encoder.FILE_SIGNATURE ++ u32le_bytes v1)
                         ++ u32le_bytes v2) ++ u32le_bytes v3)
             _ 16 v4 [] eq_refl eq_refl H4).
Qed.

(** X8.  Whenever [encodeH5Animate] returns a buffer, [parseHeader]
    reads from it the signature, version 1, the image data size
    [4 + 8 * count + webpData.length] and the length of the metadata
    text; the buffer is exactly 16 bytes longer than the two sizes
    together, and the sprite count is stored at offset 16. *)
Theorem encode_writes_header (uninit : nat -> byte)
    (meta : option Encoder.MetaInput.t)
    (spriteInfo : option Encoder.SpriteInfoInput.t)
    (webpData : option Buffer) (encoded : Buffer) :
  Encoder.encodeH5Animate uninit meta spriteInfo webpData = Ok encoded ->
  exists m s w metaJson,
    Encoder.narrowed meta spriteInfo webpData = Some (m, s, w)
    /\ JSON.stringify (Embed.meta_value m) Encoder.metaReplacer = Ok (Some metaJson)
    /\ Decoder.parseHeader (BinaryParser.new encoded)
       = Ok ({| FileHeader.signature := "ANIM";
                FileHeader.version := 1;
                FileHeader.imageDataSize := Encoder.getSpriteInfoSize s + blength w;
                FileHeader.metaDataSize := blength (list_byte_of_string metaJson) |},
             parser_at encoded 16)
    /\ blength encoded
       = 16 + (Encoder.getSpriteInfoSize s + blength w)
         + blength (list_byte_of_string metaJson)
    /\ u32_at encoded 16 = SpriteInfo.count s.
Proof.
  unfold Encoder.encodeH5Animate, Encoder.validateEncodeInput.
  destruct (Encoder.narrowed meta spriteInfo webpData) as [[[m s] w]|] eqn:En;
    [|discriminate].
  destruct (0 <? _)%nat; [discriminate|]. cbn [rbind].
  destruct (JSON.stringify (Embed.meta_value m) Encoder.metaReplacer)
    as [[json|]|] eqn:Ej; cbn [rbind]; try discriminate.
  set (metaBuffer := list_byte_of_string json).
  set (total := Encoder.getSpriteInfoSize s + blength w).
  unfold BinaryWriter.new, BinaryWriter.allocUnsafe.
  destruct (Z.ltb_spec (16 + total + blength metaBuffer) 0) as [|Hsize];
    [discriminate|].
  cbn [rbind]. set (b0 := map uninit _).
  assert (Hb0 : blength b0 = 16 + total + blength metaBuffer).
  { subst b0. unfold blength at 1. rewrite length_map, length_seq. lia. }
  destruct (BinaryWriter.writeString Encoder.FILE_SIGNATURE _) as [w1|] eqn:E1;
    cbn [rbind]; [|discriminate].
  destruct (BinaryWriter.writeUInt32LE Encoder.CURRENT_VERSION w1) as [w2|] eqn:E2;
    cbn [rbind]; [|discriminate].
  destruct (BinaryWriter.writeUInt32LE total w2) as [w3|] eqn:E3;
    cbn [rbind]; [|discriminate].
  destruct (BinaryWriter.writeUInt32LE (blength metaBuffer) w3) as [w4|] eqn:E4;
    cbn [rbind]; [|discriminate].
  destruct (BinaryWriter.writeUInt32LE (SpriteInfo.count s) w4) as [w5|] eqn:E5;
    cbn [rbind]; [|discriminate].
  destruct (Encoder.write_dimensions (SpriteInfo.dimensions s) w5) as [w6|] eqn:E6;
    cbn [rbind]; [|discriminate].
  destruct (BinaryWriter.writeBuffer w w6) as [w7|] eqn:E7; cbn [rbind];
    [|discriminate].
  destruct (BinaryWriter.writeBuffer metaBuffer w7) as [w8|] eqn:E8; cbn [rbind];
    [|discriminate].
  intros Hres. injection Hres as <-.
  destruct (header_writes b0 Encoder.CURRENT_VERSION total (blength metaBuffer)
              (SpriteInfo.count s) w5) as (H20 & Hv1 & Hv2 & Hv3 & Hv4 & Hw5).
  { rewrite E1. cbn [rbind]. rewrite E2. cbn [rbind]. rewrite E3. cbn [rbind].
    rewrite E4. cbn [rbind]. exact E5. }
  set (hdr := (list_byte_of_string Encoder.FILE_SIGNATURE
               ++ u32le_bytes Encoder.CURRENT_VERSION ++ u32le_bytes total
               ++ u32le_bytes (blength metaBuffer)
               ++ u32le_bytes (SpriteInfo.count s))%list) in *.
  assert (Hhdr : length hdr = 20%nat) by reflexivity.
  assert (K : keeps_below w5 w8).
  { eapply keeps_below_trans; [eapply write_dimensions_keeps; eassumption|].
    eapply keeps_below_trans; [eapply writeBuffer_keeps; eassumption|].
    eapply writeBuffer_keeps; eassumption. }
  assert (Hlen : length (BinaryWriter.buffer w8) = length b0).
  { destruct K as (-> & _). subst w5. unfold wstate.
    cbn [BinaryWriter.buffer]. rewrite length_app, length_drop. lia. }
  assert (Htake : take 20 (BinaryWriter.buffer w8) = hdr).
  { rewrite (keeps_below_take w5 w8 20 K).
    - subst w5. unfold wstate. cbn [BinaryWriter.buffer].
      rewrite <- Hhdr. apply take_app_length.
    - subst w5. unfold wstate, blength. cbn [BinaryWriter.offset]. lia. }
  unfold BinaryWriter.getBuffer. set (encoded := BinaryWriter.buffer w8) in *.
  assert (Hword : forall off : nat, (off + 4 <= 20)%nat ->
                    u32_at encoded off = u32_at hdr off).
  { intros off Hoff. rewrite <- Htake. symmetry.
    apply u32_at_take; [exact Hoff | unfold blength in *; lia]. }
  destruct (header_words _ _ _ _ Hv1 Hv2 Hv3 Hv4) as (W4 & W8 & W12 & W16).
  fold hdr in W4, W8, W12, W16.
  exists m, s, w, json. split; [reflexivity|]. split; [exact Ej|].
  split; [|split].
  - rewrite parseHeader_fits.
    + rewrite !Hword by lia. rewrite W4, W8, W12. reflexivity.
    + unfold blength in *. lia.
    + replace (take 4 encoded) with (take 4 hdr); [reflexivity|].
      rewrite <- Htake, take_take. reflexivity.
  - unfold blength at 1. rewrite Hlen. fold (blength b0). rewrite Hb0. reflexivity.
  - rewrite Hword by lia. exact W16.
Qed.

(** *** The explicit conversion to the compact form *)


Lemma compact_frame_of (f : H5AnimateFrame.t) :
  (sound <- JS.getProp (Embed.frame_value f) "sound" ;;
   objects <- JS.getProp (Embed.frame_value f) "objects" ;;
   objects <- JS.optional_map objects Encoder.convertObjectToArray ;;
   Ok (VObj [("sound", sound); ("objects", objects)]))
  = Ok (compact_frame f).
Proof.
  unfold Embed.frame_value, compact_frame.
  destruct (H5AnimateFrame.sound f) as [ls|], (H5AnimateFrame.objects f) as [lo|],
    (H5AnimateFrame.objects_first f);
    cbn [app JS.getProp JS.get_own String.eqb Ascii.eqb Bool.eqb rbind
         JS.optional_map JS.map_method];
    try reflexivity;
    rewrite mapM_convertObjectToArray; reflexivity.
Qed.

Lemma convertObjectsToArrays_meta (m : H5AnimateMeta.t) :
  Encoder.convertObjectsToArrays (Embed.meta_value m) = Ok (compact_meta m).
Proof.
  unfold Encoder.convertObjectsToArrays, Embed.meta_value, compact_meta.
  cbn [JS.getProp JS.get_own String.eqb Ascii.eqb Bool.eqb rbind JS.map_method].
  rewrite mapM_map, (mapM_ok _ compact_frame) by (intros; apply compact_frame_of).
  reflexivity.
Qed.

Lemma decoded_frame_of_compact (f : H5AnimateFrame.t) :
  (sound <- JS.getProp (compact_frame f) "sound" ;;
   objects <- JS.getProp (compact_frame f) "objects" ;;
   objects <- JS.optional_map objects Decoder.convertArrayToObject ;;
   Ok (VObj [("sound", sound); ("objects", objects)]))
  = Ok (decoded_frame f).
Proof.
  unfold compact_frame, decoded_frame.
  destruct (H5AnimateFrame.sound f) as [ls|], (H5AnimateFrame.objects f) as [lo|],
    (H5AnimateFrame.objects_first f);
    cbn [JS.getProp JS.get_own String.eqb Ascii.eqb Bool.eqb rbind
         JS.optional_map JS.map_method];
    try reflexivity;
    rewrite mapM_map,
      (mapM_ok _ (fun o => Embed.object_value (normalize_object o)))
      by (intros; apply convertArrayToObject_raw);
    reflexivity.
Qed.

Lemma convertArraysToObjects_compact (m : H5AnimateMeta.t) :
  Decoder.convertArraysToObjects (compact_meta m) = Ok (decoded_meta m).
Proof.
  unfold Decoder.convertArraysToObjects, compact_meta, decoded_meta.
  cbn [JS.getProp JS.get_own String.eqb Ascii.eqb Bool.eqb rbind JS.falsy
       JS.map_method].
  rewrite mapM_map, (mapM_ok _ decoded_frame)
    by (intros; apply decoded_frame_of_compact).
  reflexivity.
Qed.

Lemma text_compact_frame (f : H5AnimateFrame.t) :
  JSON.text (compact_frame f) = JSON.text (raw_frame (sound_first_frame f)).
Proof.
  unfold compact_frame, raw_frame, sound_first_frame.
  cbn [H5AnimateFrame.sound H5AnimateFrame.objects H5AnimateFrame.objects_first].
  destruct (H5AnimateFrame.sound f) as [ls|], (H5AnimateFrame.objects f) as [lo|];
    reflexivity.
Qed.

Lemma text_compact_meta (m : H5AnimateMeta.t) :
  JSON.text (compact_meta m) = Some (meta_text (sound_first m)).
Proof.
  rewrite <- text_raw_meta. unfold compact_meta, raw_meta, sound_first.
  cbn [H5AnimateMeta.ratio H5AnimateMeta.frame].
  assert (Harr : JSON.text (VArr (map compact_frame (H5AnimateMeta.frame m)))
                 = JSON.text (VArr (map raw_frame
                                      (map sound_first_frame
                                         (H5AnimateMeta.frame m))))).
  { cbn [JSON.text]. do 4 f_equal.
    rewrite !List.map_map. apply List.map_ext. intros f.
    rewrite text_compact_frame. reflexivity. }
  set (a := VArr (map compact_frame _)) in *.
  set (b := VArr (map raw_frame _)) in *.
  cbn [JSON.text]. rewrite Harr. reflexivity.
Qed.

Lemma compact_sound_first (m : H5AnimateMeta.t) :
  compact_meta (sound_first m) = compact_meta m.
Proof.
  unfold compact_meta, sound_first.
  cbn [H5AnimateMeta.ratio H5AnimateMeta.frame].
  rewrite List.map_map. reflexivity.
Qed.

(** The replacer keeps the order in which a frame holds its properties,
    the explicit conversion does not: for [sample_meta], whose first
    frame has [objects] before [sound], the two texts differ. *)
Lemma replacer_keeps_key_order :
  JSON.stringify (Embed.meta_value sample_meta) Encoder.metaReplacer
  <> Ok (option_map string_of_list_byte (JSON.text (compact_meta sample_meta))).
Proof. vm_compute. discriminate. Qed.

(** X9.  The explicit conversion [convertObjectsToArrays] and the
    replacer used by the encoder agree up to the order of the two
    properties of a frame: whatever that order is in the input, the
    converted metadata is the same, its text is the text that
    [JSON.stringify(meta, metaReplacer)] gives for the input with [sound]
    before [objects] in every frame, and [convertArraysToObjects] turns
    it back into the input with absent [mirror] and [rotate] set to 0. *)
Theorem convertObjectsToArrays_round_trip (m : H5AnimateMeta.t) :
  exists rawMeta back,
    Encoder.convertObjectsToArrays (Embed.meta_value m) = Ok rawMeta
    /\ Encoder.convertObjectsToArrays (Embed.meta_value (sound_first m))
       = Ok rawMeta
    /\ JSON.stringify (Embed.meta_value (sound_first m)) Encoder.metaReplacer
       = Ok (option_map string_of_list_byte (JSON.text rawMeta))
    /\ Decoder.convertArraysToObjects rawMeta = Ok back
    /\ JS.strip back = Embed.meta_value (normalize_meta m).
Proof.
  exists (compact_meta m), (decoded_meta m).
  split; [apply convertObjectsToArrays_meta|].
  split; [rewrite <- compact_sound_first; apply convertObjectsToArrays_meta|].
  split; [rewrite text_compact_meta; apply stringify_meta|].
  split; [apply convertArraysToObjects_compact | apply strip_decoded_meta].
Qed.

(** X10.  [validateEncodeInput] accepts exactly the arguments in which
    nothing is missing, and otherwise throws one [VALIDATION_ERROR]
    whose [missingFields] names every missing part at once: an argument
    that is [null] or [undefined] by its own name, a field of a present
    argument by its path. *)
Theorem validateEncodeInput_reports (meta : option Encoder.MetaInput.t)
    (spriteInfo : option Encoder.SpriteInfoInput.t) (webpData : option Buffer) :
  match Encoder.validateEncodeInput meta spriteInfo webpData with
  | Ok args => Encoder.narrowed meta spriteInfo webpData = Some args
  | Throw ex =>
      exists e missing,
        ex = H5 e
        /\ Errors.code e = Errors.VALIDATION_ERROR
        /\ Errors.missingFields e = Some missing
        /\ missing <> []
        /\ (In "meta"%string missing <-> meta = None)
        /\ (In "meta.ratio"%string missing
            <-> exists m, meta = Some m /\ Encoder.MetaInput.ratio m = None)
        /\ (In "meta.frame"%string missing
            <-> exists m, meta = Some m /\ Encoder.MetaInput.frame m = None)
        /\ (In "spriteInfo"%string missing <-> spriteInfo = None)
        /\ (In "spriteInfo.count"%string missing
            <-> exists s, spriteInfo = Some s
                          /\ Encoder.SpriteInfoInput.count s = None)
        /\ (In "spriteInfo.dimensions"%string missing
            <-> exists s, spriteInfo = Some s
                          /\ Encoder.SpriteInfoInput.dimensions s = None)
        /\ (In "webpData"%string missing <-> webpData = None)
  end.
Proof.
  destruct meta as [[[r|] [f|]]|], spriteInfo as [[[c|] [d|]]|], webpData as [w|];
    cbn; try reflexivity;
    (eexists; eexists; split; [reflexivity|]; split; [reflexivity|];
     split; [reflexivity|]; split; [discriminate|];
     repeat split;
     first [ solve [intros HIn; cbn in HIn; intuition discriminate]
           | solve [intros (x & Hx & Hy);
                    first [discriminate Hx | injection Hx as <-; discriminate Hy]]
           | solve [intros Hx; discriminate Hx]
           | solve [intros _; cbn; tauto]
           | solve [intros _; eexists; split; reflexivity] ]).
Qed.

(** ** The writer and the parser together *)

Lemma parser_at_eta (p : BinaryParser.t) :
  p = parser_at (BinaryParser.buffer p) (BinaryParser.offset p).
Proof. destruct p. reflexivity. Qed.


(** X11.  A word written by [writeUInt32LE] is the word that
    [readUInt32LE] reads at the same offset of the written buffer, and
    the two cursors end at the same place. *)
Theorem written_word_reads_back (value : Z) (w w' : BinaryWriter.t) :
  BinaryWriter.writeUInt32LE value w = Ok w' ->
  BinaryParser.readUInt32LE
    (parser_at (BinaryWriter.getBuffer w') (BinaryWriter.getCurrentOffset w))
  = Ok (value,
        parser_at (BinaryWriter.getBuffer w') (BinaryWriter.getCurrentOffset w')).
Proof.
  intros Hw. destruct (writeUInt32LE_ok _ _ _ Hw) as (Hv & Ho & Hfit & ->).
  unfold BinaryWriter.getBuffer, BinaryWriter.getCurrentOffset.
  cbn [BinaryWriter.buffer BinaryWriter.offset].
  rewrite readUInt32LE_fits.
  - rewrite u32_at_write by lia. reflexivity.
  - exact Ho.
  - unfold blength. rewrite write_at_length by lia. exact Hfit.
Qed.

Lemma written_word_reads_back_witness :
  BinaryWriter.writeUInt32LE 305419896 sample_writer
  = Ok {| BinaryWriter.buffer := [x00; x00; x78; x56; x34; x12; x00; x00];
          BinaryWriter.offset := 6 |}
  /\ BinaryParser.readUInt32LE
       (parser_at [x00; x00; x78; x56; x34; x12; x00; x00] 2)
     = Ok (305419896, parser_at [x00; x00; x78; x56; x34; x12; x00; x00] 6).
Proof.
  assert (H : BinaryWriter.writeUInt32LE 305419896 sample_writer
              = Ok {| BinaryWriter.buffer := [x00; x00; x78; x56; x34; x12; x00; x00];
                      BinaryWriter.offset := 6 |}) by reflexivity.
  split; [exact H|].
  exact (written_word_reads_back 305419896 sample_writer _ H).
Defined.

Lemma write_at_lookup (target src : list byte) (off : Z) (i : nat) :
  0 <= off <= blength target -> (i < length src)%nat ->
  (Z.to_nat off + i < length target)%nat ->
  BinaryWriter.write_at target off src !! (Z.to_nat off + i)%nat = src !! i.
Proof.
  intros Hoff Hi Hfit. unfold BinaryWriter.write_at, blength in *. cbv zeta.
  unfold Buffer in *.
  set (n := Z.to_nat (Z.min (Z.of_nat (length src)) (Z.of_nat (length target) - off))).
  assert (Hn : (i < n)%nat) by (subst n; lia).
  rewrite lookup_app_r by (rewrite length_take; lia).
  rewrite length_take.
  replace (Z.to_nat off + i - Z.to_nat off `min` length target)%nat with i by lia.
  rewrite lookup_app_l by (rewrite length_take; lia).
  rewrite lookup_take. destruct (decide (i < n)%nat); [reflexivity|lia].
Qed.

(** X12.  [writeBuffer] at a cursor that is not negative never fails
    and never grows the buffer: it leaves the bytes before the cursor as
    they were, stores the bytes of the source that fit, drops the others
    without a word, and moves the cursor by the full length of the
    source. *)
Theorem writeBuffer_truncates (source : Buffer) (w : BinaryWriter.t) :
  0 <= BinaryWriter.getCurrentOffset w ->
  exists w',
    BinaryWriter.writeBuffer source w = Ok w'
    /\ BinaryWriter.getCurrentOffset w'
       = BinaryWriter.getCurrentOffset w + blength source
    /\ length (BinaryWriter.getBuffer w') = length (BinaryWriter.getBuffer w)
    /\ take (Z.to_nat (BinaryWriter.getCurrentOffset w)) (BinaryWriter.getBuffer w')
       = take (Z.to_nat (BinaryWriter.getCurrentOffset w)) (BinaryWriter.getBuffer w)
    /\ forall i : nat,
         (i < length source)%nat ->
         (Z.to_nat (BinaryWriter.getCurrentOffset w) + i
          < length (BinaryWriter.getBuffer w))%nat ->
         BinaryWriter.getBuffer w'
           !! (Z.to_nat (BinaryWriter.getCurrentOffset w) + i)%nat
         = source !! i.
Proof.
  unfold BinaryWriter.getCurrentOffset, BinaryWriter.getBuffer. intros Ho.
  unfold BinaryWriter.writeBuffer.
  destruct (Z.ltb_spec (BinaryWriter.offset w) 0); [lia|].
  eexists. split; [reflexivity|]. cbn [BinaryWriter.buffer BinaryWriter.offset].
  split; [reflexivity|].
  destruct (Z.geb_spec (BinaryWriter.offset w) (blength (BinaryWriter.buffer w)))
    as [Hge|Hlt].
  - split; [reflexivity|]. split; [reflexivity|].
    intros i _ Hi. unfold blength in Hge. lia.
  - split; [apply write_at_length; lia|].
    split; [apply write_at_prefix; lia|].
    intros i Hi Hfit. apply write_at_lookup; [lia | exact Hi | exact Hfit].
Qed.

Lemma writeBuffer_truncates_witness :
  0 <= BinaryWriter.getCurrentOffset sample_writer
  /\ exists w',
       BinaryWriter.writeBuffer [x01; x02; x03; x04; x05; x06; x07; x08; x09]
         sample_writer = Ok w'
       /\ BinaryWriter.getCurrentOffset w' = 11
       /\ length (BinaryWriter.getBuffer w') = 8%nat.
Proof.
  split; [simpl; lia|].
  destruct (writeBuffer_truncates [x01; x02; x03; x04; x05; x06; x07; x08; x09]
              sample_writer ltac:(simpl; lia)) as (w' & Hw & Ho & Hl & _).
  exists w'. split; [exact Hw|]. split; [exact Ho | exact Hl].
Defined.

(** X13.  Reading [a + b] bytes in one call is reading [a] bytes and
    then [b] bytes: the same bytes, split at [a], and the same final
    cursor. *)
Theorem readBytes_splits (p p' : BinaryParser.t) (a b : Z) (bytes : Buffer) :
  0 <= BinaryParser.offset p -> 0 <= a -> 0 <= b ->
  BinaryParser.readBytes (a + b) p = Ok (bytes, p') ->
  exists p1,
    BinaryParser.readBytes a p = Ok (take (Z.to_nat a) bytes, p1)
    /\ BinaryParser.readBytes b p1 = Ok (drop (Z.to_nat a) bytes, p').
Proof.
  intros Ho Ha Hb Hr. rewrite (parser_at_eta p) in Hr |- *.
  destruct (readBytes_inv _ _ _ _ Hr) as (Hfit & _ & _).
  cbn [parser_at BinaryParser.offset BinaryParser.buffer] in Hfit.
  rewrite readBytes_fits in Hr by lia. injection Hr as <- <-.
  exists (parser_at (BinaryParser.buffer p) (BinaryParser.offset p + a)).
  rewrite !readBytes_fits by lia.
  split.
  - do 2 f_equal. rewrite take_take. f_equal. lia.
  - replace (Z.to_nat (a + b)) with (Z.to_nat a + Z.to_nat b)%nat by lia.
    rewrite <- take_drop_commute, drop_drop.
    replace (Z.to_nat (BinaryParser.offset p) + Z.to_nat a)%nat
      with (Z.to_nat (BinaryParser.offset p + a)) by lia.
    do 3 f_equal. lia.
Qed.

Lemma readBytes_splits_witness :
  0 <= BinaryParser.offset (BinaryParser.new sample_webpData)
  /\ 0 <= 1 /\ 0 <= 3
  /\ exists p1,
       BinaryParser.readBytes 1 (BinaryParser.new sample_webpData)
       = Ok (take (Z.to_nat 1) sample_webpData, p1)
       /\ BinaryParser.readBytes 3 p1
          = Ok (drop (Z.to_nat 1) sample_webpData, parser_at sample_webpData 4).
Proof.
  split; [simpl; lia|]. split; [lia|]. split; [lia|].
  apply (readBytes_splits (BinaryParser.new sample_webpData)
           (parser_at sample_webpData 4) 1 3 sample_webpData);
    [simpl; lia | lia | lia | reflexivity].
Defined.

(** X14.  In a parser state reached by reads, [getRemainingBytes] is
    the largest count that can still be read: reading that many bytes
    succeeds and leaves a parser with nothing more to read, reading any
    more fails with [CORRUPTED_HEADER]; and [hasMore] holds exactly when
    at least one byte remains. *)
Theorem remaining_bytes_readable (b : Buffer) (p : BinaryParser.t) :
  parser_reachable b p ->
  0 <= BinaryParser.getRemainingBytes p
  /\ (BinaryParser.hasMore p = true <-> 0 < BinaryParser.getRemainingBytes p)
  /\ (exists bytes p',
        BinaryParser.readBytes (BinaryParser.getRemainingBytes p) p = Ok (bytes, p')
        /\ blength bytes = BinaryParser.getRemainingBytes p
        /\ BinaryParser.hasMore p' = false
        /\ BinaryParser.getRemainingBytes p' = 0)
  /\ forall n, BinaryParser.getRemainingBytes p < n ->
       exists e, BinaryParser.readBytes n p = Throw (H5 e)
                 /\ Errors.code e = Errors.CORRUPTED_HEADER.
Proof.
  intros Hr. destruct (parser_reachable_inv b p Hr) as (Hb & Ho).
  unfold BinaryParser.getRemainingBytes, BinaryParser.hasMore. rewrite Hb.
  split; [lia|]. split; [rewrite Z.ltb_lt; lia|]. split.
  - rewrite (parser_at_eta p), Hb.
    cbn [parser_at BinaryParser.offset BinaryParser.buffer].
    rewrite readBytes_fits by lia.
    eexists. eexists. split; [reflexivity|].
    cbn [parser_at BinaryParser.offset BinaryParser.buffer].
    split; [|split; [rewrite Z.ltb_ge; lia | lia]].
    unfold blength. rewrite length_take, length_drop. unfold blength in Ho. lia.
  - intros n Hn. rewrite (parser_at_eta p), Hb.
    destruct (readBytes_over b (BinaryParser.offset p) n ltac:(lia))
      as (e & He & Hc & _).
    exists e. auto.
Qed.

Lemma remaining_bytes_readable_witness :
  parser_reachable sample_webpData (BinaryParser.new sample_webpData)
  /\ BinaryParser.getRemainingBytes (BinaryParser.new sample_webpData) = 4
  /\ exists e,
       BinaryParser.readBytes 5 (BinaryParser.new sample_webpData) = Throw (H5 e)
       /\ Errors.code e = Errors.CORRUPTED_HEADER.
Proof.
  split; [constructor|]. split; [reflexivity|].
  apply (proj2 (proj2 (proj2 (remaining_bytes_readable sample_webpData
                                (BinaryParser.new sample_webpData)
                                (reach_new sample_webpData))))).
  vm_compute. reflexivity.
Defined.

(** ** The converter *)

Lemma get_own_has_own (props : list (string * value)) (k : string) :
  JS.get_own props k <> VUndefined -> Converter.has_own props k = true.
Proof.
  induction props as [|[k' v] props IH]; cbn [JS.get_own Converter.has_own].
  - intros Hne. contradiction.
  - destruct (String.eqb k' k); [reflexivity|]. exact IH.
Qed.

Ltac typed_throw :=
  let Hres := fresh "Hres" in
  intros Hres; injection Hres as <-; eexists; split; reflexivity.

Lemma validateLegacyFormat_throws (data : value) (ex : exn) :
  Converter.validateLegacyFormat data = Throw ex ->
  exists e, ex = H5 e /\ Errors.code e = Errors.VALIDATION_ERROR.
Proof.
  unfold Converter.validateLegacyFormat.
  destruct data as [| | | | |items|props]; try typed_throw.
  destruct (0 <? _)%nat; [typed_throw|].
  destruct (JS.get_own props "ratio"); try typed_throw.
  destruct (JS.get_own props "bitmaps"); try typed_throw.
  destruct (JS.get_own props "frame_max") as [| | |frame_max| | |]; try typed_throw.
  destruct (Number.ltb frame_max (Number.Int 0)); [typed_throw|].
  destruct (JS.get_own props "frames"); try typed_throw.
  discriminate.
Qed.

Lemma validateLegacyFormat_ok (props : list (string * value))
    (ratio frame_max : Number.t) (bitmaps frames : list value) :
  JS.get_own props "ratio" = VNum ratio ->
  JS.get_own props "bitmaps" = VArr bitmaps ->
  JS.get_own props "frame_max" = VNum frame_max ->
  Number.ltb frame_max (Number.Int 0) = false ->
  JS.get_own props "frames" = VArr frames ->
  Converter.validateLegacyFormat (VObj props) = Ok tt.
Proof.
  intros Hr Hb Hm Hpos Hf.
  unfold Converter.validateLegacyFormat, Converter.REQUIRED_FIELDS.
  rewrite !filter_cons, filter_nil.
  repeat match goal with
         | |- context [decide ?P] =>
             let Hd := fresh "Hd" in
             destruct (decide P) as [Hd|_];
             [rewrite get_own_has_own in Hd by congruence; discriminate Hd|]
         end.
  cbn [length Nat.ltb Nat.leb]. rewrite Hr, Hb, Hm, Hf, Hpos. reflexivity.
Qed.

Lemma validateLegacyFormat_inv (data : value) :
  Converter.validateLegacyFormat data = Ok tt ->
  exists props ratio bitmaps frame_max frames,
    data = VObj props
    /\ JS.get_own props "ratio" = VNum ratio
    /\ JS.get_own props "bitmaps" = VArr bitmaps
    /\ JS.get_own props "frame_max" = VNum frame_max
    /\ Number.ltb frame_max (Number.Int 0) = false
    /\ JS.get_own props "frames" = VArr frames.
Proof.
  unfold Converter.validateLegacyFormat, Converter.REQUIRED_FIELDS.
  destruct data as [| | | | |items|props]; try discriminate.
  destruct (0 <? _)%nat; [discriminate|].
  destruct (JS.get_own props "ratio") as [| | |ratio| | |] eqn:Hr; try discriminate.
  destruct (JS.get_own props "bitmaps") as [| | | | |bitmaps|] eqn:Hb;
    try discriminate.
  destruct (JS.get_own props "frame_max") as [| | |frame_max| | |] eqn:Hm;
    try discriminate.
  destruct (Number.ltb frame_max (Number.Int 0)) eqn:Hpos; [discriminate|].
  destruct (JS.get_own props "frames") as [| | | | |frames|] eqn:Hf;
    try discriminate.
  intros _. exists props, ratio, bitmaps, frame_max, frames. auto 10.
Qed.


(** X15.  [validateLegacyFormat] accepts exactly the objects whose
    [ratio] is a number, [bitmaps] an array, [frame_max] a number that
    is not negative (the test [frame_max < 0] is false, as it is of
    [NaN] too) and [frames] an array; whatever it rejects, it rejects
    with a [VALIDATION_ERROR]. *)
Theorem validateLegacyFormat_accepts (data : value) :
  (Converter.validateLegacyFormat data = Ok tt
   <-> exists props ratio bitmaps frame_max frames,
         data = VObj props
         /\ JS.get_own props "ratio" = VNum ratio
         /\ JS.get_own props "bitmaps" = VArr bitmaps
         /\ JS.get_own props "frame_max" = VNum frame_max
         /\ Number.ltb frame_max (Number.Int 0) = false
         /\ JS.get_own props "frames" = VArr frames)
  /\ forall ex, Converter.validateLegacyFormat data = Throw ex ->
                exists e, ex = H5 e /\ Errors.code e = Errors.VALIDATION_ERROR.
Proof.
  split; [split|].
  - apply validateLegacyFormat_inv.
  - intros (props & ratio & bitmaps & frame_max & frames
            & -> & Hr & Hb & Hm & Hpos & Hf).
    eapply validateLegacyFormat_ok; eassumption.
  - apply validateLegacyFormat_throws.
Qed.

(** X16.  [parseLegacyAnimateFile] reads back what was printed: for a
    value that [validateLegacyFormat] accepts and that a JSON text can
    carry (no [undefined] inside, the keys of an object distinct and in
    the order an object lists them, every number finite and not [-0]),
    parsing its JSON text returns the value itself, fractions and
    numbers in exponent form included. *)
Theorem parseLegacyAnimateFile_round_trip (data : value) (text : list byte) :
  json_clean data -> JSON.text data = Some text ->
  Converter.validateLegacyFormat data = Ok tt ->
  Converter.parseLegacyAnimateFile (string_of_list_byte text) = Ok data.
Proof.
  intros Hclean Htext Hvalid. unfold Converter.parseLegacyAnimateFile.
  rewrite (JSON_parse_text data text Hclean Htext), Hvalid. reflexivity.
Qed.

(** X17.  [parseLegacyAnimateFile] returns only what [JSON.parse]
    produced and [validateLegacyFormat] accepted, and throws only typed
    errors: [CONVERSION_FAILED] when the text does not parse, the
    [VALIDATION_ERROR] of the validation otherwise. *)
Theorem parseLegacyAnimateFile_outcomes (jsonString : string) :
  match Converter.parseLegacyAnimateFile jsonString with
  | Ok data =>
      JSON.parse jsonString = Some data
      /\ Converter.validateLegacyFormat data = Ok tt
  | Throw ex =>
      exists e,
        ex = H5 e
        /\ ((Errors.code e = Errors.CONVERSION_FAILED /\ JSON.parse jsonString = None)
            \/ (Errors.code e = Errors.VALIDATION_ERROR
                /\ exists data, JSON.parse jsonString = Some data
                                /\ Converter.validateLegacyFormat data = Throw ex))
  end.
Proof.
  unfold Converter.parseLegacyAnimateFile.
  destruct (JSON.parse jsonString) as [data|].
  - destruct (Converter.validateLegacyFormat data) as [[]|ex] eqn:Ev; cbn [rbind].
    + auto.
    + destruct (validateLegacyFormat_throws data ex Ev) as (e & -> & Hc).
      exists e. split; [reflexivity|]. right. split; [exact Hc|].
      exists data. auto.
  - eexists. split; [reflexivity|]. left. split; reflexivity.
Qed.

(** X18.  [convertSoundData] never returns an empty list: the result is
    [undefined] or exactly one sound, whose name is not empty and which
    has no volume. *)
Theorem convertSoundData_shape (legacy : LegacyAnimateFile.t) (frameIndex : Z) :
  Converter.convertSoundData legacy frameIndex = None
  \/ exists name pitch,
       Converter.convertSoundData legacy frameIndex = Some [plain_sound name pitch]
       /\ name <> EmptyString.
Proof.
  unfold Converter.convertSoundData, plain_sound.
  destruct (LegacyAnimateFile.se legacy) as [[s|m]|]; [| |left; reflexivity].
  - destruct (String.eqb_spec s EmptyString); [left; reflexivity|].
    destruct (frameIndex =? 0); [|left; reflexivity].
    right. eexists. eexists. split; [reflexivity | assumption].
  - destruct (m !! frameIndex) as [name|]; [|left; reflexivity].
    destruct (String.eqb_spec name EmptyString); [left; reflexivity|].
    right. eexists. eexists. split; [reflexivity | assumption].
Qed.




(** ** Image processing *)

Lemma mapM_throws_with {A B} (P : exn -> Prop) (f : A -> result B) (l : list A) ex :
  (forall a ex', f a = Throw ex' -> P ex') ->
  JS.mapM f l = Throw ex -> P ex.
Proof.
  intros Hf. induction l as [|a l IH]; [discriminate|].
  cbn [JS.mapM]. destruct (f a) eqn:Ea; cbn [rbind].
  - destruct (JS.mapM f l); cbn [rbind]; [discriminate|].
    intros Hres. injection Hres as <-. apply IH. reflexivity.
  - intros Hres. injection Hres as <-. eapply Hf. exact Ea.
Qed.

Lemma mapM_length {A B} (f : A -> result B) (l : list A) (bs : list B) :
  JS.mapM f l = Ok bs -> length bs = length l.
Proof.
  revert bs. induction l as [|a l IH]; intros bs.
  - cbn [JS.mapM]. intros Hres. injection Hres as <-. reflexivity.
  - cbn [JS.mapM]. destruct (f a); cbn [rbind]; [|discriminate].
    destruct (JS.mapM f l) as [bs'|]; cbn [rbind]; [|discriminate].
    intros Hres. injection Hres as <-. cbn [length]. f_equal. apply IH. reflexivity.
Qed.

Lemma await_throws {A} (p : string + A) ex :
  WebP.await p = Throw ex -> is_H5AnimateError ex = false.
Proof. destruct p; cbn; [|discriminate]. intros Hres. injection Hres as <-. reflexivity. Qed.

Lemma wrap_all_throws {A} (pre : string) (body : result A) ex :
  WebP.wrap_all pre body = Throw ex ->
  exists e, ex = H5 e /\ Errors.code e = Errors.WEBP_PROCESSING_ERROR.
Proof.
  destruct body; cbn; [discriminate|].
  intros Hres. injection Hres as <-. eexists. split; reflexivity.
Qed.

Lemma wrap_untyped_throws {A} (pre : string) (body : result A) ex :
  (forall ex', body = Throw ex' -> is_H5AnimateError ex' = false) ->
  WebP.wrap_untyped pre body = Throw ex ->
  exists e, ex = H5 e /\ Errors.code e = Errors.WEBP_PROCESSING_ERROR.
Proof.
  intros Hbody. destruct body as [a|ex']; cbn; [discriminate|].
  rewrite (Hbody ex' eq_refl).
  intros Hres. injection Hres as <-. eexists. split; reflexivity.
Qed.

Lemma sum_of_foldr (values : list Z) (a : Z) :
  fold_left Z.add values a = a + foldr Z.add 0 values.
Proof.
  revert a. induction values as [|v values IH]; intros a; cbn [fold_left foldr]; [lia|].
  rewrite IH. lia.
Qed.

Lemma fold_max_spec (values : list Z) (a : Z) :
  a <= fold_left Z.max values a
  /\ Forall (fun v => v <= fold_left Z.max values a) values
  /\ (fold_left Z.max values a = a \/ In (fold_left Z.max values a) values).
Proof.
  revert a. induction values as [|v values IH]; intros a; cbn [fold_left].
  - split; [lia|]. split; [constructor | left; reflexivity].
  - destruct (IH (Z.max a v)) as (Hle & Hall & Hin).
    split; [lia|]. split; [constructor; [lia | exact Hall]|].
    destruct Hin as [Heq|Hin]; [|right; right; exact Hin].
    rewrite Heq. destruct (Z.max_spec a v) as [[_ ->]|[_ ->]];
      [right; left; reflexivity | left; reflexivity].
Qed.

Lemma max_of_spec (values : list Z) :
  values <> [] ->
  In (WebP.max_of values) values /\ Forall (fun v => v <= WebP.max_of values) values.
Proof.
  destruct values as [|v values]; [contradiction|]. intros _.
  unfold WebP.max_of. destruct (fold_max_spec values v) as (Hle & Hall & Hin).
  split.
  - destruct Hin as [->|Hin]; [left; reflexivity | right; exact Hin].
  - constructor; assumption.
Qed.

Lemma stack_layers_spec (images : list (Buffer * WebP.ImageMeta.t)) :
  forall (currentY : Z) (composite : list WebP.OverlayOptions.t),
    length (WebP.stack_layers images currentY composite)
    = (length composite + length images)%nat
    /\ forall (i : nat) image meta,
         images !! i = Some (image, meta) ->
         WebP.stack_layers images currentY composite !! (length composite + i)%nat
         = Some {| WebP.OverlayOptions.input := image;
                   WebP.OverlayOptions.top :=
                     currentY
                     + foldr Z.add 0 (map (fun im => WebP.ImageMeta.height (snd im))
                                        (take i images));
                   WebP.OverlayOptions.left := 0 |}.
Proof.
  induction images as [|[image0 meta0] images IH]; intros currentY composite.
  - cbn [WebP.stack_layers length]. split; [lia|]. intros i image meta Hi.
    rewrite lookup_nil in Hi. discriminate.
  - cbn [WebP.stack_layers].
    destruct (IH (currentY + WebP.ImageMeta.height meta0)
                (composite ++ [{| WebP.OverlayOptions.input := image0;
                                  WebP.OverlayOptions.top := currentY;
                                  WebP.OverlayOptions.left := 0 |}])%list)
      as (Hlen & Hat).
    rewrite length_app in Hlen, Hat. cbn [length] in Hlen, Hat |- *.
    split; [lia|]. intros [|i] image meta Hi.
    + cbn in Hi. injection Hi as <- <-.
      assert (Hkeep : forall rest y acc k x,
                acc !! k = Some x ->
                WebP.stack_layers rest y acc !! k = Some x).
      { clear. induction rest as [|[im me] rest IHr]; intros y acc k x Hk;
          cbn [WebP.stack_layers]; [exact Hk|].
        apply IHr. apply lookup_app_l_Some. exact Hk. }
      rewrite Nat.add_0_r. apply Hkeep.
      rewrite lookup_app_r by lia. rewrite Nat.sub_diag.
      cbn [take map foldr]. rewrite Z.add_0_r. reflexivity.
    + cbn [lookup list_lookup] in Hi.
      replace (length composite + S i)%nat with (length composite + 1 + i)%nat by lia.
      rewrite (Hat i image meta Hi). cbn [take map foldr snd]. do 2 f_equal. lia.
Qed.

Section ImageLibrary.
Variable sharp_metadata : Buffer -> string + ImageMetadata.t.
Variable sharp_extract : Buffer -> Z -> Z -> Z -> Z -> string + Buffer.
Variable sharp_webp : Buffer -> WebP.SharpWebpOptions.t -> string + Buffer.
Variable sharp_composite :
  Z -> Z -> list WebP.OverlayOptions.t -> WebP.SharpWebpOptions.t -> string + Buffer.
Variable base64_decode : string -> Buffer.
Variable uninit : nat -> byte.

Lemma getImageMeta_throws (image : Buffer) ex :
  WebP.getImageMeta sharp_metadata image = Throw ex ->
  is_H5AnimateError ex = false.
Proof.
  unfold WebP.getImageMeta.
  destruct (WebP.await (sharp_metadata image)) eqn:Ea; cbn [rbind]; [discriminate|].
  intros Hres. injection Hres as <-. eapply await_throws. exact Ea.
Qed.

(** What the [try] block of [createVerticalSpriteSheet] computes. *)
Lemma createVerticalSpriteSheet_body (images : list Buffer)
    (options : option WebP.WebPOptions.t) :
  images <> [] ->
  exists body,
    WebP.createVerticalSpriteSheet sharp_metadata sharp_webp sharp_composite
      images options
    = WebP.wrap_untyped "创建精灵图失败: " body
    /\ (forall ex, body = Throw ex -> is_H5AnimateError ex = false)
    /\ forall result, body = Ok result ->
         exists metas webpOptions,
           JS.mapM (WebP.getImageMeta sharp_metadata) images = Ok metas
           /\ WebP.SharpWebpOptions.effort webpOptions = Some 6
           /\ ImageConversionResult.spriteInfo result
              = {| SpriteInfo.count := 1;
                   SpriteInfo.dimensions :=
                     [{| SpriteDimension.width :=
                           WebP.max_of (map WebP.ImageMeta.width metas);
                         SpriteDimension.height :=
                           WebP.sum_of (map WebP.ImageMeta.height metas) |}] |}
           /\ ((exists image, images = [image]
                              /\ sharp_webp image webpOptions
                                 = inr (ImageConversionResult.webpData result))
               \/ ((2 <= length images)%nat
                   /\ sharp_composite
                        (WebP.max_of (map WebP.ImageMeta.width metas))
                        (WebP.sum_of (map WebP.ImageMeta.height metas))
                        (WebP.stack_layers (combine images metas) 0 [])
                        webpOptions
                      = inr (ImageConversionResult.webpData result))).
Proof.
  intros Hne. unfold WebP.createVerticalSpriteSheet.
  destruct images as [|image0 images]; [contradiction|].
  cbn [length Nat.eqb].
  set (opts := {| WebP.SharpWebpOptions.lossless := WebP.lossless_of options;
                  WebP.SharpWebpOptions.quality := Some (WebP.quality_of options);
                  WebP.SharpWebpOptions.effort := Some 6 |}).
  eexists. split; [reflexivity|].
  destruct (JS.mapM (WebP.getImageMeta sharp_metadata) (image0 :: images))
    as [metas|ex0] eqn:Em; cbn [rbind].
  - pose proof (mapM_length _ _ _ Em) as Hlen.
    destruct metas as [|meta0 metas]; [discriminate Hlen|].
    destruct images as [|image1 images].
    + destruct metas as [|meta1 metas]; [|discriminate Hlen].
      destruct (sharp_webp image0 opts) as [msg|webp] eqn:Ew; cbn [WebP.await rbind].
      * split; [|discriminate].
        intros ex Hres. injection Hres as <-. reflexivity.
      * split; [discriminate|]. intros result Hres. injection Hres as <-.
        exists [meta0], opts. split; [reflexivity|]. split; [reflexivity|].
        split; [reflexivity|]. left. exists image0. split; [reflexivity|].
        exact Ew.
    + destruct metas as [|meta1 metas]; [discriminate Hlen|].
      destruct (sharp_composite _ _ _ opts) as [msg|webp] eqn:Ec;
        cbn [WebP.await rbind].
      * split; [|discriminate].
        intros ex Hres. injection Hres as <-. reflexivity.
      * split; [discriminate|]. intros result Hres. injection Hres as <-.
        exists (meta0 :: meta1 :: metas), opts.
        split; [reflexivity|]. split; [reflexivity|].
        split; [reflexivity|]. right. split; [cbn [length]; lia|].
        exact Ec.
  - split; [|discriminate]. intros ex Hres. injection Hres as <-.
    exact (mapM_throws_with (fun e => is_H5AnimateError e = false) _ _ _
             getImageMeta_throws Em).
Qed.

(** X22.  Whatever the number of images, a sheet that
    [createVerticalSpriteSheet] returns is described as one sprite: the
    count is 1 and there is one dimension, as high as all measured
    images together and as wide as the widest of them. *)
Theorem createVerticalSpriteSheet_one_sprite (images : list Buffer)
    (options : option WebP.WebPOptions.t) (result : ImageConversionResult.t) :
  WebP.createVerticalSpriteSheet sharp_metadata sharp_webp sharp_composite
    images options = Ok result ->
  exists metas width height,
    JS.mapM (WebP.getImageMeta sharp_metadata) images = Ok metas
    /\ length metas = length images
    /\ ImageConversionResult.spriteInfo result
       = {| SpriteInfo.count := 1;
            SpriteInfo.dimensions :=
              [{| SpriteDimension.width := width;
                  SpriteDimension.height := height |}] |}
    /\ height = foldr Z.add 0 (map WebP.ImageMeta.height metas)
    /\ In width (map WebP.ImageMeta.width metas)
    /\ Forall (fun meta => WebP.ImageMeta.width meta <= width) metas.
Proof.
  intros Hok.
  assert (Hne : images <> []).
  { intros ->. discriminate Hok. }
  destruct (createVerticalSpriteSheet_body images options Hne)
    as (body & Hcall & _ & Hbody).
  rewrite Hcall in Hok. destruct body as [result'|ex]; cbn in Hok.
  2:{ destruct (is_H5AnimateError ex); discriminate Hok. }
  injection Hok as ->.
  destruct (Hbody result eq_refl) as (metas & webpOptions & Hm & _ & Hs & _).
  pose proof (mapM_length _ _ _ Hm) as Hlen.
  exists metas, (WebP.max_of (map WebP.ImageMeta.width metas)),
    (WebP.sum_of (map WebP.ImageMeta.height metas)).
  split; [exact Hm|]. split; [exact Hlen|]. split; [exact Hs|].
  assert (Hmetas : map WebP.ImageMeta.width metas <> []).
  { destruct metas; [|discriminate]. destruct images; [contradiction|discriminate]. }
  destruct (max_of_spec _ Hmetas) as (Hin & Hall).
  split; [unfold WebP.sum_of; rewrite sum_of_foldr; lia|].
  split; [exact Hin|].
  rewrite Forall_map in Hall. exact Hall.
Qed.

(** X23.  When [createVerticalSpriteSheet] merges two images or more,
    the layers it hands to the image library are the images in their
    order, at the left edge, each one placed right below the previous
    one: the top of a layer is the sum of the measured heights of the
    images before it. *)
Theorem createVerticalSpriteSheet_stacks (images : list Buffer)
    (options : option WebP.WebPOptions.t) (result : ImageConversionResult.t) :
  (2 <= length images)%nat ->
  WebP.createVerticalSpriteSheet sharp_metadata sharp_webp sharp_composite
    images options = Ok result ->
  exists metas width height layers webpOptions,
    JS.mapM (WebP.getImageMeta sharp_metadata) images = Ok metas
    /\ sharp_composite width height layers webpOptions
       = inr (ImageConversionResult.webpData result)
    /\ length layers = length images
    /\ forall (i : nat) image,
         images !! i = Some image ->
         layers !! i
         = Some {| WebP.OverlayOptions.input := image;
                   WebP.OverlayOptions.top :=
                     foldr Z.add 0 (map WebP.ImageMeta.height (take i metas));
                   WebP.OverlayOptions.left := 0 |}.
Proof.
  intros H2 Hok.
  assert (Hne : images <> []) by (intros ->; cbn in H2; lia).
  destruct (createVerticalSpriteSheet_body images options Hne)
    as (body & Hcall & _ & Hbody).
  rewrite Hcall in Hok. destruct body as [result'|ex]; cbn in Hok.
  2:{ destruct (is_H5AnimateError ex); discriminate Hok. }
  injection Hok as ->.
  destruct (Hbody result eq_refl) as (metas & webpOptions & Hm & _ & _ & Hcase).
  destruct Hcase as [(image & -> & _)|(_ & Hc)]; [cbn in H2; lia|].
  pose proof (mapM_length _ _ _ Hm) as Hlen.
  eexists metas, _, _, _, webpOptions.
  split; [exact Hm|]. split; [exact Hc|].
  destruct (stack_layers_spec (combine images metas) 0 []) as (Hl & Hat).
  split.
  - rewrite Hl, length_combine. cbn [length]. lia.
  - intros i image Hi.
    assert (Hmeta : exists meta, metas !! i = Some meta).
    { apply lookup_lt_is_Some. rewrite Hlen. apply lookup_lt_Some in Hi. exact Hi. }
    destruct Hmeta as (meta & Hmeta).
    assert (Hpair : combine images metas !! i = Some (image, meta)).
    { clear -Hi Hmeta. revert i metas Hi Hmeta.
      induction images as [|im images IH]; intros i metas Hi Hmeta;
        [rewrite lookup_nil in Hi; discriminate|].
      destruct metas as [|me metas]; [rewrite lookup_nil in Hmeta; discriminate|].
      destruct i as [|i]; cbn in *; [congruence|]. apply IH; assumption. }
    pose proof (Hat i image meta Hpair) as Hlayer. cbn [length] in Hlayer.
    rewrite Nat.add_0_l, Z.add_0_l in Hlayer. rewrite Hlayer. do 2 f_equal.
    clear -Hlen. revert i metas Hlen.
    induction images as [|im images IH]; intros i metas Hlen.
    + destruct metas; [|discriminate]. destruct i; reflexivity.
    + destruct metas as [|me metas]; [discriminate|].
      destruct i as [|i]; [reflexivity|].
      cbn [combine take map foldr snd]. f_equal. apply IH.
      cbn [length] in Hlen. lia.
Qed.

Lemma createVerticalSpriteSheet_throws (ex : exn) (images : list Buffer)
    (options : option WebP.WebPOptions.t) :
  WebP.createVerticalSpriteSheet sharp_metadata sharp_webp sharp_composite
    images options = Throw ex ->
  exists e, ex = H5 e /\ Errors.code e = Errors.WEBP_PROCESSING_ERROR.
Proof.
  destruct images as [|image images].
  - cbn. intros Hres. injection Hres as <-. eexists. split; reflexivity.
  - destruct (createVerticalSpriteSheet_body (image :: images) options
                ltac:(discriminate)) as (body & -> & Hthrows & _).
    apply wrap_untyped_throws. exact Hthrows.
Qed.

(** X24.  The image functions throw nothing but their own typed error:
    whatever goes wrong in [convertToWebP], [createVerticalSpriteSheet],
    [combineBase64ImagesToWebP], [extractFrameByIndex] or
    [extractFrameByPosition], the caller gets an [H5AnimateError] with
    code [WEBP_PROCESSING_ERROR]. *)
Theorem webp_errors_are_typed (ex : exn) :
  (forall image options,
     WebP.convertToWebP sharp_webp image options = Throw ex ->
     exists e, ex = H5 e /\ Errors.code e = Errors.WEBP_PROCESSING_ERROR)
  /\ (forall images options,
        WebP.createVerticalSpriteSheet sharp_metadata sharp_webp sharp_composite
          images options = Throw ex ->
        exists e, ex = H5 e /\ Errors.code e = Errors.WEBP_PROCESSING_ERROR)
  /\ (forall base64Images options,
        WebP.combineBase64ImagesToWebP sharp_metadata sharp_webp sharp_composite
          base64_decode base64Images options = Throw ex ->
        exists e, ex = H5 e /\ Errors.code e = Errors.WEBP_PROCESSING_ERROR)
  /\ (forall sheet index options,
        WebP.extractFrameByIndex sharp_metadata sharp_extract sheet index options
          = Throw ex ->
        exists e, ex = H5 e /\ Errors.code e = Errors.WEBP_PROCESSING_ERROR)
  /\ (forall sheet top left width height,
        WebP.extractFrameByPosition sharp_extract sheet top left width height
          = Throw ex ->
        exists e, ex = H5 e /\ Errors.code e = Errors.WEBP_PROCESSING_ERROR).
Proof.
  split; [|split; [apply createVerticalSpriteSheet_throws|split; [|split]]].
  - intros image options. unfold WebP.convertToWebP. apply wrap_all_throws.
  - intros base64Images options. unfold WebP.combineBase64ImagesToWebP.
    apply createVerticalSpriteSheet_throws.
  - intros sheet index options. apply extractFrameByIndex_failure_code.
  - intros sheet top left width height. unfold WebP.extractFrameByPosition.
    apply wrap_all_throws.
Qed.

(** A frame inside the sheet is cropped by the image library at
    the left edge, at [top = index * height], with the requested width
    or else the measured one; a failure of the library comes back as a
    [WEBP_PROCESSING_ERROR].  Only the lower edge is tested, so a
    negative index reaches the library. *)
Theorem extractFrameByIndex_in_range (sheet : Buffer) (index : Z)
    (options : ExtractFrameOptions.t) (metadata : ImageMetadata.t) :
  sharp_metadata sheet = inr metadata ->
  index * ExtractFrameOptions.height options + ExtractFrameOptions.height options
    <= match ImageMetadata.height metadata with Some h => h | None => 0 end ->
  WebP.extractFrameByIndex sharp_metadata sharp_extract sheet index options
  = match sharp_extract sheet 0 (index * ExtractFrameOptions.height options)
            (match ExtractFrameOptions.width options with
             | Some w => w
             | None =>
                 match ImageMetadata.width metadata with Some w => w | None => 0 end
             end)
            (ExtractFrameOptions.height options) with
    | inr frame => Ok frame
    | inl message =>
        Throw (H5 (Errors.createWebPProcessingError ("提取帧失败: " ++ message)%string))
    end.
Proof.
  intros Hm Hin. unfold WebP.extractFrameByIndex. rewrite Hm. cbn [WebP.await rbind].
  match goal with
  | |- context [?a >? ?b] => destruct (Z.gtb_spec a b) as [Hgt|_]; [lia|]
  end.
  destruct (sharp_extract _ _ _ _ _); reflexivity.
Qed.

Lemma extract_rounds_bounded (sheet : Buffer) (width height : Z) (n : nat) :
  forall (fuel : nat) (i : Z) (acc : list Buffer),
    (n <= fuel)%nat ->
    exists outcome,
      WebP.extract_rounds sharp_extract fuel sheet width height (Some n) i acc
      = Some outcome
      /\ match outcome with
         | Ok frames =>
             exists new,
               frames = (acc ++ new)%list /\ length new = n
               /\ forall (k : nat) frame,
                    new !! k = Some frame ->
                    sharp_extract sheet 0 ((i + Z.of_nat k) * height) width height
                    = inr frame
         | Throw ex => is_H5AnimateError ex = false
         end.
Proof.
  induction n as [|n IH]; intros fuel i acc Hfuel.
  - exists (Ok acc). split; [destruct fuel; reflexivity|].
    exists []. rewrite app_nil_r. split; [reflexivity|]. split; [reflexivity|].
    intros k frame Hk. rewrite lookup_nil in Hk. discriminate.
  - destruct fuel as [|fuel]; [lia|]. cbn [WebP.extract_rounds].
    destruct (sharp_extract sheet 0 (i * height) width height) as [msg|frame] eqn:Ex;
      cbn [WebP.await].
    + eexists. split; reflexivity.
    + cbn [option_map Nat.pred].
      destruct (IH fuel (i + 1) (acc ++ [frame])%list ltac:(lia))
        as (outcome & Hrun & Hout).
      exists outcome. split; [exact Hrun|].
      destruct outcome as [frames|ex]; [|exact Hout].
      destruct Hout as (new & -> & Hlen & Hat).
      exists (frame :: new). rewrite <- app_assoc. split; [reflexivity|].
      split; [cbn [length]; lia|].
      intros [|k] fr Hk.
      * cbn in Hk. injection Hk as <-. rewrite Z.add_0_r. exact Ex.
      * cbn [lookup list_lookup] in Hk.
        replace (i + Z.of_nat (S k)) with (i + 1 + Z.of_nat k) by lia.
        apply Hat. exact Hk.
Qed.

(** X25.  With a frame count, or else a frame height that is not zero,
    [extractAllFrames] ends: it returns exactly [count] frames (none for
    a negative count), frame [i] being what the library crops at
    [top = i * frameHeight], or it fails with [WEBP_PROCESSING_ERROR];
    [count] is the given count, or else the sheet height divided by the
    frame height, rounded down. *)
Theorem extractAllFrames_counts (fuel : nat) (sheet : Buffer) (frameHeight : Z)
    (frameCount : option Z) (metadata : ImageMetadata.t) :
  sharp_metadata sheet = inr metadata ->
  (frameCount = None -> frameHeight <> 0) ->
  let spriteHeight :=
    match ImageMetadata.height metadata with Some h => h | None => 0 end in
  let spriteWidth :=
    match ImageMetadata.width metadata with Some w => w | None => 0 end in
  let count :=
    match frameCount with Some c => c | None => spriteHeight / frameHeight end in
  (Z.to_nat count <= fuel)%nat ->
  exists outcome,
    WebP.extractAllFrames sharp_metadata sharp_extract fuel sheet frameHeight
      frameCount = Some outcome
    /\ match outcome with
       | Ok frames =>
           length frames = Z.to_nat count
           /\ forall (i : nat) frame,
                frames !! i = Some frame ->
                sharp_extract sheet 0 (Z.of_nat i * frameHeight) spriteWidth
                  frameHeight = inr frame
       | Throw ex =>
           exists e, ex = H5 e /\ Errors.code e = Errors.WEBP_PROCESSING_ERROR
       end.
Proof.
  intros Hm Hnz spriteHeight spriteWidth count Hfuel.
  unfold WebP.extractAllFrames. rewrite Hm. cbn [WebP.await].
  fold spriteHeight spriteWidth.
  assert (Hrounds : WebP.frame_rounds frameCount spriteHeight frameHeight = Some count).
  { unfold WebP.frame_rounds, count. destruct frameCount as [c|]; [reflexivity|].
    destruct (Z.eqb_spec frameHeight 0) as [Hz|_]; [|reflexivity].
    exfalso. apply (Hnz eq_refl). exact Hz. }
  rewrite Hrounds. cbn [option_map].
  destruct (extract_rounds_bounded sheet spriteWidth frameHeight (Z.to_nat count)
              fuel 0 [] Hfuel) as (outcome & -> & Hout).
  cbn [option_map]. eexists. split; [reflexivity|].
  destruct outcome as [frames|ex]; cbn [WebP.wrap_untyped].
  - destruct Hout as (new & -> & Hlen & Hat). cbn [app].
    split; [exact Hlen|]. intros i frame Hi.
    pose proof (Hat i frame Hi) as Hx. rewrite Z.add_0_l in Hx. exact Hx.
  - rewrite Hout. eexists. split; reflexivity.
Qed.

Lemma extract_rounds_unbounded (sheet : Buffer) (width height : Z) (fuel : nat) :
  forall (i : Z) (acc frames : list Buffer),
    WebP.extract_rounds sharp_extract fuel sheet width height None i acc
    <> Some (Ok frames).
Proof.
  induction fuel as [|fuel IH]; intros i acc frames; cbn [WebP.extract_rounds];
    [discriminate|].
  destruct (sharp_extract sheet 0 (i * height) width height); cbn [WebP.await];
    [discriminate|].
  apply IH.
Qed.

Lemma extract_rounds_forever (sheet : Buffer) (width height : Z) (fuel : nat) :
  (forall top, exists frame, sharp_extract sheet 0 top width height = inr frame) ->
  forall (i : Z) (acc : list Buffer),
    WebP.extract_rounds sharp_extract fuel sheet width height None i acc = None.
Proof.
  intros Hlib. induction fuel as [|fuel IH]; intros i acc;
    cbn [WebP.extract_rounds]; [reflexivity|].
  destruct (Hlib (i * height)) as (frame & ->). cbn [WebP.await option_map].
  apply IH.
Qed.

(** X26.  With no frame count and a frame height of zero, on a sheet of
    positive height, [extractAllFrames] never returns frames: the count
    it computes is [Infinity], and the loop only stops when the library
    rejects a crop; with a library that accepts every crop it runs past
    any number of rounds. *)
Theorem extractAllFrames_zero_height (fuel : nat) (sheet : Buffer)
    (metadata : ImageMetadata.t) :
  sharp_metadata sheet = inr metadata ->
  0 < match ImageMetadata.height metadata with Some h => h | None => 0 end ->
  (forall frames,
     WebP.extractAllFrames sharp_metadata sharp_extract fuel sheet 0 None
     <> Some (Ok frames))
  /\ ((forall top,
         exists frame,
           sharp_extract sheet 0 top
             match ImageMetadata.width metadata with Some w => w | None => 0 end
             0 = inr frame) ->
      WebP.extractAllFrames sharp_metadata sharp_extract fuel sheet 0 None = None).
Proof.
  intros Hm Hpos. unfold WebP.extractAllFrames. rewrite Hm. cbn [WebP.await].
  unfold WebP.frame_rounds. change (0 =? 0) with true. cbv iota.
  destruct (Z.ltb_spec 0 match ImageMetadata.height metadata with
                         | Some h => h
                         | None => 0
                         end) as [_|Hle]; [|lia].
  cbn [option_map]. split.
  - intros frames Hres.
    destruct (WebP.extract_rounds _ _ _ _ _ _ _ _) as [[frames'|ex]|] eqn:Er;
      cbn [option_map WebP.wrap_untyped] in Hres.
    + exact (extract_rounds_unbounded _ _ _ _ _ _ _ Er).
    + destruct (is_H5AnimateError ex); discriminate Hres.
    + discriminate Hres.
  - intros Hlib. rewrite extract_rounds_forever by exact Hlib. reflexivity.
Qed.

Lemma includes_comma_app (a b : string) :
  WebP.includes_comma (a ++ b) = WebP.includes_comma a || WebP.includes_comma b.
Proof.
  induction a as [|c a IH]; [reflexivity|].
  change (String c a +:+ b) with (String c (a +:+ b)).
  cbn [WebP.includes_comma]. rewrite IH, orb_assoc. reflexivity.
Qed.

Lemma split_comma_plain (s : string) :
  WebP.includes_comma s = false -> WebP.split_comma s = [s].
Proof.
  induction s as [|c s IH]; [reflexivity|].
  cbn [WebP.includes_comma WebP.split_comma]. intros Hc.
  apply orb_false_elim in Hc as [Hc Hs]. rewrite Hc, (IH Hs). reflexivity.
Qed.

Lemma split_comma_prefix (a b : string) :
  WebP.includes_comma a = false ->
  WebP.split_comma (a ++ String "," b) = a :: WebP.split_comma b.
Proof.
  induction a as [|c a IH]; [reflexivity|].
  change (String c a +:+ String "," b) with (String c (a +:+ String "," b)).
  cbn [WebP.includes_comma WebP.split_comma]. intros Hc.
  apply orb_false_elim in Hc as [Hc Ha]. rewrite Hc, (IH Ha). reflexivity.
Qed.

(** X27.  [base64ToBuffer] drops a data-URI prefix: a text without a
    comma is decoded as it is, and of a text with commas only what
    stands between the first and the second comma is decoded. *)
Theorem base64ToBuffer_prefix (prefix data rest : string) :
  WebP.includes_comma prefix = false -> WebP.includes_comma data = false ->
  WebP.base64ToBuffer base64_decode data = base64_decode data
  /\ WebP.base64ToBuffer base64_decode (prefix ++ String "," data)
     = base64_decode data
  /\ WebP.base64ToBuffer base64_decode
       (prefix ++ String "," (data ++ String "," rest))
     = base64_decode data.
Proof.
  intros Hp Hd. unfold WebP.base64ToBuffer. split; [rewrite Hd; reflexivity|].
  rewrite !includes_comma_app. cbn [WebP.includes_comma].
  change (Ascii.eqb "," ",") with true. rewrite !orb_true_r. cbn [orb].
  rewrite !split_comma_prefix by assumption.
  rewrite split_comma_plain by assumption. split; reflexivity.
Qed.

Lemma valid_bitmaps_none (bitmaps : list string) :
  filter (fun bitmap : string => (0 <? String.length bitmap)%nat) bitmaps = []
  <-> Forall (fun bitmap => bitmap = EmptyString) bitmaps.
Proof.
  induction bitmaps as [|bitmap bitmaps IH].
  - split; [constructor | reflexivity].
  - rewrite filter_cons. destruct bitmap as [|c bitmap].
    + cbn. rewrite IH. split; [intros Hall; constructor; [reflexivity | exact Hall]|].
      intros Hall. inversion Hall. assumption.
    + cbn. split; [discriminate|]. intros Hall. inversion Hall. discriminate.
Qed.

(** X20.  [convertImages] fails with [CONVERSION_FAILED] exactly when
    no bitmap is left after the empty ones are dropped, and then without
    calling the image library; any other failure is the
    [WEBP_PROCESSING_ERROR] of the image step, passed on unchanged. *)
Theorem convertImages_errors (bitmaps : list string)
    (options : option WebP.WebPOptions.t) :
  (Forall (fun bitmap => bitmap = EmptyString) bitmaps ->
   exists e,
     Converter.convertImages sharp_metadata sharp_webp sharp_composite
       base64_decode bitmaps options = Throw (H5 e)
     /\ Errors.code e = Errors.CONVERSION_FAILED)
  /\ forall ex,
       Converter.convertImages sharp_metadata sharp_webp sharp_composite
         base64_decode bitmaps options = Throw ex ->
       exists e,
         ex = H5 e
         /\ ((Errors.code e = Errors.CONVERSION_FAILED
              /\ Forall (fun bitmap => bitmap = EmptyString) bitmaps)
             \/ Errors.code e = Errors.WEBP_PROCESSING_ERROR).
Proof.
  unfold Converter.convertImages. split.
  - intros Hall. apply valid_bitmaps_none in Hall. rewrite Hall.
    cbn [length Nat.eqb]. eexists. split; reflexivity.
  - intros ex.
    destruct (filter _ bitmaps) as [|bitmap valid] eqn:Ef; cbn [length Nat.eqb].
    + intros Hres. injection Hres as <-. eexists. split; [reflexivity|].
      left. split; [reflexivity|]. apply valid_bitmaps_none. exact Ef.
    + destruct (WebP.combineBase64ImagesToWebP _ _ _ _ _ _) as [images|ex'] eqn:Ec;
        [discriminate|].
      destruct (createVerticalSpriteSheet_throws ex' _ _ Ec) as (e & -> & Hc).
      cbn [is_H5AnimateError]. intros Hres. injection Hres as <-.
      exists e. split; [reflexivity|]. right. exact Hc.
Qed.

Lemma normalize_convertFrameLayer (layer : FrameLayer.t) :
  normalize_object (Converter.convertFrameLayer layer)
  = Converter.convertFrameLayer layer.
Proof. reflexivity. Qed.

Lemma normalize_convert_frame (legacy : LegacyAnimateFile.t) (i : Z) :
  normalize_frame (Converter.convert_frame legacy i)
  = sound_first_frame (Converter.convert_frame legacy i).
Proof.
  unfold normalize_frame, sound_first_frame, Converter.convert_frame.
  cbn [H5AnimateFrame.sound H5AnimateFrame.objects].
  destruct (0 <? length _)%nat; [|reflexivity].
  cbn [option_map]. rewrite List.map_map.
  do 2 f_equal.
Qed.

Lemma convert_frames_shape (fuel : nat) (legacy : LegacyAnimateFile.t) :
  forall (i : Z) (acc frames : list H5AnimateFrame.t),
    Converter.convert_frames fuel legacy i acc = Some frames ->
    exists rounds,
      frames = (acc ++ map (Converter.convert_frame legacy) rounds)%list.
Proof.
  induction fuel as [|fuel IH]; intros i acc frames; cbn [Converter.convert_frames];
    destruct (Number.ltb _ _); try discriminate;
    try (intros Hres; injection Hres as <-; exists []; cbn [map];
         rewrite app_nil_r; reflexivity).
  intros Hres. destruct (IH _ _ _ Hres) as (rounds & ->).
  exists (i :: rounds). rewrite <- app_assoc. reflexivity.
Qed.

Lemma normalize_convertMetadata (fuel : nat) (legacy : LegacyAnimateFile.t)
    (meta : H5AnimateMeta.t) :
  Converter.convertMetadata fuel legacy = Some meta ->
  normalize_meta meta = sound_first meta.
Proof.
  unfold Converter.convertMetadata.
  destruct (Converter.convert_frames fuel legacy 0 []) as [frames|] eqn:Ef;
    [|discriminate].
  intros Hres. injection Hres as <-.
  destruct (convert_frames_shape _ _ _ _ _ Ef) as (rounds & ->).
  unfold normalize_meta, sound_first.
  cbn [H5AnimateMeta.ratio H5AnimateMeta.frame app]. f_equal.
  rewrite !List.map_map.
  apply List.map_ext. intros i. apply normalize_convert_frame.
Qed.

(** X21.  The whole conversion, read back, for a legacy file of the
    declared type: when the file passes validation, the image step
    returns a sheet that the format can store, the loop of
    [convertMetadata] comes to its end and the numbers of the metadata
    are finite and not [-0], [convertToH5Animate] returns a file that
    decodes to the metadata of [convertMetadata], unchanged but for
    [sound] standing before [objects] in every frame, and to the sprite
    information and the pixel data of the image step. *)
Theorem convertToH5Animate_decodes (fuel : nat) (legacy : LegacyAnimateFile.t)
    (options : option Converter.ConvertOptions.t)
    (images : ImageConversionResult.t) (meta : H5AnimateMeta.t) :
  Converter.validateLegacyFormat (Converter.legacy_value legacy) = Ok tt ->
  Converter.convertImages sharp_metadata sharp_webp sharp_composite base64_decode
    (LegacyAnimateFile.bitmaps legacy)
    (match options with Some o => Converter.ConvertOptions.webp o | None => None end)
  = Ok images ->
  Converter.convertMetadata fuel legacy = Some meta ->
  valid_triple meta
    (ImageConversionResult.spriteInfo images)
    (ImageConversionResult.webpData images) ->
  stable_meta meta ->
  exists encoded decoded,
    Converter.convertToH5Animate sharp_metadata sharp_webp sharp_composite
      base64_decode uninit fuel legacy options = Some (Ok encoded)
    /\ Decoder.decodeH5Animate encoded = Ok decoded
    /\ JS.strip (DecodedH5Animate.meta decoded)
       = Embed.meta_value (sound_first meta)
    /\ DecodedH5Animate.spriteInfo decoded = ImageConversionResult.spriteInfo images
    /\ DecodedH5Animate.webpData decoded = ImageConversionResult.webpData images.
Proof.
  intros Hvalid Himages Hmeta Htriple Hstable.
  set (s := ImageConversionResult.spriteInfo images) in *.
  set (w := ImageConversionResult.webpData images) in *.
  pose proof Htriple as (Hcount & Hdims & Himg & Hsize).
  exists (encoded_layout s w (meta_text meta)).
  exists {| DecodedH5Animate.meta := decoded_meta meta;
            DecodedH5Animate.spriteInfo := s;
            DecodedH5Animate.webpData := w |}.
  split; [|split; [|split; [|split; reflexivity]]].
  - unfold Converter.convertToH5Animate. rewrite Hvalid, Himages, Hmeta.
    f_equal. apply (encode_layout uninit meta s w Htriple).
  - rewrite decode_layout.
    + rewrite (JSON_parse_text (raw_meta meta))
        by (apply raw_meta_clean, Hstable || apply text_raw_meta).
      rewrite convertArraysToObjects_raw. reflexivity.
    + exact Hcount.
    + eapply Forall_impl; [exact Hdims|]. unfold is_u32. intros d [? ?]. lia.
    + unfold is_u32, Encoder.getSpriteInfoSize in *.
      pose proof (blength_nonneg w). lia.
    + unfold is_u32. pose proof (blength_nonneg (meta_text meta)). lia.
  - cbn [DecodedH5Animate.meta]. rewrite strip_decoded_meta.
    rewrite (normalize_convertMetadata fuel legacy meta Hmeta). reflexivity.
Qed.

End ImageLibrary.

(** ** Validation *)


Lemma validate_each_ok_iff {A} (validate : value -> string -> result unit)
    (embed : A -> value) (good : A -> Prop) (path : string) (items : list A) :
  (forall a p, validate (embed a) p = Ok tt <-> good a) ->
  forall i,
    Validation.validate_each validate path i (map embed items) = Ok tt
    <-> Forall good items.
Proof.
  intros Hv. induction items as [|a items IH]; intros i.
  - split; [constructor | reflexivity].
  - cbn [map Validation.validate_each].
    match goal with
    | |- context [validate (embed a) ?q] => set (p := q)
    end.
    destruct (validate (embed a) p) as [[]|ex] eqn:Ea; cbn [rbind].
    + rewrite IH. apply (proj1 (Hv a p)) in Ea. split.
      * intros Hall. constructor; assumption.
      * intros Hall. inversion Hall. assumption.
    + split; [discriminate|]. intros Hall. inversion Hall as [|? ? Hg _].
      apply (proj2 (Hv a p)) in Hg. rewrite Ea in Hg. discriminate Hg.
Qed.

Lemma validate_each_accepts (validate : value -> string -> result unit)
    (good : value -> Prop) (path : string) (items : list value) :
  (forall a p, validate a p = Ok tt <-> good a) ->
  forall i,
    Validation.validate_each validate path i items = Ok tt <-> Forall good items.
Proof.
  intros Hv i.
  rewrite <- (validate_each_ok_iff validate (fun v => v) good path items Hv i).
  rewrite List.map_id. reflexivity.
Qed.

Lemma has_own_get_own (props : list (string * value)) (k : string) :
  Converter.has_own props k = false -> JS.get_own props k = VUndefined.
Proof.
  induction props as [|[k' v] props IH]; cbn [JS.get_own Converter.has_own];
    [reflexivity|].
  destruct (String.eqb k' k); [discriminate | exact IH].
Qed.

Lemma validateSpriteDimension_accepts (dimension : value) (path : string) :
  Validation.validateSpriteDimension dimension path = Ok tt
  <-> dimension_accepted dimension.
Proof.
  unfold Validation.validateSpriteDimension, dimension_accepted.
  destruct dimension as [| | | | |items|props];
    cbn [Validation.is_object negb Validation.record_of Converter.has_own
         app length Nat.ltb Nat.leb];
    try (split; [discriminate | intros (? & ? & ? & E & _); discriminate E]).
  unfold Validation.expect_number.
  destruct (Converter.has_own props "width") eqn:Hw.
  2:{ apply has_own_get_own in Hw.
      split; [destruct (Converter.has_own props "height"); discriminate|].
      intros (? & ? & ? & E & Ew & _). injection E as <-.
      rewrite Hw in Ew. discriminate Ew. }
  destruct (Converter.has_own props "height") eqn:Hh.
  2:{ apply has_own_get_own in Hh. split; [discriminate|].
      intros (? & ? & ? & E & _ & Eh & _). injection E as <-.
      rewrite Hh in Eh. discriminate Eh. }
  cbn [app length Nat.ltb Nat.leb].
  destruct (JS.get_own props "width") as [| | |width| | |] eqn:Ew; cbn [rbind];
    try (split; [discriminate|];
         intros (? & ? & ? & E & Ew' & _); injection E as <-;
         rewrite Ew in Ew'; discriminate Ew').
  destruct (JS.get_own props "height") as [| | |height| | |] eqn:Eh; cbn [rbind];
    try (split; [discriminate|];
         intros (? & ? & ? & E & _ & Eh' & _); injection E as <-;
         rewrite Eh in Eh'; discriminate Eh').
  destruct (Number.leb width (Number.Int 0)) eqn:Lw.
  { split; [discriminate|].
    intros (? & ? & ? & E & Ew' & _ & Lw' & _). injection E as <-.
    rewrite Ew in Ew'. injection Ew' as <-. rewrite Lw in Lw'. discriminate Lw'. }
  destruct (Number.leb height (Number.Int 0)) eqn:Lh.
  { split; [discriminate|].
    intros (? & ? & ? & E & _ & Eh' & _ & Lh'). injection E as <-.
    rewrite Eh in Eh'. injection Eh' as <-. rewrite Lh in Lh'. discriminate Lh'. }
  split; [|reflexivity]. intros _. exists props, width, height. auto.
Qed.

(** X28.  [validateSpriteInfo] accepts a value exactly when it is an
    object whose [count] is a number that the test [count < 0] lets
    through and whose [dimensions] is an array of objects with numbers
    as [width] and [height] that the test [<= 0] lets through; [NaN]
    passes both tests, and the count is not compared with the number of
    dimensions. *)
Theorem validateSpriteInfo_accepts (spriteInfo : value) :
  Validation.validateSpriteInfo spriteInfo = Ok tt
  <-> exists props count dimensions,
        spriteInfo = VObj props
        /\ JS.get_own props "count" = VNum count
        /\ Number.ltb count (Number.Int 0) = false
        /\ JS.get_own props "dimensions" = VArr dimensions
        /\ Forall dimension_accepted dimensions.
Proof.
  unfold Validation.validateSpriteInfo.
  destruct spriteInfo as [| | | | |items|props];
    cbn [Validation.is_object negb Validation.record_of Converter.has_own
         app length Nat.ltb Nat.leb];
    try (split; [discriminate | intros (? & ? & ? & E & _); discriminate E]).
  unfold Validation.expect_number.
  destruct (Converter.has_own props "count") eqn:Hc.
  2:{ apply has_own_get_own in Hc.
      split; [destruct (Converter.has_own props "dimensions"); discriminate|].
      intros (? & ? & ? & E & Ec & _). injection E as <-.
      rewrite Hc in Ec. discriminate Ec. }
  destruct (Converter.has_own props "dimensions") eqn:Hd.
  2:{ apply has_own_get_own in Hd. split; [discriminate|].
      intros (? & ? & ? & E & _ & _ & Ed & _). injection E as <-.
      rewrite Hd in Ed. discriminate Ed. }
  cbn [app length Nat.ltb Nat.leb].
  destruct (JS.get_own props "count") as [| | |count| | |] eqn:Ec; cbn [rbind];
    try (split; [discriminate|];
         intros (? & ? & ? & E & Ec' & _); injection E as <-;
         rewrite Ec in Ec'; discriminate Ec').
  destruct (Number.ltb count (Number.Int 0)) eqn:Lc.
  { split; [discriminate|].
    intros (? & ? & ? & E & Ec' & Lc' & _). injection E as <-.
    rewrite Ec in Ec'. injection Ec' as <-. rewrite Lc in Lc'. discriminate Lc'. }
  destruct (JS.get_own props "dimensions") as [| | | | |dimensions|] eqn:Ed;
    try (split; [discriminate|];
         intros (? & ? & ? & E & _ & _ & Ed' & _); injection E as <-;
         rewrite Ed in Ed'; discriminate Ed').
  rewrite (validate_each_accepts Validation.validateSpriteDimension
             dimension_accepted)
    by (intros; apply validateSpriteDimension_accepts).
  split.
  - intros Hall. exists props, count, dimensions. auto.
  - intros (? & ? & ? & E & _ & _ & Ed' & Hall). injection E as <-.
    rewrite Ed in Ed'. injection Ed' as <-. exact Hall.
Qed.

(** A count that is not a number of dimensions, and [NaN] as a width:
    both pass. *)
Lemma validateSpriteInfo_lets_NaN_pass :
  Validation.validateSpriteInfo
    (VObj [("count", VNum Number.NaN);
           ("dimensions",
            VArr [VObj [("width", VNum Number.NaN);
                        ("height", VNum (Number.Int 1))]])])
  = Ok tt.
Proof. reflexivity. Qed.

Lemma validateSoundMeta_typed (s : SoundMeta.t) (path : string) :
  Validation.validateSoundMeta (Embed.sound_value s) path = Ok tt <-> True.
Proof.
  unfold Validation.validateSoundMeta, Embed.sound_value.
  destruct (SoundMeta.volume s), (SoundMeta.pitch s); cbn; tauto.
Qed.

#[local] Arguments Number.ltb : simpl never.
#[local] Arguments Number.gtb : simpl never.
#[local] Arguments Number.leb : simpl never.

Lemma validateH5AnimateObject_typed (o : H5AnimateObject.t) (path : string) :
  Validation.validateH5AnimateObject (Embed.object_value o) path = Ok tt
  <-> object_in_range o.
Proof.
  unfold Validation.validateH5AnimateObject, Embed.object_value, object_in_range.
  destruct (H5AnimateObject.mirror o), (H5AnimateObject.rotate o); cbn;
    destruct (Number.ltb (H5AnimateObject.index o) (Number.Int 0));
    try (split; [discriminate | intros (? & _); discriminate]);
    destruct (Number.ltb (H5AnimateObject.opacity o) (Number.Int 0)); cbn [orb];
    try (split; [discriminate | intros (_ & ? & _); discriminate]);
    destruct (Number.gtb (H5AnimateObject.opacity o) (Number.Int 255));
    try (split; [discriminate | intros (_ & _ & ?); discriminate]);
    (split; [auto | reflexivity]).
Qed.

Lemma validateH5AnimateFrame_typed (f : H5AnimateFrame.t) (path : string) :
  Validation.validateH5AnimateFrame (Embed.frame_value f) path = Ok tt
  <-> frame_in_range f.
Proof.
  unfold Validation.validateH5AnimateFrame, Embed.frame_value, frame_in_range.
  pose proof (fun path l i =>
                proj2 (validate_each_ok_iff Validation.validateSoundMeta
                         Embed.sound_value (fun _ => True) path l
                         validateSoundMeta_typed i)) as Hsounds.
  pose proof (fun path l =>
                validate_each_ok_iff Validation.validateH5AnimateObject
                  Embed.object_value object_in_range path l
                  validateH5AnimateObject_typed) as Hobjects.
  assert (Htrue : forall l : list SoundMeta.t, Forall (fun _ => True) l)
    by (intros l; apply Forall_forall; auto).
  destruct (H5AnimateFrame.sound f) as [sounds|],
    (H5AnimateFrame.objects f) as [objects|],
    (H5AnimateFrame.objects_first f);
    cbn [negb Validation.is_object Validation.record_of app
         Validation.is_set Converter.has_own JS.get_own
         String.eqb Ascii.eqb Bool.eqb orb andb rbind];
    rewrite ?Hsounds by apply Htrue; cbn [rbind];
    try apply Hobjects; tauto.
Qed.

(** X29.  [validateH5AnimateMeta] accepts metadata of the declared type
    exactly when the test [ratio <= 0] does not hold and, for every
    object of every frame, none of the tests [index < 0], [opacity < 0]
    and [opacity > 255] holds; a [NaN] passes each of these tests, and
    nothing is asked of the sounds beyond their types. *)
Theorem validateH5AnimateMeta_accepts (m : H5AnimateMeta.t) :
  Validation.validateH5AnimateMeta (Embed.meta_value m) = Ok tt
  <-> Number.leb (H5AnimateMeta.ratio m) (Number.Int 0) = false
      /\ Forall frame_in_range (H5AnimateMeta.frame m).
Proof.
  unfold Validation.validateH5AnimateMeta, Embed.meta_value.
  cbn [negb Validation.is_object Validation.record_of Converter.has_own
       String.eqb Ascii.eqb Bool.eqb orb app length Nat.ltb Nat.leb
       Validation.expect_number JS.get_own rbind].
  destruct (Number.leb (H5AnimateMeta.ratio m) (Number.Int 0));
    [split; [discriminate | intros [? _]; discriminate]|].
  rewrite (validate_each_ok_iff Validation.validateH5AnimateFrame
             Embed.frame_value frame_in_range)
    by (intros; apply validateH5AnimateFrame_typed).
  split; [intros Hall; split; [reflexivity | exact Hall] | intros [_ Hall]; exact Hall].
Qed.

(** Metadata whose ratio and whose only opacity are [NaN] passes. *)
Lemma validateH5AnimateMeta_lets_NaN_pass :
  Validation.validateH5AnimateMeta (Embed.meta_value nan_meta) = Ok tt.
Proof. reflexivity. Qed.


Lemma legacy_missing_fields (props : list (string * value)) :
  length (filter (fun field => negb (Converter.has_own props field))
            ["ratio"; "bitmaps"; "frame_max"; "frames"]%string)
  = length (filter (fun field => Converter.has_own props field = false)
              Converter.REQUIRED_FIELDS).
Proof.
  unfold Converter.REQUIRED_FIELDS.
  rewrite !filter_cons, !filter_nil.
  destruct (Converter.has_own props "ratio"),
    (Converter.has_own props "bitmaps"),
    (Converter.has_own props "frame_max"),
    (Converter.has_own props "frames"); reflexivity.
Qed.

(** X30.  The strict validator of legacy files accepts exactly what the
    converter's own check accepts, provided [se], when set, is a string
    or an object and [pitch], when set, is an object. *)
Theorem validateLegacyAnimateFile_refines (data : value) :
  Validation.validateLegacyAnimateFile data = Ok tt
  <-> Converter.validateLegacyFormat data = Ok tt
      /\ optional_field_typed true (JS.get_own (Validation.record_of data) "se")
      /\ optional_field_typed false (JS.get_own (Validation.record_of data) "pitch").
Proof.
  unfold Validation.validateLegacyAnimateFile, Converter.validateLegacyFormat.
  destruct data as [| | | | |items|props];
    cbn [Validation.is_object negb Validation.record_of];
    try (split; [discriminate | intros [Hno _]; discriminate Hno]).
  rewrite legacy_missing_fields.
    destruct (0 <? _)%nat;
      [split; [discriminate | intros [Hno _]; discriminate Hno]|].
    unfold Validation.expect_number.
    destruct (JS.get_own props "ratio"); cbn [rbind];
      try (split; [discriminate | intros [Hno _]; discriminate Hno]).
    destruct (JS.get_own props "bitmaps"); cbn [rbind];
      try (split; [discriminate | intros [Hno _]; discriminate Hno]).
    destruct (JS.get_own props "frame_max") as [| | |frame_max| | |]; cbn [rbind];
      try (split; [discriminate | intros [Hno _]; discriminate Hno]).
    destruct (Number.ltb frame_max (Number.Int 0));
      [split; [discriminate | intros [Hno _]; discriminate Hno]|].
    destruct (JS.get_own props "frames"); cbn [rbind];
      try (split; [discriminate | intros [Hno _]; discriminate Hno]).
    unfold Validation.is_set.
    pose proof (get_own_has_own props "se") as Hse.
    pose proof (get_own_has_own props "pitch") as Hpitch.
    destruct (JS.get_own props "se");
      try (rewrite Hse by discriminate); rewrite ?andb_false_r;
      cbn [andb rbind optional_field_typed];
      try (split; [discriminate | intros (_ & Hno & _); contradiction]);
      (destruct (JS.get_own props "pitch");
       try (rewrite Hpitch by discriminate); rewrite ?andb_false_r;
       cbn [andb rbind optional_field_typed];
       first [ split; [discriminate | intros (_ & _ & Hno); first [contradiction | discriminate Hno]]
             | split; [intros _; repeat split | reflexivity] ]).
Qed.

(** ** The properties on sample inputs *)


Lemma legacy_sample_clean :
  json_clean (Converter.legacy_value legacy_wide_numbers).
Proof.
  vm_compute.
  repeat first [ apply clean_num; vm_compute; reflexivity
               | apply clean_str | apply clean_null
               | apply clean_bool | apply clean_arr | apply clean_obj
               | apply Forall_nil_2 | apply Forall_cons_2; cbn [snd]
               | reflexivity ].
  cbn [map fst]. refine (bool_decide_unpack _ _). vm_compute. exact I.
Qed.

(** The numbers of the sample as they stand in its text. *)
Lemma legacy_sample_numbers :
  map Number.to_string
    [Number.Frac false 15 1; Number.Int 1000000000000000000000;
     Number.Frac true 15 8; Number.Frac false 5 1; Number.Int 255]
  = ["1.5"; "1e+21"; "-1.5e-7"; "0.5"; "255"]%string.
Proof. vm_compute. reflexivity. Qed.

Lemma encode_writes_header_witness :
  Encoder.encodeH5Animate zero_fill (Some (meta_input sample_meta))
    (Some (spriteInfo_input sample_spriteInfo)) (Some sample_webpData)
  = Ok sample_file
  /\ exists m s w metaJson,
       Encoder.narrowed (Some (meta_input sample_meta))
         (Some (spriteInfo_input sample_spriteInfo)) (Some sample_webpData)
       = Some (m, s, w)
       /\ JSON.stringify (Embed.meta_value m) Encoder.metaReplacer
          = Ok (Some metaJson)
       /\ Decoder.parseHeader (BinaryParser.new sample_file)
          = Ok ({| FileHeader.signature := "ANIM";
                   FileHeader.version := 1;
                   FileHeader.imageDataSize :=
                     Encoder.getSpriteInfoSize s + blength w;
                   FileHeader.metaDataSize :=
                     blength (list_byte_of_string metaJson) |},
                parser_at sample_file 16)
       /\ blength sample_file
          = 16 + (Encoder.getSpriteInfoSize s + blength w)
            + blength (list_byte_of_string metaJson)
       /\ u32_at sample_file 16 = SpriteInfo.count s.
Proof.
  assert (H : Encoder.encodeH5Animate zero_fill (Some (meta_input sample_meta))
                (Some (spriteInfo_input sample_spriteInfo)) (Some sample_webpData)
              = Ok sample_file)
    by (vm_compute; reflexivity).
  split; [exact H|].
  exact (encode_writes_header zero_fill _ _ _ _ H).
Defined.

Lemma parseLegacyAnimateFile_round_trip_witness :
  json_clean (Converter.legacy_value legacy_wide_numbers)
  /\ JSON.text (Converter.legacy_value legacy_wide_numbers) = Some legacy_sample_text
  /\ Converter.validateLegacyFormat (Converter.legacy_value legacy_wide_numbers)
     = Ok tt
  /\ Converter.parseLegacyAnimateFile (string_of_list_byte legacy_sample_text)
     = Ok (Converter.legacy_value legacy_wide_numbers).
Proof.
  assert (Ht : JSON.text (Converter.legacy_value legacy_wide_numbers)
               = Some legacy_sample_text)
    by (vm_compute; reflexivity).
  assert (Hv : Converter.validateLegacyFormat
                 (Converter.legacy_value legacy_wide_numbers) = Ok tt)
    by (vm_compute; reflexivity).
  split; [exact legacy_sample_clean|]. split; [exact Ht|]. split; [exact Hv|].
  exact (parseLegacyAnimateFile_round_trip _ _ legacy_sample_clean Ht Hv).
Defined.

Lemma createVerticalSpriteSheet_one_sprite_witness :
  WebP.createVerticalSpriteSheet sample_sharp_metadata sample_sharp_webp
    sample_sharp_composite [sample_webpData; short_buffer] None = Ok sample_sheet
  /\ exists metas width height,
       JS.mapM (WebP.getImageMeta sample_sharp_metadata)
         [sample_webpData; short_buffer] = Ok metas
       /\ length metas = length [sample_webpData; short_buffer]
       /\ ImageConversionResult.spriteInfo sample_sheet
          = {| SpriteInfo.count := 1;
               SpriteInfo.dimensions :=
                 [{| SpriteDimension.width := width;
                     SpriteDimension.height := height |}] |}
       /\ height = foldr Z.add 0 (map WebP.ImageMeta.height metas)
       /\ In width (map WebP.ImageMeta.width metas)
       /\ Forall (fun meta => WebP.ImageMeta.width meta <= width) metas.
Proof.
  assert (H : WebP.createVerticalSpriteSheet sample_sharp_metadata
                sample_sharp_webp sample_sharp_composite
                [sample_webpData; short_buffer] None = Ok sample_sheet)
    by (vm_compute; reflexivity).
  split; [exact H|].
  exact (createVerticalSpriteSheet_one_sprite sample_sharp_metadata
           sample_sharp_webp sample_sharp_composite _ _ _ H).
Defined.

Lemma createVerticalSpriteSheet_stacks_witness :
  (2 <= length [sample_webpData; short_buffer])%nat
  /\ WebP.createVerticalSpriteSheet sample_sharp_metadata sample_sharp_webp
       sample_sharp_composite [sample_webpData; short_buffer] None = Ok sample_sheet
  /\ exists metas width height layers webpOptions,
       JS.mapM (WebP.getImageMeta sample_sharp_metadata)
         [sample_webpData; short_buffer] = Ok metas
       /\ sample_sharp_composite width height layers webpOptions
          = inr (ImageConversionResult.webpData sample_sheet)
       /\ length layers = length [sample_webpData; short_buffer]
       /\ forall (i : nat) image,
            [sample_webpData; short_buffer] !! i = Some image ->
            layers !! i
            = Some {| WebP.OverlayOptions.input := image;
                      WebP.OverlayOptions.top :=
                        foldr Z.add 0 (map WebP.ImageMeta.height (take i metas));
                      WebP.OverlayOptions.left := 0 |}.
Proof.
  assert (H : WebP.createVerticalSpriteSheet sample_sharp_metadata
                sample_sharp_webp sample_sharp_composite
                [sample_webpData; short_buffer] None = Ok sample_sheet)
    by (vm_compute; reflexivity).
  assert (Hlen : (2 <= length [sample_webpData; short_buffer])%nat)
    by (simpl; lia).
  split; [exact Hlen|]. split; [exact H|].
  exact (createVerticalSpriteSheet_stacks sample_sharp_metadata
           sample_sharp_webp sample_sharp_composite _ _ _ Hlen H).
Defined.

Lemma extractAllFrames_counts_witness :
  sample_sharp_metadata sample_webpData
  = inr {| ImageMetadata.width := Some 100; ImageMetadata.height := Some 50 |}
  /\ (@None Z = None -> 20 <> 0)
  /\ (Z.to_nat (50 / 20) <= 3)%nat
  /\ exists outcome,
       WebP.extractAllFrames sample_sharp_metadata sample_sharp_extract 3
         sample_webpData 20 None = Some outcome
       /\ match outcome with
          | Ok frames =>
              length frames = Z.to_nat (50 / 20)
              /\ forall (i : nat) frame,
                   frames !! i = Some frame ->
                   sample_sharp_extract sample_webpData 0 (Z.of_nat i * 20) 100 20
                   = inr frame
          | Throw ex =>
              exists e, ex = H5 e /\ Errors.code e = Errors.WEBP_PROCESSING_ERROR
          end.
Proof.
  assert (Hfuel : (Z.to_nat (50 / 20) <= 3)%nat) by (vm_compute; lia).
  split; [reflexivity|]. split; [intros _; lia|]. split; [exact Hfuel|].
  exact (extractAllFrames_counts sample_sharp_metadata sample_sharp_extract 3
           sample_webpData 20 None
           {| ImageMetadata.width := Some 100; ImageMetadata.height := Some 50 |}
           eq_refl (fun _ => ltac:(lia)) Hfuel).
Defined.

Lemma extractAllFrames_zero_height_witness :
  sample_sharp_metadata sample_webpData
  = inr {| ImageMetadata.width := Some 100; ImageMetadata.height := Some 50 |}
  /\ 0 < 50
  /\ (forall frames,
        WebP.extractAllFrames sample_sharp_metadata sample_sharp_extract 7
          sample_webpData 0 None <> Some (Ok frames))
  /\ ((forall top,
         exists frame, sample_sharp_extract sample_webpData 0 top 100 0 = inr frame) ->
      WebP.extractAllFrames sample_sharp_metadata sample_sharp_extract 7
        sample_webpData 0 None = None).
Proof.
  split; [reflexivity|]. split; [lia|].
  exact (extractAllFrames_zero_height sample_sharp_metadata sample_sharp_extract 7
           sample_webpData
           {| ImageMetadata.width := Some 100; ImageMetadata.height := Some 50 |}
           eq_refl ltac:(simpl; lia)).
Defined.

Lemma base64ToBuffer_prefix_witness :
  WebP.includes_comma "data:image/png;base64" = false
  /\ WebP.includes_comma "AAAA" = false
  /\ WebP.base64ToBuffer sample_base64_decode "AAAA" = sample_base64_decode "AAAA"
  /\ WebP.base64ToBuffer sample_base64_decode
       ("data:image/png;base64" ++ String "," "AAAA")
     = sample_base64_decode "AAAA"
  /\ WebP.base64ToBuffer sample_base64_decode
       ("data:image/png;base64" ++ String "," ("AAAA" ++ String "," "BBBB"))
     = sample_base64_decode "AAAA".
Proof.
  split; [reflexivity|]. split; [reflexivity|].
  exact (base64ToBuffer_prefix sample_base64_decode "data:image/png;base64"
           "AAAA" "BBBB" eq_refl eq_refl).
Defined.

Lemma legacy_with_bitmaps_triple :
  valid_triple legacy_with_bitmaps_meta
    (ImageConversionResult.spriteInfo sample_sheet)
    (ImageConversionResult.webpData sample_sheet).
Proof.
  unfold valid_triple. split; [reflexivity|]. split.
  - repeat constructor.
  - split; vm_compute; reflexivity.
Defined.

Lemma legacy_with_bitmaps_stable : stable_meta legacy_with_bitmaps_meta.
Proof.
  unfold stable_meta.
  let l := eval vm_compute in (meta_numbers legacy_with_bitmaps_meta) in
  change (Forall (fun x => stable_number x = true) l).
  repeat (constructor; [vm_compute; reflexivity|]). constructor.
Defined.

Lemma convertToH5Animate_decodes_witness :
  Converter.validateLegacyFormat (Converter.legacy_value legacy_with_bitmaps) = Ok tt
  /\ Converter.convertImages sample_sharp_metadata sample_sharp_webp
       sample_sharp_composite sample_base64_decode
       (LegacyAnimateFile.bitmaps legacy_with_bitmaps) None
     = Ok sample_sheet
  /\ Converter.convertMetadata 1 legacy_with_bitmaps = Some legacy_with_bitmaps_meta
  /\ valid_triple legacy_with_bitmaps_meta
       (ImageConversionResult.spriteInfo sample_sheet)
       (ImageConversionResult.webpData sample_sheet)
  /\ stable_meta legacy_with_bitmaps_meta
  /\ exists encoded decoded,
       Converter.convertToH5Animate sample_sharp_metadata sample_sharp_webp
         sample_sharp_composite sample_base64_decode zero_fill 1
         legacy_with_bitmaps None = Some (Ok encoded)
       /\ Decoder.decodeH5Animate encoded = Ok decoded
       /\ JS.strip (DecodedH5Animate.meta decoded)
          = Embed.meta_value (sound_first legacy_with_bitmaps_meta)
       /\ DecodedH5Animate.spriteInfo decoded
          = ImageConversionResult.spriteInfo sample_sheet
       /\ DecodedH5Animate.webpData decoded
          = ImageConversionResult.webpData sample_sheet.
Proof.
  assert (Hv : Converter.validateLegacyFormat
                 (Converter.legacy_value legacy_with_bitmaps) = Ok tt)
    by (vm_compute; reflexivity).
  assert (Hi : Converter.convertImages sample_sharp_metadata sample_sharp_webp
                 sample_sharp_composite sample_base64_decode
                 (LegacyAnimateFile.bitmaps legacy_with_bitmaps) None
               = Ok sample_sheet)
    by (vm_compute; reflexivity).
  assert (Hm : Converter.convertMetadata 1 legacy_with_bitmaps
               = Some legacy_with_bitmaps_meta)
    by (vm_compute; reflexivity).
  split; [exact Hv|]. split; [exact Hi|]. split; [exact Hm|].
  split; [exact legacy_with_bitmaps_triple|].
  split; [exact legacy_with_bitmaps_stable|].
  exact (convertToH5Animate_decodes sample_sharp_metadata sample_sharp_webp
           sample_sharp_composite sample_base64_decode zero_fill 1
           legacy_with_bitmaps None sample_sheet legacy_with_bitmaps_meta
           Hv Hi Hm legacy_with_bitmaps_triple legacy_with_bitmaps_stable).
Defined.
